(** * BibleOrgSys: marker-line reader, OSIS milestone cursors and Bible-wide
    aggregation, embedded from the Python sources.

    Python values are modelled as follows.
    - A [str] is the list of its Unicode code points ([N]).
    - A statement that can raise is a computation in [outcome]; the
      exception class is kept so that [try]/[except] can select on it.
    - [logging] calls are collected in a list of [(level, message)] pairs and
      [loadErrors] is a list of messages.  A message is the site of the
      format string together with its arguments (the rendering through
      [str.format] is not modelled).  Output on stdout ([print]) is not
      modelled. *)

From Stdlib Require Import ZArith NArith Lia Bool Ascii String.
From stdpp Require Import base option list gmap.

Local Open Scope Z_scope.

(* ===================================================================== *)
(** * Part I: definitions *)
(* ===================================================================== *)

(** ** Python strings and exceptions *)

(** A character is its code point and a [str] is a list of characters. *)
Abbreviation char := N (only parsing).
Abbreviation str := (list N) (only parsing).

Module Py.

Definition chr (a : ascii) : char := N_of_ascii a.

(** [py "abc"] is the Python literal ['abc']. *)
Definition py (s : string) : str := map chr (list_ascii_of_string s).

Definition space : char := 32%N.
Definition tab : char := 9%N.
Definition LF : char := 10%N.
Definition CR : char := 13%N.
Definition asterisk : char := 42%N.
Definition hyphen : char := 45%N.
Definition dot : char := 46%N.
Definition hash : char := 35%N.
Definition backslash : char := 92%N.
(** [chr(65279)], U+FEFF. *)
Definition BOM : char := 65279%N.

Fixpoint str_eqb (a b : str) : bool :=
  match a, b with
  | [], [] => true
  | x :: a', y :: b' => N.eqb x y && str_eqb a' b'
  | _, _ => false
  end.

(** [len(s)] *)
Definition len {A} (s : list A) : Z := Z.of_nat (length s).

(** [s.find(c)] for a one-character needle: the least index, or [-1]. *)
Fixpoint find (c : char) (s : str) : Z :=
  match s with
  | [] => -1
  | x :: s' =>
      if N.eqb x c then 0
      else let r := find c s' in if r =? -1 then -1 else r + 1
  end.

(** [c in s] for a one-character needle. *)
Definition has_char (c : char) (s : str) : bool := existsb (N.eqb c) s.

(** [s.startswith(p)] *)
Fixpoint startswith (p s : str) : bool :=
  match p, s with
  | [], _ => true
  | x :: p', y :: s' => N.eqb x y && startswith p' s'
  | _ :: _, [] => false
  end.

(** [s.endswith(p)] *)
Definition endswith (p s : str) : bool := startswith (rev p) (rev s).

(** [sub in s] *)
Fixpoint contains (sub s : str) : bool :=
  startswith sub s ||
  match s with
  | [] => false
  | _ :: s' => contains sub s'
  end.

(** Slice bounds as Python clamps them: a negative index counts from the
    end, and both are clamped to [0 .. len]. *)
Definition clamp (n i : Z) : nat :=
  Z.to_nat (if i <? 0 then Z.max 0 (n + i) else Z.min i n).

(** [s[:i]], [s[i:]] and [s[i:j]] *)
Definition slice_to {A} (s : list A) (i : Z) : list A := take (clamp (len s) i) s.
Definition slice_from {A} (s : list A) (i : Z) : list A := drop (clamp (len s) i) s.
Definition slice {A} (s : list A) (i j : Z) : list A :=
  take (clamp (len s) j - clamp (len s) i)%nat (drop (clamp (len s) i) s).

(** [s.replace(old, new)] for a non-empty [old]: leftmost, non-overlapping
    occurrences.  [skip] counts the characters of a matched occurrence that
    are still to be passed over. *)
Fixpoint replace_from (old new : str) (skip : nat) (s : str) : str :=
  match s with
  | [] => []
  | x :: s' =>
      match skip with
      | S k => replace_from old new k s'
      | O =>
          if startswith old s
          then new ++ replace_from old new (length old - 1)%nat s'
          else x :: replace_from old new O s'
      end
  end.

Definition replace (old new s : str) : str := replace_from old new O s.

(** [s.split(sep)] for a one-character separator. *)
Fixpoint split (sep : char) (s : str) : list str :=
  match s with
  | [] => [[]]
  | x :: s' =>
      if N.eqb x sep then [] :: split sep s'
      else match split sep s' with
           | [] => [[x]]
           | w :: ws => (x :: w) :: ws
           end
  end.

(** [s.count(c)] for a one-character needle. *)
Definition count (c : char) (s : str) : Z := len (filter (fun x => x = c) s).

(** Membership of a string in a tuple or list of strings. *)
Definition str_in (x : str) (l : list str) : bool := existsb (str_eqb x) l.

(** [c.isspace()]: the Unicode white space characters. *)
Definition isspace (c : char) : bool :=
  ((9 <=? c) && (c <=? 13) || (28 <=? c) && (c <=? 32) || (c =? 133) || (c =? 160)
   || (c =? 5760) || (8192 <=? c) && (c <=? 8202) || (c =? 8232) || (c =? 8233)
   || (c =? 8239) || (c =? 8287) || (c =? 12288))%N.

(** [s.lstrip()], [s.rstrip()] and [s.strip()] *)
Fixpoint lstrip (s : str) : str :=
  match s with
  | [] => []
  | x :: s' => if isspace x then lstrip s' else s
  end.
Definition rstrip (s : str) : str := rev (lstrip (rev s)).
Definition strip (s : str) : str := rstrip (lstrip s).

(** Equality of two lists of strings. *)
Fixpoint strs_eqb (a b : list str) : bool :=
  match a, b with
  | [], [] => true
  | x :: a', y :: b' => str_eqb x y && strs_eqb a' b'
  | _, _ => false
  end.

(** Truth value of a string or of a list. *)
Definition nonempty {A} (s : list A) : bool :=
  match s with [] => false | _ :: _ => true end.

(** Exceptions that the embedded code can raise. *)
Inductive exn : Type :=
  | IndexError
  | KeyError
  | NameError
  | TypeError
  | AttributeError
  | AssertionError
  | UnboundLocalError
  | UnicodeError
  | RuntimeError.

Inductive outcome (A : Type) : Type :=
  | Ok (a : A)
  | Raise (e : exn).
Arguments Ok {A} a.
Arguments Raise {A} e.

Definition bind {A B} (m : outcome A) (k : A -> outcome B) : outcome B :=
  match m with
  | Ok a => k a
  | Raise e => Raise e
  end.

(** [assert( b )] *)
Definition assert (b : bool) : outcome unit :=
  if b then Ok tt else Raise AssertionError.

(** [l[i]] for a non-negative index. *)
Definition item {A} (l : list A) (i : nat) : outcome A :=
  match l !! i with
  | Some a => Ok a
  | None => Raise IndexError
  end.

Inductive level : Type := Debug | Info | Warning | Error | Critical.

End Py.

Export Py.

#[export] Instance result_bind : MBind outcome := λ A B k m, Py.bind m k.
#[export] Instance result_ret : MRet outcome := @Py.Ok.
#[export] Instance result_fmap : FMap outcome :=
  λ A B f m, match m with Ok a => Ok (f a) | Raise e => Raise e end.

(* --------------------------------------------------------------------- *)
(** ** USFMFile.py *)
(* --------------------------------------------------------------------- *)

Module USFMFile.

(** Some number bigger than the number of characters in a line *)
Definition DUMMY_VALUE : Z := 999999.

(** [min( si1, si2, si3 )] *)
Definition min3 (a b c : Z) : Z := Z.min a (Z.min b c).

(** [x = s.find(c); if x==-1: x = DUMMY_VALUE] *)
Definition find_or_dummy (c : char) (s : str) : Z :=
  let si := find c s in if si =? -1 then DUMMY_VALUE else si.

(** The part of [splitMarkerText] (and of the body of [USFMFile.read]) that
    follows [lineAfterBackslash = line[1:]]: the pair [marker, text]. *)
Definition splitAfterBackslash (lineAfterBackslash : str) : outcome (str * str) :=
  let si1 := find_or_dummy space lineAfterBackslash in
  let si2 := find_or_dummy asterisk lineAfterBackslash in
  let si3 := find_or_dummy backslash lineAfterBackslash in
  let si := min3 si1 si2 si3 in
  if si =? DUMMY_VALUE then Ok (lineAfterBackslash, [])
  else if si =? si3 then
    Ok (slice_to lineAfterBackslash si3, slice_from lineAfterBackslash si3)
  else if si =? si2 then
    Ok (slice_to lineAfterBackslash (si2 + 1), slice_from lineAfterBackslash (si2 + 1))
  else if si =? si1 then
    Ok (slice_to lineAfterBackslash si1, slice_from lineAfterBackslash (si1 + 1))
  else Raise UnboundLocalError.

(** [splitMarkerText( line )]: the marker is [None] when the line does not
    start with a backslash. *)
Definition splitMarkerText (line : str) : outcome (option str * str) :=
  match line with
  | [] => Ok (None, [])
  | c :: _ =>
      if negb (N.eqb c backslash) then Ok (None, line)
      else
        mt ← splitAfterBackslash (slice_from line 1);
        Ok (Some (fst mt), snd mt)
  end.

(** What iterating over the open text file yields: a decoded line (with its
    newline, when the file has one there), or a [UnicodeError] raised by the
    iterator where the bytes do not decode. *)
Inductive fetched : Type :=
  | Line (line : str)
  | DecodeError.

Inductive message : Type :=
  (** "USFMFile: Detected UTF-16 Byte Order Marker in {}" *)
  | DetectedBOM (usfm_filename : str)
  (** "Non-USFM line in " + usfm_filename + " -- line ignored at #" + str(lineCount) *)
  | NonUSFMLineIgnored (usfm_filename : str) (lineCount : Z)
  (** "Invalid line in " + usfm_filename + " -- line ignored at #" + str(lineCount) *)
  | InvalidLineIgnored (usfm_filename : str) (lineCount : Z).

(** The local variables of [USFMFile.read] that live across iterations.
    [marker] is [None] while the name is still unbound. *)
Record locals : Type := Locals {
  lastLine : str;
  lineCount : Z;
  result : list (str * str);
  marker : option str;
  log : list (level * message)
}.

Definition set_lastLine (st : locals) (v : str) : locals :=
  Locals v (lineCount st) (result st) (marker st) (log st).
Definition set_lineCount (st : locals) (v : Z) : locals :=
  Locals (lastLine st) v (result st) (marker st) (log st).
Definition set_result (st : locals) (v : list (str * str)) : locals :=
  Locals (lastLine st) (lineCount st) v (marker st) (log st).
Definition set_marker (st : locals) (v : str) : locals :=
  Locals (lastLine st) (lineCount st) (result st) (Some v) (log st).
Definition logging (st : locals) (l : level) (m : message) : locals :=
  Locals (lastLine st) (lineCount st) (result st) (marker st) (log st ++ [(l, m)]).

Section Read.

(** [str.lower] *)
Variable lower : str -> str.
(** [BibleOrgSysGlobals.verbosityLevel] *)
Variable verbosityLevel : Z.

Variable usfm_filename : str.
Variable ignoreSFMs : list str.
Variable encoding : str.

(** [result.pop()] followed by [result.append( (oldmarker, oldtext+' '+line) )] *)
Definition append_continuation (result : list (str * str)) (line : str)
  : outcome (list (str * str)) :=
  match last result with
  | None => Raise IndexError
  | Some (oldmarker, oldtext) =>
      Ok (removelast result ++ [(oldmarker, oldtext ++ [space] ++ line)])
  end.

(** The marker parsing at the end of the loop body, from
    [lineAfterBackslash = line[1:]] to [result.append( (marker, text) )]. *)
Definition read_marker (st : locals) (line : str) : outcome locals :=
  mt ← splitAfterBackslash (slice_from line 1);
  let st := set_marker st (fst mt) in
  if negb (str_in (fst mt) ignoreSFMs)
  then Ok (set_result st (result st ++ [(fst mt, snd mt)]))
  else Ok st.

(** One iteration of [for line in ourFile]. *)
Definition read_line (st : locals) (line : str) : outcome locals :=
  let st := set_lineCount st (lineCount st + 1) in
  stl ← (if (lineCount st =? 1) && str_eqb (lower encoding) (py "utf-8")
         then c ← item line 0;
              if N.eqb c BOM
              then Ok (logging st Info (DetectedBOM usfm_filename), slice_from line 1)
              else Ok (st, line)
         else Ok (st, line));
  let st := fst stl in
  let line := snd stl in
  c ← item (rev line) 0;
  let line := if N.eqb c LF then slice_to line (-1) else line in
  match line with
  | [] => Ok st
  | c0 :: _ =>
      let st := set_lastLine st line in
      if N.eqb c0 hash then Ok st
      else if negb (N.eqb c0 backslash) then
        if len (result st) =? 0 then
          let st := if verbosityLevel >? 2
                    then logging st Error (NonUSFMLineIgnored usfm_filename (lineCount st))
                    else st in
          read_marker st line
        else
          match marker st with
          | None => Raise UnboundLocalError
          | Some marker =>
              if negb (str_in marker ignoreSFMs)
              then r ← append_continuation (result st) line; Ok (set_result st r)
              else Ok st
          end
      else read_marker st line
  end.

(** The [for] loop inside the [try]: the locals when the loop is left, and
    whether it ended normally or by an exception. *)
Fixpoint read_loop (st : locals) (ourFile : list fetched) : locals * outcome unit :=
  match ourFile with
  | [] => (st, Ok tt)
  | DecodeError :: _ => (st, Raise UnicodeError)
  | Line line :: rest =>
      match read_line st line with
      | Ok st' => read_loop st' rest
      | Raise e => (st, Raise e)
      end
  end.

Definition initial : locals := Locals [] 0 [] None [].

End Read.

(** [USFMFile.read( usfm_filename, ignoreSFMs, encoding )] on the contents
    [ourFile] of the opened file: the value assigned to [self.lines] and the
    log.  Only [UnicodeError] is caught. *)
Definition read (lower : str -> str) (verbosityLevel : Z) (ourFile : list fetched)
    (usfm_filename : str) (ignoreSFMs : option (list str)) (encoding : option str)
  : outcome (list (str * str) * list (level * message)) :=
  let ignoreSFMs := default [] ignoreSFMs in
  let encoding := default (py "utf-8") encoding in
  match read_loop lower verbosityLevel usfm_filename ignoreSFMs encoding initial ourFile with
  | (st, Ok _) => Ok (result st, log st)
  | (st, Raise UnicodeError) =>
      let st := logging st Critical (InvalidLineIgnored usfm_filename (lineCount st)) in
      Ok (result st, log st)
  | (_, Raise e) => Raise e
  end.

(** Lower-casing restricted to ASCII letters, for running the model. *)
Definition ascii_lower (s : str) : str :=
  map (fun c => if (65 <=? c)%N && (c <=? 90)%N then (c + 32)%N else c) s.

End USFMFile.

(* --------------------------------------------------------------------- *)
(** ** OSISXMLBible.py: [clean] *)
(* --------------------------------------------------------------------- *)

Module OSISClean.

(** Truth value of an optional string: [None] and [''] are false. *)
Definition truthy (s : option str) : bool :=
  match s with
  | Some (_ :: _) => true
  | _ => false
  end.

(** A [while] loop whose body shortens a string, run for at most [fuel]
    rounds; [fuel] is the length of the string when the loop is entered. *)
Fixpoint while (cond : str -> bool) (body : str -> str) (fuel : nat) (s : str) : str :=
  match fuel with
  | O => s
  | S n => if cond s then while cond body n (body s) else s
  end.

Inductive message : Type :=
  (** "clean: found multiple spaces in {!r}{}" *)
  | FoundMultipleSpaces (result info : str)
  (** "clean: found tab in {!r}{}" *)
  | FoundTab (result info : str)
  (** "clean: found CR or LF characters in {!r}{}" *)
  | FoundCRLF (result info : str).

(** What [clean] leaves behind besides its value: the [loadErrors] list
    ([None] when the caller passed none) and the log. *)
Record effects : Type := Effects {
  loadErrors : option (list message);
  log : list (level * message)
}.

(** [logging.<level>( errorMsg )] and
    [if loadErrors is not None: loadErrors.append( errorMsg )] *)
Definition report (l : level) (errorMsg : message) (e : effects) : effects :=
  Effects (fmap (fun le => le ++ [errorMsg]) (loadErrors e)) (log e ++ [(l, errorMsg)]).

(** [while result.endswith('\n') or result.endswith('\r'): result = result[:-1]] *)
Definition drop_trailing_newlines (result : str) : str :=
  while (fun r => endswith [LF] r || endswith [CR] r) (fun r => slice_to r (-1))
        (length result) result.

(** [while '  ' in result: result = result.replace( '  ', ' ' )] *)
Definition collapse_spaces (result : str) : str :=
  while (contains [space; space]) (replace [space; space] [space])
        (length result) result.

(** [clean( elementText, loadErrors, location, verseMilestone )] *)
Definition clean (elementText : option str) (loadErrors : option (list message))
    (location verseMilestone : option str) : option str * effects :=
  let e := Effects loadErrors [] in
  match elementText with
  | None => (None, e)
  | Some elementText =>
      let info := [] in
      let info := if truthy location then info ++ py " at " ++ default [] location else info in
      let info := if truthy verseMilestone
                  then info ++ py " at " ++ default [] verseMilestone else info in
      let result := elementText in
      let result := drop_trailing_newlines result in
      let e := if contains [space; space] result
               then report Warning (FoundMultipleSpaces result info) e else e in
      let '(result, e) :=
        if contains [tab] result
        then (replace [tab] [space] result, report Warning (FoundTab result info) e)
        else (result, e) in
      let '(result, e) :=
        if contains [LF] result || contains [CR] result
        then (replace [CR] [space] (replace [LF] [space] (replace [CR; LF] [space] result)),
              report Error (FoundCRLF result info) e)
        else (result, e) in
      let result := collapse_spaces result in
      (Some result, e)
  end.

End OSISClean.

(* --------------------------------------------------------------------- *)
(** ** Ordered dictionaries *)
(* --------------------------------------------------------------------- *)

(** A [collections.OrderedDict] with string keys: the items in insertion
    order.  The keys of a dictionary are distinct ([od_wf]). *)
Module OD.

Section OD.
Context {V : Type}.

Fixpoint get (k : str) (d : list (str * V)) : option V :=
  match d with
  | [] => None
  | (k', v) :: d' => if str_eqb k k' then Some v else get k d'
  end.

(** [k in d] *)
Definition mem (k : str) (d : list (str * V)) : bool :=
  match get k d with Some _ => true | None => false end.

(** [d[k] = v]: an existing key keeps its place, a new one goes last. *)
Fixpoint set (k : str) (v : V) (d : list (str * V)) : list (str * V) :=
  match d with
  | [] => [(k, v)]
  | (k', v') :: d' => if str_eqb k k' then (k', v) :: d' else (k', v') :: set k v d'
  end.

(** [del d[k]], for a key that is there. *)
Fixpoint delete (k : str) (d : list (str * V)) : list (str * V) :=
  match d with
  | [] => []
  | (k', v) :: d' => if str_eqb k k' then d' else (k', v) :: delete k d'
  end.

Definition keys (d : list (str * V)) : list str := map fst d.

Definition wf (d : list (str * V)) : Prop := NoDup (keys d).

End OD.

End OD.

(* --------------------------------------------------------------------- *)
(** ** BibleBook *)
(* --------------------------------------------------------------------- *)

Module BibleBook.

(** Modelled from the spec: the class [BibleBook] (Bible.py,
    InternalBibleBook.py) is not among the sources.  A book is identified by
    its book code and owns an ordered sequence of (marker, text) lines. *)
Record t : Type := Book {
  BBB : str;
  _rawLines : list (str * str)
}.

(** Modelled from the spec: [BibleBook( containerBibleObject, BBB )] is
    created empty. *)
Definition new (BBB : str) : t := Book BBB [].

(** Modelled from the spec: [addLine(marker, text)] appends a new line, with
    no validation of the marker. *)
Definition addLine (b : t) (marker text : str) : t :=
  Book (BBB b) (_rawLines b ++ [(marker, text)]).

(** Modelled from the spec: [appendToLastLine(text)] concatenates onto the
    text of the most recent line and does nothing when there is no line. *)
Definition appendToLastLine (b : t) (additionalText : str) : t :=
  match last (_rawLines b) with
  | None => b
  | Some (marker, text) =>
      Book (BBB b) (removelast (_rawLines b) ++ [(marker, text ++ additionalText)])
  end.

End BibleBook.

(* --------------------------------------------------------------------- *)
(** ** InternalBible.py: the book store and [saveBook] *)
(* --------------------------------------------------------------------- *)

Module InternalBible.

Inductive message : Type :=
  (** "saveBook: overwriting already existing {} book!" *)
  | OverwritingBook (BBB : str).

(** The attributes of an [InternalBible] that the embedded methods use.
    [books] is an [OrderedDict]; the others are plain dictionaries, except
    [guesses], a string.  [B] is what [books] holds for a book. *)
Record t (B : Type) : Type := Bible {
  books : list (str * B);
  BBBToNameDict : gmap (list N) (list N);
  bookNameDict : gmap (list N) (list N);
  combinedBookNameDict : gmap (list N) (list N);
  bookAbbrevDict : gmap (list N) (list N);
  reverseDict : gmap (list N) (list N);
  guesses : list N
}.
Arguments Bible {B}.
Arguments books {B}.
Arguments BBBToNameDict {B}.
Arguments bookNameDict {B}.
Arguments combinedBookNameDict {B}.
Arguments bookAbbrevDict {B}.
Arguments reverseDict {B}.
Arguments guesses {B}.

(** [InternalBible.__init__] *)
Definition init {B} : t B := Bible [] ∅ ∅ ∅ ∅ ∅ [].

Section SaveBook.

Context {B : Type}.
(** [bookData.BBB] and [bookData.getAssumedBookNames()] *)
Variable bookBBB : B -> str.
Variable getAssumedBookNames : B -> list str.
(** [str.lower] *)
Variable lower : str -> str.

(** The body of [for assumedBookName in assumedBookNames] *)
Definition saveName (BBB : str) (self : t B) (assumedBookName : str) : t B :=
  let assumedBookNameLower := lower assumedBookName in
  let combined := <[assumedBookNameLower := BBB]> (combinedBookNameDict self) in
  let combined :=
    if contains [space] assumedBookNameLower
    then <[replace [space] [] assumedBookNameLower := BBB]> combined
    else combined in
  Bible (books self)
        (<[BBB := assumedBookName]> (BBBToNameDict self))
        (<[assumedBookNameLower := BBB]> (bookNameDict self))
        combined
        (bookAbbrevDict self) (reverseDict self) (guesses self).

(** [saveBook( self, bookData )]: the Bible afterwards and what was logged. *)
Definition saveBook (self : t B) (bookData : B) : t B * list (level * message) :=
  let BBB := bookBBB bookData in
  let logged := if OD.mem BBB (books self) then [(Critical, OverwritingBook BBB)] else [] in
  let self := Bible (OD.set BBB bookData (books self))
                (BBBToNameDict self) (bookNameDict self) (combinedBookNameDict self)
                (bookAbbrevDict self) (reverseDict self) (guesses self) in
  (fold_left (saveName BBB) (getAssumedBookNames bookData) self, logged).

End SaveBook.

(** *** [guessXRefBBB] *)

(** [s.split()]: the runs of characters that are not white space. [cur]
    holds the current run, reversed. *)
Fixpoint split_whitespace_from (cur : str) (s : str) : list str :=
  match s with
  | [] => if nonempty cur then [rev cur] else []
  | x :: s' =>
      if isspace x
      then (if nonempty cur then [rev cur] else []) ++ split_whitespace_from [] s'
      else split_whitespace_from (x :: cur) s'
  end.
Definition split_whitespace (s : str) : list str := split_whitespace_from [] s.

Section Guess.

Context {B : Type}.
(** [BibleOrgSysGlobals.debugFlag] *)
Variable debugFlag : bool.
(** [BibleOrgSysGlobals.BibleBooksCodes.getBBB] *)
Variable getBBB : str -> option str.
(** [str.lower] and [repr] *)
Variable lower : str -> str.
Variable repr : str -> str.

(** [self.guesses += ('\n' if self.guesses else '') + text] *)
Definition add_guess (text guesses : str) : str :=
  guesses ++ (if nonempty guesses then [LF] else []) ++ text.

(** "Guessed {!r} to be {} (how)" *)
Definition guessed (referenceString BBB how : str) : str :=
  py "Guessed " ++ repr referenceString ++ py " to be " ++ BBB
  ++ py " (" ++ how ++ py ")".

(** [self.reverseDict[BBB] = referenceString] *)
Definition set_reverse (self : t B) (BBB referenceString : str) : t B :=
  Bible (books self) (BBBToNameDict self) (bookNameDict self) (combinedBookNameDict self)
        (bookAbbrevDict self) (<[BBB := referenceString]> (reverseDict self)) (guesses self).

(** The end of a tier that found its book:
    [self.bookAbbrevDict[adjRefString] = BBB], then the note in
    [self.guesses]. *)
Definition learn (self : t B) (adjRefString referenceString BBB how : str) : t B :=
  Bible (books self) (BBBToNameDict self) (bookNameDict self) (combinedBookNameDict self)
        (<[adjRefString := BBB]> (bookAbbrevDict self)) (reverseDict self)
        (add_guess (guessed referenceString BBB how) (guesses self)).

(** The codes that a loop over a dictionary assigns to [BBB], in the order
    of the iteration: one for each key that passes the test. *)
Definition matches (test : str -> bool) (d : gmap (list N) (list N)) : list str :=
  snd <$> List.filter (fun kv => test (fst kv)) (map_to_list d).

(** The second loop of a tier with two matches: the codes that are not in
    [self.reverseDict] yet. *)
Definition unknown_matches (self : t B) (adjRefString : str) : list str :=
  List.filter (fun BBBx => match reverseDict self !! BBBx with Some _ => false | None => true end)
    (matches (startswith adjRefString) (bookNameDict self)).

(** The loop of the tier 'word startswith': one assignment for each word
    of a name with a space that starts with the string. *)
Definition word_matches (self : t B) (adjRefString : str) : list str :=
  flat_map (fun kv =>
              if contains [space] (fst kv)
              then (fun _ => snd kv) <$>
                     List.filter (startswith adjRefString) (split_whitespace (fst kv))
              else [])
           (map_to_list (bookNameDict self)).

(** The loop of the tier 'firstletter+'. *)
Fixpoint first_plus_matches (adjRefString : str) (items : list (str * str))
  : outcome (list str) :=
  match items with
  | [] => Ok []
  | (bookName, BBB) :: items' =>
      match bookName with
      | [] => Raise NameError (* [print( self.bookNameDict ); halt] *)
      | b0 :: bookNameRest =>
          a0 ← item adjRefString 0;
          rest ← first_plus_matches adjRefString items';
          if negb (N.eqb a0 b0) then Ok rest
          else if forallb (fun char => has_char char bookNameRest) (slice_from adjRefString 1)
          then Ok (BBB :: rest)
          else Ok rest
      end
  end.

(** The part of [guessXRefBBB] up to the two dictionary look-ups: [Some]
    what the call gives when it ends there, [None] when it goes on to the
    scanning tiers. *)
Definition lookup_tiers (self : t B) (referenceString : str)
  : option (outcome (option str * t B)) :=
  match (if debugFlag then assert (nonempty referenceString) else Ok tt) with
  | Raise e => Some (Raise e)
  | Ok _ =>
      match getBBB referenceString with
      | Some result => Some (Ok (Some result, self)) (* It's already a valid BBB *)
      | None =>
          let adjRefString := lower referenceString in
          match combinedBookNameDict self !! adjRefString with
          | Some BBB => Some (Ok (Some BBB, set_reverse self BBB referenceString))
          | None =>
              match bookAbbrevDict self !! adjRefString with
              | Some BBB => Some (Ok (Some BBB, set_reverse self BBB referenceString))
              | None => None
              end
          end
      end
  end.

(** The last statements of [guessXRefBBB]: the note that the guess failed. *)
Definition no_guess (self : t B) (referenceString : str) : t B :=
  let string := py "Couldn't guess " ++ repr (slice_to referenceString 5) in
  if negb (contains string (guesses self))
  then Bible (books self) (BBBToNameDict self) (bookNameDict self)
             (combinedBookNameDict self) (bookAbbrevDict self) (reverseDict self)
             (add_guess string (guesses self))
  else self.

(** The tiers 'word startswith' and 'firstletter+', entered with the
    [count] that the prefix tiers left. *)
Definition word_tiers (self : t B) (referenceString : str) (count : nat)
  : outcome (option str * t B) :=
  let adjRefString := lower referenceString in
  (* See if a book name contains a word that starts with this string *)
  let found := match count with O => word_matches self adjRefString | _ => [] end in
  match count, found with
  | O, [BBB] =>
      Ok (Some BBB,
          set_reverse (learn self adjRefString referenceString BBB (py "word startswith"))
            BBB referenceString)
  | _, _ =>
      let count := (count + length found)%nat in
      (* See if a book name starts with the same letter plus contains the
         letters in this string (slow) *)
      match count with
      | O =>
          found ← first_plus_matches adjRefString (map_to_list (bookNameDict self));
          match found with
          | [BBB] =>
              Ok (Some BBB, learn self adjRefString referenceString BBB (py "firstletter+"))
          | _ => Ok (None, no_guess self referenceString)
          end
      | _ => Ok (None, no_guess self referenceString)
      end
  end.

(** A scanning tier that found its book, with [self.reverseDict[BBB]]
    set as well. *)
Definition found_by (self : t B) (referenceString BBB how : str) : option str * t B :=
  (Some BBB,
   set_reverse (learn self (lower referenceString) referenceString BBB how)
     BBB referenceString).

(** The part of [guessXRefBBB] after the look-ups: the program check and the
    scanning tiers.  Each tier either returns or leaves [count] to the
    next one. *)
Definition scan_tiers (self : t B) (referenceString : str) : outcome (option str * t B) :=
  let adjRefString := lower referenceString in
  (* Do a program check *)
  _ ← assert (negb (existsb (fun kv => str_eqb (snd kv) referenceString)
                      (map_to_list (reverseDict self))));
  (* See if a book name starts with this string *)
  let found := matches (startswith adjRefString) (bookNameDict self) in
  let count := length found in
  let first_tier :=
    match found with
    | [BBB] => Some (found_by self referenceString BBB (py "startswith1"))
    | [_; _] =>
        match unknown_matches self adjRefString with
        | [BBB] => Some (found_by self referenceString BBB (py "startswith1SECOND"))
        | _ => None
        end
    | _ => None
    end in
  match first_tier with
  | Some r => Ok r
  | None =>
      let second_tier :=
        match count with
        | O =>
            let found := matches (startswith adjRefString) (combinedBookNameDict self) in
            (match found with
             | [BBB] => Some (found_by self referenceString BBB (py "startswith2"))
             | _ => None
             end, length found)
        | 2%nat =>
            (match unknown_matches self adjRefString with
             | [BBB] => Some (found_by self referenceString BBB (py "startswith2SECOND"))
             | _ => None
             end, count)
        | _ => (None, count)
        end in
      match second_tier with
      | (Some r, _) => Ok r
      | (None, count) => word_tiers self referenceString count
      end
  end.

(** [guessXRefBBB( self, referenceString )]: the value returned ([None]
    when unsuccessful) and the Bible afterwards. *)
Definition guessXRefBBB (self : t B) (referenceString : str)
  : outcome (option str * t B) :=
  match lookup_tiers self referenceString with
  | Some r => r
  | None => scan_tiers self referenceString
  end.

End Guess.

(** *** [getVersification] and [getAddedUnits] *)

(** A list of (chapter, verse) references. *)
Abbreviation refs := (list (str * str)) (only parsing).

Section Aggregate.

Context {B : Type}.
(** [BibleOrgSysGlobals.debugFlag] *)
Variable debugFlag : bool.
(** [InternalBibleBook.getVersification]: versification, omitted verses,
    combined verses and reordered verses of a book. *)
Variable bookGetVersification : B -> refs * refs * refs * refs.
(** [InternalBibleBook.getAddedUnits]: paragraphs, q-paragraphs, section
    headings, section references and words of Jesus of a book. *)
Variable bookGetAddedUnits : B -> refs * refs * refs * refs * refs.

(** [if units: total[BBB] = units] *)
Definition set_if_some (BBB : str) (units : refs) (total : list (str * refs))
  : list (str * refs) :=
  if nonempty units then OD.set BBB units total else total.

(** The body of [for BBB in self.books.keys()] in [getVersification]; the
    keys of [self.books] are distinct, so [self.books[BBB]] is the book that
    goes with the key. *)
Definition versificationOfBook
    (totals : list (str * refs) * list (str * refs) * list (str * refs) * list (str * refs))
    (item : str * B) :=
  let '(totalVersification, totalOmittedVerses, totalCombinedVerses, totalReorderedVerses) :=
    totals in
  let '(BBB, book) := item in
  let '(versification, omittedVerses, combinedVerses, reorderedVerses) :=
    bookGetVersification book in
  (OD.set BBB versification totalVersification,
   set_if_some BBB omittedVerses totalOmittedVerses,
   set_if_some BBB combinedVerses totalCombinedVerses,
   set_if_some BBB reorderedVerses totalReorderedVerses).

(** [getVersification( self )]: four ordered dictionaries. *)
Definition getVersification (self : t B)
  : outcome (list (str * refs) * list (str * refs) * list (str * refs) * list (str * refs)) :=
  _ ← (if debugFlag then assert (nonempty (books self)) else Ok tt);
  Ok (fold_left versificationOfBook (books self) ([], [], [], [])).

(** One feature of [getAddedUnits]: the flag and the dictionary. *)
Definition addUnits (BBB : str) (units : refs) (feature : bool * list (str * refs))
  : bool * list (str * refs) :=
  ((if nonempty units then true else fst feature), OD.set BBB units (snd feature)).

(** The body of [for BBB in self.books] in [getAddedUnits]. *)
Definition addedUnitsOfBook
    (all : (bool * list (str * refs)) * (bool * list (str * refs))
           * (bool * list (str * refs)) * (bool * list (str * refs))
           * (bool * list (str * refs)))
    (item : str * B) :=
  let '(paragraphs, qParagraphs, headings, references, words) := all in
  let '(BBB, book) := item in
  let '(paragraphReferences, qReferences, sectionHeadings, sectionReferences, wordsOfJesus) :=
    bookGetAddedUnits book in
  (addUnits BBB paragraphReferences paragraphs,
   addUnits BBB qReferences qParagraphs,
   addUnits BBB sectionHeadings headings,
   addUnits BBB sectionReferences references,
   addUnits BBB wordsOfJesus words).

(** [AllX if haveX else None] *)
Definition if_have (feature : bool * list (str * refs)) : option (list (str * refs)) :=
  if fst feature then Some (snd feature) else None.

(** [getAddedUnits( self )]: for each feature the ordered dictionary, or
    [None] when the version lacks the feature completely. *)
Definition getAddedUnits (self : t B)
  : outcome (option (list (str * refs)) * option (list (str * refs))
             * option (list (str * refs)) * option (list (str * refs))
             * option (list (str * refs))) :=
  _ ← (if debugFlag then assert (nonempty (books self)) else Ok tt);
  let '(paragraphs, qParagraphs, headings, references, words) :=
    fold_left addedUnitsOfBook (books self)
      ((false, []), (false, []), (false, []), (false, []), (false, [])) in
  Ok (if_have paragraphs, if_have qParagraphs, if_have headings, if_have references,
      if_have words).

End Aggregate.

(** *** [getErrors]: the combination of the book errors *)

(** An entry of an error list: a message, or a priority error, which is a
    tuple of a priority, a text and a reference. *)
Inductive entry : Type :=
  | Message (errorText : str)
  | Priority (priority : Z) (errorText : str) (ref : str * str * str).

(** What a book's error dictionary holds below a key of the second level: a
    list, or a dictionary of counts. *)
Inductive sub : Type :=
  | SubList (l : list entry)
  | SubCounts (d : list (str * Z)).

(** What an error dictionary holds below a key: a list, or a dictionary with
    keys of the second level. *)
Inductive value : Type :=
  | List (l : list entry)
  | Dict (d : list (str * sub)).

Abbreviation errorDict := (list (str * value)) (only parsing).

(** The dictionary [errors].  [errors['ByBook']] is kept in two parts: its
    entry 'All Books' and the entries of the books (book codes have three
    characters, so none of them is 'All Books'). *)
Record errors : Type := Errors {
  allBooks : list (str * value);
  byBook : list (str * list (str * value));
  byCategory : list (str * value)
}.

(** A loop whose body can raise. *)
Fixpoint for_each {A S} (body : S -> A -> outcome S) (l : list A) (s : S) : outcome S :=
  match l with
  | [] => Ok s
  | a :: l' => s' ← body s a; for_each body l' s'
  end.

(** What [for x in v] yields, and what [list.extend( v )] appends: the
    entries of a list, the keys of a dictionary. *)
Definition iterate (v : value) : list entry :=
  match v with
  | List l => l
  | Dict d => (fun kv => Message (fst kv)) <$> d
  end.

Definition iterate_sub (v : sub) : list entry :=
  match v with
  | SubList l => l
  | SubCounts d => (fun kv => Message (fst kv)) <$> d
  end.

(** [x.endswith( suffix )] for what a loop over a value yields; a tuple has
    no such method. *)
Definition entry_endswith (suffix : str) (x : entry) : outcome bool :=
  match x with
  | Message s => Ok (endswith suffix s)
  | Priority _ _ _ => Raise AttributeError
  end.

(** [key.endswith('Errors') or key.endswith('List') or key.endswith('Lines')] *)
Definition list_key (key : str) : bool :=
  endswith (py "Errors") key || endswith (py "List") key || endswith (py "Lines") key.

(** [total[k].extend( new )] *)
Definition extend_list (k : str) (new : list entry) (total : list (str * value))
  : outcome (list (str * value)) :=
  match OD.get k total with
  | Some (List l) => Ok (OD.set k (List (l ++ new)) total)
  | Some (Dict _) => Raise AttributeError
  | None => Raise KeyError
  end.

(** [if firstKey not in total: total[firstKey] = OrderedDict()]: the
    dictionary below [firstKey] afterwards. *)
Definition below (firstKey : str) (total : list (str * value))
  : outcome (list (str * sub)) :=
  match OD.get firstKey total with
  | None => Ok []
  | Some (Dict d) => Ok d
  | Some (List _) => Raise TypeError
  end.

(** [total[thisKey][anotherKey] = []], with [total[thisKey]] made an
    [OrderedDict()] when it is not there. *)
Definition reset_sub (thisKey anotherKey : str) (total : list (str * value))
  : outcome (list (str * value)) :=
  d ← below thisKey total;
  Ok (OD.set thisKey (Dict (OD.set anotherKey (SubList []) d)) total).

(** [total[firstKey][secondKey].extend( new )], with the two defaults
    [OrderedDict()] and [[]] made first. *)
Definition extend_sub (firstKey secondKey : str) (new : list entry)
    (total : list (str * value)) : outcome (list (str * value)) :=
  d ← below firstKey total;
  match OD.get secondKey d with
  | Some (SubCounts _) => Raise AttributeError
  | Some (SubList l) => Ok (OD.set firstKey (Dict (OD.set secondKey (SubList (l ++ new)) d)) total)
  | None => Ok (OD.set firstKey (Dict (OD.set secondKey (SubList new) d)) total)
  end.

(** One round of [for something in errorDict[BBB][firstKey][secondKey]] in
    [mergeCount]. *)
Definition merge_one (counts : list (str * Z)) (item : str * Z) : list (str * Z) :=
  match OD.get (fst item) counts with
  | None => OD.set (fst item) (snd item) counts
  | Some n => OD.set (fst item) (n + snd item) counts
  end.

(** [mergeCount( BBB, errorDict, firstKey, secondKey )] on the 'All Books'
    dictionary, for the counts [new] of the book. *)
Definition merge_counts (firstKey secondKey : str) (new : list (str * Z))
    (total : list (str * value)) : outcome (list (str * value)) :=
  d ← below firstKey total;
  match OD.get secondKey d with
  | Some (SubList l) =>
      (* [something not in] a list, then an item assignment with a string *)
      match new with
      | [] => Ok (OD.set firstKey (Dict d) total)
      | _ :: _ => Raise TypeError
      end
  | Some (SubCounts c) =>
      Ok (OD.set firstKey (Dict (OD.set secondKey (SubCounts (fold_left merge_one new c)) d)) total)
  | None =>
      Ok (OD.set firstKey (Dict (OD.set secondKey (SubCounts (fold_left merge_one new [])) d)) total)
  end.

Section GetErrors.

Context {B : Type}.
(** [BibleOrgSysGlobals.debugFlag] *)
Variable debugFlag : bool.
(** [InternalBibleBook.getErrors]: the error dictionary of a book. *)
Variable bookGetErrors : B -> list (str * value).

(** [BBB in givenBookList]; without a list, [givenBookList] is [self.books]. *)
Definition given (givenBookList : option (list str)) (BBB : str) : bool :=
  match givenBookList with
  | None => true
  | Some l => str_in BBB l
  end.

(** The set-up: the categories in their logical order. *)
Definition set_up : errors :=
  Errors []
    []
    (fold_left (fun d category => OD.set category (Dict []) d)
       [py "SFMs"; py "Characters"; py "Words"; py "Headings"; py "Introduction";
        py "Notes"; py "Controls"]
       (fold_left (fun d category => OD.set category (List []) d)
          [py "Priority Errors"; py "Load Errors"; py "Fix Text Errors";
           py "Validation Errors"; py "Versification Errors"] [])).

(** The first loop, for one key of a book: the error lists are made to come
    first in the 'All Books' dictionaries. *)
Definition prepare_key (e : errors) (item : str * value) : outcome errors :=
  let '(thisKey, v) := item in
  if endswith (py "Errors") thisKey then
    Ok (Errors (OD.set thisKey (List []) (allBooks e)) (byBook e)
               (OD.set thisKey (List []) (byCategory e)))
  else if negb (endswith (py "List") thisKey) && negb (endswith (py "Lines") thisKey) then
    for_each
      (fun (e : errors) (anotherKey : entry) =>
         isErrors ← entry_endswith (py "Errors") anotherKey;
         if (isErrors : bool) then
           match anotherKey with
           | Message anotherKey =>
               all ← reset_sub thisKey anotherKey (allBooks e);
               cat ← reset_sub thisKey anotherKey (byCategory e);
               Ok (Errors all (byBook e) cat)
           | Priority _ _ _ => Raise AttributeError
           end
         else Ok e)
      (iterate v) e
  else Ok e.

(** The first loop, for one book. *)
Definition prepare_book (givenBookList : option (list str)) (e : errors) (item : str * B)
  : outcome errors :=
  let '(BBB, book) := item in
  if given givenBookList BBB then
    let bookErrors := bookGetErrors book in
    for_each prepare_key bookErrors
      (Errors (allBooks e) (OD.set BBB bookErrors (byBook e)) (byCategory e))
  else Ok e.

(** The second loop, for a key of the second level below [thisKey], where
    the book has a dictionary. *)
Definition combine_sub (thisKey : str) (e : errors) (item : str * sub) : outcome errors :=
  let '(anotherKey, v) := item in
  if list_key anotherKey then
    _ ← (if debugFlag
         then assert (match v with SubList _ => true | SubCounts _ => false end)
         else Ok tt);
    all ← extend_sub thisKey anotherKey (iterate_sub v) (allBooks e);
    cat ← extend_sub thisKey anotherKey (iterate_sub v) (byCategory e);
    Ok (Errors all (byBook e) cat)
  else if endswith (py "Counts") anotherKey then
    _ ← (if debugFlag
         then assert (match v with SubList _ => false | SubCounts _ => true end)
         else Ok tt);
    match v with
    | SubCounts c =>
        all ← merge_counts thisKey anotherKey c (allBooks e);
        Ok (Errors all (byBook e) (byCategory e))
    | SubList [] =>
        (* the defaults are made and the loop has nothing to merge *)
        d ← below thisKey (allBooks e);
        let d := if OD.mem anotherKey d then d else OD.set anotherKey (SubCounts []) d in
        Ok (Errors (OD.set thisKey (Dict d) (allBooks e)) (byBook e) (byCategory e))
    | SubList (_ :: _) => Raise TypeError
    end
  else Ok e.

(** The second loop, for an entry below [thisKey], where the book has a
    list: an entry cannot be used as a key of the list ([TypeError]); for
    counts, the check of [mergeCount] comes first when [debugFlag] is set. *)
Definition combine_entry (e : errors) (anotherKey : entry) : outcome errors :=
  isList ← (a ← entry_endswith (py "Errors") anotherKey;
            b ← entry_endswith (py "List") anotherKey;
            c ← entry_endswith (py "Lines") anotherKey;
            Ok (a || b || c));
  if (isList : bool) then Raise TypeError
  else
    isCounts ← entry_endswith (py "Counts") anotherKey;
    if (isCounts : bool) then (if debugFlag then Raise AssertionError else Raise TypeError)
    else Ok e.

(** The second loop, for one key of a book. *)
Definition combine_key (e : errors) (item : str * value) : outcome errors :=
  let '(thisKey, v) := item in
  if list_key thisKey then
    _ ← (if debugFlag
         then assert (match v with List _ => true | Dict _ => false end)
         else Ok tt);
    (* [appendList( BBB, errors['ByBook'], thisKey )] *)
    let all := if OD.mem thisKey (allBooks e) then allBooks e
               else OD.set thisKey (List []) (allBooks e) in
    all ← extend_list thisKey (iterate v) all;
    cat ← extend_list thisKey (iterate v) (byCategory e);
    Ok (Errors all (byBook e) cat)
  else if endswith (py "Counts") thisKey then
    Raise NameError (* [NEVER_HAPPENS], a name that is not defined *)
  else
    (* it's things like SFMs, Characters, Words, Headings, Notes *)
    match v with
    | Dict d => for_each (combine_sub thisKey) d e
    | List l => for_each combine_entry l e
    end.

(** The second loop, for one book. *)
Definition combine_book (givenBookList : option (list str)) (e : errors) (item : str * B)
  : outcome errors :=
  let '(BBB, _) := item in
  if given givenBookList BBB then
    match OD.get BBB (byBook e) with
    | None => Raise KeyError
    | Some bookErrors => for_each combine_key bookErrors e
    end
  else Ok e.

(** [getErrors( self, givenBookList )] from the set-up to the end of the
    loop that combines the book errors into the totals.  The statements
    that follow it in [getErrors] are [uncommonWords] and
    [removeEmptyCategories] below. *)
Definition combineErrors (self : t B) (givenBookList : option (list str)) : outcome errors :=
  e ← for_each (prepare_book givenBookList) (books self) set_up;
  for_each (combine_book givenBookList) (books self) e.

End GetErrors.

(** *** [getErrors]: the uncommon words and the empty categories *)

(** [a < b] for strings: the order of the code points. *)
Fixpoint str_ltb (a b : str) : bool :=
  match a, b with
  | _, [] => false
  | [], _ :: _ => true
  | x :: a', y :: b' =>
      if (x <? y)%N then true else if (y <? x)%N then false else str_ltb a' b'
  end.

(** [a < b] for tuples of a count and a word. *)
Definition tuple_ltb (a b : Z * str) : bool :=
  (fst a <? fst b) || ((fst a =? fst b) && str_ltb (snd a) (snd b)).

(** [sorted( l )] for a list of such tuples. *)
Fixpoint insert_sorted (x : Z * str) (l : list (Z * str)) : list (Z * str) :=
  match l with
  | [] => [x]
  | y :: l' => if tuple_ltb y x then y :: insert_sorted x l' else x :: y :: l'
  end.

Definition sorted (l : list (Z * str)) : list (Z * str) := foldr insert_sorted [] l.

(** [x == word] for an entry of a list. *)
Definition entry_is (word : str) (x : entry) : bool :=
  match x with
  | Message s => str_eqb s word
  | Priority _ _ _ => false
  end.

(** [word in wordDict] and [wordDict[word]], where [wordDict] is what
    [errors['ByBook']['All Books']['Words']['All Word Counts']] holds. *)
Definition word_in (wordDict : sub) (word : str) : bool :=
  match wordDict with
  | SubCounts counts => OD.mem word counts
  | SubList l => existsb (entry_is word) l
  end.

Definition word_count (wordDict : sub) (word : str) : outcome Z :=
  match wordDict with
  | SubCounts counts =>
      match OD.get word counts with
      | Some n => Ok n
      | None => Raise KeyError
      end
  | SubList _ => Raise TypeError
  end.

(** [wordDict[word] if word in wordDict else 0] *)
Definition count_or_zero (wordDict : sub) (word : str) : outcome Z :=
  if word_in wordDict word then word_count wordDict word else Ok 0.

(** The local variables of [getCapsList]; a name is [None] while it is not
    bound. *)
Record caps : Type := Caps {
  tempResult : list (Z * str);
  total : Z;
  tcWord : option str;
  TcWord : option str;
  tCWord : option str;
  UCWord : option str
}.

Definition set_tcWord (c : caps) (v : str) : caps :=
  Caps (tempResult c) (total c) (Some v) (TcWord c) (tCWord c) (UCWord c).
Definition set_TcWord (c : caps) (v : str) : caps :=
  Caps (tempResult c) (total c) (tcWord c) (Some v) (tCWord c) (UCWord c).
Definition set_tCWord (c : caps) (v : str) : caps :=
  Caps (tempResult c) (total c) (tcWord c) (TcWord c) (Some v) (UCWord c).
Definition set_UCWord (c : caps) (v : str) : caps :=
  Caps (tempResult c) (total c) (tcWord c) (TcWord c) (tCWord c) (Some v).

(** [tempResult.append( (count,word,) ); total += count] *)
Definition found (count : Z) (word : str) (c : caps) : caps :=
  Caps (tempResult c ++ [(count, word)]) (total c + count)
       (tcWord c) (TcWord c) (tCWord c) (UCWord c).

(** [if count: tempResult.append( (count,word,) ); total += count] *)
Definition tally (count : Z) (word : str) (c : caps) : caps :=
  if count =? 0 then c else found count word c.

(** Reading a local variable. *)
Definition bound (name : option str) : outcome str :=
  match name with
  | Some s => Ok s
  | None => Raise UnboundLocalError
  end.

(** [if 'Possible Word Errors' not in words: words['Possible Word Errors'] = []]
    and [words['Possible Word Errors'].append( message )], where [words] is
    [errors['ByBook']['All Books']['Words']]. *)
Definition possibleWordError (message : str) (words : list (str * sub))
  : outcome (list (str * sub)) :=
  let words := if OD.mem (py "Possible Word Errors") words then words
               else OD.set (py "Possible Word Errors") (SubList []) words in
  match OD.get (py "Possible Word Errors") words with
  | Some (SubList l) =>
      Ok (OD.set (py "Possible Word Errors") (SubList (l ++ [Message message])) words)
  | Some (SubCounts _) => Raise AttributeError
  | None => Raise KeyError
  end.

Section Tail.

Context {B : Type}.
(** [BibleOrgSysGlobals.debugFlag] *)
Variable debugFlag : bool.
(** [InternalBibleBook.getErrors]: the error dictionary of a book. *)
Variable bookGetErrors : B -> list (str * value).
(** [str.title], [str.upper] and [str.lower] *)
Variable title : str -> str.
Variable upper : str -> str.
Variable lower : str -> str.
(** [_("Lots of ways of capitalizing {}").format( results )] and
    [_("Word {!r} appears to have unusual capitalization").format( word )] *)
Variable lotsOfWays : list str -> str.
Variable unusualCapitalization : str -> str.

(** The last resort of [getCapsList]: [for word in wordDict], over the words
    that are left, with its [break]. *)
Fixpoint everyWord (lcWord : str) (lcTotal : Z) (wordDict : sub) (todo : list entry)
    (c : caps) (words : list (str * sub)) : outcome (caps * list (str * sub)) :=
  match todo with
  | [] => Ok (c, words)
  | Priority _ _ _ :: _ => Raise AttributeError (* a tuple has no [lower] *)
  | Message word :: rest =>
      another ← (if str_eqb (lower word) lcWord then
                   tc ← bound (tcWord c);
                   Tc ← bound (TcWord c);
                   tC ← bound (tCWord c);
                   UC ← bound (UCWord c);
                   Ok (negb (str_in word [lcWord; tc; Tc; tC; UC]))
                 else Ok false);
      if (another : bool) then
        n ← word_count wordDict word;
        let c := found n word c in
        (* Seems we don't know the BCV reference here unfortunately *)
        words ← possibleWordError (unusualCapitalization word) words;
        if total c =? lcTotal then Ok (c, words) (* no more to find *)
        else everyWord lcWord lcTotal wordDict rest c words
      else everyWord lcWord lcTotal wordDict rest c words
  end.

(** [getCapsList( lcWord, lcTotal, wordDict )]: the list returned, and
    [errors['ByBook']['All Books']['Words']] afterwards. *)
Definition getCapsList (lcWord : str) (lcTotal : Z) (wordDict : sub)
    (words : list (str * sub)) : outcome (list str * list (str * sub)) :=
  lcCount ← count_or_zero wordDict lcWord;
  let c := Caps (if lcCount =? 0 then [] else [(lcCount, lcWord)]) lcCount
             None None None None in
  c ← (if total c <? lcTotal then
         let tc := title lcWord in
         _ ← (if debugFlag then assert (negb (str_eqb tc lcWord)) else Ok tt);
         tcCount ← count_or_zero wordDict tc;
         Ok (tally tcCount tc (set_tcWord c tc))
       else Ok c);
  c ← (if total c <? lcTotal then
         first ← item lcWord 0;
         let Tc := upper [first] ++ slice_from lcWord 1 in
         let c := set_TcWord c Tc in
         differs ← (if negb (str_eqb Tc lcWord)
                    then tc ← bound (tcWord c); Ok (negb (str_eqb Tc tc))
                    else Ok false);
         if (differs : bool)
         then TcCount ← count_or_zero wordDict Tc; Ok (tally TcCount Tc c)
         else Ok c
       else Ok c);
  c ← (if total c <? lcTotal then
         tc ← bound (tcWord c);
         first ← item tc 0;
         let tC := lower [first] ++ slice_from tc 1 in
         let c := set_tCWord c tC in
         differs ← (if negb (str_eqb tC lcWord) && negb (str_eqb tC tc)
                    then Tc ← bound (TcWord c); Ok (negb (str_eqb tC Tc))
                    else Ok false);
         if (differs : bool)
         then tCCount ← count_or_zero wordDict tC; Ok (tally tCCount tC c)
         else Ok c
       else Ok c);
  c ← (if total c <? lcTotal then
         let UC := upper lcWord in
         _ ← (if debugFlag then assert (negb (str_eqb UC lcWord)) else Ok tt);
         let c := set_UCWord c UC in
         Tc ← bound (TcWord c);
         if negb (str_eqb UC Tc)
         then UCCount ← count_or_zero wordDict UC; Ok (tally UCCount UC c)
         else Ok c
       else Ok c);
  cw ← (if total c <? lcTotal
        then (* There's only one (slow) way left -- look at every word *)
          everyWord lcWord lcTotal wordDict (iterate_sub wordDict) c words
        else Ok (c, words));
  Ok (snd <$> sorted (tempResult (fst cw)), snd cw).

(** [errors['ByBook']['All Books']['Words'][key]] *)
Definition words_item (key : str) (words : list (str * sub)) : outcome sub :=
  match OD.get key words with
  | Some v => Ok v
  | None => Raise KeyError
  end.

(** One round of [for word, lcCount in
    errors['ByBook']['All Books']['Words']['Case Insensitive Word Counts'].items()]:
    [errors['ByBook']['All Books']['Words']] and [uncommonWordCounts]
    afterwards. *)
Definition uncommonWord (threshold : Z)
    (state : list (str * sub) * list (str * Z)) (counted : str * Z)
  : outcome (list (str * sub) * list (str * Z)) :=
  let '(words, uncommonWordCounts) := state in
  let '(word, lcCount) := counted in
  allWordCounts ← words_item (py "All Word Counts") words;
  capitalized ← (if negb (word_in allWordCounts word) then Ok true
                 else n ← word_count allWordCounts word; Ok (n <? lcCount));
  words ← (if (capitalized : bool) then
             (* Look for uncommon capitalizations *)
             rw ← getCapsList word lcCount allWordCounts words;
             if len (fst rw) >? 2
             then possibleWordError (lotsOfWays (fst rw)) (snd rw)
             else Ok (snd rw)
           else Ok words);
  if lcCount <? threshold then
    (* look for uncommon words *)
    allWordCounts ← words_item (py "All Word Counts") words;
    aw ← (if negb (word_in allWordCounts word) then
            (* then it ONLY occurs capitalized in some way *)
            rw ← getCapsList word lcCount allWordCounts words;
            adjWord ← item (fst rw) 0;
            Ok (adjWord, snd rw)
          else Ok (word, words));
    Ok (snd aw, OD.set (fst aw) lcCount uncommonWordCounts)
  else Ok (words, uncommonWordCounts).

(** The search for uncommon words, on [errors['ByBook']['All Books']]: from
    [threshold = 4] to the assignment of 'Uncommon Word Counts'. *)
Definition uncommonWords (all : list (str * value)) : outcome (list (str * value)) :=
  let threshold := 4 in
  match OD.get (py "Words") all with
  | None => Ok all
  | Some (List _) => Raise TypeError
  | Some (Dict words) =>
      match OD.get (py "Case Insensitive Word Counts") words with
      | None => Raise KeyError
      | Some (SubList _) => Raise AttributeError (* a list has no [items] *)
      | Some (SubCounts counts) =>
          state ← for_each (uncommonWord threshold) counts (words, []);
          let '(words, uncommonWordCounts) := state in
          let words := if nonempty uncommonWordCounts
                       then OD.set (py "Uncommon Word Counts")
                              (SubCounts uncommonWordCounts) words
                       else words in
          Ok (OD.set (py "Words") (Dict words) all)
      end
  end.

(** [not errors['ByCategory'][category]] *)
Definition empty_value (v : value) : bool :=
  match v with
  | List [] | Dict [] => true
  | _ => false
  end.

(** [for category in errors['ByCategory']: if not errors['ByCategory'][category]:
    del errors['ByCategory'][category]], over the keys that are left.  The
    iterator of an [OrderedDict] (CPython 3.5 and later) holds the key that
    comes next: after a deletion it raises [RuntimeError] when it is asked
    for that key, and it ends the loop when there is none. *)
Fixpoint removeEmptyFrom (categories : list str) (cat : list (str * value))
  : outcome (list (str * value)) :=
  match categories with
  | [] => Ok cat
  | category :: rest =>
      match OD.get category cat with
      | None => Raise KeyError
      | Some v =>
          if empty_value v then
            match rest with
            | [] => Ok (OD.delete category cat)
            | _ :: _ => Raise RuntimeError
            end
          else removeEmptyFrom rest cat
      end
  end.

Definition removeEmptyCategories (cat : list (str * value)) : outcome (list (str * value)) :=
  removeEmptyFrom (OD.keys cat) cat.

(** [getErrors( self, givenBookList )] *)
Definition getErrors (self : t B) (givenBookList : option (list str)) : outcome errors :=
  e ← combineErrors debugFlag bookGetErrors self givenBookList;
  all ← uncommonWords (allBooks e);
  cat ← removeEmptyCategories (byCategory e);
  Ok (Errors all (byBook e) cat).

End Tail.

End InternalBible.

(* --------------------------------------------------------------------- *)
(** ** OSISXMLBible.py: chapter and verse elements *)
(* --------------------------------------------------------------------- *)

Module OSISXMLBible.

Import OSISClean(truthy).

Definition ProgName : str := py "OSIS XML Bible format handler".
Definition ProgVersion : str := py "0.47".
Definition OSISNameSpace : str :=
  py "{http://www.bibletechnologies.net/2003/OSIS/namespace}".

(** An [xml.etree.ElementTree] element: [attrib] is what [element.items()]
    yields and [children] are the sub-elements, so that [len(element)] is
    their number. *)
#[local] Unset Elimination Schemes.
Inductive element : Type := Element {
  tag : str;
  attrib : list (str * str);
  text : option str;
  tail : option str;
  children : list element
}.
#[local] Set Elimination Schemes.

Inductive message : Type :=
  (** a report made by [BibleOrgSysGlobals.checkXMLNoText] or [checkXMLNoTail] *)
  | XMLCheck (idString location : str)
  (** "Unprocessed {!r} attribute ({}) in {} subelement of {}", codes 5f3d and 8jh6 *)
  | UnprocessedAttribute (code attrib value displayTag location : str)
  (** "Missing chapter ID attribute in {}: {}" *)
  | MissingChapterIDAttribute (location : str) (items : list (str * str))
  (** "Unexpected {} chapter milestone while {} verse milestone is still open at {}" *)
  | ChapterWhileVerseOpen (items : list (str * str)) (verseMilestone location : str)
  (** "Chapter milestone {} end didn't match {} at {}" *)
  | ChapterEndMismatch (eID chapterMilestone location : str)
  (** "Unrecognized chapter milestone in {}: {} at {}" *)
  | UnrecognizedChapterMilestone (location : str) (items : list (str * str))
  (** "Missing chapter ID for {} at {}" *)
  | MissingChapterID (chapterMilestone location : str)
  (** "{} chapter ID seems wrong format for {} at {}" *)
  | ChapterIDWrongFormat (OSISChapterID chapterMilestone location : str)
  (** "{!r} is not a valid OSIS book identifier" *)
  | NotValidOSISBook (identifier : str)
  (** a message of [InternalBible.saveBook] *)
  | FromBible (m : InternalBible.message)
  (** "Invalid combined sID and eID verse attributes in {}: {}" *)
  | CombinedSIDAndEID (location : str) (items : list (str * str))
  (** "Missing verse attributes in {}: {}" *)
  | MissingVerseAttributes (location : str) (items : list (str * str))
  (** "Got a {} verse milestone while {} is still open at {}" *)
  | VerseWhileVerseOpen (sID verseMilestone location : str)
  (** "{!r} verse milestone seems wrong in {!r} chapter milestone at {}" *)
  | VerseWrongInChapterContainer (verseMilestone chapterMilestone location : str)
  (** "This {!r} verse milestone seems wrong in {!r} chapter milestone at {}" *)
  | VerseWrongInChapter (verseMilestone chapterMilestone location : str)
  (** "{!r} verse milestone end didn't match last end milestone {!r} at {}" *)
  | VerseEndMismatch (verseMilestone eID location : str)
  (** "Have {!r} verse end milestone but no verse start milestone encountered at {}" *)
  | VerseEndWithoutStart (eID location : str)
  (** "Unrecognized verse milestone in {}: {}" *)
  | UnrecognizedVerseMilestone (location : str) (items : list (str * str))
  (** "Shouldn't have multiple hyphens in verse milestone {!r}" *)
  | MultipleHyphens (verseMilestone : str)
  (** "Expected three components before hyphen in verse milestone {!r}" *)
  | ThreeComponentsBeforeHyphen (verseMilestone : str)
  (** "Expected three components after hyphen in verse milestone {!r}" *)
  | ThreeComponentsAfterHyphen (verseMilestone : str)
  (** a message of [clean] *)
  | FromClean (m : OSISClean.message).

(** What [BibleBooksCodes.getBBBFromOSIS] returns: one code, or a list of
    alternatives. *)
Inductive codes : Type :=
  | One (BBB : str)
  | Many (alternatives : list str).

(** The variables shared by the functions nested in
    [validateAndExtractBookDiv]: attributes of [self], the [nonlocal]
    variables, [loadErrors], and the log.  [objects] holds the [BibleBook]
    objects created so far; [thisBook] and the values of [books] are
    references into it, so that a saved book and [self.thisBook] can be the
    same object.  [thisBook] is [None] while the attribute is not set. *)
Record state : Type := State {
  bible : InternalBible.t nat;
  objects : list BibleBook.t;
  thisBook : option nat;
  haveBook : bool;
  source : option str;
  BBB : str;
  USFMAbbreviation : option str;
  USFMNumber : option str;
  haveEIDs : bool;
  loadErrors : list message;
  log : list (level * message)
}.

Definition set_bible (st : state) (v : InternalBible.t nat) : state :=
  State v (objects st) (thisBook st) (haveBook st) (source st) (BBB st)
        (USFMAbbreviation st) (USFMNumber st) (haveEIDs st) (loadErrors st) (log st).
Definition set_objects (st : state) (v : list BibleBook.t) : state :=
  State (bible st) v (thisBook st) (haveBook st) (source st) (BBB st)
        (USFMAbbreviation st) (USFMNumber st) (haveEIDs st) (loadErrors st) (log st).
Definition set_haveEIDs (st : state) (v : bool) : state :=
  State (bible st) (objects st) (thisBook st) (haveBook st) (source st) (BBB st)
        (USFMAbbreviation st) (USFMNumber st) v (loadErrors st) (log st).

(** [logging.<level>( m )] *)
Definition logging (l : level) (m : message) (st : state) : state :=
  State (bible st) (objects st) (thisBook st) (haveBook st) (source st) (BBB st)
        (USFMAbbreviation st) (USFMNumber st) (haveEIDs st) (loadErrors st)
        (log st ++ [(l, m)]).

(** [logging.<level>( m )] followed by [loadErrors.append( m )] *)
Definition report (l : level) (m : message) (st : state) : state :=
  State (bible st) (objects st) (thisBook st) (haveBook st) (source st) (BBB st)
        (USFMAbbreviation st) (USFMNumber st) (haveEIDs st) (loadErrors st ++ [m])
        (log st ++ [(l, m)]).

(** The reports of an external check. *)
Definition reports (ms : list (level * message)) (st : state) : state :=
  fold_left (fun st lm => report (fst lm) (snd lm) st) ms st.

(** A method call on [self.thisBook]. *)
Definition onThisBook (f : BibleBook.t -> BibleBook.t) (st : state) : outcome state :=
  match thisBook st with
  | None => Raise AttributeError
  | Some r =>
      match objects st !! r with
      | None => Raise AttributeError
      | Some b => Ok (set_objects st (<[r := f b]> (objects st)))
      end
  end.

(** A method call on [self.thisBook] with an argument that can raise: the
    method is looked up first ([AttributeError] without a book), and the
    argument is evaluated after that. *)
Definition onThisBookWith {A : Type} (argument : outcome A)
    (f : BibleBook.t -> A -> BibleBook.t) (st : state) : outcome state :=
  match thisBook st with
  | None => Raise AttributeError
  | Some r =>
      match objects st !! r with
      | None => Raise AttributeError
      | Some b =>
          a ← argument;
          Ok (set_objects st (<[r := f b a]> (objects st)))
      end
  end.

(** [element.tag[len(self.OSISNameSpace):] if element.tag.startswith(self.OSISNameSpace) else element.tag] *)
Definition displayTag (e : element) : str :=
  if startswith OSISNameSpace (tag e) then slice_from (tag e) (len OSISNameSpace) else tag e.

(** The attributes collected from a chapter element. *)
Record chapterAttributes : Type := ChapterAttributes {
  OSISChapterID : option str;
  c_sID : option str;
  c_eID : option str;
  chapterN : option str;
  canonical : option str;
  chapterTitle : option str
}.

(** The attributes collected from a verse element. *)
Record verseAttributes : Type := VerseAttributes {
  OSISVerseID : option str;
  v_sID : option str;
  v_eID : option str;
  v_n : option str
}.

(** The state when [validateAndExtractBookDiv] starts on a freshly made
    [OSISXMLBible], before a book has been created. *)
Definition initial : state :=
  State InternalBible.init [] None false None [] None None false [] [].

Section Validate.

(** [BibleOrgSysGlobals.debugFlag] *)
Variable debugFlag : bool.
(** [BibleOrgSysGlobals.BibleBooksCodes.getBBBFromOSIS]; [None] stands for
    the [KeyError] that an unknown identifier raises. *)
Variable getBBBFromOSIS : str -> option codes.
Variable getUSFMAbbreviation : str -> option str.
Variable getUSFMNumber : str -> option str.
(** [BibleOrgSysGlobals.checkXMLNoText] and [checkXMLNoTail], called with
    the element, the location and the id string: what they report to the log
    and to [loadErrors], unless they stop the program. *)
Variable checkXMLNoText : element -> str -> str -> outcome (list (level * message)).
Variable checkXMLNoTail : element -> str -> str -> outcome (list (level * message)).
(** [BibleBook.getAssumedBookNames] *)
Variable getAssumedBookNames : BibleBook.t -> list str.
(** [str.lower], [str.upper] and [str.isdigit] *)
Variable lower : str -> str.
Variable upper : str -> str.
Variable isdigit : str -> bool.
(** [mainDivOsisID] of the enclosing [validateAndExtractBookDiv] *)
Variable mainDivOsisID : option str.

(** [if BibleOrgSysGlobals.debugFlag: assert( b )] *)
Definition debug_assert (b : bool) : outcome unit :=
  if debugFlag then assert b else Ok tt.

(** [self.saveBook( self.thisBook )] *)
Definition saveThisBook (st : state) : outcome state :=
  match thisBook st with
  | None => Raise AttributeError
  | Some r =>
      let '(bible, logged) :=
        InternalBible.saveBook
          (fun r => BibleBook.BBB (default (BibleBook.new []) (objects st !! r)))
          (fun r => getAssumedBookNames (default (BibleBook.new []) (objects st !! r)))
          lower (bible st) r in
      Ok (fold_left (fun st lm => logging (fst lm) (FromBible (snd lm)) st) logged
            (set_bible st bible))
  end.

(** One round of [for attrib,value in element.items()] in
    [validateChapterElement]. *)
Definition chapterAttribute (e : element) (location : str)
    (acc : chapterAttributes * state) (item : str * str) : chapterAttributes * state :=
  let '(a, st) := acc in
  let '(attrib, value) := item in
  if str_eqb attrib (py "osisID") then
    (ChapterAttributes (Some value) (c_sID a) (c_eID a) (chapterN a) (canonical a) (chapterTitle a), st)
  else if str_eqb attrib (py "sID") then
    (ChapterAttributes (OSISChapterID a) (Some value) (c_eID a) (chapterN a) (canonical a) (chapterTitle a), st)
  else if str_eqb attrib (py "eID") then
    (ChapterAttributes (OSISChapterID a) (c_sID a) (Some value) (chapterN a) (canonical a) (chapterTitle a), st)
  else if str_eqb attrib (py "n") then
    (ChapterAttributes (OSISChapterID a) (c_sID a) (c_eID a) (Some value) (canonical a) (chapterTitle a), st)
  else if str_eqb attrib (py "canonical") then
    (ChapterAttributes (OSISChapterID a) (c_sID a) (c_eID a) (chapterN a) (Some value) (chapterTitle a), st)
  else if str_eqb attrib (py "chapterTitle") then
    (ChapterAttributes (OSISChapterID a) (c_sID a) (c_eID a) (chapterN a) (canonical a) (Some value), st)
  else
    (a, report Warning (UnprocessedAttribute (py "5f3d") attrib value (displayTag e) location) st).

(** The saving of the previous book in [validateChapterElement] (the body of
    [if BBB and len(self.thisBook._rawLines) > 5]), up to
    [chapterMilestone = verseMilestone = '']. *)
Definition savePreviousBook (st : state) : outcome state :=
  match thisBook st with
  | None => Raise AttributeError
  | Some r =>
      match objects st !! r with
      | None => Raise AttributeError
      | Some b =>
          match last (BibleBook._rawLines b) with
          | None => Raise IndexError
          | Some lastLineTuple =>
              (* [lastLineTuple = self.thisBook._rawLines.pop()], put back
                 unless its marker is 's' *)
              let isS := str_eqb (fst lastLineTuple) (py "s") in
              let b := if isS
                       then BibleBook.Book (BibleBook.BBB b) (removelast (BibleBook._rawLines b))
                       else b in
              let st := set_objects st (<[r := b]> (objects st)) in
              st ← saveThisBook st;
              if isS then
                match (if truthy (USFMAbbreviation st) then USFMAbbreviation st
                       else mainDivOsisID) with
                | None => Raise AttributeError
                | Some name =>
                    st ← onThisBook (fun b => BibleBook.addLine b (py "id")
                           (upper name ++ py " converted to USFM from OSIS by "
                            ++ ProgName ++ py " V" ++ ProgVersion)) st;
                    st ← onThisBook (fun b => BibleBook.addLine b (py "h") name) st;
                    onThisBook (fun b => BibleBook.addLine b (py "mt1") (snd lastLineTuple)) st
                end
              else Ok st
          end
      end
  end.

(** The start of a new book in [validateChapterElement]: from
    [BBB = cmBBB] to [self.haveBook = True]. *)
Definition startBook (cmBBB : str) (st : state) : state :=
  State (bible st) (objects st ++ [BibleBook.new cmBBB]) (Some (length (objects st)))
        true (source st) cmBBB (getUSFMAbbreviation cmBBB) (getUSFMNumber cmBBB)
        (haveEIDs st) (loadErrors st) (log st).

(** The chapter cursor after a milestone: the four-way test on the
    attributes (from [if OSISChapterID and sID and not eID] to the report of
    an unrecognized milestone). *)
Definition chapterCursor (e : element) (a : chapterAttributes)
    (chapterMilestone location : str) (st : state) : outcome (str * state) :=
  if truthy (OSISChapterID a) && truthy (c_sID a) && negb (truthy (c_eID a))
  then Ok (default [] (c_sID a), st)
  else if truthy (c_eID a) && negb (truthy (OSISChapterID a)) && negb (truthy (c_sID a))
  then
    if nonempty chapterMilestone && str_eqb (default [] (c_eID a)) chapterMilestone
    then Ok ([], st)
    else Ok (chapterMilestone,
             report Error (ChapterEndMismatch (default [] (c_eID a))
                             chapterMilestone location) st)
  else if truthy (OSISChapterID a) && negb (truthy (c_sID a) || truthy (c_eID a))
  then
    _ ← debug_assert (match canonical a with
                      | Some c => str_eqb c (py "true")
                      | None => false
                      end);
    Ok (default [] (OSISChapterID a), st)
  else Ok (chapterMilestone,
           report Error (UnrecognizedChapterMilestone location (attrib e)) st).

(** The book code that the chapter ID implies: [cmBBB], from [cmBBB = None]
    to [cmBBB = cmBBB[0]]. *)
Definition chapterBookCode (identifier : str) (st : state) : option codes * state :=
  let '(cmBBB, st) :=
    match getBBBFromOSIS identifier with
    | None => (None, report Critical (NotValidOSISBook identifier) st)
    | Some c => (Some c, st)
    end in
  (match cmBBB with
   | Some (Many (first :: _)) => Some (One first)
   | c => c
   end, st).

(** The body of [if cmBBB and cmBBB != BBB], for a [cmBBB] that passed the
    test.  The [print] that comes first evaluates
    [len(self.thisBook._rawLines)]. *)
Definition chapterNewBook (cmBBB chapterMilestone : str) (st : state)
  : outcome (str * state) :=
  match thisBook st with
  | None => Raise AttributeError
  | Some r =>
      match objects st !! r with
      | None => Raise AttributeError
      | Some b =>
          cs ← (if nonempty (BBB st) && (len (BibleBook._rawLines b) >? 5)
                then st ← savePreviousBook st; Ok ([], st)
                else Ok (chapterMilestone, st));
          Ok (fst cs, startBook cmBBB (snd cs))
      end
  end.

(** The body of [if chapterMilestone] in [validateChapterElement], for a
    chapter milestone that is not empty. *)
Definition chapterOpened (a : chapterAttributes) (chapterMilestone location : str)
    (st : state) : outcome (str * state) :=
  if negb (truthy (OSISChapterID a)) then
    Ok (chapterMilestone, report Error (MissingChapterID chapterMilestone location) st)
  else
    let OSISChapterID := default [] (OSISChapterID a) in
    let st := if negb (count dot OSISChapterID =? 1)
              then report Error (ChapterIDWrongFormat OSISChapterID chapterMilestone location) st
              else st in
    let bits := split dot OSISChapterID in
    _ ← debug_assert (len bits =? 2);
    bits0 ← item bits 0;
    let '(cmBBB, st) := chapterBookCode bits0 st in
    cs ← (match cmBBB with
          | Some (One cmBBB) =>
              if nonempty cmBBB && negb (str_eqb cmBBB (BBB st))
              then chapterNewBook cmBBB chapterMilestone st
              else Ok (chapterMilestone, st)
          | _ => Ok (chapterMilestone, st)
          end);
    let '(chapterMilestone, st) := cs in
    match thisBook st with
    | None => Raise AttributeError
    | Some _ =>
        bits1 ← item bits 1;
        st ← onThisBook (fun b => BibleBook.addLine b (py "c") bits1) st;
        Ok (chapterMilestone, st)
    end.

(** [validateChapterElement( element, chapterMilestone, verseMilestone,
    locationDescription )]: the value returned and the state afterwards. *)
Definition validateChapterElement (e : element)
    (chapterMilestone verseMilestone locationDescription : str) (st : state)
  : outcome (str * state) :=
  let location := py "validateChapterElement: " ++ locationDescription in
  ms ← checkXMLNoText e (location ++ py " at " ++ verseMilestone) (py "s2a8");
  let st := reports ms st in
  ms ← checkXMLNoTail e (location ++ py " at " ++ verseMilestone) (py "j9k7");
  let st := reports ms st in
  let '(a, st) := fold_left (chapterAttribute e location) (attrib e)
                    (ChapterAttributes None None None None None None, st) in
  let st := if truthy (c_sID a) && negb (truthy (OSISChapterID a))
            then report Error (MissingChapterIDAttribute location (attrib e)) st else st in
  if (len (children e) =? 0)
     && (truthy (c_sID a) || truthy (c_eID a) || truthy (OSISChapterID a))
  then
    (* it's a chapter milestone (no sub-elements) *)
    let st := if nonempty verseMilestone && haveEIDs st
              then report Error (ChapterWhileVerseOpen (attrib e) verseMilestone location) st
              else st in
    cs ← chapterCursor e a chapterMilestone location st;
    let '(chapterMilestone, st) := cs in
    if nonempty chapterMilestone
    then chapterOpened a chapterMilestone location st
    else Ok (chapterMilestone, st)
  else
    (* not a milestone -- it's a chapter container *)
    match OSISChapterID a with
    | None => Raise AttributeError
    | Some OSISChapterID =>
        let bits := split dot OSISChapterID in
        _ ← debug_assert ((len bits =? 2) && isdigit (default [] (bits !! 1%nat)));
        Ok (py "chapterContainer." ++ OSISChapterID, st)
    end.

(** One round of [for attrib,value in element.items()] in
    [validateVerseElement]. *)
Definition verseAttribute (e : element) (location : str)
    (acc : verseAttributes * state) (item : str * str) : verseAttributes * state :=
  let '(a, st) := acc in
  let '(attrib, value) := item in
  if str_eqb attrib (py "osisID") then
    (VerseAttributes (Some value) (v_sID a) (v_eID a) (v_n a), st)
  else if str_eqb attrib (py "sID") then
    (VerseAttributes (OSISVerseID a) (Some value) (v_eID a) (v_n a), st)
  else if str_eqb attrib (py "eID") then
    (VerseAttributes (OSISVerseID a) (v_sID a) (Some value) (v_n a), st)
  else if str_eqb attrib (py "n") then
    (VerseAttributes (OSISVerseID a) (v_sID a) (v_eID a) (Some value), st)
  else
    (a, report Warning (UnprocessedAttribute (py "8jh6") attrib value (displayTag e) location) st).

(** The checks made on a start milestone once [verseMilestone = sID]. *)
Definition checkVerseInChapter (verseMilestone chapterMilestone location : str)
    (st : state) : state :=
  let vmBits := split dot verseMilestone in
  let cmBits := split dot chapterMilestone in
  if startswith (py "chapterContainer.") chapterMilestone then
    if negb (startswith (slice_from chapterMilestone 17) verseMilestone)
    then report Error (VerseWrongInChapterContainer verseMilestone chapterMilestone location) st
    else st
  else if negb (strs_eqb (slice vmBits 0 2) (slice cmBits 0 2))
  then report Error (VerseWrongInChapter verseMilestone chapterMilestone location) st
  else st.

(** The text of the 'v' line for an open milestone, with the reports made
    on the way: the part of [validateVerseElement] from
    [if '-' in verseMilestone] to the call of [addLine].  The text is the
    argument of [self.thisBook.addLine]: it is returned unevaluated, since
    Python looks up the method before it evaluates the argument. *)
Definition verseNumber (verseMilestone : str) (st : state)
  : outcome (outcome str * state) :=
  if contains [hyphen] verseMilestone then
    (* Something like Jas.1.7-Jas.1.8 *)
    let chunks := split hyphen verseMilestone in
    let st := if negb (len chunks =? 2)
              then report Error (MultipleHyphens verseMilestone) st else st in
    chunk0 ← item chunks 0;
    let bits1 := split dot chunk0 in
    let st := if negb (len bits1 =? 3)
              then report Error (ThreeComponentsBeforeHyphen verseMilestone) st else st in
    chunk1 ← item chunks 1;
    let bits2 := split dot chunk1 in
    sb ← (if negb (len bits2 =? 3) then
            let st := report Error (ThreeComponentsAfterHyphen verseMilestone) st in
            b0 ← item bits1 0; b1 ← item bits1 1;
            Ok (st, [b0; b1; py "999"])
          else Ok (st, bits2));
    let '(st, bits2) := sb in
    (* [bits1[2]+'-'+bits2[2]] *)
    Ok (v1 ← item bits1 2; v2 ← item bits2 2; Ok (v1 ++ [hyphen] ++ v2), st)
  else
    let bits := split dot verseMilestone in
    _ ← debug_assert (len bits >=? 3);
    (* [bits[2]+' '] *)
    Ok (v ← item bits 2; Ok (v ++ [space]), st).

(** A verse start milestone: the part of [validateVerseElement] under
    [if sID and OSISVerseID and not eID], followed by
    [if verseMilestone: ... return verseMilestone]. *)
Definition verseStart (e : element) (sID verseMilestone chapterMilestone location : str)
    (st : state) : outcome (option str * state) :=
  let st := if nonempty verseMilestone && haveEIDs st
            then report Error (VerseWhileVerseOpen sID verseMilestone location) st
            else st in
  let verseMilestone := sID in
  let st := checkVerseInChapter verseMilestone chapterMilestone location st in
  if nonempty verseMilestone then
    (* have an open milestone *)
    _ ← debug_assert (negb (contains [space] verseMilestone));
    ns ← verseNumber verseMilestone st;
    let '(number, st) := ns in
    (* [self.thisBook.addLine( 'v', number )] *)
    st ← onThisBookWith number (fun b number => BibleBook.addLine b (py "v") number) st;
    let '(vTail, effects) := OSISClean.clean (tail e) None None None in
    let st := fold_left (fun st lm => logging (fst lm) (FromClean (snd lm)) st)
                (OSISClean.log effects) st in
    st ← (if truthy vTail
          then onThisBook (fun b => BibleBook.appendToLastLine b (default [] vTail)) st
          else Ok st);
    Ok (Some verseMilestone, st)
  else
    (* [if BibleOrgSysGlobals.debugFlag: halt], a name that is not defined,
       then the end of the function *)
    if debugFlag then Raise NameError else Ok (None, st).

(** A verse end milestone: the part of [validateVerseElement] under
    [elif eID and not OSISVerseID and not sID]. *)
Definition verseEnd (eID verseMilestone location : str) (st : state)
  : outcome (option str * state) :=
  let st := set_haveEIDs st true in
  let st :=
    if nonempty verseMilestone then
      if str_eqb eID verseMilestone then st
      else report Error (VerseEndMismatch verseMilestone eID location) st
    else report Critical (VerseEndWithoutStart eID location) st in
  (* end milestone closes any open milestone *)
  Ok (Some [], st).

(** A verse container: the last branch of [validateVerseElement]. *)
Definition verseContainer (e : element) (a : verseAttributes)
    (verseMilestone location : str) (st : state) : outcome (option str * state) :=
  ms ← checkXMLNoTail e (location ++ py " at " ++ verseMilestone) (py "s2d4");
  let st := reports ms st in
  match OSISVerseID a with
  | None => Raise AttributeError
  | Some OSISVerseID =>
      let bits := split dot OSISVerseID in
      _ ← debug_assert ((len bits =? 3) && isdigit (default [] (bits !! 1%nat))
                        && isdigit (default [] (bits !! 2%nat)));
      match text e with
      | None => Raise AttributeError
      | Some verseText =>
          if nonempty (strip verseText) then
            let verseText :=
              if match source st with
                 | Some src => str_eqb src (py "ftp://unboundftp.biola.edu/pub/albanian_utf8.zip")
                 | None => false
                 end
              then replace (py "&gt;") (py ">")
                     (replace (py "&lt;") (py "<")
                        (replace (py "&quot;") [34%N] (lstrip verseText)))
              else verseText in
            v ← item bits 2;
            Ok (Some (py "verseContents#" ++ v ++ py "#" ++ verseText), st)
          else
            v ← item bits 2;
            Ok (Some (py "verseContainer." ++ v), st)
      end
  end.

(** [validateVerseElement( element, verseMilestone, chapterMilestone,
    locationDescription )]: the value returned ([None] where the function
    ends without a [return]) and the state afterwards. *)
Definition validateVerseElement (e : element)
    (verseMilestone chapterMilestone locationDescription : str) (st : state)
  : outcome (option str * state) :=
  let location := py "validateVerseElement: " ++ locationDescription in
  let '(a, st) := fold_left (verseAttribute e location) (attrib e)
                    (VerseAttributes None None None None, st) in
  let sID := v_sID a in
  let eID := v_eID a in
  let st := if truthy sID && truthy eID
            then logging Critical (CombinedSIDAndEID location (attrib e)) st else st in
  let st := if truthy sID && negb (truthy (OSISVerseID a))
            then report Error (MissingVerseAttributes location (attrib e)) st else st in
  if (len (children e) =? 0) && (truthy sID || truthy eID) then
    (* it's a milestone (no sub-elements) *)
    _ ← debug_assert (negb (truthy (text e)));
    if truthy sID && truthy (OSISVerseID a) && negb (truthy eID)
    then verseStart e (default [] sID) verseMilestone chapterMilestone location st
    else if truthy eID && negb (truthy (OSISVerseID a)) && negb (truthy sID)
    then verseEnd (default [] eID) verseMilestone location st
    else
      (* [logging.critical], [print], then [halt], a name that is not defined *)
      Raise NameError
  else
    (* not a milestone -- it's verse container *)
    verseContainer e a verseMilestone location st.

End Validate.

End OSISXMLBible.

(* --------------------------------------------------------------------- *)
(** ** The notions of the statements *)
(* --------------------------------------------------------------------- *)

(** *** Marker lines and cleaned strings *)

(** The characters at which a marker ends. *)
Definition terminator (c : char) : Prop :=
  c = space \/ c = asterisk \/ c = backslash.

(** A marker token: none of its characters ends a marker. *)
Definition plain (m : str) : Prop := Forall (fun c => ~ terminator c) m.

Abbreviation two_spaces := [space; space] (only parsing).

(** The characters that [clean] drops at the end of a string. *)
Definition newline (c : N) : Prop := c = LF \/ c = CR.

(** *** The state of the OSIS loader *)

Section LoaderNotions.

Import OSISXMLBible.

(** A diagnostic is both logged and appended to [loadErrors]. *)
Definition reported (l : level) (m : message) (st : state) : Prop :=
  m ∈ loadErrors st /\ (l, m) ∈ log st.

(** The fields of the state that a report leaves alone. *)
Definition same_books (st st' : state) : Prop :=
  bible st' = bible st /\ objects st' = objects st /\ thisBook st' = thisBook st /\
  BBB st' = BBB st /\ USFMAbbreviation st' = USFMAbbreviation st /\
  haveEIDs st' = haveEIDs st.

Variable mainDivOsisID : option str.

(** The name that the 'id' and 'h' lines need is there when the last line of
    the book is an 's' line. *)
Definition name_available (st : state) (b : BibleBook.t) : Prop :=
  forall t, last (BibleBook._rawLines b) = Some (py "s", t) ->
    exists name,
      (if OSISClean.truthy (USFMAbbreviation st) then USFMAbbreviation st else mainDivOsisID)
      = Some name.

(** What a chapter milestone of another book leaves behind: a new book that
    holds the 'c' line only, and the previous book registered or not. *)
Definition new_book_started (cmBBB chap : str) (r : nat) (b : BibleBook.t)
    (st st' : state) : Prop :=
  thisBook st' = Some (length (objects st)) /\
  objects st' !! length (objects st)
    = Some (BibleBook.addLine (BibleBook.new cmBBB) (py "c") chap) /\
  BBB st' = cmBBB /\
  (BBB st <> [] -> 5 < len (BibleBook._rawLines b) ->
   InternalBible.books (bible st')
   = OD.set (BibleBook.BBB b) r (InternalBible.books (bible st))) /\
  (BBB st = [] \/ len (BibleBook._rawLines b) <= 5 ->
   InternalBible.books (bible st') = InternalBible.books (bible st)).

End LoaderNotions.

(** *** Verse ranges *)

(** The sID of a range: two dotted book.chapter.verse identifiers joined by
    a hyphen. *)
Definition rangeID (b1 c1 v1 b2 c2 v2 : str) : str :=
  (b1 ++ dot :: c1 ++ dot :: v1) ++ hyphen :: (b2 ++ dot :: c2 ++ dot :: v2).

(** A component of an identifier: it holds no dot and no hyphen. *)
Definition component (s : str) : Prop := Forall (fun c => c <> dot /\ c <> hyphen) s.

(** [vTail = clean(element.tail)] and
    [if vTail: self.thisBook.appendToLastLine( vTail )], on the book [b]. *)
Definition with_tail (tail : option str) (b : BibleBook.t) : BibleBook.t :=
  let vTail := fst (OSISClean.clean tail None None None) in
  if OSISClean.truthy vTail then BibleBook.appendToLastLine b (default [] vTail) else b.

(** *** The dictionaries of an [InternalBible] *)

Section BibleNotions.

Import InternalBible.

Context {B : Type}.

(** What a scanning tier that returns a code has done to the
    dictionaries. *)
Definition learnt (self self' : t B) (adjRefString BBB : str) : Prop :=
  combinedBookNameDict self' = combinedBookNameDict self /\
  bookAbbrevDict self' !! adjRefString = Some BBB.

(** No book of the Bible has the feature. *)
Definition absent (feature : B -> refs) (books : list (str * B)) : Prop :=
  Forall (fun kb => feature (snd kb) = []) books.

End BibleNotions.

(** The list below a key of an error dictionary; empty when the key is not
    there. *)
Definition listAt (k : str) (total : list (str * InternalBible.value))
  : list InternalBible.entry :=
  match OD.get k total with
  | Some (InternalBible.List l) => l
  | _ => []
  end.

Section RollUpNotions.

Import InternalBible.

Context {B : Type}.
Variable bookGetErrors : B -> list (str * value).
Variable givenBookList : option (list str).
(** a category of error lists *)
Variable k : str.

(** What a book adds to the list of the category [k]. *)
Definition contribution (item : str * B) : list entry :=
  if given givenBookList (fst item)
  then match OD.get k (bookGetErrors (snd item)) with
       | Some v => iterate v
       | None => []
       end
  else [].

(** The book is among the given ones and has the category [k]. *)
Definition contributes (item : str * B) : bool :=
  given givenBookList (fst item) && OD.mem k (bookGetErrors (snd item)).

(** What the first loop stores in [errors['ByBook']]. *)
Definition stored (byBook : list (str * list (str * value))) (books : list (str * B)) :=
  fold_left (fun d item =>
               if given givenBookList (fst item)
               then OD.set (fst item) (bookGetErrors (snd item)) d else d)
            books byBook.

End RollUpNotions.

(** *** The structure of the error dictionaries *)

Section ShapeNotions.

Import InternalBible.

(** The structure that the docstring of [getErrors] gives to the error
    dictionary of a book: keys ending in 'Errors' give lists, the other keys
    give subkeys; below them the keys of lists give lists and the keys
    ending in 'Counts' give counts. *)
Definition shaped_sub (item : str * sub) : bool :=
  if list_key (fst item)
  then match snd item with SubList _ => true | SubCounts _ => false end
  else if endswith (py "Counts") (fst item)
       then match snd item with SubList _ => false | SubCounts _ => true end
       else true.

Definition shaped_value (item : str * value) : bool :=
  if endswith (py "Errors") (fst item)
  then match snd item with List _ => true | Dict _ => false end
  else negb (list_key (fst item)) && negb (endswith (py "Counts") (fst item)) &&
       match snd item with List _ => false | Dict d => forallb shaped_sub d end.

Definition shaped (d : list (str * value)) : bool := forallb shaped_value d.

(** The structure of the totals: what is below a key of the second level,
    and below a key of the first level. *)
Definition sub_ok (key : str) (v : sub) : Prop :=
  if list_key key then exists l, v = SubList l else exists c, v = SubCounts c.

Definition typed_sub (d : list (str * sub)) : Prop :=
  forall key v, OD.get key d = Some v -> sub_ok key v.

Definition val_ok (key : str) (v : value) : Prop :=
  if endswith (py "Errors") key then exists l, v = List l
  else exists d, v = Dict d /\ typed_sub d.

Definition typed (total : list (str * value)) : Prop :=
  forall key v, OD.get key total = Some v -> val_ok key v.

Definition well_typed (e : errors) : Prop :=
  typed (allBooks e) /\ typed (byCategory e).

(** No key is lost from [d] to [d']. *)
Definition keeps {V : Type} (d d' : list (str * V)) : Prop :=
  forall key, OD.mem key d = true -> OD.mem key d' = true.

(** The categories of error lists of the book dictionary [d] are in
    [errors['ByCategory']]. *)
Definition ready (d cat : list (str * value)) : Prop :=
  forall key, endswith (py "Errors") key = true -> OD.mem key d = true ->
              OD.mem key cat = true.

End ShapeNotions.

(** *** The first category of [errors['ByCategory']] *)

Section PriorityNotions.

Import InternalBible.

(** The dictionary of a book holds no priority error. *)
Definition no_priority_errors (d : list (str * value)) : Prop :=
  forall v, (py "Priority Errors", v) ∈ d -> iterate v = [].

(** 'Priority Errors' is the first category, it is empty, and it is not the
    last one. *)
Definition priority_first_and_empty (cat : list (str * value)) : Prop :=
  exists rest, cat = (py "Priority Errors", List []) :: rest /\ rest <> [].

(** The dictionaries of the books that [errors['ByBook']] holds have no
    priority error. *)
Definition without_priority_errors (byBook : list (str * list (str * value))) : Prop :=
  forall BBB d, (BBB, d) ∈ byBook -> no_priority_errors d.

End PriorityNotions.

(* --------------------------------------------------------------------- *)
(** ** The inputs of the examples *)
(* --------------------------------------------------------------------- *)

(** A Bible whose book in progress is Genesis, with the given lines. *)
Definition genesis_in_progress (lines : list (str * str)) : OSISXMLBible.state :=
  OSISXMLBible.State InternalBible.init [BibleBook.Book (py "GEN") lines] (Some 0%nat)
    true None (py "GEN") (Some (py "GEN")) (Some (py "01")) false [] [].

(** [getBBBFromOSIS] for a table that knows Exodus only. *)
Definition exodus_only (s : str) : option OSISXMLBible.codes :=
  if str_eqb s (py "Exo") then Some (OSISXMLBible.One (py "EXO")) else None.

(** The chapter start milestone of Exodus 1. *)
Definition exodus_milestone : OSISXMLBible.element :=
  OSISXMLBible.Element (py "chapter") [(py "osisID", py "Exo.1"); (py "sID", py "Exo.1")]
    None None [].

(** Six lines of Genesis. *)
Definition six_lines : list (str * str) :=
  [(py "id", py "GEN"); (py "c", py "1"); (py "v", py "1 a"); (py "v", py "2 b");
   (py "v", py "3 c"); (py "v", py "4 d")].

(** A Bible whose book in progress is James, open at chapter 1. *)
Definition james_in_progress : OSISXMLBible.state :=
  OSISXMLBible.State InternalBible.init [BibleBook.Book (py "JAS") [(py "c", py "1")]]
    (Some 0%nat) true None (py "JAS") (Some (py "JAS")) (Some (py "60")) false [] [].

(** A verse start milestone with the given sID. *)
Definition verse_milestone (sID : str) (tail : option str) : OSISXMLBible.element :=
  OSISXMLBible.Element (py "verse") [(py "osisID", py "Jas.1.7"); (py "sID", sID)]
    None tail [].

(** A Bible that knows the name of Genesis. *)
Definition genesis_names : InternalBible.t unit :=
  InternalBible.Bible [] {[py "GEN" := py "Genesis"]} {[py "genesis" := py "GEN"]}
    {[py "genesis" := py "GEN"]} ∅ ∅ [].

(** [getBBB] for a table without codes, and for one that knows GEN only. *)
Definition no_code (_ : str) : option str := None.

Definition only_GEN (s : str) : option str :=
  if str_eqb s (py "GEN") then Some (py "GEN") else None.

(** A Bible with one book, which has section headings and no other added
    unit, and a versification without omitted, combined or reordered
    verses. *)
Definition one_book : InternalBible.t unit :=
  InternalBible.Bible [(py "GEN", tt)] ∅ ∅ ∅ ∅ ∅ [].

(** What the book gives for its versification and for its added units. *)
Definition plain_versification (_ : unit)
  : InternalBible.refs * InternalBible.refs * InternalBible.refs * InternalBible.refs :=
  ([(py "1", py "31")], [], [], []).

Definition headings_only (_ : unit)
  : InternalBible.refs * InternalBible.refs * InternalBible.refs * InternalBible.refs
    * InternalBible.refs :=
  ([], [], [(py "1", py "0")], [], []).

(** Two books with load errors; Exodus has counts of its markers too. *)
Definition two_books : InternalBible.t (list (str * InternalBible.value)) :=
  InternalBible.Bible
    [(py "GEN",
      [(py "Load Errors",
        InternalBible.List [InternalBible.Message (py "GEN 1:1 Missing space");
                            InternalBible.Message (py "GEN 2:4 Empty line")])]);
     (py "EXO",
      [(py "Load Errors",
        InternalBible.List [InternalBible.Message (py "EXO 3:2 Unknown marker")]);
       (py "SFMs",
        InternalBible.Dict
          [(py "Newline Marker Errors",
            InternalBible.SubList [InternalBible.Message (py "EXO 1:1 Unexpected p")]);
           (py "All Newline Marker Counts",
            InternalBible.SubCounts [(py "v", 22); (py "p", 3)])])])]
    ∅ ∅ ∅ ∅ ∅ [].

(** What the two loops of [getErrors] make of them. *)
Definition two_books_errors : InternalBible.errors :=
  Eval vm_compute in
    match InternalBible.combineErrors true id two_books None with
    | Ok e => e
    | Raise _ => InternalBible.set_up
    end.

(* --------------------------------------------------------------------- *)
(** ** Further notions: USFM files *)
(* --------------------------------------------------------------------- *)

(** A line of the file that [USFMFile.read] discards: a blank line, or a
    comment line. *)
Definition discarded (line : str) : Prop :=
  line = [LF] \/ exists rest, line = hash :: rest.

(** Two runs of the loop of [USFMFile.read] that are past their first line
    and hold the same entries and the same last marker. *)
Definition same_entries (st st' : USFMFile.locals) : Prop :=
  USFMFile.result st = USFMFile.result st' /\
  USFMFile.marker st = USFMFile.marker st' /\
  1 <= USFMFile.lineCount st /\ 1 <= USFMFile.lineCount st'.

(** The outcome of a round, compared between two runs. *)
Definition alike (a b : outcome USFMFile.locals) : Prop :=
  match a, b with
  | Ok sa, Ok sb => same_entries sa sb
  | Raise ea, Raise eb => ea = eb
  | _, _ => False
  end.

(** The lines of a text file, as iterating over it yields them: each with
    its newline. *)
Definition file_of (lines : list str) : list USFMFile.fetched :=
  (fun line => USFMFile.Line (line ++ [LF])) <$> lines.

(* --------------------------------------------------------------------- *)
(** ** USFXXMLBible.py: [clean] *)
(* --------------------------------------------------------------------- *)

Module USFXXMLBible.

(** [clean( elementText )]: the function ends without a [return] when the
    text is [None]. *)
Definition clean (elementText : option str) : option str :=
  match elementText with
  | Some elementText =>
      Some (replace [CR] [space]
              (replace [LF] [space] (replace [CR; LF] [space] (strip elementText))))
  | None => None
  end.

End USFXXMLBible.

(** A string with no white space at either end. *)
Definition trimmed (s : str) : Prop :=
  match head s with Some x => isspace x = false | None => True end /\
  match last s with Some y => isspace y = false | None => True end.

(* --------------------------------------------------------------------- *)
(** ** InternalBible.py: the container methods and [t] *)
(* --------------------------------------------------------------------- *)

Module BibleAccess.

Import InternalBible.

Definition ShortProgName : str := py "InternalBible".
Definition debuggingThisModule : bool := false.

Definition OT39BookList : list str :=
  [py "GEN"; py "EXO"; py "LEV"; py "NUM"; py "DEU"; py "JOS"; py "JDG"; py "RUT";
   py "SA1"; py "SA2"; py "KI1"; py "KI2"; py "CH1"; py "CH2"; py "EZR"; py "NEH";
   py "EST"; py "JOB"; py "PSA"; py "PRO"; py "ECC"; py "SNG"; py "ISA"; py "JER";
   py "LAM"; py "EZE"; py "DAN"; py "HOS"; py "JOL"; py "AMO"; py "OBA"; py "JNA";
   py "MIC"; py "NAH"; py "HAB"; py "ZEP"; py "HAG"; py "ZEC"; py "MAL"].

Definition NT27BookList : list str :=
  [py "MAT"; py "MRK"; py "LUK"; py "JHN"; py "ACT"; py "ROM"; py "CO1"; py "CO2";
   py "GAL"; py "EPH"; py "PHP"; py "COL"; py "TH1"; py "TH2"; py "TI1"; py "TI2";
   py "TIT"; py "PHM"; py "HEB"; py "JAM"; py "PE1"; py "PE2"; py "JN1"; py "JN2";
   py "JN3"; py "JDE"; py "REV"].

(** [s.split( sep, 1 )] unpacked into two names: the parts before and after
    the first occurrence of [sep]; [None] stands for the [ValueError] of the
    unpacking when [sep] does not occur. *)
Fixpoint split_once (sep s : str) : option (str * str) :=
  if startswith sep s then Some ([], drop (length sep) s)
  else match s with
       | [] => None
       | x :: s' =>
           match split_once sep s' with
           | Some (before, after) => Some (x :: before, after)
           | None => None
           end
       end.

Section T.

(** [BibleOrgSysGlobals.debugFlag] and the translation function [_] *)
Variable debugFlag : bool.
Variable translate : str -> str.

(** [t( messageString )] *)
Definition t (messageString : str) : str :=
  let '(nameBit, errorBit) :=
    match split_once (py ": ") messageString with
    | Some bits => bits
    | None => ([], messageString)
    end in
  let nameBit :=
    if debugFlag || debuggingThisModule
    then ShortProgName ++ (if nonempty nameBit then py "." else []) ++ nameBit ++ py ": "
    else nameBit in
  nameBit ++ translate errorBit.

End T.

Inductive message : Type :=
  (** "__len__ result is unreliable because all books not loaded!" *)
  | LenUnreliable
  (** "__iter__ result is unreliable because all books not loaded!" *)
  | IterUnreliable
  (** "containsAnyOT39Books result is unreliable because all books not loaded!" *)
  | OT39Unreliable
  (** "containsAnyNT27Books result is unreliable because all books not loaded!" *)
  | NT27Unreliable
  (** "getBookList result is unreliable because all books not loaded!" *)
  | BookListUnreliable.

(** What [self[keyIndex]] is given: an integer or a string. *)
Inductive keyIndex : Type :=
  | Index (i : Z)
  | Code (BBB : str).

Section Methods.

Context {B : Type}.
(** [BibleOrgSysGlobals.debugFlag] and [self.loadedAllBooks] *)
Variable debugFlag : bool.
Variable loadedAllBooks : bool.

(** [if BibleOrgSysGlobals.debugFlag and not self.loadedAllBooks: logging.critical( ... )] *)
Definition unreliable (m : message) : list (level * message) :=
  if debugFlag && negb loadedAllBooks then [(Critical, m)] else [].

(** [__len__( self )]: the value and what is logged. *)
Definition __len__ (self : InternalBible.t B) : Z * list (level * message) :=
  (len (books self), unreliable LenUnreliable).

(** [__contains__( self, BBB )] *)
Definition __contains__ (self : InternalBible.t B) (BBB : str) : outcome bool :=
  _ ← (if debugFlag then assert (len BBB =? 3) else Ok tt);
  Ok (OD.mem BBB (books self)).

(** [l[i]] for a Python index: a negative index counts from the end. *)
Definition index {A} (l : list A) (i : Z) : outcome A :=
  let i := if i <? 0 then i + len l else i in
  if i <? 0 then Raise IndexError
  else match l !! Z.to_nat i with
       | Some a => Ok a
       | None => Raise IndexError
       end.

(** [__getitem__( self, keyIndex )]: [None] where the function ends without
    a [return]. *)
Definition __getitem__ (self : InternalBible.t B) (key : keyIndex) : outcome (option B) :=
  match key with
  | Index i => item ← index (books self) i; Ok (Some (snd item))
  | Code BBB =>
      if len BBB =? 3 then
        match OD.get BBB (books self) with
        | Some book => Ok (Some book)
        | None => Raise KeyError
        end
      else Ok None
  end.

(** [__iter__( self )]: the books that the generator yields, in order. *)
Definition __iter__ (self : InternalBible.t B) : outcome (list B) * list (level * message) :=
  (for_each (fun (yielded : list B) (BBB : str) =>
               match OD.get BBB (books self) with
               | Some book => Ok (yielded ++ [book])
               | None => Raise KeyError
               end)
            (OD.keys (books self)) [],
   unreliable IterUnreliable).

(** [for BBB in bookList: if BBB in self: return True], then [return False] *)
Fixpoint containsAny (self : InternalBible.t B) (bookList : list str) : outcome bool :=
  match bookList with
  | [] => Ok false
  | BBB :: rest =>
      found ← __contains__ self BBB;
      if (found : bool) then Ok true else containsAny self rest
  end.

(** [containsAnyOT39Books( self )] and [containsAnyNT27Books( self )] *)
Definition containsAnyOT39Books (self : InternalBible.t B)
  : outcome bool * list (level * message) :=
  (containsAny self OT39BookList, unreliable OT39Unreliable).
Definition containsAnyNT27Books (self : InternalBible.t B)
  : outcome bool * list (level * message) :=
  (containsAny self NT27BookList, unreliable NT27Unreliable).

(** [getBookList( self )] *)
Definition getBookList (self : InternalBible.t B) : list str * list (level * message) :=
  (OD.keys (books self), unreliable BookListUnreliable).

End Methods.

(** An [InternalBibleEntry], as [getVerseText] reads it. *)
Record InternalBibleEntry : Type := Entry {
  getMarker : str;
  getCleanText : str;
  getOriginalText : str
}.

(** "InternalBible.getVerseText Unknown marker {}={}" *)
Inductive textMessage : Type :=
  | UnknownMarker (marker cleanText : str).

(** The variables of the loop of [getVerseText], and what it logs. *)
Record textLocals : Type := TextLocals {
  verseText : str;
  firstWord : bool;
  warnings : list (level * textMessage)
}.

(** The symbols of [getVerseText]: the not sign of the end markers, the yen
    sign, the pilcrow, the subscripts one to four and the section sign. *)
Definition NOT_SIGN : char := 172%N.
Definition YEN : char := 165%N.
Definition PILCROW : char := 182%N.
Definition SUB1 : char := 8321%N.
Definition SUB2 : char := 8322%N.
Definition SUB3 : char := 8323%N.
Definition SUB4 : char := 8324%N.
Definition SECTION_SIGN : char := 167%N.

(** [verseText += s] *)
Definition add_text (st : textLocals) (s : str) : textLocals :=
  TextLocals (verseText st ++ s) (firstWord st) (warnings st).

(** One round of [for entry in verseData] in [getVerseText]. *)
Definition verseTextEntry (fullTextFlag : bool) (st : textLocals)
    (entry : InternalBibleEntry) : outcome textLocals :=
  let marker := getMarker entry in
  let cleanText := if fullTextFlag then getOriginalText entry else getCleanText entry in
  marker0 ← item marker 0;
  if N.eqb marker0 NOT_SIGN then Ok st (* Ignore end markers *)
  else if str_eqb marker (py "c") then Ok st
  else if str_eqb marker (py "c~") then Ok st
  else if str_eqb marker (py "c#") then Ok st
  else if str_eqb marker (py "s1") then Ok (add_text st ([YEN] ++ cleanText ++ [YEN]))
  else if str_eqb marker (py "p") then Ok (add_text st ([PILCROW] ++ cleanText))
  else if str_eqb marker (py "q1") then Ok (add_text st ([SUB1] ++ cleanText))
  else if str_eqb marker (py "q2") then Ok (add_text st ([SUB2] ++ cleanText))
  else if str_eqb marker (py "q3") then Ok (add_text st ([SUB3] ++ cleanText))
  else if str_eqb marker (py "q4") then Ok (add_text st ([SUB4] ++ cleanText))
  else if str_eqb marker (py "m") then Ok (add_text st ([SECTION_SIGN] ++ cleanText))
  else if str_eqb marker (py "v") then Ok (TextLocals (verseText st) true (warnings st))
  else if str_eqb marker (py "v~") then Ok (add_text st cleanText)
  else if str_eqb marker (py "p~") then Ok (add_text st cleanText)
  else if str_eqb marker (py "vw") then
    let st := if negb (firstWord st) then add_text st [space] else st in
    Ok (TextLocals (verseText st ++ cleanText) false (warnings st))
  else
    Ok (TextLocals (verseText st) (firstWord st)
          (warnings st ++ [(Warning, UnknownMarker marker cleanText)])).

Section VerseText.

Context {R C : Type}.
(** [self.getContextVerseData( BCVReference )]: the verse data with its
    context, or [None] when there is no information for the book. *)
Variable getContextVerseData : R -> outcome (option (list InternalBibleEntry * C)).

(** [getVerseText( self, BCVReference, fullTextFlag )]: the value ([None]
    where the function ends without a [return]) and what is logged. *)
Definition getVerseText (BCVReference : R) (fullTextFlag : bool)
  : outcome (option str * list (level * textMessage)) :=
  result ← getContextVerseData BCVReference;
  match result with
  | Some (verseData, context) =>
      st ← for_each (verseTextEntry fullTextFlag) verseData (TextLocals [] false []);
      Ok (Some (verseText st), warnings st)
  | None => Ok (None, [])
  end.

End VerseText.

End BibleAccess.

(* --------------------------------------------------------------------- *)
(** ** Further notions: the text of a verse *)
(* --------------------------------------------------------------------- *)

(** [sep.join( words )] *)
Fixpoint join (sep : str) (words : list str) : str :=
  match words with
  | [] => []
  | w :: rest =>
      match rest with
      | [] => w
      | _ :: _ => w ++ sep ++ join sep rest
      end
  end.

(** The text of an entry that [getVerseText] is asked for. *)
Definition shown (fullTextFlag : bool) (entry : BibleAccess.InternalBibleEntry) : str :=
  if fullTextFlag then BibleAccess.getOriginalText entry
  else BibleAccess.getCleanText entry.

(** The entries that [getVerseText] passes over: the end markers and the
    lines of the chapter number. *)
Definition passed_over (entry : BibleAccess.InternalBibleEntry) : Prop :=
  head (BibleAccess.getMarker entry) = Some BibleAccess.NOT_SIGN \/
  BibleAccess.getMarker entry = py "c" \/
  BibleAccess.getMarker entry = py "c~" \/
  BibleAccess.getMarker entry = py "c#".

(* --------------------------------------------------------------------- *)
(** ** Further notions: the error dictionaries *)
(* --------------------------------------------------------------------- *)

Section ErrorNotions.

Import InternalBible.

(** The two views of a category of error lists hold the same list. *)
Definition agree (k : str) (e : errors) : Prop :=
  OD.get k (byCategory e) = OD.get k (allBooks e) /\
  exists l, OD.get k (allBooks e) = Some (List l).

(** What a round leaves alone at [k], in both views. *)
Definition untouched (k : str) (e e' : errors) : Prop :=
  OD.get k (allBooks e') = OD.get k (allBooks e) /\
  OD.get k (byCategory e') = OD.get k (byCategory e).

(** A key of the first level that [getErrors] cannot combine: it ends with
    'Counts', 'List' or 'Lines' and not with 'Errors'. *)
Definition uncombinable (key : str) : bool :=
  negb (endswith (py "Errors") key) &&
  (endswith (py "Counts") key || endswith (py "List") key || endswith (py "Lines") key).

(** No category is a key of lists that does not end with 'Errors'. *)
Definition no_list_category (cat : list (str * value)) : Prop :=
  forall key, list_key key = true -> endswith (py "Errors") key = false ->
              OD.get key cat = None.

End ErrorNotions.

Section CountNotions.

Import InternalBible.

(** The count that a dictionary of the second level holds for [something]
    below [secondKey], and the one that a dictionary of the first level holds
    below [firstKey] and [secondKey]. *)
Definition sub_count (secondKey something : str) (below : list (str * sub)) : option Z :=
  match OD.get secondKey below with
  | Some (SubCounts counts) => OD.get something counts
  | _ => None
  end.

Definition countAt (firstKey secondKey something : str) (d : list (str * value))
  : option Z :=
  match OD.get firstKey d with
  | Some (Dict below) => sub_count secondKey something below
  | _ => None
  end.

(** The counts that the given books have for [something], in the order of
    [self.books]. *)
Definition counts_of {B : Type} (bookGetErrors : B -> list (str * value))
    (givenBookList : option (list str)) (firstKey secondKey something : str)
    (books : list (str * B)) : list Z :=
  omap (fun item =>
          if given givenBookList (fst item)
          then countAt firstKey secondKey something (bookGetErrors (snd item))
          else None)
       books.

(** The total of the counts of the books: there is none without a book. *)
Definition total_of (counts : list Z) : option Z :=
  match counts with
  | [] => None
  | _ :: _ => Some (foldr Z.add 0 counts)
  end.

(** A total after the count of one more book. *)
Definition merged (total new : option Z) : option Z :=
  match new with
  | None => total
  | Some n => Some (match total with Some m => m + n | None => n end)
  end.

(** The dictionaries of a book have distinct keys at each of their three
    levels, as Python dictionaries do. *)
Definition distinct_sub (item : str * sub) : Prop :=
  match snd item with
  | SubCounts counts => OD.wf counts
  | SubList _ => True
  end.

Definition distinct_value (item : str * value) : Prop :=
  match snd item with
  | Dict below => OD.wf below /\ Forall distinct_sub below
  | List _ => True
  end.

Definition distinct_keys (d : list (str * value)) : Prop :=
  OD.wf d /\ Forall distinct_value d.

End CountNotions.
(* --------------------------------------------------------------------- *)
(** ** Further notions: the OSIS loader *)
(* --------------------------------------------------------------------- *)

(** The three lines that [validateChapterElement] makes of the section
    heading that ended the previous book: [name] is the USFM abbreviation,
    or [mainDivOsisID], and [title] the text of the heading. *)
Definition title_lines (upper : str -> str) (name title : str) : list (str * str) :=
  [(py "id", upper name ++ py " converted to USFM from OSIS by "
             ++ OSISXMLBible.ProgName ++ py " V" ++ OSISXMLBible.ProgVersion);
   (py "h", name);
   (py "mt1", title)].

(** The book that [self.thisBook] refers to, if the attribute is set. *)
Definition book_in_progress (st : OSISXMLBible.state) : option BibleBook.t :=
  r ← OSISXMLBible.thisBook st; OSISXMLBible.objects st !! r.

(** The value that a loop over [element.items()] leaves in the variable of
    the attribute [name]: the value of its last occurrence, [None] when
    there is none. *)
Definition attribute_in (name : str) (items : list (str * str)) : option str :=
  snd <$> last (List.filter (fun item => str_eqb (fst item) name) items).

Definition attribute (name : str) (e : OSISXMLBible.element) : option str :=
  attribute_in name (OSISXMLBible.attrib e).

(* --------------------------------------------------------------------- *)
(** ** The inputs of further examples *)
(* --------------------------------------------------------------------- *)

(** The first lines of Genesis, without their newlines. *)
Definition genesis_lines : list str :=
  [py "\id GEN"; py "\c 1"; py "\v 1 In the beginning"].

(** A Bible whose only book has counts at the first level of its error
    dictionary. *)
Definition counts_at_top : InternalBible.t (list (str * InternalBible.value)) :=
  InternalBible.Bible [(py "GEN", [(py "Word Counts", InternalBible.Dict [])])]
    ∅ ∅ ∅ ∅ ∅ [].

(** Genesis in progress, ending with the section heading that is the title
    of Exodus. *)
Definition genesis_then_title : list (str * str) :=
  six_lines ++ [(py "s", py "The Second Book of Moses")].

(** Two books with counts of their markers. *)
Definition two_books_counts : InternalBible.t (list (str * InternalBible.value)) :=
  InternalBible.Bible
    [(py "GEN",
      [(py "SFMs",
        InternalBible.Dict
          [(py "All Newline Marker Counts",
            InternalBible.SubCounts [(py "v", 31); (py "p", 5)])])]);
     (py "EXO",
      [(py "Load Errors",
        InternalBible.List [InternalBible.Message (py "EXO 3:2 Unknown marker")]);
       (py "SFMs",
        InternalBible.Dict
          [(py "Newline Marker Errors",
            InternalBible.SubList [InternalBible.Message (py "EXO 1:1 Unexpected p")]);
           (py "All Newline Marker Counts",
            InternalBible.SubCounts [(py "v", 22); (py "p", 3)])])])]
    ∅ ∅ ∅ ∅ ∅ [].

(** [getBBBFromOSIS] for a table that knows Genesis only, and the chapter
    milestones that open and close Genesis 2. *)
Definition genesis_only (s : str) : option OSISXMLBible.codes :=
  if str_eqb s (py "Gen") then Some (OSISXMLBible.One (py "GEN")) else None.

Definition genesis_2_start : OSISXMLBible.element :=
  OSISXMLBible.Element (py "chapter") [(py "osisID", py "Gen.2"); (py "sID", py "Gen.2")]
    None None [].

Definition genesis_2_end : OSISXMLBible.element :=
  OSISXMLBible.Element (py "chapter") [(py "eID", py "Gen.2")] None None [].
(** ** The inputs of the examples: a Bible with an error in every category *)






(* ===================================================================== *)
(** * Part II: properties *)
(* ===================================================================== *)

Example splitMarkerText_space :
  USFMFile.splitMarkerText (py "\v 1 In the beginning") = Ok (Some (py "v"), py "1 In the beginning").
Proof. reflexivity. Qed.

Example splitMarkerText_star :
  USFMFile.splitMarkerText (py "\nd*rest") = Ok (Some (py "nd*"), py "rest").
Proof. reflexivity. Qed.

Example splitMarkerText_backslash :
  USFMFile.splitMarkerText (py "\p\v 1") = Ok (Some (py "p"), py "\v 1").
Proof. reflexivity. Qed.

Example read_scenario_1 :
  USFMFile.read USFMFile.ascii_lower 2
    [USFMFile.Line (py "\id GEN" ++ [LF]); USFMFile.Line [LF];
     USFMFile.Line (py "# note" ++ [LF]); USFMFile.Line (py "\mt Genesis" ++ [LF])]
    (py "f.sfm") None None
  = Ok ([(py "id", py "GEN"); (py "mt", py "Genesis")], []).
Proof. reflexivity. Qed.

(** ** Facts about the string operations *)

Section PyFacts.

Lemma len_app {A} (a b : list A) : len (a ++ b) = len a + len b.
Proof. unfold len. rewrite length_app. lia. Qed.

Lemma len_nonneg {A} (a : list A) : 0 <= len a.
Proof. unfold len. lia. Qed.

Lemma find_range c s : find c s = -1 \/ (0 <= find c s < len s).
Proof.
  induction s as [|x s IH]; simpl; [by left|].
  destruct (N.eqb x c).
  - right. unfold len. simpl. lia.
  - destruct (Z.eqb_spec (find c s) (-1)) as [E|E]; [by left|].
    right. unfold len in *. simpl. lia.
Qed.

(** Searching past a prefix that does not hold the character. *)
Lemma find_app_skip c m t :
  Forall (fun x => x <> c) m ->
  find c (m ++ t) = if find c t =? -1 then -1 else len m + find c t.
Proof.
  induction 1 as [|x m Hx _ IH]; simpl.
  - destruct (Z.eqb_spec (find c t) (-1)); unfold len; simpl; lia.
  - destruct (N.eqb_spec x c) as [->|_]; [done|].
    rewrite IH. pose proof (find_range c t) as Hr.
    destruct (Z.eqb_spec (find c t) (-1)) as [E|E]; [done|].
    pose proof (len_nonneg m).
    destruct (Z.eqb_spec (len m + find c t) (-1)); [lia|].
    unfold len. simpl length. lia.
Qed.

Lemma find_app_here c m t :
  Forall (fun x => x <> c) m -> find c (m ++ c :: t) = len m.
Proof.
  intros H. rewrite (find_app_skip _ _ _ H). simpl. rewrite N.eqb_refl. simpl. lia.
Qed.

Lemma find_none c m : Forall (fun x => x <> c) m -> find c m = -1.
Proof.
  intros H. rewrite <- (app_nil_r m). by rewrite (find_app_skip _ _ _ H).
Qed.

Lemma clamp_len {A} (m : list A) (k : Z) :
  0 <= k -> clamp (len m + k) (len m) = length m.
Proof.
  intros Hk. unfold clamp. pose proof (len_nonneg m).
  destruct (Z.ltb_spec (len m) 0); [lia|]. unfold len in *. lia.
Qed.

Lemma slice_to_app {A} (m t : list A) : slice_to (m ++ t) (len m) = m.
Proof.
  unfold slice_to. rewrite len_app, clamp_len by apply len_nonneg.
  by rewrite take_app_length.
Qed.

Lemma slice_from_app {A} (m t : list A) : slice_from (m ++ t) (len m) = t.
Proof.
  unfold slice_from. rewrite len_app, clamp_len by apply len_nonneg.
  by rewrite drop_app_length.
Qed.

Lemma slice_from_1 {A} (x : A) (s : list A) : slice_from (x :: s) 1 = s.
Proof.
  unfold slice_from, clamp. pose proof (len_nonneg s).
  replace (len (x :: s)) with (len s + 1) by (unfold len; simpl length; lia).
  simpl (1 <? 0). cbv iota. replace (Z.min 1 (len s + 1)) with 1 by lia. done.
Qed.

End PyFacts.

(** ** USFMFile: the marker token *)

Section MarkerToken.

Import USFMFile.

Lemma plain_no c m : terminator c -> plain m -> Forall (fun x => x <> c) m.
Proof.
  intros Hc Hm. eapply Forall_impl; [exact Hm|]. intros x Hx ->. by apply Hx.
Qed.

(** [find_or_dummy] after a plain prefix [m] followed by the character [d]:
    it is the position of [d] when [d] is the one looked for, and lies
    beyond it otherwise. *)
Lemma find_or_dummy_here c m t :
  terminator c -> plain m -> find_or_dummy c (m ++ c :: t) = len m.
Proof.
  intros Hc Hm. unfold find_or_dummy.
  rewrite (find_app_here _ _ _ (plain_no _ _ Hc Hm)).
  pose proof (len_nonneg m). destruct (Z.eqb_spec (len m) (-1)); [lia|done].
Qed.

Lemma find_or_dummy_later c d m t :
  terminator c -> plain m -> d <> c ->
  len m < find_or_dummy c (m ++ d :: t) \/ find_or_dummy c (m ++ d :: t) = DUMMY_VALUE.
Proof.
  intros Hc Hm Hd. unfold find_or_dummy.
  rewrite (find_app_skip _ _ _ (plain_no _ _ Hc Hm)). simpl.
  destruct (N.eqb_spec d c) as [?|_]; [done|].
  pose proof (find_range c t) as Hr. pose proof (len_nonneg m).
  destruct (Z.eqb_spec (find c t) (-1)) as [E|E]; simpl; [by right|].
  destruct (Z.eqb_spec (find c t + 1) (-1)); [lia|].
  destruct (Z.eqb_spec (len m + (find c t + 1)) (-1)); [lia|]. left. lia.
Qed.

Lemma find_or_dummy_plain c m :
  terminator c -> plain m -> find_or_dummy c m = DUMMY_VALUE.
Proof.
  intros Hc Hm. unfold find_or_dummy.
  by rewrite (find_none _ _ (plain_no _ _ Hc Hm)).
Qed.

Lemma terminator_space : terminator space. Proof. by left. Qed.
Lemma terminator_asterisk : terminator asterisk. Proof. by right; left. Qed.
Lemma terminator_backslash : terminator backslash. Proof. by right; right. Qed.

(** Closes a goal on [splitAfterBackslash] once the three positions are
    known up to order: names them, fixes the minimum and decides the tests. *)
Ltac decide_positions m :=
  unfold splitAfterBackslash, min3;
  repeat match goal with
         | |- context [find_or_dummy ?c ?s] =>
             let si := fresh "si" in set (si := find_or_dummy c s) in *; clearbody si
         end;
  pose proof (len_nonneg m);
  repeat match goal with
         | |- context [Z.min ?a ?b] =>
             first [ replace (Z.min a b) with a by lia
                   | replace (Z.min a b) with b by lia ]
         end;
  repeat match goal with
         | |- context [Z.eqb ?a ?b] =>
             destruct (Z.eqb_spec a b); try lia
         end;
  subst.

Lemma slice_to_succ {A} (m : list A) x t :
  slice_to (m ++ x :: t) (len m + 1) = m ++ [x].
Proof.
  change (m ++ x :: t) with (m ++ [x] ++ t). rewrite app_assoc.
  replace (len m + 1) with (len (m ++ [x])) by (by rewrite len_app).
  apply slice_to_app.
Qed.

Lemma slice_from_succ {A} (m : list A) x t :
  slice_from (m ++ x :: t) (len m + 1) = t.
Proof.
  change (m ++ x :: t) with (m ++ [x] ++ t). rewrite app_assoc.
  replace (len m + 1) with (len (m ++ [x])) by (by rewrite len_app).
  apply slice_from_app.
Qed.

Lemma split_at_space m t :
  plain m -> len m < DUMMY_VALUE ->
  splitAfterBackslash (m ++ space :: t) = Ok (m, t).
Proof.
  intros Hm Hlen.
  pose proof (find_or_dummy_here _ _ t terminator_space Hm) as H1.
  pose proof (find_or_dummy_later asterisk space m t terminator_asterisk Hm ltac:(done)) as H2.
  pose proof (find_or_dummy_later backslash space m t terminator_backslash Hm ltac:(done)) as H3.
  decide_positions m.
  by rewrite slice_to_app, slice_from_succ.
Qed.

Lemma split_at_asterisk m t :
  plain m -> len m < DUMMY_VALUE ->
  splitAfterBackslash (m ++ asterisk :: t) = Ok (m ++ [asterisk], t).
Proof.
  intros Hm Hlen.
  pose proof (find_or_dummy_here _ _ t terminator_asterisk Hm) as H2.
  pose proof (find_or_dummy_later space asterisk m t terminator_space Hm ltac:(done)) as H1.
  pose proof (find_or_dummy_later backslash asterisk m t terminator_backslash Hm ltac:(done)) as H3.
  decide_positions m.
  by rewrite slice_to_succ, slice_from_succ.
Qed.

Lemma split_at_backslash m t :
  plain m -> len m < DUMMY_VALUE ->
  splitAfterBackslash (m ++ backslash :: t) = Ok (m, backslash :: t).
Proof.
  intros Hm Hlen.
  pose proof (find_or_dummy_here _ _ t terminator_backslash Hm) as H3.
  pose proof (find_or_dummy_later space backslash m t terminator_space Hm ltac:(done)) as H1.
  pose proof (find_or_dummy_later asterisk backslash m t terminator_asterisk Hm ltac:(done)) as H2.
  decide_positions m.
  by rewrite slice_to_app, slice_from_app.
Qed.

Lemma split_plain m : plain m -> splitAfterBackslash m = Ok (m, []).
Proof.
  intros Hm. unfold splitAfterBackslash, min3.
  rewrite !find_or_dummy_plain by (done || apply terminator_space
    || apply terminator_asterisk || apply terminator_backslash).
  done.
Qed.

(** A marker of [DUMMY_VALUE] characters or more, ended by a space and
    followed by plain text: the positions found are not below the sentinel
    and the whole remainder is taken as the marker. *)
Lemma split_long_marker m t :
  plain m -> plain t -> DUMMY_VALUE <= len m ->
  splitAfterBackslash (m ++ space :: t) = Ok (m ++ space :: t, []).
Proof.
  intros Hm Ht Hlen.
  pose proof (find_or_dummy_here _ _ t terminator_space Hm) as H1.
  assert (find_or_dummy asterisk (m ++ space :: t) = DUMMY_VALUE) as H2.
  { unfold find_or_dummy. rewrite find_none; [done|].
    apply Forall_app. split; [by apply plain_no; [apply terminator_asterisk|]|].
    constructor; [done|]. by apply plain_no; [apply terminator_asterisk|]. }
  assert (find_or_dummy backslash (m ++ space :: t) = DUMMY_VALUE) as H3.
  { unfold find_or_dummy. rewrite find_none; [done|].
    apply Forall_app. split; [by apply plain_no; [apply terminator_backslash|]|].
    constructor; [done|]. by apply plain_no; [apply terminator_backslash|]. }
  unfold splitAfterBackslash, min3. rewrite H1, H2, H3.
  replace (Z.min (len m) (Z.min DUMMY_VALUE DUMMY_VALUE)) with DUMMY_VALUE by lia.
  by rewrite Z.eqb_refl.
Qed.

Lemma splitMarkerText_backslash_line body :
  splitMarkerText (backslash :: body) =
  mt ← splitAfterBackslash body; Ok (Some (fst mt), snd mt).
Proof. unfold splitMarkerText. by rewrite N.eqb_refl, slice_from_1. Qed.

Lemma slice_to_neg1 {A} (l : list A) x : slice_to (l ++ [x]) (-1) = l.
Proof.
  unfold slice_to, clamp. rewrite len_app. pose proof (len_nonneg l).
  change (-1 <? 0) with true. cbv iota.
  replace (Z.to_nat (Z.max 0 (len l + len [x] + -1))) with (length l)
    by (unfold len in *; simpl length; lia).
  apply take_app_length.
Qed.

(** A line of the file that starts with a backslash and ends with its
    newline goes to the marker parsing of [read] with the newline removed. *)
Lemma read_line_backslash lower v fn ign enc st body :
  read_line lower v fn ign enc st (backslash :: body ++ [LF]) =
  read_marker ign
    (set_lastLine (set_lineCount st (lineCount st + 1)) (backslash :: body))
    (backslash :: body).
Proof.
  unfold read_line.
  assert (N.eqb backslash BOM = false) as HB by done.
  assert (∀ s0 : locals,
    (if (lineCount s0 =? 1) && str_eqb (lower enc) (py "utf-8")
     then c ← item (backslash :: body ++ [LF]) 0;
          if N.eqb c BOM
          then Ok (logging s0 Info (DetectedBOM fn), slice_from (backslash :: body ++ [LF]) 1)
          else Ok (s0, backslash :: body ++ [LF])
     else Ok (s0, backslash :: body ++ [LF]))
    = Ok (s0, backslash :: body ++ [LF])) as Hbom.
  { intros s0. destruct (_ && _); [|done]. done. }
  rewrite Hbom. cbn [mbind result_bind Py.bind fst snd].
  change (backslash :: body ++ [LF]) with ((backslash :: body) ++ [LF]).
  rewrite rev_app_distr.
  cbn [rev app item lookup list_lookup Py.bind mbind result_bind].
  change ((LF =? LF)%N) with true. cbv iota.
  change (backslash :: body ++ [LF]) with ((backslash :: body) ++ [LF]).
  rewrite slice_to_neg1.
  change ((backslash =? hash)%N) with false.
  change ((backslash =? backslash)%N) with true. done.
Qed.

End MarkerToken.

(** C4 (as amended): on a line that starts with a backslash, when the marker
    (the characters up to the first space, asterisk or backslash) is shorter
    than [DUMMY_VALUE], [splitMarkerText] ends the marker at a space, which
    is dropped; at an asterisk, which stays at the end of the marker; or
    before a backslash, which stays at the start of the text.  A line that
    is only a marker gives the whole remainder as marker and an empty text,
    whatever its length.  The body of [USFMFile.read] gives the same marker
    and text for such a line of the file. *)
Theorem C4_marker_ends_at_first_terminator (m t : str) :
  plain m -> len m < USFMFile.DUMMY_VALUE ->
  USFMFile.splitMarkerText (backslash :: m ++ space :: t) = Ok (Some m, t) /\
  USFMFile.splitMarkerText (backslash :: m ++ asterisk :: t) = Ok (Some (m ++ [asterisk]), t) /\
  USFMFile.splitMarkerText (backslash :: m ++ backslash :: t) = Ok (Some m, backslash :: t) /\
  (forall m', plain m' -> USFMFile.splitMarkerText (backslash :: m') = Ok (Some m', [])) /\
  (forall lower v fn ign enc st body marker text,
     USFMFile.splitMarkerText (backslash :: body) = Ok (Some marker, text) ->
     USFMFile.read_line lower v fn ign enc st (backslash :: body ++ [LF]) =
     Ok (let st' := USFMFile.set_marker
                      (USFMFile.set_lastLine
                         (USFMFile.set_lineCount st (USFMFile.lineCount st + 1))
                         (backslash :: body)) marker in
         if str_in marker ign then st'
         else USFMFile.set_result st' (USFMFile.result st ++ [(marker, text)]))).
Proof.
  intros Hm Hlen. rewrite !splitMarkerText_backslash_line.
  rewrite split_at_space, split_at_asterisk, split_at_backslash by done.
  repeat split; try done.
  - intros m' Hm'. by rewrite splitMarkerText_backslash_line, split_plain.
  - intros lower v fn ign enc st body marker text.
    rewrite splitMarkerText_backslash_line, read_line_backslash.
    unfold USFMFile.read_marker. rewrite slice_from_1.
    destruct (USFMFile.splitAfterBackslash body) as [[mk tx]|e]; [|done].
    cbn. intros [= -> ->]. by destruct (str_in marker ign).
Qed.

Lemma C4_marker_ends_at_first_terminator_witness :
  plain (py "v") /\ len (py "v") < USFMFile.DUMMY_VALUE /\
  USFMFile.splitMarkerText (backslash :: py "v" ++ space :: py "1 In") = Ok (Some (py "v"), py "1 In").
Proof.
  assert (plain (py "v")) as Hp.
  { repeat constructor. intros [H|[H|H]]; discriminate H. }
  split; [exact Hp|]. split; [reflexivity|].
  exact (proj1 (C4_marker_ends_at_first_terminator (py "v") (py "1 In") Hp eq_refl)).
Defined.

(** C4 as stated fails on a long line: after a marker of 999999 letters the
    space is found at the position that equals the sentinel [DUMMY_VALUE],
    so the space and the text after it stay in the marker. *)
Lemma C4_long_marker_counterexample :
  let m := replicate (Z.to_nat 999999) 97%N in
  plain m /\
  USFMFile.splitMarkerText (backslash :: m ++ space :: py "x")
    = Ok (Some (m ++ space :: py "x"), []) /\
  USFMFile.splitMarkerText (backslash :: m ++ space :: py "x") <> Ok (Some m, py "x").
Proof.
  intros m.
  assert (plain m) as Hm.
  { apply Forall_replicate. intros [H|[H|H]]; discriminate H. }
  assert (USFMFile.DUMMY_VALUE <= len m) as Hlen.
  { unfold len, m. rewrite length_replicate. unfold USFMFile.DUMMY_VALUE. lia. }
  assert (plain (py "x")) as Hx.
  { repeat constructor. intros [H|[H|H]]; discriminate H. }
  assert (USFMFile.splitMarkerText (backslash :: m ++ space :: py "x")
          = Ok (Some (m ++ space :: py "x"), [])) as E.
  { rewrite splitMarkerText_backslash_line.
    by rewrite (split_long_marker m (py "x") Hm Hx Hlen). }
  split; [exact Hm|]. split; [exact E|].
  rewrite E. intros H.
  apply (f_equal (fun r => match r with Ok (_, tx) => length tx | Raise _ => O end)) in H.
  discriminate H.
Qed.

(** ** USFMFile: decode errors and continuation lines *)

Section ReadFacts.

Import USFMFile.

Variable lower : str -> str.
Variable verbosityLevel : Z.
Variable usfm_filename : str.
Variable ignoreSFMs : list str.
Variable encoding : str.

Local Abbreviation read_loop := (read_loop lower verbosityLevel usfm_filename ignoreSFMs encoding).
Local Abbreviation read_line := (read_line lower verbosityLevel usfm_filename ignoreSFMs encoding).

(** Nothing that follows the first undecodable line is looked at. *)
Lemma read_loop_decode_error st pre post :
  read_loop st (pre ++ DecodeError :: post) = read_loop st (pre ++ [DecodeError]).
Proof.
  revert st. induction pre as [|[line|] pre IH]; intros st; simpl; [done| |done].
  destruct (read_line st line); [apply IH|done].
Qed.

(** The marker parsing never raises: the least of the three positions is one
    of them. *)
Lemma splitAfterBackslash_total s : exists mt, splitAfterBackslash s = Ok mt.
Proof.
  unfold splitAfterBackslash, min3.
  set (si1 := find_or_dummy space s). set (si2 := find_or_dummy asterisk s).
  set (si3 := find_or_dummy backslash s).
  destruct (Z.eqb_spec (Z.min si1 (Z.min si2 si3)) DUMMY_VALUE); [eauto|].
  destruct (Z.eqb_spec (Z.min si1 (Z.min si2 si3)) si3); [eauto|].
  destruct (Z.eqb_spec (Z.min si1 (Z.min si2 si3)) si2); [eauto|].
  destruct (Z.eqb_spec (Z.min si1 (Z.min si2 si3)) si1); [eauto|lia].
Qed.

Lemma read_marker_total st line :
  exists st', read_marker ignoreSFMs st line = Ok st' /\ log st' = log st.
Proof.
  unfold read_marker.
  destruct (splitAfterBackslash_total (slice_from line 1)) as [[mk tx] ->]. cbn.
  destruct (str_in mk ignoreSFMs); cbn; eauto.
Qed.

(** A line of the file that is not blank, starts neither with ['#'] nor with
    a backslash, and is not a first line that starts with the byte order
    mark: the tests of the loop body up to the continuation handling. *)
Lemma read_line_continuation st c0 rest :
  c0 <> hash -> c0 <> backslash -> (lineCount st <> 0 \/ c0 <> BOM) ->
  read_line st (c0 :: rest ++ [LF]) =
  let st1 := set_lastLine (set_lineCount st (lineCount st + 1)) (c0 :: rest) in
  if len (result st) =? 0 then
    read_marker ignoreSFMs
      (if verbosityLevel >? 2
       then logging st1 Error (NonUSFMLineIgnored usfm_filename (lineCount st + 1))
       else st1) (c0 :: rest)
  else
    match marker st with
    | None => Raise UnboundLocalError
    | Some marker =>
        if negb (str_in marker ignoreSFMs)
        then r ← append_continuation (result st) (c0 :: rest); Ok (set_result st1 r)
        else Ok st1
    end.
Proof.
  intros Hhash Hbs Hbom. unfold USFMFile.read_line.
  assert ((if (lineCount (set_lineCount st (lineCount st + 1)) =? 1)
              && str_eqb (lower encoding) (py "utf-8")
           then c ← item (c0 :: rest ++ [LF]) 0;
                if N.eqb c BOM
                then Ok (logging (set_lineCount st (lineCount st + 1)) Info
                           (DetectedBOM usfm_filename),
                         slice_from (c0 :: rest ++ [LF]) 1)
                else Ok (set_lineCount st (lineCount st + 1), c0 :: rest ++ [LF])
           else Ok (set_lineCount st (lineCount st + 1), c0 :: rest ++ [LF]))
          = Ok (set_lineCount st (lineCount st + 1), c0 :: rest ++ [LF])) as ->.
  { cbn [lineCount set_lineCount].
    destruct (Z.eqb_spec (lineCount st + 1) 1) as [E|E]; [|done].
    destruct (str_eqb _ _); [|done]. cbn.
    destruct (N.eqb_spec c0 BOM) as [->|_]; [|done]. destruct Hbom; [lia|done]. }
  cbn [mbind result_bind Py.bind fst snd].
  change (c0 :: rest ++ [LF]) with ((c0 :: rest) ++ [LF]).
  rewrite rev_app_distr.
  cbn [rev app item lookup list_lookup Py.bind mbind result_bind].
  change ((LF =? LF)%N) with true. cbv iota.
  change (c0 :: rest ++ [LF]) with ((c0 :: rest) ++ [LF]).
  rewrite slice_to_neg1.
  destruct (N.eqb_spec c0 hash) as [?|_]; [done|].
  destruct (N.eqb_spec c0 backslash) as [?|_]; [done|].
  cbn [negb]. cbv zeta. done.
Qed.

End ReadFacts.

(** C5 (what the code does): the [try] encloses the whole [for] loop, so the
    first line that does not decode ends the reading; the lines that follow
    it never reach the result. *)
Theorem C5_read_stops_at_decode_error lower v fn ign enc pre post :
  USFMFile.read lower v (pre ++ USFMFile.DecodeError :: post) fn ign enc =
  USFMFile.read lower v (pre ++ [USFMFile.DecodeError]) fn ign enc.
Proof. unfold USFMFile.read. by rewrite read_loop_decode_error. Qed.

(** C5, the failing input: the third line is lost with the second. *)
Example C5_lines_after_decode_error_lost :
  USFMFile.read USFMFile.ascii_lower 2
    [USFMFile.Line (py "\id GEN" ++ [LF]); USFMFile.DecodeError;
     USFMFile.Line (py "\mt Genesis" ++ [LF])]
    (py "f.sfm") None None
  = Ok ([(py "id", py "GEN")],
        [(Critical, USFMFile.InvalidLineIgnored (py "f.sfm") 1)]).
Proof. reflexivity. Qed.

(** C6 (as amended): a line of the file that is not blank and starts neither
    with ['#'] nor with a backslash is joined with one space to the text of
    the last entry when there is an entry and the last marker seen is not
    in [ignoreSFMs]; it is dropped, and no entry changes, when there is an
    entry and the last marker seen is in [ignoreSFMs]; when there is no entry
    yet and [verbosityLevel] is above 2, an error is logged for it. *)
Theorem C6_continuation_line lower v fn ign enc st c0 rest :
  c0 <> hash -> c0 <> backslash -> (USFMFile.lineCount st <> 0 \/ c0 <> BOM) ->
  let line := c0 :: rest in
  let st1 := USFMFile.set_lastLine
               (USFMFile.set_lineCount st (USFMFile.lineCount st + 1)) line in
  (forall entries oldmarker oldtext marker,
     USFMFile.result st = entries ++ [(oldmarker, oldtext)] ->
     USFMFile.marker st = Some marker -> str_in marker ign = false ->
     USFMFile.read_line lower v fn ign enc st (line ++ [LF]) =
     Ok (USFMFile.set_result st1 (entries ++ [(oldmarker, oldtext ++ [space] ++ line)]))) /\
  (forall marker,
     USFMFile.result st <> [] ->
     USFMFile.marker st = Some marker -> str_in marker ign = true ->
     USFMFile.read_line lower v fn ign enc st (line ++ [LF]) = Ok st1) /\
  (USFMFile.result st = [] -> v > 2 ->
   exists st',
     USFMFile.read_line lower v fn ign enc st (line ++ [LF]) = Ok st' /\
     USFMFile.log st' =
       USFMFile.log st ++
       [(Error, USFMFile.NonUSFMLineIgnored fn (USFMFile.lineCount st + 1))]).
Proof.
  intros Hhash Hbs Hbom line st1. subst line.
  change ((c0 :: rest) ++ [LF]) with (c0 :: rest ++ [LF]).
  rewrite (read_line_continuation lower v fn ign enc st c0 rest Hhash Hbs Hbom).
  cbv zeta. fold st1. repeat split.
  - intros entries oldmarker oldtext marker Hres Hmk Hign.
    rewrite Hres, Hmk, Hign. unfold len. rewrite length_app. simpl length.
    destruct (Z.eqb_spec (Z.of_nat (length entries + 1)) 0); [lia|].
    cbn [negb]. unfold USFMFile.append_continuation.
    rewrite last_snoc, removelast_last. done.
  - intros marker Hres Hmk Hign. rewrite Hmk, Hign.
    destruct (USFMFile.result st) as [|e es] eqn:E; [done|].
    unfold len. simpl length.
    destruct (Z.eqb_spec (Z.of_nat (S (length es))) 0); [lia|done].
  - intros Hres Hv. rewrite Hres. cbn [len length Z.of_nat Z.eqb].
    destruct (Z.gtb_spec v 2) as [_|?]; [|lia].
    destruct (read_marker_total ign
                (USFMFile.logging st1 Error
                   (USFMFile.NonUSFMLineIgnored fn (USFMFile.lineCount st + 1)))
                (c0 :: rest)) as (st' & -> & Hlog).
    exists st'. split; [done|]. rewrite Hlog. done.
Qed.

Lemma C6_continuation_line_witness :
  USFMFile.read_line USFMFile.ascii_lower 2 (py "f.sfm") [] (py "utf-8")
    (USFMFile.Locals (py "\v 1 In the") 1 [(py "v", py "1 In the")] (Some (py "v")) [])
    (py "beginning" ++ [LF])
  = Ok (USFMFile.Locals (py "beginning") 2 [(py "v", py "1 In the beginning")]
          (Some (py "v")) []).
Proof.
  refine (proj1 (C6_continuation_line USFMFile.ascii_lower 2 (py "f.sfm") [] (py "utf-8")
            (USFMFile.Locals (py "\v 1 In the") 1 [(py "v", py "1 In the")] (Some (py "v")) [])
            98%N (py "eginning") _ _ _) [] (py "v") (py "1 In the") (py "v") _ _ _);
    first [ discriminate | reflexivity | (left; discriminate) ].
Defined.

(** C6 as stated fails when no entry exists yet: at the default verbosity
    nothing is logged for the line (and the line is not discarded either). *)
Lemma C6_no_diagnostic_counterexample :
  USFMFile.read USFMFile.ascii_lower 2
    [USFMFile.Line (py "hello world" ++ [LF])] (py "f.sfm") None None
  = Ok ([(py "ello", py "world")], []).
Proof. reflexivity. Qed.

Example clean_example :
  OSISClean.clean (Some (py "In  the" ++ [tab] ++ py "beginning" ++ [CR; LF])) (Some []) None None
  = (Some (py "In the beginning"),
     OSISClean.Effects
       (Some [OSISClean.FoundMultipleSpaces (py "In  the" ++ [tab] ++ py "beginning") [];
              OSISClean.FoundTab (py "In  the" ++ [tab] ++ py "beginning") []])
       [(Warning, OSISClean.FoundMultipleSpaces (py "In  the" ++ [tab] ++ py "beginning") []);
        (Warning, OSISClean.FoundTab (py "In  the" ++ [tab] ++ py "beginning") [])]).
Proof. reflexivity. Qed.

(** ** OSISXMLBible: the whitespace normal form of [clean] *)

Section CleanFacts.

Import OSISClean.

Lemma startswith_app p s : startswith p (p ++ s) = true.
Proof. induction p as [|x p IH]; simpl; [done|]. by rewrite N.eqb_refl. Qed.

Lemma contains_here sub s : startswith sub s = true -> contains sub s = true.
Proof. intros H. destruct s; cbn [contains]; by rewrite H. Qed.

Lemma contains_app sub a b : contains sub (a ++ sub ++ b) = true.
Proof.
  induction a as [|x a IH].
  - cbn [app]. apply contains_here, startswith_app.
  - cbn [app contains]. rewrite IH. apply orb_true_r.
Qed.

Lemma contains_single c s : contains [c] s = true <-> c ∈ s.
Proof.
  induction s as [|x s IH]; simpl.
  - split; [done|]. intros H. by apply elem_of_nil in H.
  - rewrite elem_of_cons, <- IH. destruct (N.eqb_spec c x) as [->|Hne]; simpl.
    + split; [by left|done].
    + split; [by right|]. intros [?|?]; done.
Qed.

Lemma contains_single_false c s : contains [c] s = false <-> Forall (fun x => x <> c) s.
Proof.
  rewrite Forall_forall. split.
  - intros H x Hx ->. apply contains_single in Hx. congruence.
  - intros H. destruct (contains [c] s) eqn:E; [|done].
    apply contains_single in E. by destruct (H c E).
Qed.

Lemma replace_from_Forall (P : N -> Prop) old new s k :
  Forall P s -> Forall P new -> Forall P (replace_from old new k s).
Proof.
  intros Hs Hn. revert k. induction Hs as [|x s Hx Hs IH]; intros k; simpl; [done|].
  destruct k; [|apply IH].
  destruct (startswith old (x :: s)).
  - apply Forall_app. split; [done|apply IH].
  - constructor; [done|apply IH].
Qed.

(** Replacing a one-character string removes every occurrence of it. *)
Lemma replace_single_gone c new s :
  Forall (fun x => x <> c) new -> Forall (fun x => x <> c) (replace [c] new s).
Proof.
  intros Hn. unfold replace. induction s as [|x s IH]; simpl; [done|].
  destruct (N.eqb_spec c x) as [->|Hne]; simpl.
  - apply Forall_app. split; [done|exact IH].
  - constructor; [congruence|exact IH].
Qed.

Lemma replace_single_cons c new x s :
  replace_from [c] new 0 (x :: s) =
  if N.eqb c x then new ++ replace_from [c] new 0 s else x :: replace_from [c] new 0 s.
Proof. cbn [replace_from startswith length Nat.sub]. by rewrite andb_true_r. Qed.

(** Replacing a one-character string keeps every other character. *)
Lemma replace_single_keeps c new s x :
  x <> c -> x ∈ s -> x ∈ replace [c] new s.
Proof.
  intros Hc. unfold replace. induction s as [|y s IH]; [done|].
  rewrite replace_single_cons, elem_of_cons.
  destruct (N.eqb_spec c y) as [<-|Hne].
  - intros [->|Hin]; [done|]. apply elem_of_app. right. by apply IH.
  - intros [->|Hin]; [by left|]. right. by apply IH.
Qed.

Lemma replace_two_spaces_le k s :
  (length (replace_from two_spaces [space] k s) <= length s)%nat.
Proof.
  revert k. induction s as [|x s IH]; intros k; [done|].
  cbn [replace_from]. destruct k as [|k]; [|specialize (IH k); simpl; lia].
  destruct (startswith [space; space] (x :: s)).
  - specialize (IH 1%nat). simpl in *. lia.
  - specialize (IH 0%nat). simpl in *. lia.
Qed.

Lemma replace_two_spaces_lt s :
  contains two_spaces s = true ->
  (length (replace two_spaces [space] s) < length s)%nat.
Proof.
  unfold replace. induction s as [|x s IH]; [done|].
  cbn [contains replace_from]. destruct (startswith two_spaces (x :: s)) eqn:E.
  - intros _. destruct s as [|y s]; [simpl in E; by rewrite andb_false_r in E|].
    cbn [length app replace_from Nat.sub]. pose proof (replace_two_spaces_le 0 s).
    simpl. lia.
  - simpl. intros H. specialize (IH H). simpl. lia.
Qed.

Lemma collapse_spaces_Forall (P : N -> Prop) s :
  P space -> Forall P s -> Forall P (collapse_spaces s).
Proof.
  intros Hsp. unfold collapse_spaces. generalize (length s) as n. intros n. revert s.
  induction n as [|n IH]; intros s Hs; simpl; [done|].
  destruct (contains two_spaces s); [|done].
  apply IH. apply replace_from_Forall; [done|by constructor].
Qed.

(** The collapsing loop has left through its test: no two spaces remain. *)
Lemma collapse_spaces_done s : contains two_spaces (collapse_spaces s) = false.
Proof.
  unfold collapse_spaces.
  assert (forall n s, (length s <= n)%nat ->
            contains two_spaces (while (contains two_spaces)
              (replace two_spaces [space]) n s) = false) as H.
  { clear s. induction n as [|n IH]; intros s Hlen.
    - destruct s; [done|simpl in Hlen; lia].
    - cbn [while]. destruct (contains two_spaces s) eqn:E; [|done].
      apply IH. pose proof (replace_two_spaces_lt s E). lia. }
  by apply H.
Qed.

Lemma endswith_snoc c s x : endswith [c] (s ++ [x]) = N.eqb c x.
Proof. unfold endswith. rewrite rev_app_distr. simpl. apply andb_true_r. Qed.

(** The first loop of [clean] removes a suffix of CR and LF characters and
    leaves a string that ends with neither. *)
Lemma drop_trailing_newlines_spec s :
  (exists nls, s = drop_trailing_newlines s ++ nls /\ Forall newline nls) /\
  endswith [LF] (drop_trailing_newlines s) || endswith [CR] (drop_trailing_newlines s) = false.
Proof.
  unfold drop_trailing_newlines.
  assert (forall n s, (length s <= n)%nat ->
    let r := while (fun r => endswith [LF] r || endswith [CR] r)
                   (fun r => slice_to r (-1)) n s in
    (exists nls, s = r ++ nls /\ Forall newline nls) /\
    endswith [LF] r || endswith [CR] r = false) as H.
  { clear s. induction n as [|n IH]; intros s Hlen.
    - destruct s; [|simpl in Hlen; lia]. simpl. split; [by exists []|done].
    - cbn [while]. destruct (endswith [LF] s || endswith [CR] s) eqn:E.
      + destruct s as [|x s _] using rev_ind; [done|].
        rewrite !endswith_snoc in E. rewrite slice_to_neg1.
        rewrite length_app in Hlen. simpl in Hlen.
        destruct (IH s ltac:(lia)) as [[nls [Hs Hn]] Hend]. split; [|exact Hend].
        exists (nls ++ [x]). split; [by rewrite app_assoc, <- Hs|].
        apply Forall_app. split; [done|]. constructor; [|done].
        apply orb_true_iff in E as [E|E]; apply N.eqb_eq in E; subst x;
          [by left|by right].
      + split; [|exact E]. exists []. by rewrite app_nil_r. }
  by apply H.
Qed.

End CleanFacts.

(** C10 (as amended): [clean(None)] is [None].  For a string, [clean] first
    drops the trailing CR and LF characters without a diagnostic; the value
    returned holds no tab, no CR, no LF and no two consecutive spaces; and
    [loadErrors] (when supplied) receives a diagnostic for multiple spaces,
    for a tab, and for CR or LF characters exactly when the text that is
    left after the trailing CR and LF characters are dropped holds them. *)
Theorem C10_clean_normal_form (le : option (list OSISClean.message)) (location verseMilestone : option str) :
  OSISClean.clean None le location verseMilestone = (None, OSISClean.Effects le []) /\
  forall text : str,
    let body := OSISClean.drop_trailing_newlines text in
    exists r e msgs,
      OSISClean.clean (Some text) le location verseMilestone = (Some r, e) /\
      (exists nls, text = body ++ nls /\ Forall newline nls) /\
      endswith [LF] body || endswith [CR] body = false /\
      Forall (fun c => c <> tab /\ c <> CR /\ c <> LF) r /\
      (forall a b, r <> a ++ [space; space] ++ b) /\
      OSISClean.loadErrors e = (fun l => l ++ msgs) <$> le /\
      (contains [space; space] body = true ->
        exists info, OSISClean.FoundMultipleSpaces body info ∈ msgs) /\
      (tab ∈ body -> exists info, OSISClean.FoundTab body info ∈ msgs) /\
      (LF ∈ body \/ CR ∈ body -> exists r' info, OSISClean.FoundCRLF r' info ∈ msgs) /\
      (contains [space; space] body = false -> tab ∉ body -> LF ∉ body -> CR ∉ body ->
        msgs = []).
Proof.
  split; [done|]. intros text body.
  destruct (drop_trailing_newlines_spec text) as [Hsuffix Hend]. fold body in Hsuffix, Hend.
  unfold OSISClean.clean. fold body.
  set (info := (if OSISClean.truthy verseMilestone then _ else _)).
  (* the three tests, on the text as it stands when each is made *)
  set (m1 := if contains [space; space] body
             then [OSISClean.FoundMultipleSpaces body info] else []).
  set (r2 := if contains [tab] body then replace [tab] [space] body else body).
  set (m2 := if contains [tab] body then [OSISClean.FoundTab body info] else []).
  set (crlf := contains [LF] r2 || contains [CR] r2).
  set (r3 := if crlf
             then replace [CR] [space] (replace [LF] [space] (replace [CR; LF] [space] r2))
             else r2).
  set (m3 := if crlf then [OSISClean.FoundCRLF r2 info] else []).
  exists (OSISClean.collapse_spaces r3),
         (OSISClean.Effects ((fun l => l ++ (m1 ++ m2 ++ m3)) <$> le)
            (((fun m => (match m with
                         | OSISClean.FoundCRLF _ _ => Error
                         | _ => Warning
                         end, m)) <$> (m1 ++ m2 ++ m3)))),
         (m1 ++ m2 ++ m3).
  assert (Forall (fun c => c <> tab) r2) as Htab.
  { unfold r2. destruct (contains [tab] body) eqn:E.
    - apply replace_single_gone. by repeat constructor.
    - by apply contains_single_false. }
  assert (forall c, c ∈ r2 -> c ∈ body \/ c = space) as Hr2.
  { intros c. unfold r2. destruct (contains [tab] body); [|by left].
    intros Hc. destruct (decide (c = space)) as [|Hne]; [by right|left].
    destruct (decide (c ∈ body)) as [|Hn]; [done|exfalso].
    assert (Forall (fun x => x <> c) (replace [tab] [space] body)) as HF.
    { apply replace_from_Forall; [|by repeat constructor].
      apply Forall_forall. intros x Hx ->. done. }
    rewrite Forall_forall in HF. by apply (HF c Hc). }
  assert (forall c, c <> tab -> c ∈ body -> c ∈ r2) as Hr2'.
  { intros c Hc Hin. unfold r2. destruct (contains [tab] body); [|done].
    by apply replace_single_keeps. }
  assert (Forall (fun c => c <> tab) r3 /\ Forall (fun c => c <> CR) r3 /\
          Forall (fun c => c <> LF) r3) as (A1 & A2 & A3).
  { unfold r3. destruct crlf eqn:E.
    - split; [|split].
      + repeat (apply replace_from_Forall; [|by repeat constructor]). done.
      + apply replace_single_gone. by repeat constructor.
      + apply replace_from_Forall; [|by repeat constructor].
        apply replace_single_gone. by repeat constructor.
    - unfold crlf in E. apply orb_false_iff in E as [E1 E2].
      apply contains_single_false in E1, E2. done. }
  assert (Forall (fun c => c <> tab /\ c <> CR /\ c <> LF) r3) as Hr3.
  { rewrite Forall_forall in A1, A2, A3 |- *. intros c Hc.
    repeat split; [by apply A1|by apply A2|by apply A3]. }
  split.
  { clear. subst m1 m2 m3 r3 crlf r2.
    destruct le as [l|]; destruct (contains [space; space] body);
      destruct (contains [tab] body); cbn;
      match goal with |- context [contains [LF] ?x || contains [CR] ?x] =>
        destruct (contains [LF] x || contains [CR] x) end;
      unfold OSISClean.report; cbn; rewrite ?app_nil_r, <- ?app_assoc; reflexivity. }
  split; [exact Hsuffix|]. split; [exact Hend|].
  split; [by apply collapse_spaces_Forall|].
  split.
  { intros a b Hab. pose proof (collapse_spaces_done r3) as Hd.
    rewrite Hab, contains_app in Hd. done. }
  split; [done|].
  split.
  { intros H. exists info. unfold m1. rewrite H. apply elem_of_app. left. by left. }
  split.
  { intros H. apply contains_single in H. exists info. unfold m2. rewrite H.
    apply elem_of_app. right. apply elem_of_app. left. by left. }
  split.
  { intros H. exists r2, info. unfold m3.
    assert (crlf = true) as ->.
    { unfold crlf. apply orb_true_iff.
      destruct H as [H|H]; [left|right]; apply contains_single; by apply Hr2'. }
    apply elem_of_app. right. apply elem_of_app. right. by left. }
  intros H1 H2 H3 H4. unfold m1, m2, m3. rewrite H1.
  assert (contains [tab] body = false) as E2.
  { destruct (contains [tab] body) eqn:E; [|done]. by apply contains_single in E. }
  assert (crlf = false) as ->; [|by rewrite E2].
  unfold crlf. apply orb_false_iff.
  split; apply contains_single_false, Forall_forall; intros x Hx ->;
    destruct (Hr2 _ Hx) as [?|?]; done.
Qed.

(** C10 as stated fails for a trailing newline: the LF of the input is
    dropped and nothing is appended to [loadErrors]. *)
Lemma C10_trailing_newline_counterexample :
  LF ∈ py "abc" ++ [LF] /\
  OSISClean.clean (Some (py "abc" ++ [LF])) (Some []) None None
  = (Some (py "abc"), OSISClean.Effects (Some []) []).
Proof. split; [|reflexivity]. apply elem_of_app. right. by left. Qed.

(** ** OSISXMLBible: milestones *)

Lemma str_eqb_eq a b : str_eqb a b = true <-> a = b.
Proof.
  revert b. induction a as [|x a IH]; intros [|y b]; simpl; try done.
  rewrite andb_true_iff, N.eqb_eq, IH. split; [by intros [-> ->]|by intros [= -> ->]].
Qed.

Lemma str_eqb_refl a : str_eqb a a = true.
Proof. by apply str_eqb_eq. Qed.

Lemma str_eqb_neq a b : a <> b -> str_eqb a b = false.
Proof.
  intros H. destruct (str_eqb a b) eqn:E; [|done]. by apply str_eqb_eq in E.
Qed.

Lemma nonempty_true (s : str) : s <> [] -> nonempty s = true.
Proof. by destruct s. Qed.

Section Reports.

Import OSISXMLBible.

Lemma report_loadErrors l m st : loadErrors (report l m st) = loadErrors st ++ [m].
Proof. done. Qed.

Lemma report_log l m st : log (report l m st) = log st ++ [(l, m)].
Proof. done. Qed.

Lemma reported_here l m st : reported l m (report l m st).
Proof. split; apply elem_of_app; right; by left. Qed.

Lemma reported_later l m l' m' st : reported l m st -> reported l m (report l' m' st).
Proof. intros [H1 H2]. split; apply elem_of_app; by left. Qed.

Lemma verseAttributes_end e location st eID :
  attrib e = [(py "eID", eID)] ->
  fold_left (verseAttribute e location) (attrib e) (VerseAttributes None None None None, st)
  = (VerseAttributes None None (Some eID) None, st).
Proof. by intros ->. Qed.

Lemma chapterAttributes_end e location st eID :
  attrib e = [(py "eID", eID)] ->
  fold_left (chapterAttribute e location) (attrib e)
    (ChapterAttributes None None None None None None, st)
  = (ChapterAttributes None None (Some eID) None None None, st).
Proof. by intros ->. Qed.

Lemma attributes_start_verse e location st osisID sID :
  attrib e = [(py "osisID", osisID); (py "sID", sID)] ->
  fold_left (verseAttribute e location) (attrib e) (VerseAttributes None None None None, st)
  = (VerseAttributes (Some osisID) (Some sID) None None, st).
Proof. by intros ->. Qed.

Lemma attributes_start_chapter e location st osisID sID :
  attrib e = [(py "osisID", osisID); (py "sID", sID)] ->
  fold_left (chapterAttribute e location) (attrib e)
    (ChapterAttributes None None None None None None, st)
  = (ChapterAttributes (Some osisID) (Some sID) None None None None, st).
Proof. by intros ->. Qed.

Lemma truthy_Some (s : str) : s <> [] -> OSISClean.truthy (Some s) = true.
Proof. by destruct s. Qed.

End Reports.

Section EndMilestones.

Import OSISXMLBible.

Variable debugFlag : bool.
Variable getBBBFromOSIS : str -> option codes.
Variable getUSFMAbbreviation : str -> option str.
Variable getUSFMNumber : str -> option str.
Variable checkXMLNoText : element -> str -> str -> outcome (list (level * message)).
Variable checkXMLNoTail : element -> str -> str -> outcome (list (level * message)).
Variable getAssumedBookNames : BibleBook.t -> list str.
Variable lower : str -> str.
Variable upper : str -> str.
Variable isdigit : str -> bool.
Variable mainDivOsisID : option str.

Local Abbreviation validateChapterElement :=
  (validateChapterElement debugFlag getBBBFromOSIS getUSFMAbbreviation getUSFMNumber
     checkXMLNoText checkXMLNoTail getAssumedBookNames lower upper isdigit mainDivOsisID).
Local Abbreviation validateVerseElement :=
  (validateVerseElement debugFlag checkXMLNoTail isdigit).

(** A chapter end milestone that does not match: the value returned is the
    chapter milestone that was passed in. *)
Lemma chapter_end_mismatch e eID chapterMilestone verseMilestone locationDescription st ms1 ms2 :
  let location := py "validateChapterElement: " ++ locationDescription in
  children e = [] -> attrib e = [(py "eID", eID)] -> eID <> [] ->
  checkXMLNoText e (location ++ py " at " ++ verseMilestone) (py "s2a8") = Ok ms1 ->
  checkXMLNoTail e (location ++ py " at " ++ verseMilestone) (py "j9k7") = Ok ms2 ->
  eID <> chapterMilestone ->
  exists st',
    validateChapterElement e chapterMilestone verseMilestone locationDescription st
      = Ok (chapterMilestone, st') /\
    reported Error (ChapterEndMismatch eID chapterMilestone location) st'.
Proof.
  intros location Hc Ha He H1 H2 Hne.
  unfold OSISXMLBible.validateChapterElement. fold location.
  rewrite H1. cbn [mbind result_bind Py.bind]. rewrite H2. cbn [mbind result_bind Py.bind].
  rewrite (chapterAttributes_end _ _ _ _ Ha), Hc.
  change (len (@nil element) =? 0) with true.
  cbn [c_sID c_eID OSISChapterID].
  rewrite (truthy_Some _ He). cbn [OSISClean.truthy andb negb orb].
  set (st1 := if nonempty verseMilestone && haveEIDs _ then _ else _).
  unfold chapterCursor.
  cbn [c_sID c_eID OSISChapterID].
  rewrite (truthy_Some _ He). cbn [OSISClean.truthy andb negb orb default from_option id].
  rewrite (str_eqb_neq _ _ Hne), andb_false_r. cbn [mbind result_bind Py.bind].
  destruct (nonempty chapterMilestone).
  - unfold chapterOpened. cbn [OSISChapterID OSISClean.truthy negb].
    eexists. split; [reflexivity|]. apply reported_later, reported_here.
  - eexists. split; [reflexivity|]. apply reported_here.
Qed.

(** A verse end milestone that does not match the open verse milestone: the
    value returned is the empty string. *)
Lemma verse_end_mismatch e eID chapterMilestone verseMilestone locationDescription st :
  let location := py "validateVerseElement: " ++ locationDescription in
  children e = [] -> attrib e = [(py "eID", eID)] -> eID <> [] ->
  debugFlag = false \/ OSISClean.truthy (text e) = false ->
  verseMilestone <> [] -> eID <> verseMilestone ->
  exists st',
    validateVerseElement e verseMilestone chapterMilestone locationDescription st
      = Ok (Some [], st') /\
    reported Error (VerseEndMismatch verseMilestone eID location) st'.
Proof.
  intros location Hc Ha He Hd Hvm Hne.
  unfold OSISXMLBible.validateVerseElement. fold location.
  rewrite (verseAttributes_end _ _ _ _ Ha), Hc.
  change (len (@nil element) =? 0) with true.
  cbn [v_sID v_eID OSISVerseID].
  rewrite (truthy_Some _ He). cbn [OSISClean.truthy andb negb orb].
  assert (debug_assert debugFlag (negb (OSISClean.truthy (text e))) = Ok tt) as ->.
  { unfold debug_assert. destruct Hd as [->| ->]; [done|by destruct debugFlag]. }
  cbn [mbind result_bind Py.bind default from_option id]. unfold verseEnd.
  rewrite (nonempty_true _ Hvm), (str_eqb_neq _ _ Hne).
  eexists. split; [reflexivity|]. apply reported_here.
Qed.

End EndMilestones.

(** C2 (as amended): an end milestone whose eID does not match the open
    milestone is logged as an error and appended to [loadErrors], and the
    call returns.  For a chapter the value returned is the chapter milestone
    that was open, so the cursor is kept; for a verse the value returned is
    the empty string, so the verse cursor is closed. *)
Theorem C2_end_milestone_mismatch
    (debugFlag : bool) (getBBBFromOSIS : str -> option OSISXMLBible.codes)
    (getUSFMAbbreviation getUSFMNumber : str -> option str)
    (checkXMLNoText checkXMLNoTail :
       OSISXMLBible.element -> str -> str ->
       outcome (list (level * OSISXMLBible.message)))
    (getAssumedBookNames : BibleBook.t -> list str) (lower upper : str -> str)
    (isdigit : str -> bool) (mainDivOsisID : option str)
    (e : OSISXMLBible.element)
    (eID chapterMilestone verseMilestone locationDescription : str)
    (st : OSISXMLBible.state) (ms1 ms2 : list (level * OSISXMLBible.message)) :
  OSISXMLBible.children e = [] ->
  OSISXMLBible.attrib e = [(py "eID", eID)] ->
  eID <> [] ->
  (let location := py "validateChapterElement: " ++ locationDescription in
   checkXMLNoText e (location ++ py " at " ++ verseMilestone) (py "s2a8") = Ok ms1 ->
   checkXMLNoTail e (location ++ py " at " ++ verseMilestone) (py "j9k7") = Ok ms2 ->
   eID <> chapterMilestone ->
   exists st',
     OSISXMLBible.validateChapterElement debugFlag getBBBFromOSIS getUSFMAbbreviation
       getUSFMNumber checkXMLNoText checkXMLNoTail getAssumedBookNames lower upper
       isdigit mainDivOsisID e chapterMilestone verseMilestone locationDescription st
     = Ok (chapterMilestone, st') /\
     reported Error (OSISXMLBible.ChapterEndMismatch eID chapterMilestone location) st') /\
  (let location := py "validateVerseElement: " ++ locationDescription in
   debugFlag = false \/ OSISClean.truthy (OSISXMLBible.text e) = false ->
   verseMilestone <> [] -> eID <> verseMilestone ->
   exists st',
     OSISXMLBible.validateVerseElement debugFlag checkXMLNoTail isdigit
       e verseMilestone chapterMilestone locationDescription st
     = Ok (Some [], st') /\
     reported Error (OSISXMLBible.VerseEndMismatch verseMilestone eID location) st').
Proof.
  intros Hc Ha He. split.
  - intros location H1 H2 Hne. by eapply chapter_end_mismatch.
  - intros location Hd Hvm Hne. by eapply verse_end_mismatch.
Qed.

Lemma C2_end_milestone_mismatch_witness :
  let e := OSISXMLBible.Element (py "chapter") [(py "eID", py "Gen.2")] None None [] in
  let nothing := fun (_ : OSISXMLBible.element) (_ _ : str) =>
                   Ok ([] : list (level * OSISXMLBible.message)) in
  exists st',
    OSISXMLBible.validateChapterElement false (fun _ => None) (fun _ => None) (fun _ => None)
      nothing nothing (fun _ => []) USFMFile.ascii_lower USFMFile.ascii_lower
      (fun _ => false) None e (py "Gen.1") [] (py "div") OSISXMLBible.initial
    = Ok (py "Gen.1", st') /\
    reported Error
      (OSISXMLBible.ChapterEndMismatch (py "Gen.2") (py "Gen.1")
         (py "validateChapterElement: " ++ py "div")) st'.
Proof.
  intros e nothing.
  refine (proj1 (C2_end_milestone_mismatch false (fun _ => None) (fun _ => None)
            (fun _ => None) nothing nothing (fun _ => []) USFMFile.ascii_lower
            USFMFile.ascii_lower (fun _ => false) None e (py "Gen.2") (py "Gen.1") []
            (py "div") OSISXMLBible.initial [] [] _ _ _) _ _ _);
    first [ reflexivity | (intros H; vm_compute in H; discriminate H) ].
Defined.

(** C2 as stated fails for verses: with the verse milestone Gen.1.1 open, the
    end milestone Gen.1.2 makes [validateVerseElement] return the empty
    string, which the callers assign to the verse cursor. *)
Lemma C2_verse_cursor_closed_counterexample :
  let e := OSISXMLBible.Element (py "verse") [(py "eID", py "Gen.1.2")] None None [] in
  fst <$> OSISXMLBible.validateVerseElement false (fun _ _ _ => Ok []) (fun _ => false)
            e (py "Gen.1.1") (py "Gen.1") (py "div") OSISXMLBible.initial
  = Ok (Some []).
Proof. reflexivity. Qed.

(** ** OSISXMLBible: a chapter milestone of another book *)

Section SplitFacts.

Lemma split_no_sep sep w : Forall (fun x => x <> sep) w -> split sep w = [w].
Proof.
  induction 1 as [|x w Hx _ IH]; [done|].
  cbn [split]. destruct (N.eqb_spec x sep) as [?|_]; [done|]. by rewrite IH.
Qed.

Lemma split_at_sep sep w rest :
  Forall (fun x => x <> sep) w -> split sep (w ++ sep :: rest) = w :: split sep rest.
Proof.
  induction 1 as [|x w Hx _ IH]; cbn [split app].
  - by rewrite N.eqb_refl.
  - destruct (N.eqb_spec x sep) as [?|_]; [done|]. by rewrite IH.
Qed.

Lemma count_plain c w : Forall (fun x => x <> c) w -> count c w = 0.
Proof.
  intros H. unfold count, len.
  replace (filter (fun x => x = c) w) with (@nil N); [done|].
  symmetry. induction H as [|x w Hx _ IH]; [done|].
  rewrite filter_cons. by destruct (decide (x = c)).
Qed.

Lemma count_app c a b : count c (a ++ b) = count c a + count c b.
Proof. unfold count. rewrite filter_app. apply len_app. Qed.

Lemma count_once c a b :
  Forall (fun x => x <> c) a -> Forall (fun x => x <> c) b -> count c (a ++ c :: b) = 1.
Proof.
  intros Ha Hb. change (a ++ c :: b) with (a ++ [c] ++ b).
  rewrite !count_app, (count_plain _ _ Ha), (count_plain _ _ Hb).
  unfold count. rewrite filter_cons. by destruct (decide (c = c)).
Qed.

End SplitFacts.

Section StateFacts.

Import OSISXMLBible.

Lemma same_books_refl st : same_books st st.
Proof. by repeat split. Qed.

Lemma same_books_trans st1 st2 st3 :
  same_books st1 st2 -> same_books st2 st3 -> same_books st1 st3.
Proof.
  intros (?&?&?&?&?&?) (?&?&?&?&?&?). repeat split; congruence.
Qed.

Lemma same_books_report l m st : same_books st (report l m st).
Proof. by repeat split. Qed.

Lemma same_books_reports ms st : same_books st (reports ms st).
Proof.
  unfold reports. revert st. induction ms as [|m ms IH]; intros st; [apply same_books_refl|].
  cbn [fold_left]. eapply same_books_trans; [apply same_books_report|apply IH].
Qed.

Lemma same_books_if (c : bool) l m st : same_books st (if c then report l m st else st).
Proof. destruct c; [apply same_books_report|apply same_books_refl]. Qed.

End StateFacts.

Section NewBook.

Import OSISXMLBible.

Variable debugFlag : bool.
Variable getBBBFromOSIS : str -> option codes.
Variable getUSFMAbbreviation : str -> option str.
Variable getUSFMNumber : str -> option str.
Variable checkXMLNoText : element -> str -> str -> outcome (list (level * message)).
Variable checkXMLNoTail : element -> str -> str -> outcome (list (level * message)).
Variable getAssumedBookNames : BibleBook.t -> list str.
Variable lower : str -> str.
Variable upper : str -> str.
Variable isdigit : str -> bool.
Variable mainDivOsisID : option str.

Local Abbreviation saveThisBook := (saveThisBook getAssumedBookNames lower).
Local Abbreviation name_available := (name_available mainDivOsisID).
Local Abbreviation savePreviousBook :=
  (savePreviousBook getAssumedBookNames lower upper mainDivOsisID).
Local Abbreviation chapterNewBook :=
  (chapterNewBook getUSFMAbbreviation getUSFMNumber getAssumedBookNames lower upper
     mainDivOsisID).
Local Abbreviation chapterOpened :=
  (chapterOpened debugFlag getBBBFromOSIS getUSFMAbbreviation getUSFMNumber
     getAssumedBookNames lower upper mainDivOsisID).
Local Abbreviation validateChapterElement :=
  (validateChapterElement debugFlag getBBBFromOSIS getUSFMAbbreviation getUSFMNumber
     checkXMLNoText checkXMLNoTail getAssumedBookNames lower upper isdigit mainDivOsisID).

Lemma saveName_books {B} BBB (self : InternalBible.t B) names :
  InternalBible.books (fold_left (InternalBible.saveName lower BBB) names self)
  = InternalBible.books self.
Proof. revert self. induction names as [|n names IH]; intros self; [done|]. cbn. by rewrite IH. Qed.

(** [saveBook] stores the book under its code. *)
Lemma saveBook_books {B} (bookBBB : B -> str) (names : B -> list str)
    (self : InternalBible.t B) (bookData : B) :
  InternalBible.books (fst (InternalBible.saveBook bookBBB names lower self bookData))
  = OD.set (bookBBB bookData) bookData (InternalBible.books self).
Proof. unfold InternalBible.saveBook. cbn [fst]. by rewrite saveName_books. Qed.

Lemma logging_fold_fields {A} (f : A -> level * message) (l : list A) st :
  let st' := fold_left (fun st x => logging (fst (f x)) (snd (f x)) st) l st in
  bible st' = bible st /\ objects st' = objects st /\ thisBook st' = thisBook st /\
  BBB st' = BBB st /\ USFMAbbreviation st' = USFMAbbreviation st /\
  loadErrors st' = loadErrors st.
Proof.
  revert st. induction l as [|x l IH]; intros st; [done|].
  cbn [fold_left]. destruct (IH (logging (fst (f x)) (snd (f x)) st)) as (?&?&?&?&?&?).
  repeat split; (etrans; [eassumption|done]).
Qed.

Lemma saveThisBook_spec st r b :
  thisBook st = Some r -> objects st !! r = Some b ->
  exists st', saveThisBook st = Ok st' /\
    InternalBible.books (bible st') = OD.set (BibleBook.BBB b) r (InternalBible.books (bible st)) /\
    objects st' = objects st /\ thisBook st' = thisBook st /\ BBB st' = BBB st /\
    USFMAbbreviation st' = USFMAbbreviation st /\ loadErrors st' = loadErrors st.
Proof.
  intros Ht Ho. unfold OSISXMLBible.saveThisBook. rewrite Ht.
  pose proof (saveBook_books
    (fun r => BibleBook.BBB (default (BibleBook.new []) (objects st !! r)))
    (fun r => getAssumedBookNames (default (BibleBook.new []) (objects st !! r)))
    (bible st) r) as Hb.
  destruct (InternalBible.saveBook _ _ _ _ _) as [bible' logged]. cbn [fst] in Hb.
  eexists. split; [reflexivity|].
  destruct (logging_fold_fields (fun lm => (fst lm, FromBible (snd lm))) logged
              (set_bible st bible')) as (E1&E2&E3&E4&E5&E6).
  cbn [fst snd] in *. rewrite E1, E2, E3, E4, E5, E6. cbn.
  rewrite Hb, Ho. done.
Qed.

Lemma onThisBook_spec f st r b :
  thisBook st = Some r -> objects st !! r = Some b ->
  onThisBook f st = Ok (set_objects st (<[r := f b]> (objects st))).
Proof. intros Ht Ho. unfold onThisBook. by rewrite Ht, Ho. Qed.

(** With an argument that does not raise, the order of the lookup and of
    the argument does not show. *)
Lemma onThisBookWith_Ok {A} (a : A) (f : BibleBook.t -> A -> BibleBook.t) st :
  onThisBookWith (Ok a) f st = onThisBook (fun b => f b a) st.
Proof.
  unfold onThisBookWith, onThisBook. destruct (thisBook st) as [r|]; [|done].
  by destruct (objects st !! r).
Qed.

(** No book in progress: the method is not found, whatever the argument. *)
Lemma onThisBookWith_no_book {A} (argument : outcome A)
    (f : BibleBook.t -> A -> BibleBook.t) st :
  (thisBook st ≫= fun r => objects st !! r) = None ->
  onThisBookWith argument f st = Raise AttributeError.
Proof.
  unfold onThisBookWith. destruct (thisBook st) as [r|]; [|done]. cbn.
  by intros ->.
Qed.

Lemma onThisBook_step f st r b :
  thisBook st = Some r -> objects st !! r = Some b ->
  exists st', onThisBook f st = Ok st' /\
    objects st' !! r = Some (f b) /\ length (objects st') = length (objects st) /\
    thisBook st' = Some r /\ bible st' = bible st /\ BBB st' = BBB st /\
    loadErrors st' = loadErrors st.
Proof.
  intros Ht Ho. rewrite (onThisBook_spec f st r b Ht Ho). eexists. split; [reflexivity|].
  cbn. rewrite length_insert. repeat split; try done.
  apply list_lookup_insert_eq. by eapply lookup_lt_Some.
Qed.

(** Saving the previous book registers the object that [self.thisBook]
    refers to under its book code. *)
Lemma savePreviousBook_spec st r b :
  thisBook st = Some r -> objects st !! r = Some b ->
  BibleBook._rawLines b <> [] -> name_available st b ->
  exists st', savePreviousBook st = Ok st' /\
    InternalBible.books (bible st') = OD.set (BibleBook.BBB b) r (InternalBible.books (bible st)) /\
    length (objects st') = length (objects st) /\ thisBook st' = Some r /\
    BBB st' = BBB st /\ loadErrors st' = loadErrors st.
Proof.
  intros Ht Ho Hne Hname. unfold OSISXMLBible.savePreviousBook. rewrite Ht, Ho.
  destruct (last (BibleBook._rawLines b)) as [[m t]|] eqn:Hlast;
    [|by apply last_None in Hlast].
  cbn [fst snd].
  assert (r < length (objects st))%nat as Hr by (by eapply lookup_lt_Some).
  destruct (str_eqb m (py "s")) eqn:Es.
  - apply str_eqb_eq in Es. subst m.
    set (b' := BibleBook.Book (BibleBook.BBB b) (removelast (BibleBook._rawLines b))).
    set (st1 := set_objects st (<[r := b']> (objects st))).
    destruct (saveThisBook_spec st1 r b') as (st2 & -> & Hb & Hob & Hth & HB & HU & HL);
      [done|by apply list_lookup_insert_eq|].
    cbn [mbind result_bind Py.bind].
    destruct (Hname t Hlast) as [name Hn]. rewrite HU.
    subst st1. cbn [USFMAbbreviation set_objects].
    rewrite Hn.
    assert (thisBook st2 = Some r) as Ht2 by (by rewrite Hth).
    assert (objects st2 !! r = Some b') as Ho2
      by (rewrite Hob; by apply list_lookup_insert_eq).
    destruct (onThisBook_step (fun b => BibleBook.addLine b (py "id")
                (upper name ++ py " converted to USFM from OSIS by "
                 ++ ProgName ++ py " V" ++ ProgVersion)) st2 r b' Ht2 Ho2)
      as (st3 & -> & Ho3 & Hl3 & Ht3 & Hbi3 & HB3 & HL3).
    cbn [mbind result_bind Py.bind].
    destruct (onThisBook_step (fun b => BibleBook.addLine b (py "h") name) st3 r _ Ht3 Ho3)
      as (st4 & -> & Ho4 & Hl4 & Ht4 & Hbi4 & HB4 & HL4).
    cbn [mbind result_bind Py.bind].
    destruct (onThisBook_step (fun b => BibleBook.addLine b (py "mt1") t) st4 r _ Ht4 Ho4)
      as (st5 & -> & Ho5 & Hl5 & Ht5 & Hbi5 & HB5 & HL5).
    exists st5. split; [reflexivity|].
    rewrite Hbi5, Hbi4, Hbi3, Hb, Hl5, Hl4, Hl3, Hob, HB5, HB4, HB3, HB, HL5, HL4, HL3, HL.
    cbn. rewrite length_insert. repeat split; done.
  - rewrite list_insert_id by done.
    replace (set_objects st (objects st)) with st by (by destruct st).
    destruct (saveThisBook_spec st r b Ht Ho) as (st2 & -> & Hb & Hob & Hth & HB & HU & HL).
    cbn [mbind result_bind Py.bind]. eexists. split; [reflexivity|].
    rewrite Hb, Hob, Hth. repeat split; done.
Qed.

End NewBook.

Section ChapterStart.

Import OSISXMLBible.

Variable debugFlag : bool.
Variable getBBBFromOSIS : str -> option codes.
Variable getUSFMAbbreviation : str -> option str.
Variable getUSFMNumber : str -> option str.
Variable checkXMLNoText : element -> str -> str -> outcome (list (level * message)).
Variable checkXMLNoTail : element -> str -> str -> outcome (list (level * message)).
Variable getAssumedBookNames : BibleBook.t -> list str.
Variable lower : str -> str.
Variable upper : str -> str.
Variable isdigit : str -> bool.
Variable mainDivOsisID : option str.

Local Abbreviation chapterNewBook :=
  (chapterNewBook getUSFMAbbreviation getUSFMNumber getAssumedBookNames lower upper
     mainDivOsisID).
Local Abbreviation chapterOpened :=
  (chapterOpened debugFlag getBBBFromOSIS getUSFMAbbreviation getUSFMNumber
     getAssumedBookNames lower upper mainDivOsisID).
Local Abbreviation validateChapterElement :=
  (validateChapterElement debugFlag getBBBFromOSIS getUSFMAbbreviation getUSFMNumber
     checkXMLNoText checkXMLNoTail getAssumedBookNames lower upper isdigit mainDivOsisID).

Lemma chapterNewBook_spec cmBBB chapterMilestone st r b :
  thisBook st = Some r -> objects st !! r = Some b ->
  name_available mainDivOsisID st b ->
  exists ret st', chapterNewBook cmBBB chapterMilestone st = Ok (ret, st') /\
    thisBook st' = Some (length (objects st)) /\
    objects st' !! length (objects st) = Some (BibleBook.new cmBBB) /\
    length (objects st') = S (length (objects st)) /\
    BBB st' = cmBBB /\
    (BBB st <> [] -> 5 < len (BibleBook._rawLines b) ->
     InternalBible.books (bible st')
     = OD.set (BibleBook.BBB b) r (InternalBible.books (bible st))) /\
    (BBB st = [] \/ len (BibleBook._rawLines b) <= 5 ->
     InternalBible.books (bible st') = InternalBible.books (bible st)).
Proof.
  intros Ht Ho Hname. unfold OSISXMLBible.chapterNewBook. rewrite Ht, Ho.
  destruct (nonempty (BBB st) && (len (BibleBook._rawLines b) >? 5)) eqn:E.
  - apply andb_true_iff in E as [E1 E2].
    assert (BBB st <> []) as HB by (by destruct (BBB st)).
    assert (5 < len (BibleBook._rawLines b)) as Hlen by lia.
    assert (BibleBook._rawLines b <> []) as Hne.
    { intros Hnil. rewrite Hnil in Hlen. unfold len in Hlen. simpl in Hlen. lia. }
    destruct (savePreviousBook_spec getAssumedBookNames lower upper mainDivOsisID
                st r b Ht Ho Hne Hname) as (st1 & -> & Hb & Hl & Ht1 & HB1 & HL1).
    cbn [mbind result_bind Py.bind fst snd]. eexists _, _. split; [reflexivity|].
    cbn [thisBook objects BBB bible startBook]. rewrite Hl, length_app. cbn [length].
    repeat split; try done.
    + rewrite <- Hl. apply list_lookup_middle. done.
    + lia.
    + intros [?|?]; [done|lia].
  - cbn [mbind result_bind Py.bind fst snd]. eexists _, _. split; [reflexivity|].
    cbn [thisBook objects BBB bible startBook]. rewrite length_app. cbn [length].
    repeat split; try done.
    + by apply list_lookup_middle.
    + lia.
    + intros HB Hlen. apply andb_false_iff in E as [E|E].
      * by destruct (BBB st).
      * lia.
Qed.

Lemma chapter_start_new_book e sID book chap cmBBB chapterMilestone verseMilestone
    locationDescription st ms1 ms2 r b :
  let location := py "validateChapterElement: " ++ locationDescription in
  children e = [] ->
  attrib e = [(py "osisID", book ++ dot :: chap); (py "sID", sID)] ->
  Forall (fun c => c <> dot) book -> Forall (fun c => c <> dot) chap -> sID <> [] ->
  checkXMLNoText e (location ++ py " at " ++ verseMilestone) (py "s2a8") = Ok ms1 ->
  checkXMLNoTail e (location ++ py " at " ++ verseMilestone) (py "j9k7") = Ok ms2 ->
  getBBBFromOSIS book = Some (One cmBBB) -> cmBBB <> [] -> cmBBB <> BBB st ->
  thisBook st = Some r -> objects st !! r = Some b ->
  name_available mainDivOsisID st b ->
  exists ret st',
    validateChapterElement e chapterMilestone verseMilestone locationDescription st
      = Ok (ret, st') /\
    new_book_started cmBBB chap r b st st'.
Proof.
  intros location Hc Ha Hbook Hchap HsID H1 H2 Hget Hcm Hne Ht Ho Hname.
  unfold OSISXMLBible.validateChapterElement. fold location.
  rewrite H1. cbn [mbind result_bind Py.bind]. rewrite H2. cbn [mbind result_bind Py.bind].
  rewrite (attributes_start_chapter _ _ _ _ _ Ha), Hc.
  change (len (@nil element) =? 0) with true.
  cbn [c_sID c_eID OSISChapterID].
  assert (book ++ dot :: chap <> []) as Hosis by (by destruct book).
  rewrite (truthy_Some _ HsID), (truthy_Some _ Hosis).
  cbn [OSISClean.truthy andb negb orb].
  set (st1 := if nonempty verseMilestone && haveEIDs _ then _ else _).
  assert (same_books st st1) as (Eb & Eo & Eth & EB & EU & _).
  { eapply same_books_trans; [|apply same_books_if].
    eapply same_books_trans; apply same_books_reports. }
  unfold chapterCursor. cbn [c_sID c_eID OSISChapterID].
  rewrite (truthy_Some _ HsID), (truthy_Some _ Hosis).
  cbn [OSISClean.truthy andb negb orb mbind result_bind Py.bind default from_option id].
  rewrite (nonempty_true _ HsID).
  unfold OSISXMLBible.chapterOpened. cbn [OSISChapterID].
  rewrite (truthy_Some _ Hosis). cbn [negb default from_option id].
  rewrite (count_once _ _ _ Hbook Hchap). change (negb (1 =? 1)) with false. cbv iota.
  rewrite (split_at_sep _ _ _ Hbook), (split_no_sep _ _ Hchap).
  assert (debug_assert debugFlag (len [book; chap] =? 2) = Ok tt) as ->
    by (unfold debug_assert; by destruct debugFlag).
  cbn [mbind result_bind Py.bind item lookup list_lookup].
  unfold chapterBookCode. rewrite Hget.
  rewrite (nonempty_true _ Hcm), str_eqb_neq by (by rewrite EB). cbn [negb andb].
  destruct (chapterNewBook_spec cmBBB sID st1 r b) as (ret & st2 & -> & Ht2 & Ho2 & Hl2 & HB2 & Hs & Hn);
    [by rewrite Eth|by rewrite Eo| |].
  { intros t Hl. rewrite EU. exact (Hname t Hl). }
  cbn [mbind result_bind Py.bind]. rewrite Ht2.
  rewrite (onThisBook_spec _ st2 _ _ Ht2 Ho2).
  cbn [mbind result_bind Py.bind]. eexists _, _. split; [reflexivity|].
  unfold new_book_started. cbn [thisBook objects BBB bible set_objects].
  rewrite <- Eo, <- EB, <- Eb. repeat split; try done.
  apply list_lookup_insert_eq. lia.
Qed.

End ChapterStart.

(** C3 (as amended): a chapter start milestone whose chapter ID names
    another book than the one being built starts a new book, which holds the
    'c' line of the milestone and nothing else.  The book that was being
    built is passed to [saveBook], and so registered under its code, when
    the current book code is not empty and the book has more than 5 raw
    lines; otherwise it is not saved. *)
Theorem C3_chapter_of_another_book
    (debugFlag : bool) (getBBBFromOSIS : str -> option OSISXMLBible.codes)
    (getUSFMAbbreviation getUSFMNumber : str -> option str)
    (checkXMLNoText checkXMLNoTail :
       OSISXMLBible.element -> str -> str ->
       outcome (list (level * OSISXMLBible.message)))
    (getAssumedBookNames : BibleBook.t -> list str) (lower upper : str -> str)
    (isdigit : str -> bool) (mainDivOsisID : option str)
    (e : OSISXMLBible.element)
    (sID book chap cmBBB chapterMilestone verseMilestone locationDescription : str)
    (st : OSISXMLBible.state) (ms1 ms2 : list (level * OSISXMLBible.message))
    (r : nat) (b : BibleBook.t) :
  let location := py "validateChapterElement: " ++ locationDescription in
  OSISXMLBible.children e = [] ->
  OSISXMLBible.attrib e = [(py "osisID", book ++ dot :: chap); (py "sID", sID)] ->
  Forall (fun c => c <> dot) book -> Forall (fun c => c <> dot) chap -> sID <> [] ->
  checkXMLNoText e (location ++ py " at " ++ verseMilestone) (py "s2a8") = Ok ms1 ->
  checkXMLNoTail e (location ++ py " at " ++ verseMilestone) (py "j9k7") = Ok ms2 ->
  getBBBFromOSIS book = Some (OSISXMLBible.One cmBBB) ->
  cmBBB <> [] -> cmBBB <> OSISXMLBible.BBB st ->
  OSISXMLBible.thisBook st = Some r -> OSISXMLBible.objects st !! r = Some b ->
  name_available mainDivOsisID st b ->
  exists ret st',
    OSISXMLBible.validateChapterElement debugFlag getBBBFromOSIS getUSFMAbbreviation
      getUSFMNumber checkXMLNoText checkXMLNoTail getAssumedBookNames lower upper
      isdigit mainDivOsisID e chapterMilestone verseMilestone locationDescription st
    = Ok (ret, st') /\
    OSISXMLBible.thisBook st' = Some (length (OSISXMLBible.objects st)) /\
    OSISXMLBible.objects st' !! length (OSISXMLBible.objects st)
      = Some (BibleBook.addLine (BibleBook.new cmBBB) (py "c") chap) /\
    OSISXMLBible.BBB st' = cmBBB /\
    (OSISXMLBible.BBB st <> [] -> 5 < len (BibleBook._rawLines b) ->
     InternalBible.books (OSISXMLBible.bible st')
     = OD.set (BibleBook.BBB b) r (InternalBible.books (OSISXMLBible.bible st))) /\
    (OSISXMLBible.BBB st = [] \/ len (BibleBook._rawLines b) <= 5 ->
     InternalBible.books (OSISXMLBible.bible st')
     = InternalBible.books (OSISXMLBible.bible st)).
Proof.
  intros location Hc Ha Hbook Hchap HsID H1 H2 Hget Hcm Hne Ht Ho Hname.
  by eapply chapter_start_new_book.
Qed.

Lemma C3_chapter_of_another_book_witness :
  exists ret st',
    OSISXMLBible.validateChapterElement false exodus_only (fun _ => None) (fun _ => None)
      (fun _ _ _ => Ok []) (fun _ _ _ => Ok []) (fun _ => []) USFMFile.ascii_lower
      USFMFile.ascii_lower (fun _ => false) None exodus_milestone (py "Gen.50") []
      (py "div") (genesis_in_progress six_lines)
    = Ok (ret, st') /\
    InternalBible.books (OSISXMLBible.bible st') = [(py "GEN", 0%nat)] /\
    OSISXMLBible.objects st' !! 1%nat
      = Some (BibleBook.Book (py "EXO") [(py "c", py "1")]).
Proof.
  destruct (C3_chapter_of_another_book false exodus_only (fun _ => None) (fun _ => None)
              (fun _ _ _ => Ok []) (fun _ _ _ => Ok []) (fun _ => []) USFMFile.ascii_lower
              USFMFile.ascii_lower (fun _ => false) None exodus_milestone
              (py "Exo.1") (py "Exo") (py "1") (py "EXO") (py "Gen.50") [] (py "div")
              (genesis_in_progress six_lines) [] [] 0%nat
              (BibleBook.Book (py "GEN") six_lines))
    as (ret & st' & E & _ & Hnew & _ & Hsaved & _);
    try reflexivity.
  - repeat constructor; discriminate.
  - repeat constructor; discriminate.
  - discriminate.
  - discriminate.
  - intros H. vm_compute in H. discriminate H.
  - intros t _. by exists (py "GEN").
  - exists ret, st'. split; [exact E|]. split; [|exact Hnew].
    apply Hsaved; [discriminate|reflexivity].
Defined.

(** C3 as stated fails for a short book: with five lines of Genesis, the
    chapter milestone of Exodus starts the new book and Genesis is not
    registered. *)
Lemma C3_short_book_not_saved_counterexample :
  (fun r => (InternalBible.books (OSISXMLBible.bible (snd r)),
             OSISXMLBible.thisBook (snd r), OSISXMLBible.objects (snd r))) <$>
    OSISXMLBible.validateChapterElement false exodus_only (fun _ => None) (fun _ => None)
      (fun _ _ _ => Ok []) (fun _ _ _ => Ok []) (fun _ => []) USFMFile.ascii_lower
      USFMFile.ascii_lower (fun _ => false) None exodus_milestone (py "Gen.50") []
      (py "div") (genesis_in_progress (take 5 six_lines))
  = Ok ([], Some 1%nat,
        [BibleBook.Book (py "GEN") (take 5 six_lines);
         BibleBook.Book (py "EXO") [(py "c", py "1")]]).
Proof. reflexivity. Qed.

(** ** OSISXMLBible: verse ranges *)

Section VerseRange.

Import OSISXMLBible.

Variable debugFlag : bool.
Variable checkXMLNoTail : element -> str -> str -> outcome (list (level * message)).
Variable isdigit : str -> bool.

Lemma component_no_dot s : component s -> Forall (fun c => c <> dot) s.
Proof. intros H. eapply Forall_impl; [exact H|]. by intros c [? ?]. Qed.

Lemma component_no_hyphen s : component s -> Forall (fun c => c <> hyphen) s.
Proof. intros H. eapply Forall_impl; [exact H|]. by intros c [? ?]. Qed.

Lemma identifier_no_hyphen b c v :
  component b -> component c -> component v ->
  Forall (fun x => x <> hyphen) (b ++ dot :: c ++ dot :: v).
Proof.
  intros Hb Hc Hv.
  apply Forall_app. split; [by apply component_no_hyphen|].
  constructor; [done|].
  apply Forall_app. split; [by apply component_no_hyphen|].
  constructor; [done|]. by apply component_no_hyphen.
Qed.

Lemma identifier_split b c v :
  component b -> component c -> component v ->
  split dot (b ++ dot :: c ++ dot :: v) = [b; c; v].
Proof.
  intros Hb Hc Hv.
  rewrite (split_at_sep _ _ _ (component_no_dot _ Hb)).
  rewrite (split_at_sep _ _ _ (component_no_dot _ Hc)).
  by rewrite (split_no_sep _ _ (component_no_dot _ Hv)).
Qed.

(** The text of the 'v' line of a range: the two verse numbers. *)
Lemma verseNumber_range b1 c1 v1 b2 c2 v2 st :
  component b1 -> component c1 -> component v1 ->
  component b2 -> component c2 -> component v2 ->
  verseNumber debugFlag (rangeID b1 c1 v1 b2 c2 v2) st
  = Ok (Ok (v1 ++ [hyphen] ++ v2), st).
Proof.
  intros Hb1 Hc1 Hv1 Hb2 Hc2 Hv2. unfold verseNumber, rangeID.
  assert (contains [hyphen]
            ((b1 ++ dot :: c1 ++ dot :: v1) ++ hyphen :: b2 ++ dot :: c2 ++ dot :: v2)
          = true) as ->.
  { apply (contains_app [hyphen]). }
  rewrite (split_at_sep _ _ _ (identifier_no_hyphen _ _ _ Hb1 Hc1 Hv1)).
  rewrite (split_no_sep _ _ (identifier_no_hyphen _ _ _ Hb2 Hc2 Hv2)).
  cbn [len length Z.of_nat item lookup list_lookup mbind result_bind Py.bind].
  rewrite !identifier_split by done. reflexivity.
Qed.

Lemma same_books_checkVerseInChapter vm cm location st :
  same_books st (checkVerseInChapter vm cm location st).
Proof.
  unfold checkVerseInChapter. destruct (startswith _ cm); apply same_books_if.
Qed.

(** The line that [addLine] and [appendToLastLine] leave: the text of the
    line, and directly after it the cleaned trailing text. *)
Lemma with_tail_addLine tail b marker text :
  with_tail tail (BibleBook.addLine b marker text)
  = BibleBook.Book (BibleBook.BBB b)
      (BibleBook._rawLines b
       ++ [(marker, text ++ default [] (fst (OSISClean.clean tail None None None)))]).
Proof.
  unfold with_tail, BibleBook.addLine.
  destruct (fst (OSISClean.clean tail None None None)) as [[|c vTail]|];
    cbn [OSISClean.truthy default from_option id]; rewrite ?app_nil_r; try done.
  unfold BibleBook.appendToLastLine. cbn [BibleBook._rawLines BibleBook.BBB].
  by rewrite last_snoc, removelast_last.
Qed.

(** The start of a verse: what the element leaves in the book in progress,
    given the text of its 'v' line. *)
Lemma verse_start_with e osisID sID number verseMilestone chapterMilestone
    locationDescription st r b :
  children e = [] -> attrib e = [(py "osisID", osisID); (py "sID", sID)] ->
  osisID <> [] -> sID <> [] ->
  debugFlag = false \/
    (OSISClean.truthy (text e) = false /\ contains [space] sID = false) ->
  (forall st1, verseNumber debugFlag sID st1 = Ok (Ok number, st1)) ->
  thisBook st = Some r -> objects st !! r = Some b ->
  exists st',
    validateVerseElement debugFlag checkXMLNoTail isdigit e verseMilestone
      chapterMilestone locationDescription st = Ok (Some sID, st') /\
    objects st' = <[r := with_tail (tail e) (BibleBook.addLine b (py "v") number)]> (objects st) /\
    bible st' = bible st /\ thisBook st' = thisBook st.
Proof.
  intros Hc Ha Hosis HsID Hd Hnumber Ht Ho.
  unfold OSISXMLBible.validateVerseElement.
  rewrite (attributes_start_verse _ _ _ _ _ Ha), Hc.
  change (len (@nil element) =? 0) with true.
  cbn [v_sID v_eID OSISVerseID].
  rewrite (truthy_Some _ HsID), (truthy_Some _ Hosis).
  cbn [OSISClean.truthy andb negb orb].
  assert (debug_assert debugFlag (negb (OSISClean.truthy (text e))) = Ok tt) as ->.
  { unfold debug_assert. destruct Hd as [->|[-> _]]; [done|by destruct debugFlag]. }
  cbn [mbind result_bind Py.bind default from_option id]. unfold verseStart.
  set (st1 := checkVerseInChapter _ _ _ _).
  assert (same_books st st1) as (Eb & Eo & Eth & EB & EU & _).
  { eapply same_books_trans; [apply same_books_if|apply same_books_checkVerseInChapter]. }
  rewrite (nonempty_true _ HsID).
  assert (debug_assert debugFlag (negb (contains [space] sID)) = Ok tt) as ->.
  { unfold debug_assert. destruct Hd as [->|[_ ->]]; [done|by destruct debugFlag]. }
  cbn [mbind result_bind Py.bind].
  rewrite Hnumber. cbn [mbind result_bind Py.bind].
  rewrite onThisBookWith_Ok, (onThisBook_spec _ st1 r b) by (by rewrite ?Eth, ?Eo).
  cbn [mbind result_bind Py.bind]. unfold with_tail.
  destruct (OSISClean.clean (tail e) None None None) as [vTail effects]. cbn [fst].
  set (st2 := fold_left _ (OSISClean.log effects) _).
  destruct (logging_fold_fields (fun lm => (fst lm, FromClean (snd lm)))
              (OSISClean.log effects)
              (set_objects st1
                 (<[r := BibleBook.addLine b (py "v") number]> (objects st1))))
    as (E1' & E2' & E3' & _).
  assert (bible st2 = bible st1) as E1 by exact E1'.
  assert (objects st2 = <[r := BibleBook.addLine b (py "v") number]> (objects st1))
    as E2 by exact E2'.
  assert (thisBook st2 = thisBook st1) as E3 by exact E3'.
  clear E1' E2' E3'.
  assert (r < length (objects st))%nat as Hr by (by eapply lookup_lt_Some).
  destruct (OSISClean.truthy vTail).
  - rewrite (onThisBook_spec _ st2 r (BibleBook.addLine b (py "v") number))
      by (rewrite ?E3, ?E2, ?Eth, ?Eo; first [done|by apply list_lookup_insert_eq]).
    cbn [mbind result_bind Py.bind]. eexists. split; [reflexivity|].
    cbn [objects bible thisBook set_objects].
    rewrite E1, E2, E3, Eo, Eb, Eth, list_insert_insert_eq. done.
  - cbn [mbind result_bind Py.bind]. eexists. split; [reflexivity|].
    rewrite E1, E2, E3, Eo, Eb, Eth. done.
Qed.

End VerseRange.

(** C1: for a verse start milestone whose sID is a range of two dotted
    book.chapter.verse identifiers joined by one hyphen,
    [validateVerseElement] returns the sID and adds one line to the book in
    progress, with the marker 'v'.  Its text is the first verse number, a
    hyphen and the second verse number, and directly after them the cleaned
    trailing text of the element: no space separates the verse token from the
    text (the line of a single verse has one), and the books and chapters of
    the two identifiers are not kept.  No other book changes. *)
Theorem C1_range_token_glued_to_text
    (debugFlag : bool)
    (checkXMLNoTail :
       OSISXMLBible.element -> str -> str ->
       outcome (list (level * OSISXMLBible.message)))
    (isdigit : str -> bool) (e : OSISXMLBible.element)
    (osisID b1 c1 v1 b2 c2 v2 verseMilestone chapterMilestone locationDescription : str)
    (st : OSISXMLBible.state) (r : nat) (b : BibleBook.t) :
  let sID := rangeID b1 c1 v1 b2 c2 v2 in
  OSISXMLBible.children e = [] ->
  OSISXMLBible.attrib e = [(py "osisID", osisID); (py "sID", sID)] ->
  osisID <> [] ->
  component b1 -> component c1 -> component v1 ->
  component b2 -> component c2 -> component v2 ->
  debugFlag = false \/
    (OSISClean.truthy (OSISXMLBible.text e) = false /\ contains [space] sID = false) ->
  OSISXMLBible.thisBook st = Some r -> OSISXMLBible.objects st !! r = Some b ->
  exists st',
    OSISXMLBible.validateVerseElement debugFlag checkXMLNoTail isdigit e verseMilestone
      chapterMilestone locationDescription st = Ok (Some sID, st') /\
    OSISXMLBible.objects st'
      = <[r := BibleBook.Book (BibleBook.BBB b)
                 (BibleBook._rawLines b
                  ++ [(py "v",
                       v1 ++ [hyphen] ++ v2
                       ++ default [] (fst (OSISClean.clean (OSISXMLBible.tail e)
                                             None None None)))])]>
          (OSISXMLBible.objects st) /\
    OSISXMLBible.bible st' = OSISXMLBible.bible st /\
    OSISXMLBible.thisBook st' = OSISXMLBible.thisBook st.
Proof.
  intros sID Hc Ha Hosis Hb1 Hc1 Hv1 Hb2 Hc2 Hv2 Hd Ht Ho.
  assert (sID <> []) as HsID by (unfold sID, rangeID; by destruct b1).
  destruct (verse_start_with debugFlag checkXMLNoTail isdigit e osisID sID
              (v1 ++ [hyphen] ++ v2) verseMilestone chapterMilestone locationDescription
              st r b Hc Ha Hosis HsID Hd) as (st' & E & Hobj & Hb & Hth); try done.
  { intros st1. by apply verseNumber_range. }
  exists st'. split; [exact E|]. rewrite Hobj, with_tail_addLine, <- !app_assoc. done.
Qed.

Lemma C1_range_token_glued_to_text_witness :
  exists st',
    OSISXMLBible.validateVerseElement false (fun _ _ _ => Ok []) (fun _ => false)
      (verse_milestone (py "Jas.1.7-Jas.1.8") (Some (py "Let him ask")))
      [] (py "Jas.1") (py "div") james_in_progress
    = Ok (Some (py "Jas.1.7-Jas.1.8"), st') /\
    OSISXMLBible.objects st'
      = [BibleBook.Book (py "JAS") [(py "c", py "1"); (py "v", py "7-8Let him ask")]].
Proof.
  assert (forall s : string, Forall (fun c => c <> dot /\ c <> hyphen) (py s) ->
            component (py s)) as Hcomp by done.
  destruct (C1_range_token_glued_to_text false (fun _ _ _ => Ok []) (fun _ => false)
              (verse_milestone (py "Jas.1.7-Jas.1.8") (Some (py "Let him ask")))
              (py "Jas.1.7") (py "Jas") (py "1") (py "7") (py "Jas") (py "1") (py "8")
              [] (py "Jas.1") (py "div") james_in_progress 0%nat
              (BibleBook.Book (py "JAS") [(py "c", py "1")]))
    as (st' & E & Hobj & _);
    try reflexivity; try (apply Hcomp; repeat constructor; discriminate).
  - discriminate.
  - by left.
  - exists st'. split; [exact E|]. rewrite Hobj. reflexivity.
Defined.

(** C1 fails on the code.  Inside chapter Jas.1, the range Jas.1.7-Jas.1.8
    followed by the text '9 loaves' and the range Jas.1.7-Jas.1.89 followed
    by ' loaves' leave the same 'v' line, '7-89 loaves'; and the ranges
    Jas.1.27-Jas.2.1 and Jas.1.27-Jas.1.1 leave the same line '27-1'.  So
    the sID cannot be rebuilt from the line and the enclosing book and
    chapter.  A single verse is kept apart from its text by a space. *)
Lemma C1_ranges_collide_counterexample :
  let lines (sID : str) (tail : option str) :=
    (fun r => OSISXMLBible.objects (snd r)) <$>
      OSISXMLBible.validateVerseElement false (fun _ _ _ => Ok []) (fun _ => false)
        (verse_milestone sID tail) [] (py "Jas.1") (py "div") james_in_progress in
  lines (py "Jas.1.7-Jas.1.8") (Some (py "9 loaves"))
    = Ok [BibleBook.Book (py "JAS") [(py "c", py "1"); (py "v", py "7-89 loaves")]] /\
  lines (py "Jas.1.7-Jas.1.89") (Some (py " loaves"))
    = Ok [BibleBook.Book (py "JAS") [(py "c", py "1"); (py "v", py "7-89 loaves")]] /\
  py "Jas.1.7-Jas.1.8" <> py "Jas.1.7-Jas.1.89" /\
  lines (py "Jas.1.27-Jas.2.1") None
    = Ok [BibleBook.Book (py "JAS") [(py "c", py "1"); (py "v", py "27-1")]] /\
  lines (py "Jas.1.27-Jas.1.1") None
    = Ok [BibleBook.Book (py "JAS") [(py "c", py "1"); (py "v", py "27-1")]] /\
  py "Jas.1.27-Jas.2.1" <> py "Jas.1.27-Jas.1.1" /\
  lines (py "Jas.1.7") (Some (py "9 loaves"))
    = Ok [BibleBook.Book (py "JAS") [(py "c", py "1"); (py "v", py "7 9 loaves")]].
Proof.
  repeat split; try reflexivity; intros H; vm_compute in H; discriminate H.
Qed.

(** ** InternalBible: [guessXRefBBB] twice *)

Section GuessFacts.

Import InternalBible.

Context {B : Type}.
Variable debugFlag : bool.
Variable getBBB : str -> option str.
Variable lower : str -> str.
Variable repr : str -> str.

Local Abbreviation lookup_tiers := (@lookup_tiers B debugFlag getBBB lower).
Local Abbreviation scan_tiers := (@scan_tiers B lower repr).
Local Abbreviation word_tiers := (@word_tiers B lower repr).
Local Abbreviation guessXRefBBB := (@guessXRefBBB B debugFlag getBBB lower repr).

Lemma learnt_learn (self : t B) adj ref BBB how :
  learnt self (learn repr self adj ref BBB how) adj BBB.
Proof. split; [done|]. cbn. apply lookup_insert_eq. Qed.

Lemma word_tiers_learnt self ref count code self' :
  word_tiers self ref count = Ok (Some code, self') -> learnt self self' (lower ref) code.
Proof.
  unfold InternalBible.word_tiers.
  destruct count as [|count].
  - destruct (word_matches self (lower ref)) as [|w [|w2 ws]] eqn:Ew.
    + cbn [length Nat.add].
      destruct (first_plus_matches _ _) as [[|f [|f2 fs]]|]; cbn; try done.
      intros [= <- <-]. apply learnt_learn.
    + intros [= <- <-]. split; [done|]. cbn. apply lookup_insert_eq.
    + cbn. done.
  - cbn. done.
Qed.

Lemma found_by_learnt (self : t B) ref BBB how code self' :
  Ok (found_by lower repr self ref BBB how) = Ok (Some code, self') ->
  learnt self self' (lower ref) code.
Proof. intros [= <- <-]. split; [done|]. cbn. apply lookup_insert_eq. Qed.

Lemma scan_tiers_learnt self ref code self' :
  scan_tiers self ref = Ok (Some code, self') -> learnt self self' (lower ref) code.
Proof.
  unfold InternalBible.scan_tiers.
  destruct (assert _); [|done]. cbn [mbind result_bind Py.bind].
  destruct (matches (startswith (lower ref)) (bookNameDict self))
    as [|f1 [|f2 [|f3 fs]]]; cbn [length].
  - destruct (matches (startswith (lower ref)) (combinedBookNameDict self))
      as [|g1 [|g2 gs]]; first [apply found_by_learnt | apply word_tiers_learnt].
  - apply found_by_learnt.
  - destruct (unknown_matches self (lower ref)) as [|u1 [|u2 us]];
      first [apply found_by_learnt | apply word_tiers_learnt].
  - apply word_tiers_learnt.
Qed.

(** A call that returns a code leaves the Bible such that the look-ups at
    the start of the function give that code. *)
Lemma guess_then_lookup self ref code self' :
  guessXRefBBB self ref = Ok (Some code, self') ->
  (getBBB ref = Some code /\ self' = self) \/
  (getBBB ref = None /\ combinedBookNameDict self' !! lower ref = Some code) \/
  (getBBB ref = None /\ combinedBookNameDict self' !! lower ref = None /\
   bookAbbrevDict self' !! lower ref = Some code).
Proof.
  unfold InternalBible.guessXRefBBB, InternalBible.lookup_tiers.
  destruct (if debugFlag then _ else _) as [_|]; [|done].
  destruct (getBBB ref) as [result|] eqn:Eg.
  { intros [= <- <-]. by left. }
  destruct (combinedBookNameDict self !! lower ref) as [c|] eqn:Ec.
  { intros [= <- <-]. right. left. done. }
  destruct (bookAbbrevDict self !! lower ref) as [ab|] eqn:Ea.
  { intros [= <- <-]. right. right. done. }
  intros H. apply scan_tiers_learnt in H as [H1 H2].
  right. right. by rewrite H1.
Qed.

Lemma debug_assert_again self ref r :
  guessXRefBBB self ref = Ok r ->
  (if debugFlag then assert (nonempty ref) else Ok tt) = Ok tt.
Proof.
  unfold InternalBible.guessXRefBBB, InternalBible.lookup_tiers.
  destruct debugFlag; [|done]. unfold assert. by destruct (nonempty ref).
Qed.

End GuessFacts.

(** C7 (as amended): when [guessXRefBBB] returns a book code for a string,
    a second call with the same string returns the same code, and it returns
    from the look-ups at the start of the function, before the prefix
    scanning: from [BibleBooksCodes.getBBB] when the string is a book code
    already, and otherwise from [combinedBookNameDict] or [bookAbbrevDict]
    at the lowercased string. *)
Theorem C7_guessXRefBBB_twice {B : Type}
    (debugFlag : bool) (getBBB : str -> option str) (lower repr : str -> str)
    (self self' : InternalBible.t B) (referenceString BBB : str) :
  InternalBible.guessXRefBBB debugFlag getBBB lower repr self referenceString
    = Ok (Some BBB, self') ->
  exists self'',
    InternalBible.lookup_tiers debugFlag getBBB lower self' referenceString
      = Some (Ok (Some BBB, self'')) /\
    InternalBible.guessXRefBBB debugFlag getBBB lower repr self' referenceString
      = Ok (Some BBB, self'') /\
    (getBBB referenceString = Some BBB \/
     InternalBible.combinedBookNameDict self' !! lower referenceString = Some BBB \/
     InternalBible.bookAbbrevDict self' !! lower referenceString = Some BBB).
Proof.
  intros H.
  pose proof (debug_assert_again debugFlag getBBB lower repr _ _ _ H) as Hd.
  apply guess_then_lookup in H.
  unfold InternalBible.guessXRefBBB, InternalBible.lookup_tiers. rewrite Hd.
  destruct H as [[Hg ->]|[[Hg Hc]|(Hg & Hc & Ha)]]; rewrite Hg, ?Hc, ?Ha;
    eexists; (split; [reflexivity|]); (split; [reflexivity|]); auto.
Qed.

Lemma C7_guessXRefBBB_twice_witness :
  exists self' self'',
    InternalBible.guessXRefBBB false no_code USFMFile.ascii_lower id genesis_names (py "Gen")
      = Ok (Some (py "GEN"), self') /\
    InternalBible.guessXRefBBB false no_code USFMFile.ascii_lower id self' (py "Gen")
      = Ok (Some (py "GEN"), self'') /\
    InternalBible.bookAbbrevDict self' !! py "gen" = Some (py "GEN").
Proof.
  assert (InternalBible.guessXRefBBB false no_code USFMFile.ascii_lower id genesis_names
            (py "Gen")
          = Ok (InternalBible.found_by USFMFile.ascii_lower id genesis_names (py "Gen")
                  (py "GEN") (py "startswith1"))) as H by (vm_compute; reflexivity).
  destruct (C7_guessXRefBBB_twice false no_code USFMFile.ascii_lower id genesis_names
              _ (py "Gen") (py "GEN") H) as (self'' & _ & H2 & _).
  eexists _, self''. split; [exact H|]. split; [exact H2|]. vm_compute. reflexivity.
Defined.

(** C7 as stated fails for a string that is a book code already: the second
    call returns the code from [BibleBooksCodes.getBBB], and neither
    dictionary has an entry for the lowercased string. *)
Lemma C7_book_code_not_memoized_counterexample :
  let self := @InternalBible.init unit in
  InternalBible.guessXRefBBB false only_GEN USFMFile.ascii_lower id self (py "GEN")
    = Ok (Some (py "GEN"), self) /\
  InternalBible.combinedBookNameDict self !! USFMFile.ascii_lower (py "GEN") = None /\
  InternalBible.bookAbbrevDict self !! USFMFile.ascii_lower (py "GEN") = None.
Proof. repeat split; reflexivity. Qed.

(** ** InternalBible: features that no book has *)

Section AggregateFacts.

Import InternalBible.

Context {B : Type}.
Variable debugFlag : bool.
Variable bookGetVersification : B -> refs * refs * refs * refs.
Variable bookGetAddedUnits : B -> refs * refs * refs * refs * refs.

Lemma nonempty_existsb_absent (feature : B -> refs) books :
  existsb (fun kb => nonempty (feature (snd kb))) books = false <-> absent feature books.
Proof.
  unfold absent. induction books as [|kb books IH]; cbn [existsb].
  - split; [constructor|done].
  - rewrite orb_false_iff, IH, Forall_cons.
    destruct (feature (snd kb)); cbn; split; intros [? ?]; done.
Qed.

Lemma addedUnits_flags books acc :
  let res := fold_left (addedUnitsOfBook bookGetAddedUnits) books acc in
  fst res.1.1.1.1 = fst acc.1.1.1.1
    || existsb (fun kb => nonempty (bookGetAddedUnits (snd kb)).1.1.1.1) books /\
  fst res.1.1.1.2 = fst acc.1.1.1.2
    || existsb (fun kb => nonempty (bookGetAddedUnits (snd kb)).1.1.1.2) books /\
  fst res.1.1.2 = fst acc.1.1.2
    || existsb (fun kb => nonempty (bookGetAddedUnits (snd kb)).1.1.2) books /\
  fst res.1.2 = fst acc.1.2
    || existsb (fun kb => nonempty (bookGetAddedUnits (snd kb)).1.2) books /\
  fst res.2 = fst acc.2
    || existsb (fun kb => nonempty (bookGetAddedUnits (snd kb)).2) books.
Proof.
  revert acc. induction books as [|[BBB book] books IH]; intros acc.
  - cbn. by rewrite !orb_false_r.
  - cbn [fold_left existsb]. specialize (IH (addedUnitsOfBook bookGetAddedUnits acc (BBB, book))).
    cbn zeta in IH. destruct IH as (I1 & I2 & I3 & I4 & I5).
    rewrite I1, I2, I3, I4, I5. clear.
    destruct acc as [[[[[f1 d1] [f2 d2]] [f3 d3]] [f4 d4]] [f5 d5]].
    unfold addedUnitsOfBook. cbn [snd].
    destruct (bookGetAddedUnits book) as [[[[u1 u2] u3] u4] u5]. cbn [fst snd addUnits].
    repeat split;
      match goal with |- context [nonempty ?u] => destruct (nonempty u) end;
      cbn; by rewrite ?orb_true_r, ?orb_assoc.
Qed.

Lemma set_if_some_absent BBB (units : refs) total :
  units = [] -> set_if_some BBB units total = total.
Proof. by intros ->. Qed.

Lemma versification_absent books acc :
  let res := fold_left (versificationOfBook bookGetVersification) books acc in
  (absent (fun b => (bookGetVersification b).1.1.2) books -> res.1.1.2 = acc.1.1.2) /\
  (absent (fun b => (bookGetVersification b).1.2) books -> res.1.2 = acc.1.2) /\
  (absent (fun b => (bookGetVersification b).2) books -> res.2 = acc.2).
Proof.
  unfold absent. revert acc. induction books as [|[BBB book] books IH]; intros acc; [done|].
  cbn [fold_left]. specialize (IH (versificationOfBook bookGetVersification acc (BBB, book))).
  cbn zeta in *. destruct IH as (I1 & I2 & I3).
  assert (forall v o c r, bookGetVersification book = (v, o, c, r) ->
            let acc' := versificationOfBook bookGetVersification acc (BBB, book) in
            acc'.1.1.2 = set_if_some BBB o acc.1.1.2 /\
            acc'.1.2 = set_if_some BBB c acc.1.2 /\
            acc'.2 = set_if_some BBB r acc.2) as Hstep.
  { intros v o c r E. destruct acc as [[[tv to] tc] tr]. unfold versificationOfBook.
    by rewrite E. }
  destruct (bookGetVersification book) as [[[v o] c] r] eqn:E.
  destruct (Hstep v o c r eq_refl) as (S1 & S2 & S3).
  repeat split; intros H; apply Forall_cons in H as [H0 H]; cbn [snd] in H0;
    rewrite E in H0; cbn in H0; subst.
  - by rewrite (I1 H), S1.
  - by rewrite (I2 H), S2.
  - by rewrite (I3 H), S3.
Qed.

End AggregateFacts.

(** C8 (as amended): on a Bible with at least one book, [getAddedUnits]
    gives [None] for a feature (paragraphs, q-paragraphs, section headings,
    section references, words of Jesus) exactly when no book has it, and the
    ordered dictionary otherwise; [getVersification] gives four ordered
    dictionaries, and the one of a feature that no book has (omitted,
    combined, reordered verses) is empty. *)
Theorem C8_absent_features {B : Type} (debugFlag : bool)
    (bookGetVersification :
       B -> InternalBible.refs * InternalBible.refs * InternalBible.refs * InternalBible.refs)
    (bookGetAddedUnits :
       B -> InternalBible.refs * InternalBible.refs * InternalBible.refs
            * InternalBible.refs * InternalBible.refs)
    (self : InternalBible.t B) :
  InternalBible.books self <> [] ->
  (exists paragraphs qParagraphs headings references words,
     InternalBible.getAddedUnits debugFlag bookGetAddedUnits self
       = Ok (paragraphs, qParagraphs, headings, references, words) /\
     (paragraphs = None <->
      absent (fun b => (bookGetAddedUnits b).1.1.1.1) (InternalBible.books self)) /\
     (qParagraphs = None <->
      absent (fun b => (bookGetAddedUnits b).1.1.1.2) (InternalBible.books self)) /\
     (headings = None <->
      absent (fun b => (bookGetAddedUnits b).1.1.2) (InternalBible.books self)) /\
     (references = None <->
      absent (fun b => (bookGetAddedUnits b).1.2) (InternalBible.books self)) /\
     (words = None <->
      absent (fun b => (bookGetAddedUnits b).2) (InternalBible.books self))) /\
  (exists versification omitted combined reordered,
     InternalBible.getVersification debugFlag bookGetVersification self
       = Ok (versification, omitted, combined, reordered) /\
     (absent (fun b => (bookGetVersification b).1.1.2) (InternalBible.books self) ->
      omitted = []) /\
     (absent (fun b => (bookGetVersification b).1.2) (InternalBible.books self) ->
      combined = []) /\
     (absent (fun b => (bookGetVersification b).2) (InternalBible.books self) ->
      reordered = [])).
Proof.
  intros Hbooks.
  assert ((if debugFlag then assert (nonempty (InternalBible.books self)) else Ok tt)
          = Ok tt) as Hd.
  { destruct debugFlag; [|done]. by destruct (InternalBible.books self). }
  split.
  - unfold InternalBible.getAddedUnits. rewrite Hd. cbn [mbind result_bind Py.bind].
    pose proof (addedUnits_flags bookGetAddedUnits (InternalBible.books self)
                  ((false, []), (false, []), (false, []), (false, []), (false, [])))
      as (F1 & F2 & F3 & F4 & F5).
    cbn zeta in *. cbn [fst snd orb] in F1, F2, F3, F4, F5.
    destruct (fold_left _ _ _) as [[[[[f1 d1] [f2 d2]] [f3 d3]] [f4 d4]] [f5 d5]].
    cbn [fst snd] in *. eexists _, _, _, _, _. split; [reflexivity|].
    unfold InternalBible.if_have. cbn [fst snd].
    rewrite <- !nonempty_existsb_absent, <- F1, <- F2, <- F3, <- F4, <- F5.
    destruct f1, f2, f3, f4, f5; repeat split; done.
  - unfold InternalBible.getVersification. rewrite Hd. cbn [mbind result_bind Py.bind].
    pose proof (versification_absent bookGetVersification (InternalBible.books self)
                  ([], [], [], [])) as (V1 & V2 & V3).
    cbn zeta in *.
    destruct (fold_left _ _ _) as [[[tv to] tc] tr]. cbn [fst snd] in *.
    eexists _, _, _, _. split; [reflexivity|]. repeat split; done.
Qed.

Lemma C8_absent_features_witness :
  InternalBible.books one_book <> [] /\
  exists paragraphs qParagraphs headings references words,
    InternalBible.getAddedUnits false headings_only one_book
      = Ok (paragraphs, qParagraphs, headings, references, words) /\
    (paragraphs = None <->
     absent (fun b => (headings_only b).1.1.1.1) (InternalBible.books one_book)).
Proof.
  assert (InternalBible.books one_book <> []) as H by discriminate.
  split; [exact H|].
  destruct (proj1 (C8_absent_features false plain_versification headings_only one_book H))
    as (p & q & h & r & w & E & Hp & _).
  by exists p, q, h, r, w.
Defined.

(** C8 as stated fails for [getVersification]: a Bible whose only book has
    no omitted, combined or reordered verses gets three empty ordered
    dictionaries, not [None]; [getAddedUnits] on the same Bible gives [None]
    for the four features that are absent. *)
Lemma C8_getVersification_empty_counterexample :
  InternalBible.getVersification false plain_versification one_book
    = Ok ([(py "GEN", [(py "1", py "31")])], [], [], []) /\
  InternalBible.getAddedUnits false headings_only one_book
    = Ok (None, None, Some [(py "GEN", [(py "1", py "0")])], None, None).
Proof. split; reflexivity. Qed.

(** ** InternalBible: the 'All Books' lists of [getErrors] *)

Section ODFacts.

Context {V : Type}.
Implicit Types d : list (str * V).

Lemma od_get_set_eq k v d : OD.get k (OD.set k v d) = Some v.
Proof.
  induction d as [|[k' v'] d IH]; cbn.
  - by rewrite str_eqb_refl.
  - destruct (str_eqb k k') eqn:E; cbn; rewrite E; [done|exact IH].
Qed.

Lemma od_get_set_ne k k' v d : k <> k' -> OD.get k' (OD.set k v d) = OD.get k' d.
Proof.
  intros Hne. induction d as [|[k0 v0] d IH]; cbn.
  - rewrite str_eqb_neq; [done|congruence].
  - destruct (str_eqb k k0) eqn:E; cbn.
    + apply str_eqb_eq in E. subst k0. by rewrite str_eqb_neq by congruence.
    + by rewrite IH.
Qed.

Lemma od_mem_set k k' v d : OD.mem k' d = true -> OD.mem k' (OD.set k v d) = true.
Proof.
  unfold OD.mem. destruct (decide (k = k')) as [->|Hne].
  - by rewrite od_get_set_eq.
  - by rewrite od_get_set_ne.
Qed.

Lemma od_mem_set_eq k v d : OD.mem k (OD.set k v d) = true.
Proof. unfold OD.mem. by rewrite od_get_set_eq. Qed.

Lemma od_get_elem k v d : OD.get k d = Some v -> (k, v) ∈ d.
Proof.
  induction d as [|[k' v'] d IH]; cbn; [done|].
  destruct (str_eqb k k') eqn:E.
  - apply str_eqb_eq in E. intros [= ->]. subst. by left.
  - intros H. right. by apply IH.
Qed.

Lemma od_get_notin k d : k ∉ OD.keys d -> OD.get k d = None.
Proof.
  induction d as [|[k' v'] d IH]; cbn; [done|].
  intros H. apply not_elem_of_cons in H as [H1 H2].
  rewrite str_eqb_neq by done. by apply IH.
Qed.

End ODFacts.

Section ForEach.

Import InternalBible.

Context {A S : Type}.
Implicit Types (body : S -> A -> outcome S) (l : list A).

(** A property that every round keeps holds when the loop ends. *)
Lemma for_each_keeps (I : S -> Prop) body l s s' :
  (forall s a s', a ∈ l -> body s a = Ok s' -> I s -> I s') ->
  for_each body l s = Ok s' -> I s -> I s'.
Proof.
  revert s. induction l as [|a l IH]; intros s Hbody; cbn.
  - by intros [= ->].
  - destruct (body s a) as [s1|] eqn:E; [|done]. cbn. intros H Hs.
    apply (IH s1); [|done|].
    + intros s0 a0 s0' Ha. apply Hbody. by right.
    + eapply Hbody; [|exact E|exact Hs]. by left.
Qed.

(** A loop whose rounds all return under a property that they keep
    returns. *)
Lemma for_each_returns (I : S -> Prop) body l s :
  (forall s a, a ∈ l -> I s -> exists s', body s a = Ok s' /\ I s') ->
  I s -> exists s', for_each body l s = Ok s' /\ I s'.
Proof.
  revert s. induction l as [|a l IH]; intros s Hbody Hs; cbn.
  - by exists s.
  - destruct (Hbody s a ltac:(by left) Hs) as (s1 & -> & Hs1). cbn.
    apply IH; [|done]. intros s0 a0 Ha. apply Hbody. by right.
Qed.

End ForEach.

Section RollUp.

Import InternalBible.

Context {B : Type}.
Variable debugFlag : bool.
Variable bookGetErrors : B -> list (str * value).
Variable givenBookList : option (list str).
(** a category of error lists *)
Variable k : str.
Hypothesis k_Errors : endswith (py "Errors") k = true.

Local Abbreviation prepare_key := (@prepare_key).
Local Abbreviation combine_key := (combine_key debugFlag).
Local Abbreviation prepare_book := (prepare_book bookGetErrors givenBookList).
Local Abbreviation combine_book := (@combine_book B debugFlag givenBookList).
Local Abbreviation contribution := (contribution bookGetErrors givenBookList k).
Local Abbreviation contributes := (contributes bookGetErrors givenBookList k).
Local Abbreviation stored := (stored bookGetErrors givenBookList).

Lemma list_key_k : list_key k = true.
Proof. unfold list_key. by rewrite k_Errors. Qed.

Lemma below_frame firstKey total d v :
  below firstKey total = Ok d -> firstKey <> k ->
  OD.get k (OD.set firstKey v total) = OD.get k total.
Proof. intros _ Hne. by apply od_get_set_ne. Qed.

Lemma reset_sub_frame thisKey anotherKey total total' :
  reset_sub thisKey anotherKey total = Ok total' -> thisKey <> k ->
  OD.get k total' = OD.get k total.
Proof.
  unfold reset_sub. destruct (below thisKey total) as [d|]; [|done]. cbn.
  intros [= <-] Hne. by apply od_get_set_ne.
Qed.

Lemma extend_sub_frame firstKey secondKey new total total' :
  extend_sub firstKey secondKey new total = Ok total' -> firstKey <> k ->
  OD.get k total' = OD.get k total.
Proof.
  unfold extend_sub. destruct (below firstKey total) as [d|]; [|done]. cbn.
  destruct (OD.get secondKey d) as [[l|c]|]; try done;
    intros [= <-] Hne; by apply od_get_set_ne.
Qed.

Lemma merge_counts_frame firstKey secondKey new total total' :
  merge_counts firstKey secondKey new total = Ok total' -> firstKey <> k ->
  OD.get k total' = OD.get k total.
Proof.
  unfold merge_counts. destruct (below firstKey total) as [d|]; [|done]. cbn.
  destruct (OD.get secondKey d) as [[l|c]|]; [destruct new| |];
    try done; intros [= <-] Hne; by apply od_get_set_ne.
Qed.

(** The first loop at the category [k], for one key. *)
Lemma prepare_key_at e item e' :
  prepare_key e item = Ok e' ->
  OD.get k (allBooks e')
    = (if decide (fst item = k) then Some (List []) else OD.get k (allBooks e)) /\
  byBook e' = byBook e.
Proof.
  destruct item as [thisKey v]. unfold InternalBible.prepare_key. cbn [fst].
  destruct (endswith (py "Errors") thisKey) eqn:E.
  - intros [= <-]. cbn. split; [|done]. destruct (decide (thisKey = k)) as [->|Hne].
    + apply od_get_set_eq.
    + by apply od_get_set_ne.
  - assert (thisKey <> k) as Hne by (intros ->; congruence).
    destruct (decide (thisKey = k)) as [?|_]; [done|].
    destruct (negb _ && negb _); [|by intros [= <-]].
    intros H.
    eapply (for_each_keeps
              (fun s => OD.get k (allBooks s) = OD.get k (allBooks e) /\ byBook s = byBook e));
      [|exact H|done].
    clear H. intros s a s' _ Hbody [I1 I2]. cbv beta in Hbody.
    destruct (entry_endswith (py "Errors") a) as [[|]|];
      cbn [mbind result_bind Py.bind] in Hbody; try done.
    + destruct a as [anotherKey|]; [|done].
      destruct (reset_sub thisKey anotherKey (allBooks s)) as [all|] eqn:Ea; [|done].
      cbn [mbind result_bind Py.bind] in Hbody.
      destruct (reset_sub thisKey anotherKey (byCategory s)) as [cat|]; [|done].
      cbn [mbind result_bind Py.bind] in Hbody. injection Hbody as <-. cbn. split; [|done].
      by rewrite (reset_sub_frame _ _ _ _ Ea Hne).
    + by injection Hbody as <-.
Qed.

Lemma od_mem_cons {V} (key k0 : str) (v : V) d :
  OD.mem key ((k0, v) :: d) = (if decide (k0 = key) then true else OD.mem key d).
Proof.
  unfold OD.mem. cbn. destruct (decide (k0 = key)) as [->|Hne].
  - by rewrite str_eqb_refl.
  - rewrite str_eqb_neq; [done|congruence].
Qed.

(** The first loop at the category [k], for the dictionary of a book. *)
Lemma prepare_keys_at d e e' :
  for_each prepare_key d e = Ok e' ->
  OD.get k (allBooks e')
    = (if OD.mem k d then Some (List []) else OD.get k (allBooks e)) /\
  byBook e' = byBook e.
Proof.
  revert e. induction d as [|[k0 v0] d IH]; intros e; cbn [for_each].
  - by intros [= <-].
  - destruct (prepare_key e (k0, v0)) as [e1|] eqn:E1; [|done].
    cbn [mbind result_bind Py.bind]. intros H.
    destruct (prepare_key_at _ _ _ E1) as [H1 H1'].
    destruct (IH _ H) as [H2 H2']. cbn [fst] in H1.
    split; [|congruence]. rewrite H2, od_mem_cons.
    destruct (OD.mem k d); [by destruct (decide (k0 = k))|].
    rewrite H1. by destruct (decide (k0 = k)).
Qed.

Lemma prepare_books_at books e e' :
  for_each prepare_book books e = Ok e' ->
  OD.get k (allBooks e')
    = (if existsb contributes books then Some (List []) else OD.get k (allBooks e)) /\
  byBook e' = stored (byBook e) books.
Proof.
  revert e. induction books as [|[BBB book] books IH]; intros e; cbn [for_each].
  - by intros [= <-].
  - destruct (prepare_book e (BBB, book)) as [e1|] eqn:E1; [|done].
    cbn [mbind result_bind Py.bind]. intros H. destruct (IH _ H) as [H2 H2'].
    unfold InternalBible.prepare_book in E1.
    unfold stored, contributes in *. cbn [fold_left existsb fst snd].
    destruct (given givenBookList BBB).
    + destruct (prepare_keys_at _ _ _ E1) as [H1 H1']. cbn in H1, H1'.
      rewrite H2', H1'. split; [|done]. rewrite H2, H1. cbn [andb].
      destruct (existsb _ books); [by rewrite orb_true_r|]. by rewrite orb_false_r.
    + injection E1 as <-. by rewrite H2, H2'.
Qed.

Lemma stored_other BBB books d :
  BBB ∉ OD.keys books -> OD.get BBB (stored d books) = OD.get BBB d.
Proof.
  revert d. induction books as [|[B0 b0] books IH]; intros d Hn; [done|].
  cbn in Hn. apply not_elem_of_cons in Hn as [Hne Hn].
  unfold stored. cbn [fold_left fst snd]. fold (stored (if given givenBookList B0
    then OD.set B0 (bookGetErrors b0) d else d) books).
  rewrite IH by done. destruct (given givenBookList B0); [|done].
  apply od_get_set_ne. congruence.
Qed.

(** With distinct book codes, every given book finds its own dictionary in
    [errors['ByBook']]. *)
Lemma stored_get BBB book books d :
  NoDup (OD.keys books) -> (BBB, book) ∈ books -> given givenBookList BBB = true ->
  OD.get BBB (stored d books) = Some (bookGetErrors book).
Proof.
  revert d. induction books as [|[B0 b0] books IH]; intros d Hnd Hin Hg.
  - by apply elem_of_nil in Hin.
  - cbn in Hnd. apply NoDup_cons in Hnd as [Hn Hnd].
    unfold stored. cbn [fold_left fst snd]. fold (stored (if given givenBookList B0
      then OD.set B0 (bookGetErrors b0) d else d) books).
    apply elem_of_cons in Hin as [[= -> ->]|Hin].
    + rewrite stored_other by done. rewrite Hg. apply od_get_set_eq.
    + by apply IH.
Qed.

Lemma listAt_get total total' :
  OD.get k total' = OD.get k total -> listAt k total' = listAt k total.
Proof. unfold listAt. by intros ->. Qed.

Lemma extend_list_at key new total total' :
  extend_list key new total = Ok total' ->
  OD.get k total'
    = (if decide (key = k) then Some (List (listAt k total ++ new)) else OD.get k total).
Proof.
  unfold extend_list, listAt. destruct (decide (key = k)) as [->|Hne].
  - destruct (OD.get k total) as [[l|d]|]; try done. intros [= <-]. apply od_get_set_eq.
  - destruct (OD.get key total) as [[l|d]|]; try done. intros [= <-].
    by apply od_get_set_ne.
Qed.

(** The rounds of the second level leave the category [k] alone. *)
Lemma combine_sub_frame thisKey e item e' :
  thisKey <> k -> combine_sub debugFlag thisKey e item = Ok e' ->
  OD.get k (allBooks e') = OD.get k (allBooks e) /\ byBook e' = byBook e.
Proof.
  intros Hne. destruct item as [anotherKey v]. unfold combine_sub.
  destruct (list_key anotherKey).
  - destruct (if debugFlag then _ else _) as [[]|]; [|done].
    cbn [mbind result_bind Py.bind].
    destruct (extend_sub thisKey anotherKey (iterate_sub v) (allBooks e)) as [all|] eqn:Ea;
      [|done].
    cbn [mbind result_bind Py.bind].
    destruct (extend_sub thisKey anotherKey (iterate_sub v) (byCategory e)) as [cat|];
      [|done].
    cbn [mbind result_bind Py.bind]. intros [= <-]. cbn. split; [|done].
    by apply (extend_sub_frame _ _ _ _ _ Ea).
  - destruct (endswith (py "Counts") anotherKey); [|by intros [= <-]].
    destruct (if debugFlag then _ else _) as [[]|]; [|done].
    cbn [mbind result_bind Py.bind].
    destruct v as [[|x l]|c]; [|done|].
    + destruct (below thisKey (allBooks e)) as [d|]; [|done].
      cbn [mbind result_bind Py.bind]. intros [= <-]. cbn. split; [|done].
      by apply od_get_set_ne.
    + destruct (merge_counts thisKey anotherKey c (allBooks e)) as [all|] eqn:Ea; [|done].
      cbn [mbind result_bind Py.bind]. intros [= <-]. cbn. split; [|done].
      by apply (merge_counts_frame _ _ _ _ _ Ea).
Qed.

Lemma combine_entry_frame e a e' : combine_entry debugFlag e a = Ok e' -> e' = e.
Proof.
  unfold combine_entry. destruct a as [s|]; [|done]. cbn [entry_endswith mbind result_bind Py.bind].
  destruct (_ || _ || _); [done|]. destruct (endswith (py "Counts") s).
  - by destruct debugFlag.
  - by intros [= <-].
Qed.

(** The second loop at the category [k], for one key. *)
Lemma combine_key_at e item e' :
  combine_key e item = Ok e' ->
  OD.get k (allBooks e')
    = (if decide (fst item = k)
       then Some (List (listAt k (allBooks e) ++ iterate (snd item)))
       else OD.get k (allBooks e)) /\
  byBook e' = byBook e.
Proof.
  destruct item as [thisKey v]. unfold InternalBible.combine_key. cbn [fst snd].
  destruct (list_key thisKey) eqn:E.
  - destruct (if debugFlag then _ else _) as [[]|]; [|done].
    cbn [mbind result_bind Py.bind]. cbv zeta.
    destruct (extend_list thisKey (iterate v)
                (if OD.mem thisKey (allBooks e) then allBooks e
                 else OD.set thisKey (List []) (allBooks e))) as [all|] eqn:Ea; [|done].
    cbn [mbind result_bind Py.bind].
    destruct (extend_list thisKey (iterate v) (byCategory e)) as [cat|]; [|done].
    cbn [mbind result_bind Py.bind]. intros [= <-]. cbn. split; [|done].
    rewrite (extend_list_at _ _ _ _ Ea). destruct (decide (thisKey = k)) as [->|Hne].
    + unfold OD.mem, listAt. destruct (OD.get k (allBooks e)) eqn:Eg.
      * by rewrite Eg.
      * by rewrite od_get_set_eq.
    + destruct (OD.mem thisKey (allBooks e)); [done|]. by apply od_get_set_ne.
  - assert (thisKey <> k) as Hne by (intros ->; rewrite list_key_k in E; done).
    destruct (decide (thisKey = k)) as [?|_]; [done|].
    destruct (endswith (py "Counts") thisKey); [done|].
    destruct v as [l|d]; intros H.
    + eapply (for_each_keeps
                (fun s => OD.get k (allBooks s) = OD.get k (allBooks e) /\ byBook s = byBook e));
        [|exact H|done].
      intros s a s' _ Hbody I. by rewrite (combine_entry_frame _ _ _ Hbody).
    + eapply (for_each_keeps
                (fun s => OD.get k (allBooks s) = OD.get k (allBooks e) /\ byBook s = byBook e));
        [|exact H|done].
      intros s a s' _ Hbody [I1 I2].
      destruct (combine_sub_frame _ _ _ _ Hne Hbody) as [-> ->]. done.
Qed.

(** The second loop at the category [k], for the dictionary of a book. *)
Lemma combine_keys_at d e e' :
  OD.wf d -> for_each combine_key d e = Ok e' ->
  OD.get k (allBooks e')
    = match OD.get k d with
      | Some v => Some (List (listAt k (allBooks e) ++ iterate v))
      | None => OD.get k (allBooks e)
      end /\
  byBook e' = byBook e.
Proof.
  unfold OD.wf. revert e. induction d as [|[k0 v0] d IH]; intros e Hwf; cbn [for_each].
  - by intros [= <-].
  - cbn in Hwf. apply NoDup_cons in Hwf as [Hn Hwf].
    destruct (combine_key e (k0, v0)) as [e1|] eqn:E1; [|done].
    cbn [mbind result_bind Py.bind]. intros H.
    destruct (combine_key_at _ _ _ E1) as [H1 H1']. cbn [fst snd] in H1.
    destruct (IH _ Hwf H) as [H2 H2']. split; [|congruence].
    rewrite H2. cbn [OD.get]. destruct (decide (k0 = k)) as [->|Hne].
    + rewrite str_eqb_refl. by rewrite (od_get_notin _ _ Hn).
    + rewrite str_eqb_neq by congruence. rewrite (listAt_get _ _ H1).
      destruct (OD.get k d); [done|exact H1].
Qed.

Lemma no_contribution books :
  existsb contributes books = false -> flat_map contribution books = [].
Proof.
  induction books as [|item books IH]; [done|]. cbn [existsb flat_map].
  intros [H1 H2]%orb_false_iff. rewrite (IH H2), app_nil_r.
  unfold contributes, contribution, OD.mem in *. destruct (given givenBookList (fst item)); [|done].
  by destruct (OD.get k (bookGetErrors (snd item))).
Qed.

(** The second loop at the category [k]. *)
Lemma combine_books_at books e e' :
  (forall item, item ∈ books -> OD.wf (bookGetErrors (snd item))) ->
  (forall item, item ∈ books -> given givenBookList (fst item) = true ->
                OD.get (fst item) (byBook e) = Some (bookGetErrors (snd item))) ->
  for_each combine_book books e = Ok e' ->
  OD.get k (allBooks e')
    = if existsb contributes books
      then Some (List (listAt k (allBooks e) ++ flat_map contribution books))
      else OD.get k (allBooks e).
Proof.
  revert e. induction books as [|[BBB book] books IH]; intros e Hwf Hby; cbn [for_each].
  - by intros [= <-].
  - destruct (combine_book e (BBB, book)) as [e1|] eqn:E1; [|done].
    cbn [mbind result_bind Py.bind]. intros H.
    assert (OD.get k (allBooks e1)
              = (if contributes (BBB, book)
                 then Some (List (listAt k (allBooks e) ++ contribution (BBB, book)))
                 else OD.get k (allBooks e)) /\
            listAt k (allBooks e1) = listAt k (allBooks e) ++ contribution (BBB, book) /\
            byBook e1 = byBook e) as (H1 & H1l & H1').
    { unfold InternalBible.combine_book in E1. unfold contributes, contribution.
      cbn [fst snd]. pose proof (Hby (BBB, book) ltac:(by left)) as Hg. cbn [fst snd] in Hg.
      destruct (given givenBookList BBB).
      - rewrite Hg in E1 by done.
        destruct (combine_keys_at _ _ _ (Hwf (BBB, book) ltac:(by left)) E1) as [G1 G2].
        cbn [andb snd] in *. unfold OD.mem. split_and!; [| |done].
        + rewrite G1. by destruct (OD.get k (bookGetErrors book)).
        + unfold listAt at 1. rewrite G1. destruct (OD.get k (bookGetErrors book)); [done|].
          by rewrite app_nil_r.
      - injection E1 as <-. cbn [andb]. by rewrite app_nil_r. }
    rewrite (IH e1); [| |by rewrite H1'; intros item Hin; apply Hby; right|done].
    2: { intros item Hin. apply Hwf. by right. }
    cbn [existsb flat_map]. rewrite H1l, H1, app_assoc.
    destruct (contributes (BBB, book)); [|done]. cbn [orb].
    destruct (existsb contributes books) eqn:Ex; [done|].
    by rewrite (no_contribution _ Ex), app_nil_r.
Qed.

End RollUp.

(** *** [getErrors] returns on dictionaries of the documented structure *)

Section Returns.

Import InternalBible.

Lemma forallb_elem {A} (f : A -> bool) l x : forallb f l = true -> x ∈ l -> f x = true.
Proof.
  induction l as [|a l IH]; cbn; [by intros _ ?%elem_of_nil|].
  intros [Ha Hl]%andb_true_iff [->|Hin]%elem_of_cons; [done|by apply IH].
Qed.

Lemma list_key_Errors key : endswith (py "Errors") key = true -> list_key key = true.
Proof. unfold list_key. by intros ->. Qed.

Lemma not_list_key key : list_key key = false -> endswith (py "Errors") key = false.
Proof. unfold list_key. by destruct (endswith (py "Errors") key). Qed.

Lemma keeps_refl {V} (d : list (str * V)) : keeps d d.
Proof. by intros key. Qed.

Lemma keeps_trans {V} (d1 d2 d3 : list (str * V)) : keeps d1 d2 -> keeps d2 d3 -> keeps d1 d3.
Proof. intros H1 H2 key Hk. by apply H2, H1. Qed.

Lemma keeps_set {V} key (v : V) d : keeps d (OD.set key v d).
Proof. intros key'. apply od_mem_set. Qed.

Lemma typed_sub_nil : typed_sub [].
Proof. by intros key v. Qed.

Lemma typed_sub_set key v d : typed_sub d -> sub_ok key v -> typed_sub (OD.set key v d).
Proof.
  intros Hd Hv key' v'. destruct (decide (key = key')) as [<-|Hne].
  - rewrite od_get_set_eq. by intros [= <-].
  - rewrite od_get_set_ne by done. apply Hd.
Qed.

Lemma typed_nil : typed [].
Proof. by intros key v. Qed.

Lemma typed_set key v total : typed total -> val_ok key v -> typed (OD.set key v total).
Proof.
  intros Hd Hv key' v'. destruct (decide (key = key')) as [<-|Hne].
  - rewrite od_get_set_eq. by intros [= <-].
  - rewrite od_get_set_ne by done. apply Hd.
Qed.

Lemma val_ok_list key l : endswith (py "Errors") key = true -> val_ok key (List l).
Proof. unfold val_ok. intros ->. by exists l. Qed.

Lemma val_ok_dict key d : endswith (py "Errors") key = false -> typed_sub d -> val_ok key (Dict d).
Proof. unfold val_ok. intros -> Hd. by exists d. Qed.

Lemma set_up_well_typed : well_typed set_up.
Proof.
  split; [apply typed_nil|]. cbn [set_up byCategory fold_left].
  repeat (apply typed_set;
          [|first [by apply val_ok_list | apply val_ok_dict; [done|apply typed_sub_nil]]]).
  apply typed_nil.
Qed.

Lemma below_typed key total :
  typed total -> endswith (py "Errors") key = false ->
  exists d, below key total = Ok d /\ typed_sub d.
Proof.
  intros Ht Hk. unfold below. destruct (OD.get key total) as [v|] eqn:E.
  - specialize (Ht _ _ E). unfold val_ok in Ht. rewrite Hk in Ht.
    destruct Ht as (d & -> & Hd). by exists d.
  - exists []. split; [done|apply typed_sub_nil].
Qed.

Lemma sub_ok_list key l : list_key key = true -> sub_ok key (SubList l).
Proof. unfold sub_ok. intros ->. by exists l. Qed.

Lemma sub_ok_counts key c : list_key key = false -> sub_ok key (SubCounts c).
Proof. unfold sub_ok. intros ->. by exists c. Qed.

Lemma reset_sub_typed thisKey anotherKey total :
  typed total -> endswith (py "Errors") thisKey = false ->
  endswith (py "Errors") anotherKey = true ->
  exists total', reset_sub thisKey anotherKey total = Ok total' /\
                 typed total' /\ keeps total total'.
Proof.
  intros Ht Hk Ha. unfold reset_sub.
  destruct (below_typed _ _ Ht Hk) as (d & -> & Hd). cbn [mbind result_bind Py.bind].
  eexists. split; [done|]. split; [|apply keeps_set].
  apply typed_set; [done|]. apply val_ok_dict; [done|].
  apply typed_sub_set; [done|]. by apply sub_ok_list, list_key_Errors.
Qed.

Lemma extend_sub_typed thisKey anotherKey new total :
  typed total -> endswith (py "Errors") thisKey = false -> list_key anotherKey = true ->
  exists total', extend_sub thisKey anotherKey new total = Ok total' /\
                 typed total' /\ keeps total total'.
Proof.
  intros Ht Hk Ha. unfold extend_sub.
  destruct (below_typed _ _ Ht Hk) as (d & -> & Hd). cbn [mbind result_bind Py.bind].
  assert (forall l, typed (OD.set thisKey (Dict (OD.set anotherKey (SubList l) d)) total))
    as Hset.
  { intros l. apply typed_set; [done|]. apply val_ok_dict; [done|].
    apply typed_sub_set; [done|]. by apply sub_ok_list. }
  destruct (OD.get anotherKey d) as [v|] eqn:E.
  - pose proof (Hd _ _ E) as Hv. unfold sub_ok in Hv. rewrite Ha in Hv.
    destruct Hv as [l ->]. eexists. split; [done|]. split; [apply Hset|apply keeps_set].
  - eexists. split; [done|]. split; [apply Hset|apply keeps_set].
Qed.

Lemma merge_counts_typed thisKey anotherKey new total :
  typed total -> endswith (py "Errors") thisKey = false -> list_key anotherKey = false ->
  exists total', merge_counts thisKey anotherKey new total = Ok total' /\
                 typed total' /\ keeps total total'.
Proof.
  intros Ht Hk Ha. unfold merge_counts.
  destruct (below_typed _ _ Ht Hk) as (d & -> & Hd). cbn [mbind result_bind Py.bind].
  assert (forall c, typed (OD.set thisKey (Dict (OD.set anotherKey (SubCounts c) d)) total))
    as Hset.
  { intros c. apply typed_set; [done|]. apply val_ok_dict; [done|].
    apply typed_sub_set; [done|]. by apply sub_ok_counts. }
  destruct (OD.get anotherKey d) as [v|] eqn:E.
  - pose proof (Hd _ _ E) as Hv. unfold sub_ok in Hv. rewrite Ha in Hv.
    destruct Hv as [c ->]. eexists. split; [done|]. split; [apply Hset|apply keeps_set].
  - eexists. split; [done|]. split; [apply Hset|apply keeps_set].
Qed.

Lemma extend_list_typed key new total :
  typed total -> endswith (py "Errors") key = true -> OD.mem key total = true ->
  exists total', extend_list key new total = Ok total' /\
                 typed total' /\ keeps total total'.
Proof.
  intros Ht Hk Hm. unfold extend_list. unfold OD.mem in Hm.
  destruct (OD.get key total) as [v|] eqn:E; [|done].
  pose proof (Ht _ _ E) as Hv. unfold val_ok in Hv. rewrite Hk in Hv. destruct Hv as [l ->].
  eexists. split; [done|]. split; [|apply keeps_set].
  apply typed_set; [done|]. by apply val_ok_list.
Qed.

Section Loops.

Context {B : Type}.
Variable debugFlag : bool.
Variable bookGetErrors : B -> list (str * value).
Variable givenBookList : option (list str).

Local Abbreviation prepare_book := (prepare_book bookGetErrors givenBookList).
Local Abbreviation combine_book := (@combine_book B debugFlag givenBookList).
Local Abbreviation stored := (stored bookGetErrors givenBookList).

(** The first loop, for one key of a book. *)
Lemma prepare_key_returns e item :
  well_typed e -> shaped_value item = true ->
  exists e', prepare_key e item = Ok e' /\ well_typed e' /\
             keeps (byCategory e) (byCategory e') /\
             (endswith (py "Errors") (fst item) = true ->
              OD.mem (fst item) (byCategory e') = true).
Proof.
  destruct item as [thisKey v]. intros [Ha Hc]. unfold shaped_value, prepare_key.
  cbn [fst snd]. destruct (endswith (py "Errors") thisKey) eqn:Ek.
  - intros _. eexists. split; [done|]. cbn [allBooks byCategory]. split_and!.
    + split; cbn [allBooks byCategory]; (apply typed_set; [done|by apply val_ok_list]).
    + apply keeps_set.
    + intros _. apply od_mem_set_eq.
  - intros [[Hl%negb_true_iff _]%andb_true_iff Hv]%andb_true_iff.
    unfold list_key in Hl. rewrite Ek in Hl. cbn [orb] in Hl.
    apply orb_false_iff in Hl as [-> ->]. cbn [negb andb].
    destruct (for_each_returns
                (fun s => well_typed s /\ keeps (byCategory e) (byCategory s))
                (fun (e : errors) (anotherKey : entry) =>
                   isErrors ← entry_endswith (py "Errors") anotherKey;
                   if (isErrors : bool) then
                     match anotherKey with
                     | Message anotherKey =>
                         all ← reset_sub thisKey anotherKey (allBooks e);
                         cat ← reset_sub thisKey anotherKey (byCategory e);
                         Ok (Errors all (byBook e) cat)
                     | Priority _ _ _ => Raise AttributeError
                     end
                   else Ok e)
                (iterate v) e) as (e' & He' & Hw & Hkeep).
    + intros s a Hin [[Hsa Hsc] Hsk]. destruct v as [l|d]; [done|].
      cbn [iterate] in Hin. apply list_elem_of_fmap in Hin as ([a0 v0] & -> & _).
      cbn [entry_endswith fst mbind result_bind Py.bind].
      destruct (endswith (py "Errors") a0) eqn:Ea; [|by exists s].
      destruct (reset_sub_typed thisKey a0 _ Hsa Ek Ea) as (all & -> & Hall & _).
      destruct (reset_sub_typed thisKey a0 _ Hsc Ek Ea) as (cat & -> & Hcat & Hk).
      cbn [mbind result_bind Py.bind]. eexists. split; [done|]. split; [done|].
      by apply (keeps_trans _ _ _ Hsk).
    + split; [done|apply keeps_refl].
    + exists e'. split; [exact He'|]. split_and!; done.
Qed.

(** The first loop, for the dictionary of a book. *)
Lemma prepare_keys_returns d e :
  well_typed e -> shaped d = true ->
  exists e', for_each prepare_key d e = Ok e' /\ well_typed e' /\
             keeps (byCategory e) (byCategory e') /\ ready d (byCategory e').
Proof.
  unfold shaped. revert e. induction d as [|[k0 v0] d IH]; intros e Hw; cbn [for_each forallb].
  - intros _. exists e. split_and!; [done|done|apply keeps_refl|]. by intros key _ ?.
  - intros [H0 Hd]%andb_true_iff.
    destruct (prepare_key_returns e (k0, v0) Hw H0) as (e1 & -> & Hw1 & Hk1 & Hm1).
    cbn [mbind result_bind Py.bind fst] in *.
    destruct (IH e1 Hw1 Hd) as (e' & -> & Hw' & Hk' & Hr').
    exists e'. split_and!; [done|done|by apply (keeps_trans _ _ _ Hk1)|].
    intros key Hkey. rewrite od_mem_cons. destruct (decide (k0 = key)) as [->|Hne].
    + intros _. by apply Hk', Hm1.
    + by apply Hr'.
Qed.

(** The first loop. *)
Lemma prepare_books_returns books e :
  well_typed e -> forallb (fun item => shaped (bookGetErrors (snd item))) books = true ->
  exists e', for_each prepare_book books e = Ok e' /\ well_typed e' /\
             keeps (byCategory e) (byCategory e') /\
             (forall item, item ∈ books -> given givenBookList (fst item) = true ->
                           ready (bookGetErrors (snd item)) (byCategory e')).
Proof.
  revert e. induction books as [|[BBB book] books IH]; intros e Hw; cbn [for_each forallb].
  - intros _. exists e. split_and!; [done|done|apply keeps_refl|].
    by intros item ?%elem_of_nil.
  - intros [H0 Hd]%andb_true_iff. cbn [snd] in H0.
    assert (exists e1, prepare_book e (BBB, book) = Ok e1 /\ well_typed e1 /\
                       keeps (byCategory e) (byCategory e1) /\
                       (given givenBookList BBB = true ->
                        ready (bookGetErrors book) (byCategory e1)))
      as (e1 & -> & Hw1 & Hk1 & Hr1).
    { unfold InternalBible.prepare_book. destruct (given givenBookList BBB).
      - destruct (prepare_keys_returns (bookGetErrors book)
                    (Errors (allBooks e) (OD.set BBB (bookGetErrors book) (byBook e))
                            (byCategory e)) Hw H0) as (e1 & He1 & Hw1 & Hk1 & Hr1).
        exists e1. by split_and!.
      - exists e. split_and!; [done|done|apply keeps_refl|done]. }
    cbn [mbind result_bind Py.bind].
    destruct (IH e1 Hw1 Hd) as (e' & -> & Hw' & Hk' & Hr').
    exists e'. split_and!; [done|done|by apply (keeps_trans _ _ _ Hk1)|].
    intros item [->|Hin]%elem_of_cons Hg; [|by apply Hr'].
    cbn [fst snd] in *. intros key Hkey Hm. by apply Hk', Hr1.
Qed.

(** The second loop, for a key of the second level. *)
Lemma combine_sub_returns thisKey e item :
  well_typed e -> endswith (py "Errors") thisKey = false -> shaped_sub item = true ->
  exists e', combine_sub debugFlag thisKey e item = Ok e' /\ well_typed e' /\
             keeps (byCategory e) (byCategory e') /\ byBook e' = byBook e.
Proof.
  destruct item as [anotherKey v]. intros [Ha Hc] Hk. unfold shaped_sub, combine_sub.
  cbn [fst snd]. destruct (list_key anotherKey) eqn:El.
  - destruct v as [l|c]; [intros _|done].
    assert ((if debugFlag then assert true else Ok tt) = Ok tt) as -> by by destruct debugFlag.
    cbn [mbind result_bind Py.bind iterate_sub].
    destruct (extend_sub_typed thisKey anotherKey l _ Ha Hk El) as (all & -> & Hall & _).
    destruct (extend_sub_typed thisKey anotherKey l _ Hc Hk El) as (cat & -> & Hcat & Hkc).
    cbn [mbind result_bind Py.bind]. eexists. by split_and!.
  - destruct (endswith (py "Counts") anotherKey).
    + destruct v as [l|c]; [done|intros _].
      assert ((if debugFlag then assert true else Ok tt) = Ok tt) as ->
        by by destruct debugFlag.
      cbn [mbind result_bind Py.bind].
      destruct (merge_counts_typed thisKey anotherKey c _ Ha Hk El) as (all & -> & Hall & _).
      cbn [mbind result_bind Py.bind]. eexists. split_and!; [done|done|apply keeps_refl|done].
    + intros _. exists e. split_and!; [done|done|apply keeps_refl|done].
Qed.

(** The second loop, for one key of a book. *)
Lemma combine_key_returns e item :
  well_typed e -> shaped_value item = true ->
  (endswith (py "Errors") (fst item) = true -> OD.mem (fst item) (byCategory e) = true) ->
  exists e', combine_key debugFlag e item = Ok e' /\ well_typed e' /\
             keeps (byCategory e) (byCategory e') /\ byBook e' = byBook e.
Proof.
  destruct item as [thisKey v]. intros [Ha Hc]. unfold shaped_value, combine_key.
  cbn [fst snd]. destruct (endswith (py "Errors") thisKey) eqn:Ek.
  - rewrite (list_key_Errors _ Ek). destruct v as [l|d]; [intros _ Hm|done].
    assert ((if debugFlag then assert true else Ok tt) = Ok tt) as -> by by destruct debugFlag.
    cbn [mbind result_bind Py.bind iterate]. cbv zeta.
    assert (typed (if OD.mem thisKey (allBooks e) then allBooks e
                   else OD.set thisKey (List []) (allBooks e))) as Ht.
    { destruct (OD.mem thisKey (allBooks e)); [done|].
      apply typed_set; [done|by apply val_ok_list]. }
    assert (OD.mem thisKey (if OD.mem thisKey (allBooks e) then allBooks e
                            else OD.set thisKey (List []) (allBooks e)) = true) as Hin.
    { destruct (OD.mem thisKey (allBooks e)) eqn:Em; [done|apply od_mem_set_eq]. }
    destruct (extend_list_typed thisKey l _ Ht Ek Hin) as (all & -> & Hall & _).
    destruct (extend_list_typed thisKey l _ Hc Ek (Hm eq_refl)) as (cat & -> & Hcat & Hkc).
    cbn [mbind result_bind Py.bind]. eexists. by split_and!.
  - intros [[Hl%negb_true_iff ->%negb_true_iff]%andb_true_iff Hv]%andb_true_iff _.
    rewrite Hl. destruct v as [l|d]; [done|].
    destruct (for_each_returns
                (fun s => well_typed s /\ keeps (byCategory e) (byCategory s) /\
                          byBook s = byBook e)
                (combine_sub debugFlag thisKey) d e) as (e' & He' & Hw & Hkeep & Hby).
    + intros s a Hin (Hs & Hsk & Hsb).
      destruct (combine_sub_returns thisKey s a Hs Ek (forallb_elem _ _ _ Hv Hin))
        as (s' & -> & Hs' & Hk' & Hb').
      exists s'. split; [done|]. split_and!; [done| |congruence].
      by apply (keeps_trans _ _ _ Hsk).
    + split_and!; [done|apply keeps_refl|done].
    + exists e'. by split_and!.
Qed.

(** The second loop, for the dictionary of a book. *)
Lemma combine_keys_returns d e :
  well_typed e -> shaped d = true -> ready d (byCategory e) ->
  exists e', for_each (combine_key debugFlag) d e = Ok e' /\ well_typed e' /\
             keeps (byCategory e) (byCategory e') /\ byBook e' = byBook e.
Proof.
  unfold shaped. revert e. induction d as [|[k0 v0] d IH]; intros e Hw; cbn [for_each forallb].
  - intros _ _. exists e. split_and!; [done|done|apply keeps_refl|done].
  - intros [H0 Hd]%andb_true_iff Hr.
    destruct (combine_key_returns e (k0, v0) Hw H0) as (e1 & -> & Hw1 & Hk1 & Hb1).
    { cbn [fst]. intros Hk. apply Hr; [done|]. rewrite od_mem_cons. by rewrite decide_True. }
    cbn [mbind result_bind Py.bind].
    destruct (IH e1 Hw1 Hd) as (e' & -> & Hw' & Hk' & Hb').
    { intros key Hkey Hm. apply Hk1, Hr; [done|]. rewrite od_mem_cons.
      by destruct (decide (k0 = key)). }
    exists e'. split_and!; [done|done|by apply (keeps_trans _ _ _ Hk1)|congruence].
Qed.

(** The second loop. *)
Lemma combine_books_returns books e :
  well_typed e -> forallb (fun item => shaped (bookGetErrors (snd item))) books = true ->
  (forall item, item ∈ books -> given givenBookList (fst item) = true ->
     OD.get (fst item) (byBook e) = Some (bookGetErrors (snd item)) /\
     ready (bookGetErrors (snd item)) (byCategory e)) ->
  exists e', for_each combine_book books e = Ok e'.
Proof.
  revert e. induction books as [|[BBB book] books IH]; intros e Hw; cbn [for_each forallb].
  - intros _ _. by exists e.
  - intros [H0 Hd]%andb_true_iff Hr. cbn [snd] in H0.
    assert (exists e1, combine_book e (BBB, book) = Ok e1 /\ well_typed e1 /\
                       keeps (byCategory e) (byCategory e1) /\ byBook e1 = byBook e)
      as (e1 & -> & Hw1 & Hk1 & Hb1).
    { unfold InternalBible.combine_book.
      pose proof (Hr (BBB, book) ltac:(by left)) as Hg. cbn [fst snd] in Hg.
      destruct (given givenBookList BBB).
      - destruct (Hg eq_refl) as [-> Hready].
        by apply combine_keys_returns.
      - exists e. split_and!; [done|done|apply keeps_refl|done]. }
    cbn [mbind result_bind Py.bind]. apply (IH e1 Hw1 Hd).
    intros item Hin Hg. destruct (Hr item ltac:(by right) Hg) as [Hget Hready].
    split; [by rewrite Hb1|]. intros key Hkey Hm. by apply Hk1, Hready.
Qed.

End Loops.

(** On books with distinct codes whose error dictionaries have the
    documented structure, the two loops of [getErrors] return. *)
Lemma combineErrors_returns {B : Type} (debugFlag : bool)
    (bookGetErrors : B -> list (str * value)) (self : t B)
    (givenBookList : option (list str)) :
  OD.wf (books self) ->
  forallb (fun item => shaped (bookGetErrors (snd item))) (books self) = true ->
  exists e, combineErrors debugFlag bookGetErrors self givenBookList = Ok e.
Proof.
  intros Hwf Hs. unfold combineErrors.
  destruct (prepare_books_returns bookGetErrors givenBookList _ _ set_up_well_typed Hs)
    as (e1 & E1 & Hw1 & _ & Hr1).
  rewrite E1. cbn [mbind result_bind Py.bind].
  apply (combine_books_returns debugFlag bookGetErrors givenBookList _ _ Hw1 Hs).
  intros [BBB book] Hin Hg. split; [|by apply Hr1].
  destruct (prepare_books_at bookGetErrors givenBookList (py "Errors") eq_refl _ _ _ E1)
    as [_ ->].
  by apply stored_get.
Qed.

End Returns.

(** ** InternalBible: [getErrors] and the empty categories *)

Section Cleanup.

Import InternalBible.

Context {B : Type}.
Variable debugFlag : bool.
Variable bookGetErrors : B -> list (str * value).
Variable givenBookList : option (list str).

Local Abbreviation prepare_book := (prepare_book bookGetErrors givenBookList).
Local Abbreviation combine_book := (@combine_book B debugFlag givenBookList).

Lemma od_set_elem {V} (k : str) (v : V) d x : x ∈ OD.set k v d -> x = (k, v) \/ x ∈ d.
Proof.
  induction d as [|[k' v'] d IH]; cbn [OD.set].
  - intros ->%list_elem_of_singleton. by left.
  - destruct (str_eqb k k') eqn:E.
    + apply str_eqb_eq in E as <-.
      intros [->|H]%elem_of_cons; [by left|]. right. by right.
    + intros [->|H]%elem_of_cons; [right; by left|].
      destruct (IH H) as [?|?]; [by left|]. right. by right.
Qed.

Lemma priority_not_plain key : list_key key = false -> key <> py "Priority Errors".
Proof. by intros H ->. Qed.

(** An assignment keeps the first category in its place. *)
Lemma set_keeps_priority key v cat :
  priority_first_and_empty cat ->
  (key = py "Priority Errors" -> v = List []) ->
  priority_first_and_empty (OD.set key v cat).
Proof.
  intros (rest & -> & Hne) Hv. cbn [OD.set].
  destruct (str_eqb key (py "Priority Errors")) eqn:E.
  - apply str_eqb_eq in E. rewrite (Hv E). by exists rest.
  - exists (OD.set key v rest). split; [done|].
    destruct rest as [|[k' v'] rest]; [done|]. cbn [OD.set].
    by destruct (str_eqb key k').
Qed.

Lemma reset_sub_priority thisKey anotherKey cat cat' :
  list_key thisKey = false -> reset_sub thisKey anotherKey cat = Ok cat' ->
  priority_first_and_empty cat -> priority_first_and_empty cat'.
Proof.
  intros Hl. unfold reset_sub. destruct (below thisKey cat) as [d|]; [|done].
  cbn [mbind result_bind Py.bind]. intros [= <-] H.
  apply set_keeps_priority; [done|]. intros ->. done.
Qed.

Lemma extend_sub_priority firstKey secondKey new cat cat' :
  list_key firstKey = false -> extend_sub firstKey secondKey new cat = Ok cat' ->
  priority_first_and_empty cat -> priority_first_and_empty cat'.
Proof.
  intros Hl. unfold extend_sub. destruct (below firstKey cat) as [d|]; [|done].
  cbn [mbind result_bind Py.bind].
  destruct (OD.get secondKey d) as [[l|c]|]; try done; intros [= <-] H;
    (apply set_keeps_priority; [done|]); intros ->; done.
Qed.

Lemma extend_list_priority key new cat cat' :
  (key = py "Priority Errors" -> new = []) ->
  extend_list key new cat = Ok cat' ->
  priority_first_and_empty cat -> priority_first_and_empty cat'.
Proof.
  intros Hnew. unfold extend_list.
  destruct (OD.get key cat) as [[l|d]|] eqn:Eg; try done.
  intros [= <-] H. apply set_keeps_priority; [done|]. intros ->.
  destruct H as (rest & -> & _). cbn [OD.get] in Eg. rewrite str_eqb_refl in Eg.
  injection Eg as <-. by rewrite Hnew.
Qed.

(** The first loop, for one key. *)
Lemma prepare_key_priority e item e' :
  prepare_key e item = Ok e' ->
  priority_first_and_empty (byCategory e) ->
  priority_first_and_empty (byCategory e') /\ byBook e' = byBook e.
Proof.
  intros He H.
  split; [|by destruct (prepare_key_at (py "Errors") eq_refl _ _ _ He)].
  destruct item as [thisKey v]. unfold prepare_key in He.
  destruct (endswith (py "Errors") thisKey) eqn:E.
  - injection He as <-. cbn [byCategory]. by apply set_keeps_priority.
  - destruct (negb _ && negb _) eqn:El; [|by injection He as <-].
    assert (list_key thisKey = false) as Hl.
    { unfold list_key. rewrite E. apply andb_true_iff in El as [E1 E2].
      apply negb_true_iff in E1, E2. by rewrite E1, E2. }
    eapply (for_each_keeps (fun s => priority_first_and_empty (byCategory s)));
      [|exact He|exact H].
    intros s a s' _ Hbody Hs. cbv beta in Hbody.
    destruct (entry_endswith (py "Errors") a) as [[|]|];
      cbn [mbind result_bind Py.bind] in Hbody; try done.
    + destruct a as [anotherKey|]; [|done].
      destruct (reset_sub thisKey anotherKey (allBooks s)) as [all|]; [|done].
      cbn [mbind result_bind Py.bind] in Hbody.
      destruct (reset_sub thisKey anotherKey (byCategory s)) as [cat|] eqn:Ec; [|done].
      cbn [mbind result_bind Py.bind] in Hbody. injection Hbody as <-.
      cbn [byCategory]. by apply (reset_sub_priority _ _ _ _ Hl Ec).
    + by injection Hbody as <-.
Qed.

(** The first loop. *)
Lemma prepare_books_priority books e e' :
  (forall item, item ∈ books -> given givenBookList (fst item) = true ->
                no_priority_errors (bookGetErrors (snd item))) ->
  for_each prepare_book books e = Ok e' ->
  priority_first_and_empty (byCategory e) /\ without_priority_errors (byBook e) ->
  priority_first_and_empty (byCategory e') /\ without_priority_errors (byBook e').
Proof.
  intros Hbooks.
  apply (for_each_keeps
           (fun s => priority_first_and_empty (byCategory s) /\
                     without_priority_errors (byBook s))).
  intros s [BBB book] s' Hin Hbody [H1 H2]. unfold InternalBible.prepare_book in Hbody.
  pose proof (Hbooks _ Hin) as Hbook. cbn [fst snd] in Hbook.
  destruct (given givenBookList BBB); [|by injection Hbody as <-].
  eapply (for_each_keeps
            (fun s0 => priority_first_and_empty (byCategory s0) /\
                       without_priority_errors (byBook s0)));
    [|exact Hbody|].
  - intros s0 a s0' _ Hb [I1 I2].
    destruct (prepare_key_priority _ _ _ Hb I1) as [J1 J2]. by rewrite J2.
  - cbn [byCategory byBook]. split; [done|].
    intros BBB' d [[= -> ->]|Hd]%od_set_elem; [by apply Hbook|by apply (H2 BBB')].
Qed.

(** The second loop, for a key of the second level. *)
Lemma combine_sub_priority thisKey e item e' :
  list_key thisKey = false -> combine_sub debugFlag thisKey e item = Ok e' ->
  priority_first_and_empty (byCategory e) ->
  priority_first_and_empty (byCategory e') /\ byBook e' = byBook e.
Proof.
  intros Hl He H. destruct item as [anotherKey v]. unfold combine_sub in He.
  destruct (list_key anotherKey).
  - destruct (if debugFlag then _ else _) as [[]|]; [|done].
    cbn [mbind result_bind Py.bind] in He.
    destruct (extend_sub thisKey anotherKey (iterate_sub v) (allBooks e)) as [all|]; [|done].
    cbn [mbind result_bind Py.bind] in He.
    destruct (extend_sub thisKey anotherKey (iterate_sub v) (byCategory e)) as [cat|] eqn:Ec;
      [|done].
    cbn [mbind result_bind Py.bind] in He. injection He as <-. cbn [byCategory byBook].
    split; [|done]. by apply (extend_sub_priority _ _ _ _ _ Hl Ec).
  - destruct (endswith (py "Counts") anotherKey); [|by injection He as <-].
    destruct (if debugFlag then _ else _) as [[]|]; [|done].
    cbn [mbind result_bind Py.bind] in He.
    destruct v as [[|x l]|c]; [|done|].
    + destruct (below thisKey (allBooks e)) as [d|]; [|done].
      cbn [mbind result_bind Py.bind] in He. by injection He as <-.
    + destruct (merge_counts thisKey anotherKey c (allBooks e)) as [all|]; [|done].
      cbn [mbind result_bind Py.bind] in He. by injection He as <-.
Qed.

(** The second loop, for one key of a book without priority errors. *)
Lemma combine_key_priority e item e' :
  (fst item = py "Priority Errors" -> iterate (snd item) = []) ->
  combine_key debugFlag e item = Ok e' ->
  priority_first_and_empty (byCategory e) ->
  priority_first_and_empty (byCategory e') /\ byBook e' = byBook e.
Proof.
  intros Hitem He H. destruct item as [thisKey v]. cbn [fst snd] in Hitem.
  unfold combine_key in He. destruct (list_key thisKey) eqn:El.
  - destruct (if debugFlag then _ else _) as [[]|]; [|done].
    cbn [mbind result_bind Py.bind] in He. cbv zeta in He.
    destruct (extend_list thisKey (iterate v)
                (if OD.mem thisKey (allBooks e) then allBooks e
                 else OD.set thisKey (List []) (allBooks e))) as [all|]; [|done].
    cbn [mbind result_bind Py.bind] in He.
    destruct (extend_list thisKey (iterate v) (byCategory e)) as [cat|] eqn:Ec; [|done].
    cbn [mbind result_bind Py.bind] in He. injection He as <-. cbn [byCategory byBook].
    split; [|done]. by apply (extend_list_priority _ _ _ _ Hitem Ec).
  - destruct (endswith (py "Counts") thisKey); [done|].
    destruct v as [l|d].
    + assert (e' = e) as ->; [|done].
      eapply (for_each_keeps (fun s => s = e)); [|exact He|done].
      intros s0 a s0' _ Hbody ->. by apply (combine_entry_frame _ _ _ _ Hbody).
    + eapply (for_each_keeps
                (fun s => priority_first_and_empty (byCategory s) /\ byBook s = byBook e));
        [|exact He|done].
      intros s0 a s0' _ Hbody [I1 I2].
      destruct (combine_sub_priority _ _ _ _ El Hbody I1) as [J1 J2].
      split; [done|congruence].
Qed.

(** The second loop. *)
Lemma combine_books_priority books e e' :
  for_each combine_book books e = Ok e' ->
  priority_first_and_empty (byCategory e) /\ without_priority_errors (byBook e) ->
  priority_first_and_empty (byCategory e') /\ without_priority_errors (byBook e').
Proof.
  apply (for_each_keeps
           (fun s => priority_first_and_empty (byCategory s) /\
                     without_priority_errors (byBook s))).
  intros s [BBB book] s' _ Hbody [H1 H2]. unfold InternalBible.combine_book in Hbody.
  destruct (given givenBookList BBB); [|by injection Hbody as <-].
  destruct (OD.get BBB (byBook s)) as [d|] eqn:Ed; [|done].
  pose proof (H2 _ _ (od_get_elem _ _ _ Ed)) as Hd.
  assert (priority_first_and_empty (byCategory s') /\ byBook s' = byBook s) as [J1 J2].
  { eapply (for_each_keeps
              (fun s0 => priority_first_and_empty (byCategory s0) /\ byBook s0 = byBook s));
      [|exact Hbody|done].
    intros s0 [key v] s0' Hin Hb [I1 I2].
    destruct (combine_key_priority s0 (key, v) s0') as [K1 K2]; [|done|done|].
    - cbn [fst snd]. intros ->. by apply Hd.
    - split; [done|congruence]. }
  by rewrite J2.
Qed.

Lemma set_up_priority :
  priority_first_and_empty (byCategory set_up) /\ without_priority_errors (byBook set_up).
Proof.
  split.
  - eexists. split; [reflexivity|done].
  - intros BBB d H. by apply elem_of_nil in H.
Qed.

(** The removal of the empty categories stops at the first one. *)
Lemma removeEmptyCategories_priority cat :
  priority_first_and_empty cat -> removeEmptyCategories cat = Raise RuntimeError.
Proof.
  intros (rest & -> & Hne). unfold removeEmptyCategories.
  cbn [OD.keys map fst removeEmptyFrom OD.get]. rewrite str_eqb_refl.
  cbn [empty_value]. by destruct rest.
Qed.

End Cleanup.

(** C9 fails on the code: [getErrors] does not return the dictionary with
    the 'All Books' lists when no given book has a priority error.  The
    category 'Priority Errors' of [errors['ByCategory']] is then empty when
    the loop that combines the book errors ends; the loop that removes the
    empty categories deletes it from the dictionary that it iterates over,
    and the iterator raises [RuntimeError] at the category that follows,
    unless the search for uncommon words has raised before. *)
Theorem C9_getErrors_raises_at_empty_category {B : Type} (debugFlag : bool)
    (bookGetErrors : B -> list (str * InternalBible.value))
    (title upper lower : str -> str) (lotsOfWays : list str -> str)
    (unusualCapitalization : str -> str)
    (self : InternalBible.t B) (givenBookList : option (list str)) :
  (forall item, item ∈ InternalBible.books self ->
     InternalBible.given givenBookList item.1 = true ->
     no_priority_errors (bookGetErrors item.2)) ->
  exists exn,
    InternalBible.getErrors debugFlag bookGetErrors title upper lower lotsOfWays
      unusualCapitalization self givenBookList = Raise exn /\
    (forall e all,
       InternalBible.combineErrors debugFlag bookGetErrors self givenBookList = Ok e ->
       InternalBible.uncommonWords debugFlag title upper lower lotsOfWays
         unusualCapitalization (InternalBible.allBooks e) = Ok all ->
       exn = RuntimeError).
Proof.
  intros Hbooks. unfold InternalBible.getErrors.
  destruct (InternalBible.combineErrors debugFlag bookGetErrors self givenBookList)
    as [e|exn] eqn:E; [|by exists exn].
  cbn [mbind result_bind Py.bind].
  assert (priority_first_and_empty (InternalBible.byCategory e)) as Hcat.
  { unfold InternalBible.combineErrors in E.
    destruct (InternalBible.for_each _ _ InternalBible.set_up) as [e1|] eqn:E1; [|done].
    cbn [mbind result_bind Py.bind] in E.
    apply (combine_books_priority debugFlag givenBookList _ _ _ E).
    apply (prepare_books_priority bookGetErrors givenBookList _ _ _ Hbooks E1).
    apply set_up_priority. }
  destruct (InternalBible.uncommonWords _ _ _ _ _ _ (InternalBible.allBooks e))
    as [all|exn] eqn:Ew.
  - cbn [mbind result_bind Py.bind]. rewrite (removeEmptyCategories_priority _ Hcat).
    exists RuntimeError. split; [done|]. by intros e0 all0 [= <-].
  - exists exn. split; [done|]. intros e0 all0 [= <-]. congruence.
Qed.

Lemma C9_getErrors_raises_at_empty_category_witness :
  InternalBible.getErrors true id USFMFile.ascii_lower USFMFile.ascii_lower
    USFMFile.ascii_lower (fun _ => []) id two_books None
  = Raise RuntimeError.
Proof.
  destruct (C9_getErrors_raises_at_empty_category true id USFMFile.ascii_lower
              USFMFile.ascii_lower USFMFile.ascii_lower (fun _ => []) id two_books None)
    as (exn & E & Hexn).
  - intros item Hin _ v Hv. exfalso. revert Hv.
    repeat (apply elem_of_cons in Hin as [->|Hin]);
      [| |by apply elem_of_nil in Hin];
      cbn [snd id]; intros Hv;
      repeat (apply elem_of_cons in Hv as [Hv|Hv];
              [injection Hv as Hk _; vm_compute in Hk; discriminate Hk|]);
      by apply elem_of_nil in Hv.
  - rewrite E. f_equal.
    apply (Hexn two_books_errors (InternalBible.allBooks two_books_errors)); reflexivity.
Defined.

(* ===================================================================== *)
(** * Part III: further properties of the code *)
(* ===================================================================== *)

(** ** USFMFile: what [splitMarkerText] and [read] keep *)

Section SliceFacts.

Lemma take_drop_slice {A} (s : list A) (i : Z) : slice_to s i ++ slice_from s i = s.
Proof. unfold slice_to, slice_from. apply take_drop. Qed.

Lemma find_at c s : 0 <= find c s -> s !! Z.to_nat (find c s) = Some c.
Proof.
  induction s as [|x s IH]; simpl; [lia|].
  destruct (N.eqb_spec x c) as [->|Hne]; [done|].
  destruct (Z.eqb_spec (find c s) (-1)) as [E|E]; [lia|]. intros _.
  pose proof (find_range c s) as [?|?]; [done|].
  replace (Z.to_nat (find c s + 1)) with (S (Z.to_nat (find c s))) by lia.
  simpl. apply IH. lia.
Qed.

Lemma clamp_in n i : 0 <= i <= n -> clamp n i = Z.to_nat i.
Proof. intros H. unfold clamp. destruct (Z.ltb_spec i 0); lia. Qed.

End SliceFacts.

Lemma splitAfterBackslash_lossless body :
  exists m t, USFMFile.splitAfterBackslash body = Ok (m, t) /\
              (body = m ++ t \/ body = m ++ space :: t).
Proof.
  unfold USFMFile.splitAfterBackslash. cbv zeta.
  set (si1 := USFMFile.find_or_dummy space body).
  set (si2 := USFMFile.find_or_dummy asterisk body).
  set (si3 := USFMFile.find_or_dummy backslash body).
  set (si := USFMFile.min3 si1 si2 si3).
  destruct (Z.eqb_spec si USFMFile.DUMMY_VALUE) as [E0|E0].
  { exists body, []. split; [done|]. left. by rewrite app_nil_r. }
  destruct (Z.eqb_spec si si3) as [E3|E3].
  { eexists _, _. split; [done|]. left. by rewrite take_drop_slice. }
  destruct (Z.eqb_spec si si2) as [E2|E2].
  { eexists _, _. split; [done|]. left. by rewrite take_drop_slice. }
  destruct (Z.eqb_spec si si1) as [E1|E1].
  - eexists _, _. split; [done|]. right.
    assert (si1 <> USFMFile.DUMMY_VALUE) as Hd by congruence.
    unfold si1, USFMFile.find_or_dummy in Hd |- *. cbv zeta in *.
    destruct (Z.eqb_spec (find space body) (-1)) as [Ef|Ef]; [done|].
    pose proof (find_range space body) as [?|Hr]; [done|].
    unfold slice_to, slice_from.
    rewrite clamp_in by lia. rewrite clamp_in by lia.
    replace (Z.to_nat (find space body + 1)) with (S (Z.to_nat (find space body))) by lia.
    symmetry. apply take_drop_middle, find_at. lia.
  - exfalso. unfold si, USFMFile.min3 in *. lia.
Qed.

(** X1: [splitMarkerText] returns for every line and loses nothing but the
    one space that ends a marker: a line that does not start with a
    backslash comes back whole as the text, with no marker; any other line
    is the backslash, the marker and the text, with at most one space
    between the two. *)
Theorem splitMarkerText_lossless (line : str) :
  exists marker text,
    USFMFile.splitMarkerText line = Ok (marker, text) /\
    match marker with
    | None => text = line /\ startswith [backslash] line = false
    | Some m =>
        line = backslash :: m ++ text \/ line = backslash :: m ++ space :: text
    end.
Proof.
  destruct line as [|c body]; [by exists None, []|].
  unfold USFMFile.splitMarkerText. destruct (N.eqb_spec c backslash) as [->|Hne]; cbn [negb].
  - rewrite slice_from_1.
    destruct (splitAfterBackslash_lossless body) as (m & t & -> & H).
    exists (Some m), t. split; [done|]. destruct H as [H|H]; rewrite H; auto.
  - exists None, (c :: body). split; [done|]. split; [done|].
    change (startswith [backslash] (c :: body)) with (N.eqb backslash c && true).
    rewrite (proj2 (N.eqb_neq backslash c)); [done|congruence].
Qed.

Section ReadMore.

Import USFMFile.

Variable lower : str -> str.
Variable verbosityLevel : Z.
Variable usfm_filename : str.
Variable ignoreSFMs : list str.
Variable encoding : str.

Local Abbreviation read_loop := (read_loop lower verbosityLevel usfm_filename ignoreSFMs encoding).
Local Abbreviation read_line := (read_line lower verbosityLevel usfm_filename ignoreSFMs encoding).

Local Abbreviation kept := (Forall (fun mt : str * str => str_in (fst mt) ignoreSFMs = false)).

Lemma read_marker_kept st line st' :
  read_marker ignoreSFMs st line = Ok st' -> kept (result st) -> kept (result st').
Proof.
  unfold read_marker.
  destruct (splitAfterBackslash_total (slice_from line 1)) as [[mk tx] ->].
  cbn [mbind result_bind Py.bind fst snd].
  destruct (str_in mk ignoreSFMs) eqn:E; cbn [negb]; intros [= <-]; [done|].
  cbn [result set_result set_marker]. intros H. apply Forall_app. split; [done|].
  by constructor.
Qed.

Lemma append_continuation_kept r line r' :
  append_continuation r line = Ok r' -> kept r -> kept r'.
Proof.
  unfold append_continuation. destruct (last r) as [[om ot]|] eqn:E; [|done].
  intros [= <-] H. apply last_Some in E as [r0 ->].
  rewrite removelast_last. apply Forall_app in H as [H1 H2].
  apply Forall_app. split; [done|]. apply Forall_singleton.
  rewrite Forall_singleton in H2. exact H2.
Qed.

Lemma read_line_kept st line st' :
  read_line st line = Ok st' -> kept (result st) -> kept (result st').
Proof.
  unfold USFMFile.read_line.
  set (st0 := set_lineCount st (lineCount st + 1)).
  destruct (if (lineCount st0 =? 1) && str_eqb (lower encoding) (py "utf-8")
            then _ else _) as [[st1 line1]|] eqn:E1; [|done].
  assert (result st1 = result st) as Hr.
  { destruct (_ && _); [|by injection E1 as <- <-].
    destruct (item line 0) as [c|]; [|done]. cbn [mbind result_bind Py.bind] in E1.
    destruct (N.eqb c BOM); by injection E1 as <- <-. }
  cbn [mbind result_bind Py.bind fst snd].
  destruct (item (rev line1) 0) as [c|]; [|done]. cbn [mbind result_bind Py.bind].
  destruct (if N.eqb c LF then slice_to line1 (-1) else line1) as [|d0 l2];
    [by intros [= <-]; rewrite Hr|].
  rewrite <- Hr.
  destruct (N.eqb d0 hash); [by intros [= <-]|].
  destruct (negb (N.eqb d0 backslash)).
  - cbn [result set_lastLine].
    destruct (len (result st1) =? 0).
    + intros H K. apply (read_marker_kept _ _ _ H). by destruct (verbosityLevel >? 2).
    + cbn [marker set_lastLine]. destruct (marker st1) as [mk|]; [|done].
      destruct (negb (str_in mk ignoreSFMs)); [|by intros [= <-]].
      destruct (append_continuation _ _) as [r|] eqn:Er; [|done].
      cbn [mbind result_bind Py.bind]. intros [= <-]. cbn [result set_result].
      by apply (append_continuation_kept _ _ _ Er).
  - intros H. apply (read_marker_kept _ _ _ H).
Qed.

Lemma read_loop_kept st file :
  kept (result st) -> kept (result (fst (read_loop st file))).
Proof.
  revert st. induction file as [|[line|] file IH]; intros st H; cbn [USFMFile.read_loop]; [done| |done].
  destruct (read_line st line) as [st'|] eqn:E; [|done].
  apply IH. by apply (read_line_kept _ _ _ E).
Qed.

End ReadMore.

(** X2: whatever the file holds, no entry that [USFMFile.read] returns has a
    marker that is in [ignoreSFMs]. *)
Theorem read_never_keeps_ignored lower verbosityLevel ourFile usfm_filename
    ignoreSFMs encoding lines log :
  USFMFile.read lower verbosityLevel ourFile usfm_filename ignoreSFMs encoding
    = Ok (lines, log) ->
  Forall (fun mt => str_in (fst mt) (default [] ignoreSFMs) = false) lines.
Proof.
  unfold USFMFile.read. cbv zeta.
  pose proof (read_loop_kept lower verbosityLevel usfm_filename (default [] ignoreSFMs)
                (default (py "utf-8") encoding) USFMFile.initial ourFile) as H.
  destruct (USFMFile.read_loop _ _ _ _ _ _ _) as [st [u|e]]; cbn [fst] in H.
  - intros [= <- _]. by apply H.
  - destruct e; try done. intros [= <- _]. by apply H.
Qed.

Lemma read_never_keeps_ignored_witness :
  Forall (fun mt => str_in (fst mt) [py "c"] = false)
    [(py "id", py "GEN"); (py "v", py "1 In the beginning")].
Proof.
  apply (read_never_keeps_ignored USFMFile.ascii_lower 2 (file_of genesis_lines)
           (py "GEN.SFM") (Some [py "c"]) None _ []).
  vm_compute. reflexivity.
Defined.

Section ReadSimulation.

Import USFMFile.

Variable lower : str -> str.
Variable verbosityLevel : Z.
Variable usfm_filename : str.
Variable ignoreSFMs : list str.
Variable encoding : str.

Local Abbreviation read_loop := (read_loop lower verbosityLevel usfm_filename ignoreSFMs encoding).
Local Abbreviation read_line := (read_line lower verbosityLevel usfm_filename ignoreSFMs encoding).

(** The loop over a file in two parts. *)
Lemma read_loop_app st pre post :
  read_loop st (pre ++ post)
  = match read_loop st pre with
    | (st', Ok _) => read_loop st' post
    | r => r
    end.
Proof.
  revert st. induction pre as [|[line|] pre IH]; intros st; cbn [app USFMFile.read_loop];
    [done| |done].
  destruct (read_line st line); [apply IH|done].
Qed.

Lemma read_marker_lineCount st line st' :
  read_marker ignoreSFMs st line = Ok st' -> lineCount st' = lineCount st.
Proof.
  unfold read_marker. destruct (splitAfterBackslash (slice_from line 1)) as [mt|]; [|done].
  cbn [mbind result_bind Py.bind]. by destruct (negb _); intros [= <-].
Qed.

(** Every line that the loop gets through is counted. *)
Lemma read_line_lineCount st line st' :
  read_line st line = Ok st' -> lineCount st' = lineCount st + 1.
Proof.
  unfold USFMFile.read_line.
  set (st0 := set_lineCount st (lineCount st + 1)).
  destruct (if (lineCount st0 =? 1) && str_eqb (lower encoding) (py "utf-8")
            then _ else _) as [[st1 line1]|] eqn:E1; [|done].
  assert (lineCount st1 = lineCount st + 1) as Hr.
  { destruct (_ && _); [|by injection E1 as <- <-].
    destruct (item line 0) as [c|]; [|done]. cbn [mbind result_bind Py.bind] in E1.
    destruct (N.eqb c BOM); by injection E1 as <- <-. }
  cbn [mbind result_bind Py.bind fst snd].
  destruct (item (rev line1) 0) as [c|]; [|done]. cbn [mbind result_bind Py.bind].
  destruct (if N.eqb c LF then slice_to line1 (-1) else line1) as [|d0 l2];
    [by intros [= <-]|].
  rewrite <- Hr.
  destruct (N.eqb d0 hash); [by intros [= <-]|].
  destruct (negb (N.eqb d0 backslash)).
  - destruct (len _ =? 0).
    + intros H. rewrite (read_marker_lineCount _ _ _ H). by destruct (verbosityLevel >? 2).
    + destruct (marker _) as [mk|]; [|done].
      destruct (negb (str_in mk ignoreSFMs)); [|by intros [= <-]].
      destruct (append_continuation _ _) as [r|]; [|done].
      cbn [mbind result_bind Py.bind]. by intros [= <-].
  - intros H. by rewrite (read_marker_lineCount _ _ _ H).
Qed.

Lemma read_loop_lineCount st file st' u :
  read_loop st file = (st', Ok u) -> lineCount st' = lineCount st + len file.
Proof.
  revert st. induction file as [|[line|] file IH]; intros st; cbn [USFMFile.read_loop].
  - intros [= <-]. unfold len. simpl. lia.
  - destruct (read_line st line) as [st1|] eqn:E; [|done]. intros H.
    rewrite (IH _ H), (read_line_lineCount _ _ _ E). unfold len. simpl length. lia.
  - done.
Qed.

Lemma read_marker_alike st st' line line' :
  slice_from line 1 = slice_from line' 1 ->
  result st = result st' -> 1 <= lineCount st -> 1 <= lineCount st' ->
  alike (read_marker ignoreSFMs st line) (read_marker ignoreSFMs st' line').
Proof.
  intros Hs Hr H1 H2. unfold read_marker. rewrite <- Hs.
  destruct (splitAfterBackslash (slice_from line 1)) as [mt|]; [|done].
  cbn [mbind result_bind Py.bind]. destruct (negb _); cbn; unfold same_entries; cbn; rewrite ?Hr; done.
Qed.

(** Past the first line, a round looks at the entries and at the last
    marker only. *)
Lemma read_line_alike st st' line :
  same_entries st st' -> alike (read_line st line) (read_line st' line).
Proof.
  intros (Hr & Hm & H1 & H2). unfold USFMFile.read_line. cbv zeta.
  cbn [lineCount set_lineCount].
  destruct (Z.eqb_spec (lineCount st + 1) 1) as [?|_]; [lia|].
  destruct (Z.eqb_spec (lineCount st' + 1) 1) as [?|_]; [lia|].
  cbn [andb mbind result_bind Py.bind fst snd].
  destruct (item (rev line) 0) as [c|]; [|by cbn]. cbn [mbind result_bind Py.bind].
  destruct (if N.eqb c LF then slice_to line (-1) else line) as [|d0 l2].
  { cbn. unfold same_entries. cbn. split_and!; (done || lia || congruence). }
  destruct (N.eqb d0 hash).
  { cbn. unfold same_entries. cbn. split_and!; (done || lia || congruence). }
  cbn [result marker set_lastLine set_lineCount lineCount]. rewrite <- Hr, <- Hm.
  destruct (negb (N.eqb d0 backslash)).
  - destruct (len (result st) =? 0).
    + apply read_marker_alike; [done|..]; destruct (verbosityLevel >? 2); cbn; rewrite ?Hr; (done || lia).
    + destruct (marker st) as [mk|] eqn:Em; [|done].
      destruct (negb (str_in mk ignoreSFMs)).
      * destruct (append_continuation (result st) (d0 :: l2)) as [r|]; [|done].
        cbn. unfold same_entries. cbn. split_and!; (done || lia || congruence).
      * cbn. unfold same_entries. cbn. split_and!; (done || lia || congruence).
  - apply read_marker_alike; [done|..]; cbn; (done || lia).
Qed.

Lemma read_loop_alike st st' file :
  same_entries st st' ->
  result (fst (read_loop st file)) = result (fst (read_loop st' file)) /\
  snd (read_loop st file) = snd (read_loop st' file).
Proof.
  revert st st'. induction file as [|[line|] file IH]; intros st st' H;
    cbn [USFMFile.read_loop].
  - split; [apply H|done].
  - pose proof (read_line_alike _ _ line H) as Ha.
    destruct (read_line st line) as [sa|ea], (read_line st' line) as [sb|eb];
      cbn in Ha; try done.
    + by apply IH.
    + subst eb. split; [apply H|done].
  - split; [apply H|done].
Qed.

(** What [read] assigns to [self.lines], from the loop. *)
Lemma read_lines_from_loop file ign enc :
  fst <$> USFMFile.read lower verbosityLevel file usfm_filename ign enc
  = match USFMFile.read_loop lower verbosityLevel usfm_filename (default [] ign)
            (default (py "utf-8") enc) initial file with
    | (st, Ok _) => Ok (result st)
    | (st, Raise UnicodeError) => Ok (result st)
    | (_, Raise e) => Raise e
    end.
Proof.
  unfold USFMFile.read. cbv zeta.
  destruct (USFMFile.read_loop _ _ _ _ _ _ _) as [st [u|e]]; [done|]. by destruct e.
Qed.

End ReadSimulation.

(** X3: a blank line or a comment line that is not the first line of the
    file changes nothing in what [USFMFile.read] assigns to [self.lines]. *)
Theorem read_skips_discarded_lines lower verbosityLevel usfm_filename ignoreSFMs encoding
    (pre post : list USFMFile.fetched) (line : str) :
  pre <> [] -> discarded line ->
  fst <$> USFMFile.read lower verbosityLevel (pre ++ USFMFile.Line line :: post)
            usfm_filename ignoreSFMs encoding
  = fst <$> USFMFile.read lower verbosityLevel (pre ++ post)
              usfm_filename ignoreSFMs encoding.
Proof.
  intros Hpre Hline. rewrite !read_lines_from_loop, !read_loop_app.
  destruct (USFMFile.read_loop _ _ _ _ _ USFMFile.initial pre) as [st [[]|e]] eqn:Epre;
    [|done].
  pose proof (read_loop_lineCount _ _ _ _ _ _ _ _ _ Epre) as Hcount.
  assert (1 <= USFMFile.lineCount st) as H1.
  { rewrite Hcount. destruct pre; [done|]. unfold len. cbn. lia. }
  cbn [USFMFile.read_loop].
  assert (exists st1, USFMFile.read_line lower verbosityLevel usfm_filename
                        (default [] ignoreSFMs) (default (py "utf-8") encoding) st line
                      = Ok st1 /\ same_entries st1 st) as (st1 & -> & Hsame).
  { unfold USFMFile.read_line. cbv zeta. cbn [USFMFile.lineCount USFMFile.set_lineCount].
    destruct (Z.eqb_spec (USFMFile.lineCount st + 1) 1) as [?|_]; [lia|].
    cbn [andb mbind result_bind Py.bind fst snd].
    destruct Hline as [->|[rest ->]].
    - cbn. eexists. split; [done|]. unfold same_entries. cbn. split_and!; (done || lia || congruence).
    - assert (exists l2,
                (c ← item (rev (hash :: rest)) 0;
                 Ok (if N.eqb c LF then slice_to (hash :: rest) (-1) else hash :: rest))
                = Ok (hash :: l2)) as [l2 Hl2].
      { destruct rest as [|r rest' _] using rev_ind; [by exists []|].
        change (hash :: rest' ++ [r]) with ((hash :: rest') ++ [r]).
        rewrite rev_app_distr, slice_to_neg1. cbn. destruct (N.eqb r LF); by eexists. }
      destruct (item (rev (hash :: rest)) 0) as [c|]; [|done].
      cbn [mbind result_bind Py.bind] in Hl2 |- *. injection Hl2 as ->.
      change (N.eqb hash hash) with true. cbv iota.
      eexists. split; [done|]. unfold same_entries. cbn.
      split_and!; (done || lia || congruence). }
  destruct (read_loop_alike lower verbosityLevel usfm_filename (default [] ignoreSFMs)
              (default (py "utf-8") encoding) st1 st post Hsame) as [Hres Hout].
  destruct (USFMFile.read_loop _ _ _ _ _ st1 post) as [sa oa],
           (USFMFile.read_loop _ _ _ _ _ st post) as [sb ob].
  cbn [fst snd] in Hres, Hout. subst ob. rewrite Hres. done.
Qed.

Lemma read_skips_discarded_lines_witness :
  fst <$> USFMFile.read USFMFile.ascii_lower 2
            (file_of [py "\id GEN"] ++ USFMFile.Line [LF] :: file_of [py "\c 1"])
            (py "GEN.SFM") None None
  = fst <$> USFMFile.read USFMFile.ascii_lower 2
              (file_of [py "\id GEN"] ++ file_of [py "\c 1"])
              (py "GEN.SFM") None None.
Proof.
  apply read_skips_discarded_lines.
  - intros H. vm_compute in H. discriminate H.
  - left. reflexivity.
Defined.

Section ReadMarkerLines.

Import USFMFile.

Variable lower : str -> str.
Variable verbosityLevel : Z.
Variable usfm_filename : str.
Variable encoding : str.

Lemma read_loop_marker_lines st lines :
  Forall (fun line => startswith [backslash] line = true) lines ->
  exists st' entries,
    read_loop lower verbosityLevel usfm_filename [] encoding st (file_of lines)
      = (st', Ok tt) /\
    result st' = result st ++ entries /\ log st' = log st /\
    Forall2 (fun line e => splitMarkerText line = Ok (Some (fst e), snd e)) lines entries.
Proof.
  intros H. revert st. induction H as [|line lines Hline _ IH]; intros st.
  - exists st, []. by rewrite app_nil_r.
  - destruct line as [|c body]; [done|].
    change (startswith [backslash] (c :: body)) with (N.eqb backslash c && true) in Hline.
    rewrite andb_true_r in Hline. apply N.eqb_eq in Hline as <-.
    cbn [file_of fmap list_fmap USFMFile.read_loop].
    change (((backslash : N) :: body) ++ [LF]) with (backslash :: body ++ [LF]).
    rewrite read_line_backslash. unfold read_marker. rewrite slice_from_1.
    destruct (splitAfterBackslash_total body) as [[mk tx] Hs]. rewrite Hs.
    cbn [mbind result_bind Py.bind fst snd str_in existsb negb].
    destruct (IH (set_result
                    (set_marker (set_lastLine (set_lineCount st (lineCount st + 1))
                                   (backslash :: body)) mk)
                    (result st ++ [(mk, tx)]))) as (st' & entries & E & Hr & Hl & Hf).
    exists st', ((mk, tx) :: entries). split; [exact E|]. split_and!.
    + rewrite Hr. cbn [result set_result]. by rewrite <- app_assoc.
    + by rewrite Hl.
    + constructor; [|done]. unfold splitMarkerText.
      change (negb (N.eqb backslash backslash)) with false. cbv iota.
      by rewrite slice_from_1, Hs.
Qed.

End ReadMarkerLines.

(** X4: on a file whose lines all start with a backslash and end with a
    newline, [USFMFile.read] without [ignoreSFMs] logs nothing and returns,
    line for line, what [splitMarkerText] makes of the line. *)
Theorem read_agrees_with_splitMarkerText lower verbosityLevel usfm_filename encoding
    (lines : list str) :
  Forall (fun line => startswith [backslash] line = true) lines ->
  exists entries,
    USFMFile.read lower verbosityLevel (file_of lines) usfm_filename None encoding
      = Ok (entries, []) /\
    Forall2 (fun line e => USFMFile.splitMarkerText line = Ok (Some (fst e), snd e))
            lines entries.
Proof.
  intros H. unfold USFMFile.read. cbv zeta.
  destruct (read_loop_marker_lines lower verbosityLevel usfm_filename
              (default (py "utf-8") encoding) USFMFile.initial lines H)
    as (st' & entries & E & Hr & Hl & Hf).
  cbn [default from_option id] in E |- *. rewrite E. exists entries. split; [|done].
  by rewrite Hr, Hl.
Qed.

Lemma read_agrees_with_splitMarkerText_witness :
  exists entries,
    USFMFile.read USFMFile.ascii_lower 2 (file_of genesis_lines) (py "GEN.SFM") None
      None = Ok (entries, []) /\
    Forall2 (fun line e => USFMFile.splitMarkerText line = Ok (Some (fst e), snd e))
            genesis_lines entries.
Proof.
  apply read_agrees_with_splitMarkerText.
  repeat constructor.
Defined.

(** X5: a first line of the file that starts neither with a backslash, nor
    with ['#'], nor with the byte order mark is not left out: it is parsed
    like a marker line, its first character taken for the backslash. *)
Theorem read_first_line_loses_first_character lower verbosityLevel usfm_filename
    ignoreSFMs encoding (c0 : N) (rest : str) (more : list USFMFile.fetched) :
  c0 <> hash -> c0 <> backslash -> c0 <> BOM ->
  fst <$> USFMFile.read lower verbosityLevel
            (USFMFile.Line (c0 :: rest ++ [LF]) :: more) usfm_filename ignoreSFMs encoding
  = fst <$> USFMFile.read lower verbosityLevel
              (USFMFile.Line (backslash :: rest ++ [LF]) :: more)
              usfm_filename ignoreSFMs encoding.
Proof.
  intros Hh Hb Hbom. rewrite !read_lines_from_loop. cbn [USFMFile.read_loop].
  rewrite read_line_continuation by auto. rewrite read_line_backslash.
  cbv zeta. cbn [USFMFile.result USFMFile.initial]. change (len (@nil (str * str)) =? 0) with true.
  cbv iota.
  set (sa := if verbosityLevel >? 2 then _ else _).
  set (sb := USFMFile.set_lastLine _ _).
  pose proof (read_marker_alike (default [] ignoreSFMs) sa sb (c0 :: rest) (backslash :: rest))
    as Ha.
  destruct (USFMFile.read_marker _ sa _) as [sa'|ea], (USFMFile.read_marker _ sb _) as [sb'|eb].
  - destruct (read_loop_alike lower verbosityLevel usfm_filename (default [] ignoreSFMs)
                (default (py "utf-8") encoding) sa' sb' more) as [Hres Hout].
    { apply Ha; [by rewrite !slice_from_1|unfold sa; by destruct (verbosityLevel >? 2)
                |unfold sa; destruct (verbosityLevel >? 2); cbn; lia|cbn; lia]. }
    destruct (USFMFile.read_loop _ _ _ _ _ sa' more) as [s1 o1],
             (USFMFile.read_loop _ _ _ _ _ sb' more) as [s2 o2].
    cbn [fst snd] in Hres, Hout. subst o2. by rewrite Hres.
  - exfalso. apply Ha; [by rewrite !slice_from_1|unfold sa; by destruct (verbosityLevel >? 2)
                |unfold sa; destruct (verbosityLevel >? 2); cbn; lia|cbn; lia].
  - exfalso. apply Ha; [by rewrite !slice_from_1|unfold sa; by destruct (verbosityLevel >? 2)
                |unfold sa; destruct (verbosityLevel >? 2); cbn; lia|cbn; lia].
  - assert (ea = eb) as ->.
    { apply Ha; [by rewrite !slice_from_1|unfold sa; by destruct (verbosityLevel >? 2)
                |unfold sa; destruct (verbosityLevel >? 2); cbn; lia|cbn; lia]. }
    done.
Qed.

Lemma read_first_line_loses_first_character_witness :
  fst <$> USFMFile.read USFMFile.ascii_lower 2
            (USFMFile.Line (chr "x"%char :: py "id GEN" ++ [LF]) :: file_of [py "\c 1"])
            (py "GEN.SFM") None None
  = fst <$> USFMFile.read USFMFile.ascii_lower 2
              (USFMFile.Line (backslash :: py "id GEN" ++ [LF]) :: file_of [py "\c 1"])
              (py "GEN.SFM") None None.
Proof.
  apply read_first_line_loses_first_character;
    intros H; vm_compute in H; discriminate H.
Defined.

(** ** OSISXMLBible: [clean] twice *)

Section CleanTwice.

Import OSISClean.

Lemma while_done cond body n s : cond s = false -> while cond body n s = s.
Proof. intros H. destruct n; [done|]. cbn. by rewrite H. Qed.

Lemma endswith_absent c s : Forall (fun x => x <> c) s -> endswith [c] s = false.
Proof.
  destruct s as [|x s _] using rev_ind; [done|].
  intros [_ H]%Forall_app. rewrite Forall_singleton in H.
  rewrite endswith_snoc. apply N.eqb_neq. congruence.
Qed.

(** The value of [clean] holds no tab, CR or LF and no two spaces in a
    row. *)
Lemma clean_value_normal text le location verseMilestone :
  exists r, fst (clean (Some text) le location verseMilestone) = Some r /\
            Forall (fun c => c <> tab /\ c <> CR /\ c <> LF) r /\
            contains [space; space] r = false.
Proof.
  unfold clean. cbv zeta.
  set (body := drop_trailing_newlines text).
  set (e1 := if contains [space; space] body then _ else _).
  destruct (contains [tab] body) eqn:Et.
  - set (r2 := replace [tab] [space] body).
    assert (Forall (fun c => c <> tab) r2) as Htab
      by (apply replace_single_gone; by repeat constructor).
    clearbody r2.
    destruct (contains [LF] r2 || contains [CR] r2) eqn:Ec; cbn [fst].
    + eexists. split; [done|]. split; [|apply collapse_spaces_done].
      apply collapse_spaces_Forall; [done|].
      set (r3 := replace [CR] [space] _).
      assert (Forall (fun c => c <> tab) r3 /\ Forall (fun c => c <> CR) r3 /\
              Forall (fun c => c <> LF) r3) as (A1 & A2 & A3).
      { unfold r3. split; [|split].
        - repeat (apply replace_from_Forall; [|by repeat constructor]). done.
        - apply replace_single_gone. by repeat constructor.
        - apply replace_from_Forall; [|by repeat constructor].
          apply replace_single_gone. by repeat constructor. }
      rewrite Forall_forall in A1, A2, A3 |- *. intros c Hc.
      split_and!; [by apply A1|by apply A2|by apply A3].
    + eexists. split; [done|]. split; [|apply collapse_spaces_done].
      apply collapse_spaces_Forall; [done|].
      apply orb_false_iff in Ec as [E1 E2]. apply contains_single_false in E1, E2.
      rewrite Forall_forall in Htab, E1, E2 |- *. intros c Hc.
      split_and!; [by apply Htab|by apply E2|by apply E1].
  - apply contains_single_false in Et.
    destruct (contains [LF] body || contains [CR] body) eqn:Ec; cbn [fst].
    + eexists. split; [done|]. split; [|apply collapse_spaces_done].
      apply collapse_spaces_Forall; [done|].
      set (r3 := replace [CR] [space] _).
      assert (Forall (fun c => c <> tab) r3 /\ Forall (fun c => c <> CR) r3 /\
              Forall (fun c => c <> LF) r3) as (A1 & A2 & A3).
      { unfold r3. split; [|split].
        - repeat (apply replace_from_Forall; [|by repeat constructor]). done.
        - apply replace_single_gone. by repeat constructor.
        - apply replace_from_Forall; [|by repeat constructor].
          apply replace_single_gone. by repeat constructor. }
      rewrite Forall_forall in A1, A2, A3 |- *. intros c Hc.
      split_and!; [by apply A1|by apply A2|by apply A3].
    + eexists. split; [done|]. split; [|apply collapse_spaces_done].
      apply collapse_spaces_Forall; [done|].
      apply orb_false_iff in Ec as [E1 E2]. apply contains_single_false in E1, E2.
      rewrite Forall_forall in Et, E1, E2 |- *. intros c Hc.
      split_and!; [by apply Et|by apply E2|by apply E1].
Qed.

(** [clean] leaves such a string as it is and reports nothing. *)
Lemma clean_fixed r le location verseMilestone :
  Forall (fun c => c <> tab /\ c <> CR /\ c <> LF) r ->
  contains [space; space] r = false ->
  clean (Some r) le location verseMilestone = (Some r, Effects le []).
Proof.
  intros Hr Hs.
  assert (Forall (fun c => c <> tab) r /\ Forall (fun c => c <> CR) r /\
          Forall (fun c => c <> LF) r) as (A1 & A2 & A3).
  { rewrite Forall_forall in Hr. split_and!; apply Forall_forall; intros c Hc;
      by destruct (Hr c Hc) as (? & ? & ?). }
  unfold clean. cbv zeta.
  assert (drop_trailing_newlines r = r) as ->.
  { apply while_done. by rewrite !endswith_absent. }
  rewrite Hs.
  rewrite (proj2 (contains_single_false tab r) A1).
  rewrite (proj2 (contains_single_false LF r) A3).
  rewrite (proj2 (contains_single_false CR r) A2). cbn [orb].
  unfold collapse_spaces. by rewrite while_done.
Qed.

End CleanTwice.

(** X6: [clean] is idempotent.  Cleaning the value of [clean] again gives the
    same value, and the second pass logs nothing and appends nothing to
    [loadErrors], whatever location and verse milestone it is given. *)
Theorem clean_idempotent (elementText : option str)
    (le le' : option (list OSISClean.message))
    (location verseMilestone location' verseMilestone' : option str) :
  OSISClean.clean (fst (OSISClean.clean elementText le location verseMilestone))
                  le' location' verseMilestone'
  = (fst (OSISClean.clean elementText le location verseMilestone),
     OSISClean.Effects le' []).
Proof.
  destruct elementText as [text|]; [|done].
  destruct (clean_value_normal text le location verseMilestone) as (r & -> & Hr & Hs).
  by apply clean_fixed.
Qed.

(** ** USFXXMLBible: [clean] *)

Section StripFacts.

Lemma lstrip_head s :
  match head (lstrip s) with Some x => isspace x = false | None => True end.
Proof.
  induction s as [|x s IH]; [done|]. cbn [lstrip]. destruct (isspace x) eqn:E; [exact IH|].
  exact E.
Qed.

Lemma lstrip_suffix s : exists ws, s = ws ++ lstrip s.
Proof.
  induction s as [|x s [ws IH]]; [by exists []|]. cbn [lstrip].
  destruct (isspace x); [|by exists []]. exists (x :: ws). cbn. by rewrite <- IH.
Qed.

Lemma lstrip_fixed x s : isspace x = false -> lstrip (x :: s) = x :: s.
Proof. intros H. cbn. by rewrite H. Qed.

(** What [lstrip] leaves of a string that ends with a character that is not
    white space still ends with it. *)
Lemma lstrip_snoc s y : isspace y = false -> exists t, lstrip (s ++ [y]) = t ++ [y].
Proof.
  intros Hy. induction s as [|x s [t IH]].
  - exists []. cbn. by rewrite Hy.
  - cbn [app lstrip]. destruct (isspace x); [by exists t|]. by exists (x :: s).
Qed.

Lemma rev_snoc_head {A} (s : list A) : head (rev s) = last s.
Proof.
  destruct s as [|y s _] using rev_ind; [done|].
  by rewrite rev_app_distr, last_snoc.
Qed.

Lemma rev_head_last {A} (s : list A) : last (rev s) = head s.
Proof. destruct s as [|x s]; [done|]. cbn. by rewrite last_snoc. Qed.

Lemma strip_trimmed s : trimmed (strip s).
Proof.
  unfold trimmed, strip, rstrip. rewrite rev_head_last. split.
  - pose proof (lstrip_head s) as H. destruct (lstrip s) as [|x t]; [done|].
    cbn [head] in H. cbn [rev].
    destruct (lstrip_snoc (rev t) x H) as [u ->]. rewrite rev_app_distr. cbn. exact H.
  - apply lstrip_head.
Qed.

Lemma strip_fixed s : trimmed s -> strip s = s.
Proof.
  intros [H1 H2]. unfold strip, rstrip.
  assert (lstrip s = s) as ->.
  { destruct s as [|x t]; [done|]. by apply lstrip_fixed. }
  rewrite <- rev_snoc_head in H2.
  assert (lstrip (rev s) = rev s) as ->.
  { destruct (rev s) as [|x t]; [done|]. by apply lstrip_fixed. }
  apply rev_involutive.
Qed.

End StripFacts.

Section ReplaceFacts.

Lemma startswith_length p s : startswith p s = true -> (length p <= length s)%nat.
Proof.
  revert s. induction p as [|x p IH]; intros [|y s]; cbn; try done; [lia|].
  intros [_ H]%andb_true_iff. apply IH in H. lia.
Qed.

Lemma startswith_snoc_absent old t x :
  old <> [] -> Forall (fun c => c <> x) old ->
  startswith old (t ++ [x]) = startswith old t.
Proof.
  intros Hne Hold. revert t. induction Hold as [|o old Ho Hold IH]; [done|]. clear Hne.
  intros [|y t]; cbn.
  - rewrite (proj2 (N.eqb_neq o x)); done.
  - destruct old as [|o' old']; [by destruct t|]. by rewrite IH.
Qed.

(** A last character that is not in [old] stays last. *)
Lemma replace_from_snoc old new k s x :
  old <> [] -> Forall (fun c => c <> x) old -> (k <= length s)%nat ->
  replace_from old new k (s ++ [x]) = replace_from old new k s ++ [x].
Proof.
  intros Hne Hold. revert k. induction s as [|y s IH]; intros k Hk.
  - assert (k = O) as -> by (cbn in Hk; lia). cbn [app replace_from].
    pose proof (startswith_snoc_absent old [] x Hne Hold) as E. cbn [app] in E.
    rewrite E. by destruct old.
  - cbn [app replace_from]. destruct k as [|k]; [|apply IH; cbn in Hk; lia].
    change (y :: s ++ [x]) with ((y :: s) ++ [x]).
    rewrite (startswith_snoc_absent old (y :: s) x Hne Hold).
    destruct (startswith old (y :: s)) eqn:E.
    + rewrite IH, app_assoc; [done|]. apply startswith_length in E. cbn in E. lia.
    + cbn. by rewrite IH by lia.
Qed.

(** A first character that is not in [old] stays first. *)
Lemma replace_cons_absent old new x s :
  Forall (fun c => c <> x) old -> old <> [] ->
  replace old new (x :: s) = x :: replace old new s.
Proof.
  intros Hold Hne. unfold replace. cbn [replace_from].
  destruct old as [|o old]; [done|]. cbn [startswith].
  apply Forall_cons in Hold as [Ho _]. by rewrite (proj2 (N.eqb_neq o x)).
Qed.

Lemma replace_trimmed old new s :
  old <> [] -> Forall (fun c => isspace c = true) old ->
  trimmed s -> trimmed (replace old new s).
Proof.
  intros Hne Hold [H1 H2]. unfold trimmed.
  assert (forall x, isspace x = false -> Forall (fun c => c <> x) old) as Hx.
  { intros x Hx. eapply Forall_impl; [exact Hold|]. intros c Hc ->. congruence. }
  split.
  - destruct s as [|x t]; [done|]. cbn [head] in H1.
    by rewrite (replace_cons_absent old new x t (Hx x H1) Hne).
  - destruct s as [|y t _] using rev_ind; [done|]. rewrite last_snoc in H2.
    unfold replace. rewrite (replace_from_snoc old new 0 t y Hne (Hx y H2)) by lia.
    by rewrite last_snoc.
Qed.

(** Without an occurrence there is nothing to replace. *)
Lemma replace_absent old new s :
  contains old s = false -> replace old new s = s.
Proof.
  unfold replace. induction s as [|x s IH]; [done|]. cbn [contains replace_from].
  intros [E1 E2]%orb_false_iff. rewrite E1. by rewrite IH.
Qed.

Lemma contains_absent c old s :
  c ∈ old -> Forall (fun x => x <> c) s -> contains old s = false.
Proof.
  intros Hc Hs. induction Hs as [|x s Hx Hs IH].
  - cbn. destruct old as [|o old]; [by apply elem_of_nil in Hc|done].
  - cbn [contains]. rewrite IH, orb_false_r.
    destruct (startswith old (x :: s)) eqn:E; [|done]. exfalso.
    clear IH. revert x s Hx Hs E. induction old as [|o old IHo]; intros x s Hx Hs E.
    + by apply elem_of_nil in Hc.
    + cbn in E. apply andb_true_iff in E as [E1 E2]. apply N.eqb_eq in E1 as ->.
      apply elem_of_cons in Hc as [->|Hc]; [done|].
      destruct s as [|y s]; [by destruct old; [apply elem_of_nil in Hc|]|].
      apply Forall_cons in Hs as [Hy Hs]. by apply (IHo Hc y s).
Qed.

End ReplaceFacts.

(** X7: the [clean] of the USFX loader gives [None] for [None]; for a string
    its value holds no CR and no LF and has no white space at either end,
    and cleaning it again changes nothing. *)
Theorem USFX_clean_normal_form :
  USFXXMLBible.clean None = None /\
  forall text : str,
    exists r, USFXXMLBible.clean (Some text) = Some r /\
              Forall (fun c => c <> CR /\ c <> LF) r /\
              trimmed r /\
              USFXXMLBible.clean (Some r) = Some r.
Proof.
  split; [done|]. intros text. unfold USFXXMLBible.clean. eexists. split; [done|].
  set (r := replace [CR] [space] _).
  assert (Forall (fun c => c <> CR) r /\ Forall (fun c => c <> LF) r) as [A1 A2].
  { split.
    - apply replace_single_gone. by repeat constructor.
    - apply replace_from_Forall; [|by repeat constructor].
      apply replace_single_gone. by repeat constructor. }
  assert (trimmed r) as Ht.
  { unfold r. repeat (apply replace_trimmed; [done|by repeat constructor|]).
    apply strip_trimmed. }
  split_and!; [|done|].
  - rewrite Forall_forall in A1, A2 |- *. intros c Hc. split; [by apply A1|by apply A2].
  - rewrite (strip_fixed r Ht).
    rewrite (replace_absent [CR; LF] [space] r)
      by (apply (contains_absent CR); [by left|done]).
    rewrite (replace_absent [LF] [space] r)
      by (apply (contains_absent LF); [by left|done]).
    by rewrite (replace_absent [CR] [space] r)
      by (apply (contains_absent CR); [by left|done]).
Qed.

(** ** InternalBible: the books as a container *)

Section ContainerFacts.

Context {V : Type}.
Implicit Types d : list (str * V).

Lemma od_keys_set k v d :
  OD.keys (OD.set k v d) = if OD.mem k d then OD.keys d else OD.keys d ++ [k].
Proof.
  unfold OD.keys. induction d as [|[k' v'] d IH]; [done|]. rewrite od_mem_cons.
  cbn [OD.set]. destruct (str_eqb k k') eqn:E.
  - apply str_eqb_eq in E as ->. by rewrite decide_True.
  - rewrite decide_False by (intros ->; by rewrite str_eqb_refl in E).
    cbn [map fst]. rewrite IH. by destruct (OD.mem k d).
Qed.

(** With distinct keys, the key at a position finds the value at that
    position. *)
Lemma od_get_at d (i : nat) k :
  OD.wf d -> OD.keys d !! i = Some k -> OD.get k d = snd <$> d !! i.
Proof.
  unfold OD.wf. revert i. induction d as [|[k' v'] d IH]; intros i Hwf Hk; [done|].
  cbn in Hwf. apply NoDup_cons in Hwf as [Hn Hwf]. destruct i as [|i]; cbn in Hk |- *.
  - injection Hk as ->. by rewrite str_eqb_refl.
  - rewrite str_eqb_neq; [by apply IH|].
    intros ->. apply Hn. by apply list_elem_of_lookup_2 in Hk.
Qed.

Lemma od_keys_lookup d (i : nat) : OD.keys d !! i = fst <$> d !! i.
Proof. unfold OD.keys. apply list_lookup_fmap. Qed.

End ContainerFacts.

Section IndexFacts.

Context {A : Type}.
Implicit Types l : list A.

Lemma index_nat l (i : nat) :
  BibleAccess.index l (Z.of_nat i)
  = match l !! i with Some a => Ok a | None => Raise IndexError end.
Proof.
  unfold BibleAccess.index. cbv zeta.
  destruct (Z.ltb_spec (Z.of_nat i) 0) as [?|_]; [lia|].
  destruct (Z.ltb_spec (Z.of_nat i) 0) as [?|_]; [lia|]. by rewrite Nat2Z.id.
Qed.

(** An index counted from the end. *)
Lemma index_from_end l (i : Z) :
  0 <= i < len l -> BibleAccess.index l (i - len l) = BibleAccess.index l i.
Proof.
  intros Hi. unfold BibleAccess.index. cbv zeta.
  destruct (Z.ltb_spec (i - len l) 0) as [_|?]; [|lia].
  replace (i - len l + len l) with i by lia.
  assert ((i <? 0) = false) as H by (apply Z.ltb_ge; lia). by rewrite !H.
Qed.

Lemma index_outside l (i : Z) :
  len l <= i \/ i < - len l -> BibleAccess.index l i = Raise IndexError.
Proof.
  intros Hi. unfold BibleAccess.index. cbv zeta. pose proof (len_nonneg l) as Hl.
  destruct (Z.ltb_spec i 0).
  - destruct (Z.ltb_spec (i + len l) 0); [done|lia].
  - destruct (Z.ltb_spec i 0); [lia|]. unfold len in *.
    rewrite lookup_ge_None_2 by lia. done.
Qed.

End IndexFacts.

(** X8: after [saveBook], the book is in the Bible under its code:
    [BBB in self] holds and [self[BBB]] is the book that was saved, the
    other codes find what they found before, and the list of book codes is
    the old one, with the code added at its end when it is new. *)
Theorem saveBook_then_lookup {B : Type} (debugFlag loadedAllBooks : bool)
    (bookBBB : B -> str) (getAssumedBookNames : B -> list str) (lower : str -> str)
    (self : InternalBible.t B) (bookData : B) :
  len (bookBBB bookData) = 3 ->
  let BBB := bookBBB bookData in
  let self' := fst (InternalBible.saveBook bookBBB getAssumedBookNames lower self bookData) in
  BibleAccess.__contains__ debugFlag self' BBB = Ok true /\
  BibleAccess.__getitem__ self' (BibleAccess.Code BBB) = Ok (Some bookData) /\
  (forall other, other <> BBB ->
     BibleAccess.__getitem__ self' (BibleAccess.Code other)
     = BibleAccess.__getitem__ self (BibleAccess.Code other)) /\
  fst (BibleAccess.getBookList debugFlag loadedAllBooks self')
  = (if OD.mem BBB (InternalBible.books self)
     then fst (BibleAccess.getBookList debugFlag loadedAllBooks self)
     else fst (BibleAccess.getBookList debugFlag loadedAllBooks self) ++ [BBB]).
Proof.
  intros Hlen BBB self'.
  assert (InternalBible.books self' = OD.set BBB bookData (InternalBible.books self)) as Hb
    by apply saveBook_books.
  unfold BibleAccess.__contains__, BibleAccess.__getitem__, BibleAccess.getBookList.
  cbn [fst]. rewrite Hb. split_and!.
  - fold BBB in Hlen. rewrite Hlen. change (3 =? 3) with true.
    destruct debugFlag; cbn; by rewrite od_mem_set_eq.
  - fold BBB in Hlen. rewrite Hlen. change (3 =? 3) with true. cbv iota.
    by rewrite od_get_set_eq.
  - intros other Hne. destruct (len other =? 3); [|done].
    by rewrite od_get_set_ne.
  - apply od_keys_set.
Qed.

Lemma saveBook_then_lookup_witness :
  BibleAccess.__getitem__
    (fst (InternalBible.saveBook (fun _ : unit => py "GEN") (fun _ => [py "Genesis"])
            USFMFile.ascii_lower InternalBible.init tt))
    (BibleAccess.Code (py "GEN"))
  = Ok (Some tt).
Proof.
  pose proof (saveBook_then_lookup false true (fun _ : unit => py "GEN")
                (fun _ => [py "Genesis"]) USFMFile.ascii_lower InternalBible.init tt
                eq_refl) as H.
  cbv zeta in H. destruct H as (_ & H & _). exact H.
Defined.

(** X9: [self[i]] for an integer and [self[BBB]] for a code agree: the
    [i]-th code of [getBookList] finds the book that the index [i] finds,
    and so does the index counted from the end; an index outside the books
    raises [IndexError], and a code that is not there raises [KeyError]. *)
Theorem getitem_by_index_and_by_code {B : Type} (debugFlag loadedAllBooks : bool)
    (self : InternalBible.t B) :
  OD.wf (InternalBible.books self) ->
  (forall (i : nat) (BBB : str),
     fst (BibleAccess.getBookList debugFlag loadedAllBooks self) !! i = Some BBB ->
     len BBB = 3 ->
     exists book,
       BibleAccess.__getitem__ self (BibleAccess.Index (Z.of_nat i)) = Ok (Some book) /\
       BibleAccess.__getitem__ self
         (BibleAccess.Index (Z.of_nat i - len (InternalBible.books self))) = Ok (Some book) /\
       BibleAccess.__getitem__ self (BibleAccess.Code BBB) = Ok (Some book)) /\
  (forall i : Z,
     len (InternalBible.books self) <= i \/ i < - len (InternalBible.books self) ->
     BibleAccess.__getitem__ self (BibleAccess.Index i) = Raise IndexError) /\
  (forall BBB : str,
     len BBB = 3 -> OD.mem BBB (InternalBible.books self) = false ->
     BibleAccess.__getitem__ self (BibleAccess.Code BBB) = Raise KeyError).
Proof.
  intros Hwf. split_and!.
  - intros i BBB Hi Hlen. cbn [BibleAccess.getBookList fst] in Hi.
    pose proof (od_get_at _ _ _ Hwf Hi) as Hget.
    rewrite od_keys_lookup in Hi.
    destruct (InternalBible.books self !! i) as [[k book]|] eqn:E; [|done].
    cbn in Hi, Hget. injection Hi as ->. exists book.
    pose proof (lookup_lt_Some _ _ _ E) as Hlt.
    unfold BibleAccess.__getitem__. split_and!.
    + by rewrite index_nat, E.
    + rewrite index_from_end, index_nat, E; [done|]. unfold len. lia.
    + rewrite Hlen. change (3 =? 3) with true. cbv iota. by rewrite Hget.
  - intros i Hi. unfold BibleAccess.__getitem__. by rewrite index_outside.
  - intros BBB Hlen Hm. unfold BibleAccess.__getitem__. rewrite Hlen.
    change (3 =? 3) with true. cbv iota. unfold OD.mem in Hm.
    by destruct (OD.get BBB (InternalBible.books self)).
Qed.

Lemma getitem_by_index_and_by_code_witness :
  BibleAccess.__getitem__ two_books (BibleAccess.Index 2) = Raise IndexError /\
  BibleAccess.__getitem__ two_books (BibleAccess.Code (py "LEV")) = Raise KeyError.
Proof.
  assert (OD.wf (InternalBible.books two_books)) as Hwf
    by (apply (bool_decide_unpack _); vm_compute; reflexivity).
  destruct (getitem_by_index_and_by_code false true two_books Hwf) as (_ & H1 & H2).
  split.
  - apply H1. left. vm_compute. discriminate.
  - apply H2; reflexivity.
Defined.

Section SavedNames.

Context {B : Type}.
Variable lower : str -> str.

(** Once a name points to the code, the names that [saveBook] stores after
    it leave it there. *)
Lemma saveName_keeps BBB key names (self : InternalBible.t B) :
  InternalBible.combinedBookNameDict self !! key = Some BBB ->
  InternalBible.combinedBookNameDict (fold_left (InternalBible.saveName lower BBB) names self)
    !! key = Some BBB.
Proof.
  revert self. induction names as [|n names IH]; intros self H; [done|].
  cbn [fold_left]. apply IH. unfold InternalBible.saveName.
  cbn [InternalBible.combinedBookNameDict].
  assert (<[lower n := BBB]> (InternalBible.combinedBookNameDict self) !! key = Some BBB) as H1.
  { destruct (decide (lower n = key)) as [->|Hne].
    - apply lookup_insert_eq.
    - by rewrite lookup_insert_ne. }
  destruct (contains [space] (lower n)); [|done].
  destruct (decide (replace [space] [] (lower n) = key)) as [->|Hne].
  - apply lookup_insert_eq.
  - by rewrite lookup_insert_ne.
Qed.

Lemma saveName_stores BBB name names (self : InternalBible.t B) :
  name ∈ names ->
  InternalBible.combinedBookNameDict (fold_left (InternalBible.saveName lower BBB) names self)
    !! lower name = Some BBB.
Proof.
  revert self. induction names as [|n names IH]; intros self Hin.
  - by apply elem_of_nil in Hin.
  - apply elem_of_cons in Hin as [->|Hin]; [|by apply IH].
    cbn [fold_left]. apply saveName_keeps. unfold InternalBible.saveName.
    cbn [InternalBible.combinedBookNameDict].
    destruct (contains [space] (lower n)).
    + destruct (decide (replace [space] [] (lower n) = lower n)) as [->|Hne].
      * apply lookup_insert_eq.
      * rewrite lookup_insert_ne by done. apply lookup_insert_eq.
    + apply lookup_insert_eq.
Qed.

End SavedNames.

(** X10: after [saveBook], each assumed name of the saved book that is not
    itself a book code is resolved by [guessXRefBBB] to the code of the
    book. *)
Theorem saveBook_then_guessXRefBBB {B : Type} (debugFlag : bool)
    (getBBB : str -> option str) (lower repr : str -> str)
    (bookBBB : B -> str) (getAssumedBookNames : B -> list str)
    (self : InternalBible.t B) (bookData : B) (name : str) :
  name ∈ getAssumedBookNames bookData -> name <> [] -> getBBB name = None ->
  exists self',
    InternalBible.guessXRefBBB debugFlag getBBB lower repr
      (fst (InternalBible.saveBook bookBBB getAssumedBookNames lower self bookData)) name
    = Ok (Some (bookBBB bookData), self').
Proof.
  intros Hin Hne Hcode.
  unfold InternalBible.guessXRefBBB, InternalBible.lookup_tiers.
  assert ((if debugFlag then assert (nonempty name) else Ok tt) = Ok tt) as ->.
  { destruct debugFlag; [|done]. by destruct name. }
  rewrite Hcode. unfold InternalBible.saveBook. cbn [fst].
  rewrite (saveName_stores lower (bookBBB bookData) name _ _ Hin). by eexists.
Qed.

Lemma saveBook_then_guessXRefBBB_witness :
  exists self',
    InternalBible.guessXRefBBB false no_code USFMFile.ascii_lower id
      (fst (InternalBible.saveBook (fun _ : unit => py "GEN") (fun _ => [py "Genesis"])
              USFMFile.ascii_lower InternalBible.init tt))
      (py "Genesis")
    = Ok (Some (py "GEN"), self').
Proof.
  apply (saveBook_then_guessXRefBBB false no_code USFMFile.ascii_lower id
           (fun _ : unit => py "GEN") (fun _ => [py "Genesis"]) InternalBible.init tt
           (py "Genesis")).
  - left.
  - intros H. vm_compute in H. discriminate H.
  - reflexivity.
Defined.

(** ** InternalBible: the messages of [t] *)

Section SplitOnce.

Import BibleAccess.

Lemma split_once_first (sep name rest : str) (c : N) :
  head sep = Some c -> Forall (fun x => x <> c) name ->
  split_once sep (name ++ sep ++ rest) = Some (name, rest).
Proof.
  intros Hsep Hname. induction Hname as [|x name Hx _ IH].
  - cbn [app]. destruct sep as [|c' sep]; [done|].
    change (split_once (c' :: sep) ((c' :: sep) ++ rest))
      with (if startswith (c' :: sep) ((c' :: sep) ++ rest)
            then Some ([], drop (length (c' :: sep)) ((c' :: sep) ++ rest))
            else match (c' :: sep) ++ rest with
                 | [] => None
                 | x :: s' =>
                     match split_once (c' :: sep) s' with
                     | Some (before, after) => Some (x :: before, after)
                     | None => None
                     end
                 end).
    by rewrite startswith_app, drop_app_length.
  - cbn [app split_once]. destruct sep as [|c' sep]; [done|]. injection Hsep as ->.
    cbn [startswith]. rewrite (proj2 (N.eqb_neq c x)) by congruence. cbn [andb].
    by rewrite IH.
Qed.

Lemma split_once_none (sep s : str) : contains sep s = false -> split_once sep s = None.
Proof.
  induction s as [|x s IH]; cbn [contains split_once].
  - intros H. rewrite orb_false_r in H. by rewrite H.
  - intros [H1 H2]%orb_false_iff. by rewrite H1, IH.
Qed.

End SplitOnce.

(** X11: what [t] makes of a message 'name: text'.  Outside debug mode the
    separator is lost: the result is the name followed directly by the
    translated text.  In debug mode the module name is put before the name.
    A message without ': ' is translated whole. *)
Theorem t_loses_the_separator (translate : str -> str) (name text message : str) :
  Forall (fun c => c <> chr ":"%char) name ->
  contains (py ": ") message = false ->
  BibleAccess.t false translate (name ++ py ": " ++ text) = name ++ translate text /\
  BibleAccess.t true translate (name ++ py ": " ++ text)
  = py "InternalBible" ++ (if nonempty name then py "." else []) ++ name ++ py ": "
    ++ translate text /\
  BibleAccess.t false translate message = translate message /\
  BibleAccess.t true translate message = py "InternalBible: " ++ translate message.
Proof.
  intros Hname Hmsg. unfold BibleAccess.t.
  rewrite (split_once_first (py ": ") name text (chr ":"%char) eq_refl Hname).
  rewrite (split_once_none _ _ Hmsg). cbn [orb BibleAccess.debuggingThisModule nonempty].
  split_and!; [done| |done|done].
  by rewrite <- !app_assoc.
Qed.

Lemma t_loses_the_separator_witness :
  BibleAccess.t false id (py "getErrors: no books") = py "getErrorsno books" /\
  BibleAccess.t true id (py "getErrors: no books") = py "InternalBible.getErrors: no books".
Proof.
  destruct (t_loses_the_separator id (py "getErrors") (py "no books") (py "nothing"))
    as (H1 & H2 & _).
  - repeat constructor; intros H; vm_compute in H; discriminate H.
  - reflexivity.
  - split; [exact H1|exact H2].
Defined.

(** ** InternalBible: the two views of [getErrors] *)

Section Views.

Import InternalBible.

Context {B : Type}.
Variable debugFlag : bool.
Variable bookGetErrors : B -> list (str * value).
Variable givenBookList : option (list str).
Variable k : str.

Local Abbreviation prepare_book := (prepare_book bookGetErrors givenBookList).
Local Abbreviation combine_book := (@combine_book B debugFlag givenBookList).
Local Abbreviation contributes := (contributes bookGetErrors givenBookList k).

Local Abbreviation untouched := (untouched k).

Lemma untouched_agree e e' : untouched e e' -> agree k e -> agree k e'.
Proof. intros [H1 H2] [A1 A2]. unfold agree. by rewrite H1, H2. Qed.

Lemma prepare_key_untouched e item e' :
  fst item <> k -> prepare_key e item = Ok e' -> untouched e e'.
Proof.
  destruct item as [thisKey v]. cbn [fst]. intros Hne. unfold prepare_key.
  destruct (endswith (py "Errors") thisKey).
  - intros [= <-]. split; cbn; by apply od_get_set_ne.
  - destruct (negb _ && negb _); [|by intros [= <-]].
    intros H.
    eapply (for_each_keeps (fun s => untouched e s)); [|exact H|done].
    clear H. intros s a s' _ Hbody [I1 I2]. cbv beta in Hbody.
    destruct (entry_endswith (py "Errors") a) as [[|]|];
      cbn [mbind result_bind Py.bind] in Hbody; try done.
    + destruct a as [anotherKey|]; [|done].
      destruct (reset_sub thisKey anotherKey (allBooks s)) as [all|] eqn:Ea; [|done].
      cbn [mbind result_bind Py.bind] in Hbody.
      destruct (reset_sub thisKey anotherKey (byCategory s)) as [cat|] eqn:Ec; [|done].
      cbn [mbind result_bind Py.bind] in Hbody. injection Hbody as <-.
      split; cbn.
      * by rewrite (reset_sub_frame _ _ _ _ _ Ea Hne).
      * by rewrite (reset_sub_frame _ _ _ _ _ Ec Hne).
    + by injection Hbody as <-.
Qed.

Lemma prepare_key_agree e item e' :
  endswith (py "Errors") k = true ->
  prepare_key e item = Ok e' ->
  (fst item = k -> agree k e') /\ (agree k e -> agree k e').
Proof.
  intros HE H. destruct (decide (fst item = k)) as [Hk|Hne].
  - assert (agree k e') as Hagree.
    { destruct item as [thisKey v]. cbn [fst] in Hk. subst thisKey.
      unfold prepare_key in H. rewrite HE in H. injection H as <-.
      unfold agree. cbn. rewrite !od_get_set_eq. split; [done|by exists []]. }
    by split.
  - split; [done|]. apply untouched_agree. by apply (prepare_key_untouched _ _ _ Hne H).
Qed.

Lemma prepare_keys_agree d e e' :
  endswith (py "Errors") k = true ->
  for_each prepare_key d e = Ok e' ->
  (OD.mem k d = true -> agree k e') /\ (agree k e -> agree k e').
Proof.
  intros HE. revert e. induction d as [|[k0 v0] d IH]; intros e; cbn [for_each].
  - by intros [= <-].
  - destruct (prepare_key e (k0, v0)) as [e1|] eqn:E1; [|done].
    cbn [mbind result_bind Py.bind]. intros H.
    destruct (prepare_key_agree _ _ _ HE E1) as [H1 H1']. cbn [fst] in H1.
    destruct (IH _ H) as [H2 H2']. split; [|by auto].
    rewrite od_mem_cons. destruct (decide (k0 = k)) as [Hk|_]; [|done].
    intros _. apply H2'. by apply H1.
Qed.

Lemma prepare_books_agree books e e' :
  endswith (py "Errors") k = true ->
  for_each prepare_book books e = Ok e' ->
  (existsb contributes books = true -> agree k e') /\ (agree k e -> agree k e').
Proof.
  intros HE. revert e. induction books as [|[BBB book] books IH]; intros e; cbn [for_each].
  - by intros [= <-].
  - destruct (prepare_book e (BBB, book)) as [e1|] eqn:E1; [|done].
    cbn [mbind result_bind Py.bind]. intros H. destruct (IH _ H) as [H2 H2'].
    unfold InternalBible.prepare_book in E1. unfold contributes in *.
    cbn [existsb fst snd].
    destruct (given givenBookList BBB); cbn [andb orb].
    + destruct (prepare_keys_agree _ _ _ HE E1) as [H1 H1'].
      split.
      * intros [Hm|Hex]%orb_true_iff; [by apply H2', H1|by apply H2].
      * intros Ha. apply H2', H1'. exact Ha.
    + injection E1 as <-. done.
Qed.

Lemma combine_sub_untouched thisKey e item e' :
  thisKey <> k -> combine_sub debugFlag thisKey e item = Ok e' -> untouched e e'.
Proof.
  intros Hne. destruct item as [anotherKey v]. unfold combine_sub.
  destruct (list_key anotherKey).
  - destruct (if debugFlag then _ else _) as [[]|]; [|done].
    cbn [mbind result_bind Py.bind].
    destruct (extend_sub thisKey anotherKey (iterate_sub v) (allBooks e)) as [all|] eqn:Ea;
      [|done].
    cbn [mbind result_bind Py.bind].
    destruct (extend_sub thisKey anotherKey (iterate_sub v) (byCategory e)) as [cat|] eqn:Ec;
      [|done].
    cbn [mbind result_bind Py.bind]. intros [= <-]. split; cbn.
    + by apply (extend_sub_frame _ _ _ _ _ _ Ea).
    + by apply (extend_sub_frame _ _ _ _ _ _ Ec).
  - destruct (endswith (py "Counts") anotherKey); [|by intros [= <-]].
    destruct (if debugFlag then _ else _) as [[]|]; [|done].
    cbn [mbind result_bind Py.bind].
    destruct v as [[|x l]|c]; [|done|].
    + destruct (below thisKey (allBooks e)) as [d|]; [|done].
      cbn [mbind result_bind Py.bind]. intros [= <-]. split; cbn; [|done].
      by apply od_get_set_ne.
    + destruct (merge_counts thisKey anotherKey c (allBooks e)) as [all|] eqn:Ea; [|done].
      cbn [mbind result_bind Py.bind]. intros [= <-]. split; cbn; [|done].
      by apply (merge_counts_frame _ _ _ _ _ _ Ea).
Qed.

Lemma combine_key_agree e item e' :
  endswith (py "Errors") k = true ->
  combine_key debugFlag e item = Ok e' -> agree k e -> agree k e'.
Proof.
  intros HE. destruct item as [thisKey v]. unfold combine_key.
  destruct (list_key thisKey) eqn:El.
  - destruct (if debugFlag then _ else _) as [[]|]; [|done].
    cbn [mbind result_bind Py.bind]. cbv zeta.
    destruct (extend_list thisKey (iterate v)
                (if OD.mem thisKey (allBooks e) then allBooks e
                 else OD.set thisKey (List []) (allBooks e))) as [all|] eqn:Ea; [|done].
    cbn [mbind result_bind Py.bind].
    destruct (extend_list thisKey (iterate v) (byCategory e)) as [cat|] eqn:Ec; [|done].
    cbn [mbind result_bind Py.bind]. intros [= <-] [A1 [l A2]]. unfold agree. cbn.
    rewrite (extend_list_at _ _ _ _ _ Ea), (extend_list_at _ _ _ _ _ Ec).
    destruct (decide (thisKey = k)) as [->|Hne].
    + unfold OD.mem, listAt. rewrite A1, A2. cbv iota. rewrite A2. split; [done|by eexists].
    + destruct (OD.mem thisKey (allBooks e)).
      * split; [done|by exists l].
      * rewrite od_get_set_ne by done. split; [done|by exists l].
  - assert (thisKey <> k) as Hne by (intros ->; by rewrite (list_key_k _ HE) in El).
    destruct (endswith (py "Counts") thisKey); [done|].
    destruct v as [l|d]; intros H.
    + revert H. apply (for_each_keeps (fun s => agree k s)).
      intros s a s' _ Hbody Hs. by rewrite (combine_entry_frame _ _ _ _ Hbody).
    + revert H. apply (for_each_keeps (fun s => agree k s)).
      intros s a s' _ Hbody. apply untouched_agree.
      by apply (combine_sub_untouched _ _ _ _ Hne Hbody).
Qed.

Lemma combine_books_agree books e e' :
  endswith (py "Errors") k = true ->
  for_each combine_book books e = Ok e' -> agree k e -> agree k e'.
Proof.
  intros HE. apply for_each_keeps. intros s [BBB book] s' _.
  unfold InternalBible.combine_book. destruct (given givenBookList BBB); [|by intros [= <-]].
  destruct (OD.get BBB (byBook s)) as [d|]; [|done].
  apply for_each_keeps. intros s0 a s0' _. by apply combine_key_agree.
Qed.

End Views.

(** The two views at the end of the second loop. *)
Lemma views_agree_at {B : Type} (debugFlag : bool)
    (bookGetErrors : B -> list (str * InternalBible.value))
    (self : InternalBible.t B) (givenBookList : option (list str)) (k : str)
    (e : InternalBible.errors) :
  endswith (py "Errors") k = true ->
  existsb (contributes bookGetErrors givenBookList k) (InternalBible.books self) = true ->
  InternalBible.combineErrors debugFlag bookGetErrors self givenBookList = Ok e ->
  exists l,
    OD.get k (InternalBible.byCategory e) = Some (InternalBible.List l) /\
    OD.get k (InternalBible.allBooks e) = Some (InternalBible.List l).
Proof.
  intros HE Hex. unfold InternalBible.combineErrors.
  destruct (InternalBible.for_each _ _ InternalBible.set_up) as [e1|] eqn:E1; [|done].
  cbn [mbind result_bind Py.bind]. intros E2.
  destruct (prepare_books_agree bookGetErrors givenBookList k _ _ _ HE E1) as [H1 _].
  destruct (combine_books_agree debugFlag givenBookList k _ _ _ HE E2 (H1 Hex))
    as [A1 [l A2]].
  exists l. by rewrite A1.
Qed.

(** X12: in [getErrors], when the loop that combines the book errors ends,
    the by-category view and the 'All Books' view hold the same list for
    every category of error lists (a key ending in 'Errors') that one of the
    given books has.  The loops do end when the books have distinct codes
    and their error dictionaries have the documented structure. *)
Theorem getErrors_views_agree {B : Type} (debugFlag : bool)
    (bookGetErrors : B -> list (str * InternalBible.value))
    (self : InternalBible.t B) (givenBookList : option (list str)) (k : str) :
  endswith (py "Errors") k = true ->
  existsb (contributes bookGetErrors givenBookList k) (InternalBible.books self) = true ->
  (forall e,
     InternalBible.combineErrors debugFlag bookGetErrors self givenBookList = Ok e ->
     exists l,
       OD.get k (InternalBible.byCategory e) = Some (InternalBible.List l) /\
       OD.get k (InternalBible.allBooks e) = Some (InternalBible.List l)) /\
  (OD.wf (InternalBible.books self) ->
   forallb (fun item => shaped (bookGetErrors item.2)) (InternalBible.books self) = true ->
   exists e l,
     InternalBible.combineErrors debugFlag bookGetErrors self givenBookList = Ok e /\
     OD.get k (InternalBible.byCategory e) = Some (InternalBible.List l) /\
     OD.get k (InternalBible.allBooks e) = Some (InternalBible.List l)).
Proof.
  intros HE Hex. split.
  - intros e. by apply views_agree_at.
  - intros Hwf Hs.
    destruct (combineErrors_returns debugFlag bookGetErrors self givenBookList
                Hwf Hs) as [e E].
    destruct (views_agree_at debugFlag bookGetErrors self givenBookList k e HE Hex E)
      as (l & H1 & H2).
    by exists e, l.
Qed.

Lemma getErrors_views_agree_witness :
  OD.get (py "Load Errors") (InternalBible.byCategory two_books_errors)
  = OD.get (py "Load Errors") (InternalBible.allBooks two_books_errors).
Proof.
  destruct (getErrors_views_agree true id two_books None (py "Load Errors")
              eq_refl eq_refl) as [H _].
  destruct (H two_books_errors eq_refl) as (l & H1 & H2).
  rewrite H1, H2. reflexivity.
Defined.

(** ** InternalBible: keys that [getErrors] cannot combine *)

Section Raises.

Import InternalBible.

(** A loop with a round that always raises does not return. *)
Lemma for_each_raises {A S} (I : S -> Prop) (body : S -> A -> outcome S) l a s :
  a ∈ l ->
  (forall s, I s -> exists e, body s a = Raise e) ->
  (forall s a' s', a' ∈ l -> body s a' = Ok s' -> I s -> I s') ->
  I s -> exists e, for_each body l s = Raise e.
Proof.
  intros Hin Hraise Hkeep. revert s. induction l as [|x l IH]; intros s Hs.
  - by apply elem_of_nil in Hin.
  - cbn [for_each]. destruct (body s x) as [s1|e] eqn:E; [|by exists e].
    cbn [mbind result_bind Py.bind].
    apply elem_of_cons in Hin as [->|Hin].
    + destruct (Hraise s Hs) as [e He]. congruence.
    + apply IH; [done| |].
      * intros s0 a' s0' Ha'. apply Hkeep. by right.
      * apply (Hkeep s x s1); [by left|done|done].
Qed.

Lemma no_list_category_set key v cat :
  no_list_category cat ->
  endswith (py "Errors") key = true \/ list_key key = false ->
  no_list_category (OD.set key v cat).
Proof.
  intros Hc Hkey key' Hl He. rewrite od_get_set_ne; [by apply Hc|].
  intros ->. destruct Hkey; congruence.
Qed.

Lemma set_up_no_list_category : no_list_category (byCategory set_up).
Proof.
  cbn [set_up byCategory fold_left].
  repeat (apply no_list_category_set; [|first [by left|by right]]).
  by intros key _ _.
Qed.

Context {B : Type}.
Variable debugFlag : bool.
Variable bookGetErrors : B -> list (str * value).
Variable givenBookList : option (list str).

Local Abbreviation prepare_book := (prepare_book bookGetErrors givenBookList).
Local Abbreviation combine_book := (@combine_book B debugFlag givenBookList).

Lemma reset_sub_no_list thisKey anotherKey cat cat' :
  list_key thisKey = false -> reset_sub thisKey anotherKey cat = Ok cat' ->
  no_list_category cat -> no_list_category cat'.
Proof.
  intros Hl. unfold reset_sub. destruct (below thisKey cat) as [d|]; [|done].
  cbn [mbind result_bind Py.bind]. intros [= <-] Hc. apply no_list_category_set; auto.
Qed.

Lemma extend_sub_no_list thisKey anotherKey new cat cat' :
  list_key thisKey = false -> extend_sub thisKey anotherKey new cat = Ok cat' ->
  no_list_category cat -> no_list_category cat'.
Proof.
  intros Hl. unfold extend_sub. destruct (below thisKey cat) as [d|]; [|done].
  cbn [mbind result_bind Py.bind].
  destruct (OD.get anotherKey d) as [[l|c]|]; try done;
    intros [= <-] Hc; apply no_list_category_set; auto.
Qed.

Lemma prepare_key_no_list e item e' :
  prepare_key e item = Ok e' ->
  no_list_category (byCategory e) -> no_list_category (byCategory e').
Proof.
  destruct item as [thisKey v]. unfold prepare_key.
  destruct (endswith (py "Errors") thisKey) eqn:E.
  - intros [= <-] Hc. cbn. apply no_list_category_set; auto.
  - destruct (negb (endswith (py "List") thisKey) && negb (endswith (py "Lines") thisKey))
      eqn:E2; [|by intros [= <-]].
    assert (list_key thisKey = false) as Hl.
    { unfold list_key. rewrite E. apply andb_true_iff in E2 as [E3 E4].
      apply negb_true_iff in E3, E4. by rewrite E3, E4. }
    apply (for_each_keeps (fun s => no_list_category (byCategory s))).
    intros s a s' _ Hbody Hs. cbv beta in Hbody.
    destruct (entry_endswith (py "Errors") a) as [[|]|];
      cbn [mbind result_bind Py.bind] in Hbody; try done; [|by injection Hbody as <-].
    destruct a as [anotherKey|]; [|done].
    destruct (reset_sub thisKey anotherKey (allBooks s)) as [all|]; [|done].
    cbn [mbind result_bind Py.bind] in Hbody.
    destruct (reset_sub thisKey anotherKey (byCategory s)) as [cat|] eqn:Ec; [|done].
    cbn [mbind result_bind Py.bind] in Hbody. injection Hbody as <-. cbn.
    by apply (reset_sub_no_list _ _ _ _ Hl Ec).
Qed.

Lemma prepare_books_no_list books e e' :
  for_each prepare_book books e = Ok e' ->
  no_list_category (byCategory e) -> no_list_category (byCategory e').
Proof.
  apply (for_each_keeps (fun s => no_list_category (byCategory s))).
  intros s [BBB book] s' _. unfold InternalBible.prepare_book.
  destruct (given givenBookList BBB); [|by intros [= <-]].
  intros H Hs.
  eapply (for_each_keeps (fun s => no_list_category (byCategory s))); [|exact H|exact Hs].
  intros s0 a s0' _. apply prepare_key_no_list.
Qed.

Lemma combine_sub_no_list thisKey e item e' :
  list_key thisKey = false -> combine_sub debugFlag thisKey e item = Ok e' ->
  no_list_category (byCategory e) -> no_list_category (byCategory e').
Proof.
  intros Hl. destruct item as [anotherKey v]. unfold combine_sub.
  destruct (list_key anotherKey).
  - destruct (if debugFlag then _ else _) as [[]|]; [|done].
    cbn [mbind result_bind Py.bind].
    destruct (extend_sub thisKey anotherKey (iterate_sub v) (allBooks e)) as [all|]; [|done].
    cbn [mbind result_bind Py.bind].
    destruct (extend_sub thisKey anotherKey (iterate_sub v) (byCategory e)) as [cat|] eqn:Ec;
      [|done].
    cbn [mbind result_bind Py.bind]. intros [= <-]. cbn.
    by apply (extend_sub_no_list _ _ _ _ _ Hl Ec).
  - destruct (endswith (py "Counts") anotherKey); [|by intros [= <-]].
    destruct (if debugFlag then _ else _) as [[]|]; [|done].
    cbn [mbind result_bind Py.bind].
    destruct v as [[|x l]|c]; [|done|].
    + destruct (below thisKey (allBooks e)) as [d|]; [|done].
      cbn [mbind result_bind Py.bind]. by intros [= <-].
    + destruct (merge_counts thisKey anotherKey c (allBooks e)) as [all|]; [|done].
      cbn [mbind result_bind Py.bind]. by intros [= <-].
Qed.

Lemma combine_key_no_list e item e' :
  combine_key debugFlag e item = Ok e' ->
  no_list_category (byCategory e) ->
  no_list_category (byCategory e') /\ byBook e' = byBook e.
Proof.
  intros H Hc. split; [|by apply (combine_key_at debugFlag (py "Errors") eq_refl _ _ _ H)].
  revert H. destruct item as [thisKey v]. unfold combine_key.
  destruct (list_key thisKey) eqn:El.
  - destruct (if debugFlag then _ else _) as [[]|]; [|done].
    cbn [mbind result_bind Py.bind]. cbv zeta.
    destruct (extend_list thisKey (iterate v)
                (if OD.mem thisKey (allBooks e) then allBooks e
                 else OD.set thisKey (List []) (allBooks e))) as [all|]; [|done].
    cbn [mbind result_bind Py.bind]. unfold extend_list.
    destruct (OD.get thisKey (byCategory e)) as [[l|d]|] eqn:Eg; try done.
    cbn [mbind result_bind Py.bind]. intros [= <-]. cbn.
    apply no_list_category_set; [done|]. left.
    destruct (endswith (py "Errors") thisKey) eqn:EE; [done|].
    by rewrite (Hc thisKey El EE) in Eg.
  - destruct (endswith (py "Counts") thisKey); [done|].
    destruct v as [l|d]; intros H; revert H Hc.
    + apply (for_each_keeps (fun s => no_list_category (byCategory s))).
      intros s a s' _ Hbody Hs. by rewrite (combine_entry_frame _ _ _ _ Hbody).
    + apply (for_each_keeps (fun s => no_list_category (byCategory s))).
      intros s a s' _. by apply combine_sub_no_list.
Qed.

(** The round of a key that cannot be combined raises. *)
Lemma combine_key_uncombinable e key v :
  uncombinable key = true -> no_list_category (byCategory e) ->
  exists exn, combine_key debugFlag e (key, v) = Raise exn.
Proof.
  unfold uncombinable. intros [HE Hk]%andb_true_iff Hc. apply negb_true_iff in HE.
  unfold combine_key. destruct (list_key key) eqn:El.
  - destruct (if debugFlag then _ else _) as [[]|exn]; [|by exists exn].
    cbn [mbind result_bind Py.bind]. cbv zeta.
    destruct (extend_list key (iterate v)
                (if OD.mem key (allBooks e) then allBooks e
                 else OD.set key (List []) (allBooks e))) as [all|exn]; [|by exists exn].
    cbn [mbind result_bind Py.bind]. unfold extend_list. rewrite (Hc key El HE).
    by eexists.
  - assert (endswith (py "Counts") key = true) as ->.
    { unfold list_key in El. rewrite HE in El. cbn [orb] in El.
      apply orb_false_iff in El as [E1 E2]. rewrite E1, E2 in Hk.
      by rewrite !orb_false_r in Hk. }
    by eexists.
Qed.

Lemma combine_books_raise books e BBB book key v :
  OD.wf books -> (BBB, book) ∈ books -> given givenBookList BBB = true ->
  (key, v) ∈ bookGetErrors book -> uncombinable key = true ->
  no_list_category (byCategory e) ->
  (forall item, item ∈ books -> given givenBookList (fst item) = true ->
     OD.get (fst item) (byBook e) = Some (bookGetErrors (snd item))) ->
  exists exn, for_each combine_book books e = Raise exn.
Proof.
  intros Hwf Hbook Hgiven Hkey Hunc Hc Hby.
  apply (for_each_raises
           (fun s => no_list_category (byCategory s) /\ byBook s = byBook e)
           _ _ (BBB, book)); [done| | |done].
  - intros s [Hs Hb]. unfold InternalBible.combine_book. rewrite Hgiven, Hb.
    pose proof (Hby (BBB, book) Hbook Hgiven) as Hg. cbn [fst snd] in Hg. rewrite Hg.
    apply (for_each_raises (fun s => no_list_category (byCategory s)) _ _ (key, v));
      [done| |by intros s0 a' s0' _ H0 H1; apply (combine_key_no_list _ _ _ H0 H1)|done].
    intros s0 Hs0. by apply combine_key_uncombinable.
  - intros s [BBB' book'] s' Hin. unfold InternalBible.combine_book.
    destruct (given givenBookList BBB'); [|by intros [= <-]].
    destruct (OD.get BBB' (byBook s)) as [d|]; [|done]. intros H [Hs Hb]. rewrite <- Hb.
    eapply (for_each_keeps
              (fun s0 => no_list_category (byCategory s0) /\ byBook s0 = byBook s));
      [|exact H|done].
    intros s0 a s0' _ H0 [H1 H2]. destruct (combine_key_no_list _ _ _ H0 H1) as [H3 H4].
    split; [done|congruence].
Qed.

End Raises.

(** X13: [getErrors] does not return when the error dictionary of a given
    book has, at its first level, a key that ends with 'Counts', 'List' or
    'Lines' (and not with 'Errors'): the loop that combines the book errors
    raises. *)
Theorem getErrors_raises_on_uncombinable_key {B : Type} (debugFlag : bool)
    (bookGetErrors : B -> list (str * InternalBible.value))
    (self : InternalBible.t B) (givenBookList : option (list str))
    (BBB : str) (book : B) (key : str) (v : InternalBible.value) :
  OD.wf (InternalBible.books self) ->
  (BBB, book) ∈ InternalBible.books self ->
  InternalBible.given givenBookList BBB = true ->
  (key, v) ∈ bookGetErrors book ->
  uncombinable key = true ->
  exists exn,
    InternalBible.combineErrors debugFlag bookGetErrors self givenBookList = Raise exn.
Proof.
  intros Hwf Hbook Hgiven Hkey Hunc. unfold InternalBible.combineErrors.
  destruct (InternalBible.for_each _ _ InternalBible.set_up) as [e1|exn] eqn:E1;
    [|by exists exn].
  cbn [mbind result_bind Py.bind].
  apply (combine_books_raise debugFlag bookGetErrors givenBookList _ _ BBB book key v);
    try done.
  - by apply (prepare_books_no_list _ _ _ _ _ E1), set_up_no_list_category.
  - intros [BBB' book'] Hin Hg.
    destruct (prepare_books_at bookGetErrors givenBookList (py "Errors") eq_refl _ _ _ E1)
      as [_ ->].
    by apply stored_get.
Qed.

Lemma getErrors_raises_on_uncombinable_key_witness :
  exists exn, InternalBible.combineErrors false id counts_at_top None = Raise exn.
Proof.
  apply (getErrors_raises_on_uncombinable_key false id counts_at_top None (py "GEN")
           [(py "Word Counts", InternalBible.Dict [])] (py "Word Counts")
           (InternalBible.Dict [])).
  - apply (bool_decide_unpack _). vm_compute. reflexivity.
  - left.
  - reflexivity.
  - left.
  - reflexivity.
Defined.
(** ** OSISXMLBible: the title of the next book *)

Section TitleLines.

Import OSISXMLBible.

Variable debugFlag : bool.
Variable getBBBFromOSIS : str -> option codes.
Variable getUSFMAbbreviation : str -> option str.
Variable getUSFMNumber : str -> option str.
Variable checkXMLNoText : element -> str -> str -> outcome (list (level * message)).
Variable checkXMLNoTail : element -> str -> str -> outcome (list (level * message)).
Variable getAssumedBookNames : BibleBook.t -> list str.
Variable lower : str -> str.
Variable upper : str -> str.
Variable isdigit : str -> bool.
Variable mainDivOsisID : option str.

Local Abbreviation savePreviousBook :=
  (savePreviousBook getAssumedBookNames lower upper mainDivOsisID).
Local Abbreviation chapterNewBook :=
  (chapterNewBook getUSFMAbbreviation getUSFMNumber getAssumedBookNames lower upper
     mainDivOsisID).
Local Abbreviation validateChapterElement :=
  (validateChapterElement debugFlag getBBBFromOSIS getUSFMAbbreviation getUSFMNumber
     checkXMLNoText checkXMLNoTail getAssumedBookNames lower upper isdigit mainDivOsisID).

(** The book as it is saved, and as the three calls of [addLine] leave it. *)
Lemma savePreviousBook_title st r b title name :
  thisBook st = Some r -> objects st !! r = Some b ->
  last (BibleBook._rawLines b) = Some (py "s", title) ->
  (if OSISClean.truthy (USFMAbbreviation st) then USFMAbbreviation st else mainDivOsisID)
    = Some name ->
  exists st', savePreviousBook st = Ok st' /\
    InternalBible.books (bible st')
      = OD.set (BibleBook.BBB b) r (InternalBible.books (bible st)) /\
    objects st'
      = <[r := BibleBook.Book (BibleBook.BBB b)
                 (removelast (BibleBook._rawLines b) ++ title_lines upper name title)]>
          (objects st) /\
    thisBook st' = Some r.
Proof.
  intros Ht Ho Hlast Hname. unfold OSISXMLBible.savePreviousBook. rewrite Ht, Ho, Hlast.
  cbn [fst snd]. rewrite str_eqb_refl.
  assert (r < length (objects st))%nat as Hr by (by eapply lookup_lt_Some).
  set (b' := BibleBook.Book (BibleBook.BBB b) (removelast (BibleBook._rawLines b))).
  set (st1 := set_objects st (<[r := b']> (objects st))).
  destruct (saveThisBook_spec getAssumedBookNames lower st1 r b')
    as (st2 & -> & Hb & Hob & Hth & HB & HU & HL);
    [done|by apply list_lookup_insert_eq|].
  cbn [mbind result_bind Py.bind]. rewrite HU.
  subst st1. cbn [USFMAbbreviation set_objects thisBook objects bible] in *.
  rewrite Hname.
  assert (objects st2 !! r = Some b') as Ho2
    by (rewrite Hob; by apply list_lookup_insert_eq).
  rewrite (onThisBook_spec _ st2 r b') by (by rewrite ?Hth).
  cbn [mbind result_bind Py.bind].
  erewrite onThisBook_spec;
    [|cbn; by rewrite Hth
     |cbn; apply list_lookup_insert_eq; by rewrite Hob, length_insert].
  cbn [mbind result_bind Py.bind].
  erewrite onThisBook_spec;
    [|cbn; by rewrite Hth
     |cbn; apply list_lookup_insert_eq; by rewrite length_insert, Hob, length_insert].
  eexists. split; [reflexivity|]. cbn [bible objects thisBook set_objects].
  rewrite Hb, Hth, Hob, !list_insert_insert_eq. repeat split; try done.
  unfold BibleBook.addLine, title_lines, b'. cbn [BibleBook.BBB BibleBook._rawLines].
  by rewrite <- !app_assoc.
Qed.

Lemma chapter_start_after_title e sID book chap cmBBB chapterMilestone verseMilestone
    locationDescription st ms1 ms2 r b title name :
  let location := py "validateChapterElement: " ++ locationDescription in
  children e = [] ->
  attrib e = [(py "osisID", book ++ dot :: chap); (py "sID", sID)] ->
  Forall (fun c => c <> dot) book -> Forall (fun c => c <> dot) chap -> sID <> [] ->
  checkXMLNoText e (location ++ py " at " ++ verseMilestone) (py "s2a8") = Ok ms1 ->
  checkXMLNoTail e (location ++ py " at " ++ verseMilestone) (py "j9k7") = Ok ms2 ->
  getBBBFromOSIS book = Some (One cmBBB) -> cmBBB <> [] -> cmBBB <> BBB st ->
  thisBook st = Some r -> objects st !! r = Some b ->
  BBB st <> [] -> 5 < len (BibleBook._rawLines b) ->
  last (BibleBook._rawLines b) = Some (py "s", title) ->
  (if OSISClean.truthy (USFMAbbreviation st) then USFMAbbreviation st else mainDivOsisID)
    = Some name ->
  exists st',
    validateChapterElement e chapterMilestone verseMilestone locationDescription st
      = Ok ([], st') /\
    InternalBible.books (bible st')
      = OD.set (BibleBook.BBB b) r (InternalBible.books (bible st)) /\
    objects st'
      = <[r := BibleBook.Book (BibleBook.BBB b)
                 (removelast (BibleBook._rawLines b) ++ title_lines upper name title)]>
          (objects st) ++ [BibleBook.Book cmBBB [(py "c", chap)]] /\
    thisBook st' = Some (length (objects st)).
Proof.
  intros location Hc Ha Hbook Hchap HsID H1 H2 Hget Hcm Hne Ht Ho HB Hlen Hlast Hname.
  unfold OSISXMLBible.validateChapterElement. fold location.
  rewrite H1. cbn [mbind result_bind Py.bind]. rewrite H2. cbn [mbind result_bind Py.bind].
  rewrite (attributes_start_chapter _ _ _ _ _ Ha), Hc.
  change (len (@nil element) =? 0) with true.
  cbn [c_sID c_eID OSISChapterID].
  assert (book ++ dot :: chap <> []) as Hosis by (by destruct book).
  rewrite (truthy_Some _ HsID), (truthy_Some _ Hosis).
  cbn [OSISClean.truthy andb negb orb].
  set (st1 := if nonempty verseMilestone && haveEIDs _ then _ else _).
  assert (same_books st st1) as (Eb & Eo & Eth & EB & EU & _).
  { eapply same_books_trans; [|apply same_books_if].
    eapply same_books_trans; apply same_books_reports. }
  unfold chapterCursor. cbn [c_sID c_eID OSISChapterID].
  rewrite (truthy_Some _ HsID), (truthy_Some _ Hosis).
  cbn [OSISClean.truthy andb negb orb mbind result_bind Py.bind default from_option id].
  rewrite (nonempty_true _ HsID).
  unfold OSISXMLBible.chapterOpened. cbn [OSISChapterID].
  rewrite (truthy_Some _ Hosis). cbn [negb default from_option id].
  rewrite (count_once _ _ _ Hbook Hchap). change (negb (1 =? 1)) with false. cbv iota.
  rewrite (split_at_sep _ _ _ Hbook), (split_no_sep _ _ Hchap).
  assert (debug_assert debugFlag (len [book; chap] =? 2) = Ok tt) as ->
    by (unfold debug_assert; by destruct debugFlag).
  cbn [mbind result_bind Py.bind item lookup list_lookup].
  unfold chapterBookCode. rewrite Hget.
  rewrite (nonempty_true _ Hcm), str_eqb_neq by (by rewrite EB). cbn [negb andb].
  unfold OSISXMLBible.chapterNewBook. rewrite Eth, Ht, Eo, Ho.
  rewrite EB, (nonempty_true _ HB).
  assert ((len (BibleBook._rawLines b) >? 5) = true) as -> by lia.
  cbn [andb].
  destruct (savePreviousBook_title st1 r b title name) as (st2 & -> & Hb2 & Ho2 & Ht2);
    [by rewrite Eth|by rewrite Eo|done|by rewrite EU|].
  cbn [mbind result_bind Py.bind fst snd thisBook startBook].
  unfold onThisBook. cbn [thisBook objects startBook].
  rewrite list_lookup_middle by done.
  cbn [mbind result_bind Py.bind]. eexists. split; [reflexivity|].
  cbn [bible objects thisBook set_objects startBook].
  rewrite Hb2, Ho2, Eb, Eo. repeat split; try done.
  - rewrite insert_app_r_alt by (rewrite length_insert; lia).
    rewrite length_insert, Nat.sub_diag. done.
  - by rewrite length_insert.
Qed.

End TitleLines.

(** X14: when a chapter start milestone of another book makes the loader save
    the book in progress, and the last line of that book is an 's' line (the
    title of the book to come), the 's' line is taken off and the 'id', 'h'
    and 'mt1' lines made from it are added to the book that has just been
    saved, under the name of that book; the new book holds the 'c' line only,
    and the chapter cursor returned is the empty string. *)
Theorem title_lines_go_to_the_saved_book
    (debugFlag : bool) (getBBBFromOSIS : str -> option OSISXMLBible.codes)
    (getUSFMAbbreviation getUSFMNumber : str -> option str)
    (checkXMLNoText checkXMLNoTail :
       OSISXMLBible.element -> str -> str ->
       outcome (list (level * OSISXMLBible.message)))
    (getAssumedBookNames : BibleBook.t -> list str) (lower upper : str -> str)
    (isdigit : str -> bool) (mainDivOsisID : option str)
    (e : OSISXMLBible.element)
    (sID book chap cmBBB chapterMilestone verseMilestone locationDescription : str)
    (st : OSISXMLBible.state) (ms1 ms2 : list (level * OSISXMLBible.message))
    (r : nat) (b : BibleBook.t) (title name : str) :
  let location := py "validateChapterElement: " ++ locationDescription in
  OSISXMLBible.children e = [] ->
  OSISXMLBible.attrib e = [(py "osisID", book ++ dot :: chap); (py "sID", sID)] ->
  Forall (fun c => c <> dot) book -> Forall (fun c => c <> dot) chap -> sID <> [] ->
  checkXMLNoText e (location ++ py " at " ++ verseMilestone) (py "s2a8") = Ok ms1 ->
  checkXMLNoTail e (location ++ py " at " ++ verseMilestone) (py "j9k7") = Ok ms2 ->
  getBBBFromOSIS book = Some (OSISXMLBible.One cmBBB) ->
  cmBBB <> [] -> cmBBB <> OSISXMLBible.BBB st ->
  OSISXMLBible.thisBook st = Some r -> OSISXMLBible.objects st !! r = Some b ->
  OSISXMLBible.BBB st <> [] -> 5 < len (BibleBook._rawLines b) ->
  last (BibleBook._rawLines b) = Some (py "s", title) ->
  (if OSISClean.truthy (OSISXMLBible.USFMAbbreviation st)
   then OSISXMLBible.USFMAbbreviation st else mainDivOsisID) = Some name ->
  exists st',
    OSISXMLBible.validateChapterElement debugFlag getBBBFromOSIS getUSFMAbbreviation
      getUSFMNumber checkXMLNoText checkXMLNoTail getAssumedBookNames lower upper
      isdigit mainDivOsisID e chapterMilestone verseMilestone locationDescription st
    = Ok ([], st') /\
    InternalBible.books (OSISXMLBible.bible st')
      = OD.set (BibleBook.BBB b) r (InternalBible.books (OSISXMLBible.bible st)) /\
    OSISXMLBible.objects st' !! r
      = Some (BibleBook.Book (BibleBook.BBB b)
                (removelast (BibleBook._rawLines b) ++ title_lines upper name title)) /\
    OSISXMLBible.thisBook st' = Some (length (OSISXMLBible.objects st)) /\
    OSISXMLBible.objects st' !! length (OSISXMLBible.objects st)
      = Some (BibleBook.Book cmBBB [(py "c", chap)]).
Proof.
  intros location Hc Ha Hbook Hchap HsID H1 H2 Hget Hcm Hne Ht Ho HB Hlen Hlast Hname.
  destruct (chapter_start_after_title debugFlag getBBBFromOSIS getUSFMAbbreviation
              getUSFMNumber checkXMLNoText checkXMLNoTail getAssumedBookNames lower upper
              isdigit mainDivOsisID e sID book chap cmBBB chapterMilestone verseMilestone
              locationDescription st ms1 ms2 r b title name
              Hc Ha Hbook Hchap HsID H1 H2 Hget Hcm Hne Ht Ho HB Hlen Hlast Hname)
    as (st' & E & Hb & Hobj & Hth).
  assert (r < length (OSISXMLBible.objects st))%nat as Hr by (by eapply lookup_lt_Some).
  exists st'. rewrite Hobj. repeat split; try done.
  - rewrite lookup_app_l by (by rewrite length_insert).
    by apply list_lookup_insert_eq.
  - rewrite lookup_app_r by (by rewrite length_insert).
    by rewrite length_insert, Nat.sub_diag.
Qed.

Lemma title_lines_go_to_the_saved_book_witness :
  exists st',
    OSISXMLBible.validateChapterElement false exodus_only (fun _ => None) (fun _ => None)
      (fun _ _ _ => Ok []) (fun _ _ _ => Ok []) (fun _ => []) USFMFile.ascii_lower
      USFMFile.ascii_lower (fun _ => false) None exodus_milestone (py "Gen.50") []
      (py "div") (genesis_in_progress genesis_then_title)
    = Ok ([], st') /\
    OSISXMLBible.objects st' !! 0%nat
      = Some (BibleBook.Book (py "GEN")
                (six_lines ++ title_lines USFMFile.ascii_lower (py "GEN")
                                (py "The Second Book of Moses"))) /\
    OSISXMLBible.objects st' !! 1%nat
      = Some (BibleBook.Book (py "EXO") [(py "c", py "1")]).
Proof.
  destruct (title_lines_go_to_the_saved_book false exodus_only (fun _ => None)
              (fun _ => None) (fun _ _ _ => Ok []) (fun _ _ _ => Ok []) (fun _ => [])
              USFMFile.ascii_lower USFMFile.ascii_lower (fun _ => false) None
              exodus_milestone (py "Exo.1") (py "Exo") (py "1") (py "EXO") (py "Gen.50") []
              (py "div") (genesis_in_progress genesis_then_title) [] [] 0%nat
              (BibleBook.Book (py "GEN") genesis_then_title)
              (py "The Second Book of Moses") (py "GEN"))
    as (st' & E & _ & Hold & _ & Hnew);
    try reflexivity.
  - repeat constructor; discriminate.
  - repeat constructor; discriminate.
  - discriminate.
  - discriminate.
  - intros H. vm_compute in H. discriminate H.
  - discriminate.
  - exists st'. split; [exact E|]. split; [exact Hold|exact Hnew].
Defined.
(** ** OSISXMLBible: verse milestones *)

Section VerseMilestones.

Import OSISXMLBible.

Variable debugFlag : bool.
Variable checkXMLNoTail : element -> str -> str -> outcome (list (level * message)).
Variable isdigit : str -> bool.

Local Abbreviation validateVerseElement :=
  (validateVerseElement debugFlag checkXMLNoTail isdigit).

Lemma attribute_in_snoc name items attrib value :
  attribute_in name (items ++ [(attrib, value)])
  = if str_eqb attrib name then Some value else attribute_in name items.
Proof.
  unfold attribute_in. rewrite List.filter_app. cbn [List.filter fst].
  destruct (str_eqb attrib name); [by rewrite last_snoc|by rewrite app_nil_r].
Qed.

(** What the loop over the attributes of a verse element collects. *)
Lemma verse_attributes e location items st :
  fst (fold_left (verseAttribute e location) items (VerseAttributes None None None None, st))
  = VerseAttributes (attribute_in (py "osisID") items) (attribute_in (py "sID") items)
      (attribute_in (py "eID") items) (attribute_in (py "n") items).
Proof.
  induction items as [|[attrib value] items IH] using rev_ind; [done|].
  rewrite fold_left_app. cbn [fold_left].
  destruct (fold_left _ items _) as [a st1]. cbn [fst] in IH. subst a.
  rewrite !attribute_in_snoc. unfold verseAttribute.
  cbn [OSISVerseID v_sID v_eID v_n].
  destruct (str_eqb attrib (py "osisID")) eqn:E1.
  { apply str_eqb_eq in E1. subst attrib. done. }
  destruct (str_eqb attrib (py "sID")) eqn:E2.
  { apply str_eqb_eq in E2. subst attrib. done. }
  destruct (str_eqb attrib (py "eID")) eqn:E3.
  { apply str_eqb_eq in E3. subst attrib. done. }
  destruct (str_eqb attrib (py "n")) eqn:E4.
  { apply str_eqb_eq in E4. subst attrib. done. }
  done.
Qed.

Lemma verseNumber_plain sID v st :
  contains [hyphen] sID = false -> split dot sID !! 2%nat = Some v ->
  verseNumber debugFlag sID st = Ok (Ok (v ++ [space]), st).
Proof.
  intros Hh Hv. unfold verseNumber. rewrite Hh.
  assert ((len (split dot sID) >=? 3) = true) as Hlen.
  { apply lookup_lt_Some in Hv. unfold len. lia. }
  assert (debug_assert debugFlag (len (split dot sID) >=? 3) = Ok tt) as ->.
  { unfold debug_assert. rewrite Hlen. by destruct debugFlag. }
  cbn [mbind result_bind Py.bind]. unfold item. by rewrite Hv.
Qed.

End VerseMilestones.

(** X15: a verse element without sub-elements that has an sID and an eID, or
    an sID and no osisID, or an eID and an osisID, makes
    [validateVerseElement] raise: the name [halt] that it then reads is not
    defined, so the [return] after it is never reached. *)
Theorem unrecognized_verse_milestone_raises (debugFlag : bool)
    (checkXMLNoTail :
       OSISXMLBible.element -> str -> str ->
       outcome (list (level * OSISXMLBible.message)))
    (isdigit : str -> bool) (e : OSISXMLBible.element)
    (verseMilestone chapterMilestone locationDescription : str)
    (st : OSISXMLBible.state) :
  let has (name : str) := OSISClean.truthy (attribute name e) in
  OSISXMLBible.children e = [] ->
  (has (py "sID") = true /\ has (py "eID") = true) \/
  (has (py "sID") = true /\ has (py "osisID") = false) \/
  (has (py "eID") = true /\ has (py "osisID") = true) ->
  OSISXMLBible.validateVerseElement debugFlag checkXMLNoTail isdigit e verseMilestone
    chapterMilestone locationDescription st
  = Raise (if debugFlag && OSISClean.truthy (OSISXMLBible.text e)
           then AssertionError else NameError).
Proof.
  intros has Hc H. unfold OSISXMLBible.validateVerseElement.
  pose proof (verse_attributes e (py "validateVerseElement: " ++ locationDescription)
                (OSISXMLBible.attrib e) st) as Ha.
  destruct (fold_left _ (OSISXMLBible.attrib e) _) as [a st1]. cbn [fst] in Ha. subst a.
  cbn [OSISXMLBible.v_sID OSISXMLBible.v_eID OSISXMLBible.OSISVerseID]. rewrite Hc.
  change (len (@nil OSISXMLBible.element) =? 0) with true.
  fold (attribute (py "sID") e) (attribute (py "eID") e) (attribute (py "osisID") e).
  change (OSISClean.truthy (attribute (py "sID") e)) with (has (py "sID")).
  change (OSISClean.truthy (attribute (py "eID") e)) with (has (py "eID")).
  change (OSISClean.truthy (attribute (py "osisID") e)) with (has (py "osisID")).
  assert ((has (py "sID") || has (py "eID")) = true) as ->
    by (destruct H as [[-> _]|[[-> _]|[-> _]]]; by rewrite ?orb_true_r).
  assert ((has (py "sID") && has (py "osisID") && negb (has (py "eID"))) = false) as ->
    by (destruct H as [[-> ->]|[[-> ->]|[-> ->]]]; by rewrite ?andb_false_r).
  assert ((has (py "eID") && negb (has (py "osisID")) && negb (has (py "sID"))) = false) as ->
    by (destruct H as [[-> ->]|[[-> ->]|[-> ->]]]; by rewrite ?andb_false_r).
  cbn [andb]. unfold OSISXMLBible.debug_assert, assert.
  destruct debugFlag; [|done].
  by destruct (OSISClean.truthy (OSISXMLBible.text e)).
Qed.

Lemma unrecognized_verse_milestone_raises_witness :
  OSISXMLBible.validateVerseElement false (fun _ _ _ => Ok []) (fun _ => false)
    (OSISXMLBible.Element (py "verse")
       [(py "sID", py "Jas.1.7"); (py "eID", py "Jas.1.7")] None None [])
    [] (py "Jas.1") (py "div") james_in_progress
  = Raise NameError.
Proof.
  apply (unrecognized_verse_milestone_raises false (fun _ _ _ => Ok []) (fun _ => false)
           (OSISXMLBible.Element (py "verse")
              [(py "sID", py "Jas.1.7"); (py "eID", py "Jas.1.7")] None None [])
           [] (py "Jas.1") (py "div") james_in_progress).
  - reflexivity.
  - left. split; reflexivity.
Defined.

(** X16: a verse start milestone whose sID holds no hyphen makes
    [validateVerseElement] return the sID and add one line to the book in
    progress: the marker 'v' and, as text, the third dotted component of the
    sID, a space and the cleaned trailing text of the element.  Nothing else
    changes in the books. *)
Theorem plain_verse_start_adds_v_line (debugFlag : bool)
    (checkXMLNoTail :
       OSISXMLBible.element -> str -> str ->
       outcome (list (level * OSISXMLBible.message)))
    (isdigit : str -> bool) (e : OSISXMLBible.element)
    (osisID sID v verseMilestone chapterMilestone locationDescription : str)
    (st : OSISXMLBible.state) (r : nat) (b : BibleBook.t) :
  OSISXMLBible.children e = [] ->
  OSISXMLBible.attrib e = [(py "osisID", osisID); (py "sID", sID)] ->
  osisID <> [] -> sID <> [] ->
  contains [hyphen] sID = false ->
  split dot sID !! 2%nat = Some v ->
  debugFlag = false \/
    (OSISClean.truthy (OSISXMLBible.text e) = false /\ contains [space] sID = false) ->
  OSISXMLBible.thisBook st = Some r -> OSISXMLBible.objects st !! r = Some b ->
  exists st',
    OSISXMLBible.validateVerseElement debugFlag checkXMLNoTail isdigit e verseMilestone
      chapterMilestone locationDescription st = Ok (Some sID, st') /\
    OSISXMLBible.objects st'
      = <[r := BibleBook.Book (BibleBook.BBB b)
                 (BibleBook._rawLines b
                  ++ [(py "v",
                       v ++ [space]
                       ++ default [] (fst (OSISClean.clean (OSISXMLBible.tail e)
                                             None None None)))])]>
          (OSISXMLBible.objects st) /\
    OSISXMLBible.bible st' = OSISXMLBible.bible st /\
    OSISXMLBible.thisBook st' = OSISXMLBible.thisBook st.
Proof.
  intros Hc Ha Hosis HsID Hh Hv Hd Ht Ho.
  destruct (verse_start_with debugFlag checkXMLNoTail isdigit e osisID sID (v ++ [space])
              verseMilestone chapterMilestone locationDescription st r b
              Hc Ha Hosis HsID Hd) as (st' & E & Hobj & Hb & Hth); try done.
  { intros st1. by apply verseNumber_plain. }
  exists st'. split; [exact E|]. rewrite Hobj, with_tail_addLine, <- app_assoc. done.
Qed.

Lemma plain_verse_start_adds_v_line_witness :
  exists st',
    OSISXMLBible.validateVerseElement false (fun _ _ _ => Ok []) (fun _ => false)
      (verse_milestone (py "Jas.1.7") (Some (py "Let him ask")))
      [] (py "Jas.1") (py "div") james_in_progress
    = Ok (Some (py "Jas.1.7"), st') /\
    OSISXMLBible.objects st'
      = [BibleBook.Book (py "JAS") [(py "c", py "1"); (py "v", py "7 Let him ask")]].
Proof.
  destruct (plain_verse_start_adds_v_line false (fun _ _ _ => Ok []) (fun _ => false)
              (verse_milestone (py "Jas.1.7") (Some (py "Let him ask")))
              (py "Jas.1.7") (py "Jas.1.7") (py "7") [] (py "Jas.1") (py "div")
              james_in_progress 0%nat (BibleBook.Book (py "JAS") [(py "c", py "1")]))
    as (st' & E & Hobj & _);
    try reflexivity.
  - discriminate.
  - discriminate.
  - by left.
  - exists st'. split; [exact E|]. rewrite Hobj. reflexivity.
Defined.

(** X17: a verse start milestone whose sID has no hyphen and fewer than three
    dotted components makes [validateVerseElement] raise.  In debug mode an
    assertion fails.  Otherwise, without a book in progress
    [self.thisBook.addLine] is not found ([AttributeError]), and with one
    [bits[2]] raises [IndexError]. *)
Theorem short_verse_sID_raises (debugFlag : bool)
    (checkXMLNoTail :
       OSISXMLBible.element -> str -> str ->
       outcome (list (level * OSISXMLBible.message)))
    (isdigit : str -> bool) (e : OSISXMLBible.element)
    (osisID sID verseMilestone chapterMilestone locationDescription : str)
    (st : OSISXMLBible.state) :
  OSISXMLBible.children e = [] ->
  OSISXMLBible.attrib e = [(py "osisID", osisID); (py "sID", sID)] ->
  osisID <> [] -> sID <> [] ->
  contains [hyphen] sID = false ->
  split dot sID !! 2%nat = None ->
  OSISXMLBible.validateVerseElement debugFlag checkXMLNoTail isdigit e verseMilestone
    chapterMilestone locationDescription st
  = Raise (if debugFlag then AssertionError
           else match book_in_progress st with
                | Some _ => IndexError
                | None => AttributeError
                end).
Proof.
  intros Hc Ha Hosis HsID Hh Hv.
  unfold OSISXMLBible.validateVerseElement.
  rewrite (attributes_start_verse _ _ _ _ _ Ha), Hc.
  change (len (@nil OSISXMLBible.element) =? 0) with true.
  cbn [OSISXMLBible.v_sID OSISXMLBible.v_eID OSISXMLBible.OSISVerseID].
  rewrite (truthy_Some _ HsID), (truthy_Some _ Hosis).
  cbn [OSISClean.truthy andb negb orb].
  unfold OSISXMLBible.debug_assert at 1, assert.
  destruct (debugFlag && OSISClean.truthy (OSISXMLBible.text e)) eqn:Ed.
  { apply andb_true_iff in Ed as [-> ->]. done. }
  assert ((if debugFlag
           then if negb (OSISClean.truthy (OSISXMLBible.text e))
                then Ok tt else Raise AssertionError
           else Ok tt) = Ok tt) as ->.
  { destruct debugFlag; [|done]. cbn [andb] in Ed. by rewrite Ed. }
  cbn [mbind result_bind Py.bind default from_option id].
  unfold OSISXMLBible.verseStart. rewrite (nonempty_true _ HsID).
  unfold OSISXMLBible.debug_assert, assert.
  destruct debugFlag.
  - destruct (contains [space] sID); [done|]. cbn [negb mbind result_bind Py.bind].
    unfold OSISXMLBible.verseNumber. rewrite Hh.
    assert ((len (split dot sID) >=? 3) = false) as Hlen.
    { apply lookup_ge_None_1 in Hv. unfold len. lia. }
    unfold OSISXMLBible.debug_assert, assert. by rewrite Hlen.
  - cbn [mbind result_bind Py.bind].
    unfold OSISXMLBible.verseNumber. rewrite Hh.
    unfold OSISXMLBible.debug_assert. cbn [mbind result_bind Py.bind].
    set (st1 := OSISXMLBible.checkVerseInChapter _ _ _ _).
    assert (same_books st st1) as (_ & Eo & Eth & _).
    { eapply same_books_trans; [apply same_books_if|apply same_books_checkVerseInChapter]. }
    unfold OSISXMLBible.onThisBookWith, book_in_progress. rewrite Eth, Eo.
    destruct (OSISXMLBible.thisBook st) as [r|]; [|done].
    cbn [mbind option_bind].
    destruct (OSISXMLBible.objects st !! r); [|done].
    unfold item. by rewrite Hv.
Qed.

Lemma short_verse_sID_raises_witness :
  OSISXMLBible.validateVerseElement false (fun _ _ _ => Ok []) (fun _ => false)
    (verse_milestone (py "Jas.1") None) [] (py "Jas.1") (py "div") james_in_progress
  = Raise IndexError /\
  OSISXMLBible.validateVerseElement false (fun _ _ _ => Ok []) (fun _ => false)
    (verse_milestone (py "Jas.1") None) [] (py "Jas.1") (py "div") OSISXMLBible.initial
  = Raise AttributeError.
Proof.
  split.
  - apply (short_verse_sID_raises false (fun _ _ _ => Ok []) (fun _ => false)
             (verse_milestone (py "Jas.1") None) (py "Jas.1.7") (py "Jas.1")
             [] (py "Jas.1") (py "div") james_in_progress);
      first [reflexivity | discriminate].
  - apply (short_verse_sID_raises false (fun _ _ _ => Ok []) (fun _ => false)
             (verse_milestone (py "Jas.1") None) (py "Jas.1.7") (py "Jas.1")
             [] (py "Jas.1") (py "div") OSISXMLBible.initial);
      first [reflexivity | discriminate].
Defined.

(** ** InternalBible: the text of a verse *)

Section VerseTextFacts.

Import InternalBible BibleAccess.

Lemma for_each_app {A S} (body : S -> A -> outcome S) (l1 l2 : list A) (s : S) :
  for_each body (l1 ++ l2) s = s' ← for_each body l1 s; for_each body l2 s'.
Proof.
  revert s. induction l1 as [|a l1 IH]; intros s; cbn; [done|].
  destruct (body s a) as [s1|]; cbn; [apply IH|done].
Qed.

Lemma verseTextEntry_passed_over fullTextFlag st entry :
  passed_over entry -> verseTextEntry fullTextFlag st entry = Ok st.
Proof.
  unfold passed_over, verseTextEntry, item.
  destruct entry as [marker clean original]. cbn [getMarker].
  intros [H|[-> |[-> | ->]]]; [|done..].
  destruct marker as [|c marker]; [done|]. injection H as ->.
  cbn [lookup list_lookup mbind result_bind Py.bind]. by rewrite N.eqb_refl.
Qed.

Lemma verseTextEntry_word fullTextFlag st entry :
  getMarker entry = py "vw" ->
  verseTextEntry fullTextFlag st entry
  = Ok (TextLocals (verseText st ++ (if firstWord st then [] else [space])
                    ++ shown fullTextFlag entry) false (warnings st)).
Proof.
  unfold verseTextEntry, shown. intros ->. cbn.
  destruct (firstWord st); cbn; [done|by rewrite <- app_assoc].
Qed.

(** The words after the first one: each comes after a space. *)
Lemma words_after_first fullTextFlag words st :
  Forall (fun entry => getMarker entry = py "vw") words ->
  firstWord st = false ->
  for_each (verseTextEntry fullTextFlag) words st
  = Ok (TextLocals
          (verseText st ++ concat ((fun entry => space :: shown fullTextFlag entry) <$> words))
          false (warnings st)).
Proof.
  intros Hw. revert st. induction Hw as [|entry words Hm _ IH]; intros st Hf.
  - cbn. rewrite app_nil_r. by destruct st; cbn in *; subst.
  - cbn [for_each]. rewrite (verseTextEntry_word _ _ _ Hm), Hf.
    cbn [mbind result_bind Py.bind]. rewrite IH by done.
    cbn [verseText warnings fmap list_fmap concat]. by rewrite <- !app_assoc.
Qed.

Lemma join_spaces (w : str) (rest : list str) :
  join [space] (w :: rest) = w ++ concat ((fun x => space :: x) <$> rest).
Proof.
  revert w. induction rest as [|x rest IH]; intros w.
  - cbn. by rewrite app_nil_r.
  - change (join [space] (w :: x :: rest)) with (w ++ [space] ++ join [space] (x :: rest)).
    rewrite IH. done.
Qed.

(** The words of a verse, after the 'v' entry or without it. *)
Lemma words_text fullTextFlag words st :
  Forall (fun entry => getMarker entry = py "vw") words ->
  exists st',
    for_each (verseTextEntry fullTextFlag) words st = Ok st' /\
    verseText st'
    = verseText st
      ++ (if firstWord st then join [space] (shown fullTextFlag <$> words)
          else concat ((fun entry => space :: shown fullTextFlag entry) <$> words)) /\
    warnings st' = warnings st.
Proof.
  intros Hw. destruct (firstWord st) eqn:Hf.
  - destruct Hw as [|entry words Hm Hw]; [exists st; cbn; by rewrite app_nil_r|].
    cbn [for_each]. rewrite (verseTextEntry_word _ _ _ Hm), Hf.
    cbn [mbind result_bind Py.bind]. rewrite words_after_first by done.
    eexists. split; [reflexivity|]. cbn [verseText warnings fmap list_fmap].
    rewrite join_spaces, <- list_fmap_compose, <- !app_assoc. done.
  - rewrite words_after_first by done. by eexists.
Qed.

End VerseTextFacts.

(** X18: [getVerseText] joins the words of a verse with single spaces: for a
    'v' entry followed by 'vw' entries the text is that of
    [' '.join( words )], and nothing is logged.  Without the 'v' entry the
    text starts with a space. *)
Theorem getVerseText_joins_words {R C : Type} (BCVReference : R) (context : C)
    (fullTextFlag : bool) (v : BibleAccess.InternalBibleEntry)
    (words : list BibleAccess.InternalBibleEntry) :
  BibleAccess.getMarker v = py "v" ->
  Forall (fun entry => BibleAccess.getMarker entry = py "vw") words ->
  BibleAccess.getVerseText (fun _ => Ok (Some (v :: words, context)))
    BCVReference fullTextFlag
  = Ok (Some (join [space] (shown fullTextFlag <$> words)), []) /\
  BibleAccess.getVerseText (fun _ => Ok (Some (words, context))) BCVReference fullTextFlag
  = Ok (Some (concat ((fun entry => space :: shown fullTextFlag entry) <$> words)), []).
Proof.
  intros Hv Hw. unfold BibleAccess.getVerseText.
  cbn [mbind result_bind Py.bind InternalBible.for_each].
  assert (BibleAccess.verseTextEntry fullTextFlag (BibleAccess.TextLocals [] false []) v
          = Ok (BibleAccess.TextLocals [] true [])) as ->
    by (unfold BibleAccess.verseTextEntry; by rewrite Hv).
  cbn [mbind result_bind Py.bind].
  split.
  - destruct (words_text fullTextFlag words (BibleAccess.TextLocals [] true []) Hw)
      as (st & -> & H1 & H2).
    cbn [mbind result_bind Py.bind]. by rewrite H1, H2.
  - destruct (words_text fullTextFlag words (BibleAccess.TextLocals [] false []) Hw)
      as (st & -> & H1 & H2).
    cbn [mbind result_bind Py.bind]. by rewrite H1, H2.
Qed.

Lemma getVerseText_joins_words_witness :
  BibleAccess.getVerseText
    (fun _ : unit =>
       Ok (Some ([BibleAccess.Entry (py "v") (py "1") (py "1");
                  BibleAccess.Entry (py "vw") (py "In") (py "In");
                  BibleAccess.Entry (py "vw") (py "the") (py "the");
                  BibleAccess.Entry (py "vw") (py "beginning") (py "beginning")], tt)))
    tt false
  = Ok (Some (py "In the beginning"), []).
Proof.
  refine (proj1 (getVerseText_joins_words tt tt false
                   (BibleAccess.Entry (py "v") (py "1") (py "1"))
                   [BibleAccess.Entry (py "vw") (py "In") (py "In");
                    BibleAccess.Entry (py "vw") (py "the") (py "the");
                    BibleAccess.Entry (py "vw") (py "beginning") (py "beginning")] _ _)).
  - reflexivity.
  - repeat constructor.
Defined.

(** X19: [getVerseText] passes over the end markers (a marker that starts
    with the not sign) and the entries 'c', 'c~' and 'c#': with or without
    such an entry, anywhere in the verse data, the text and the log are the
    same. *)
Theorem getVerseText_passes_over_end_markers {R C : Type} (BCVReference : R)
    (context : C) (fullTextFlag : bool)
    (before after : list BibleAccess.InternalBibleEntry)
    (entry : BibleAccess.InternalBibleEntry) :
  passed_over entry ->
  BibleAccess.getVerseText (fun _ => Ok (Some (before ++ entry :: after, context)))
    BCVReference fullTextFlag
  = BibleAccess.getVerseText (fun _ => Ok (Some (before ++ after, context)))
      BCVReference fullTextFlag.
Proof.
  intros H. unfold BibleAccess.getVerseText. cbn [mbind result_bind Py.bind].
  rewrite !for_each_app.
  destruct (InternalBible.for_each _ before _) as [st|]; [|done].
  cbn [mbind result_bind Py.bind InternalBible.for_each].
  by rewrite (verseTextEntry_passed_over _ _ _ H).
Qed.

Lemma getVerseText_passes_over_end_markers_witness :
  BibleAccess.getVerseText
    (fun _ : unit =>
       Ok (Some ([BibleAccess.Entry (py "p") [] []]
                 ++ BibleAccess.Entry (BibleAccess.NOT_SIGN :: py "p") [] []
                 :: [BibleAccess.Entry (py "v~") (py "Jesus wept.") (py "Jesus wept.")], tt)))
    tt false
  = BibleAccess.getVerseText
      (fun _ : unit =>
         Ok (Some ([BibleAccess.Entry (py "p") [] []]
                   ++ [BibleAccess.Entry (py "v~") (py "Jesus wept.") (py "Jesus wept.")],
                   tt)))
      tt false.
Proof.
  apply getVerseText_passes_over_end_markers. left. reflexivity.
Defined.

(** X20: [getVerseText] returns a text for verse data whose markers are all
    non-empty, and raises [IndexError] (from [marker[0]]) as soon as one
    entry has an empty marker. *)
Theorem getVerseText_empty_marker {R C : Type} (BCVReference : R) (context : C)
    (fullTextFlag : bool) (verseData : list BibleAccess.InternalBibleEntry) :
  (Forall (fun entry => BibleAccess.getMarker entry <> []) verseData ->
   exists text log,
     BibleAccess.getVerseText (fun _ => Ok (Some (verseData, context)))
       BCVReference fullTextFlag = Ok (Some text, log)) /\
  (Exists (fun entry => BibleAccess.getMarker entry = []) verseData ->
   BibleAccess.getVerseText (fun _ => Ok (Some (verseData, context)))
     BCVReference fullTextFlag = Raise IndexError).
Proof.
  unfold BibleAccess.getVerseText. cbn [mbind result_bind Py.bind].
  generalize (BibleAccess.TextLocals [] false []).
  assert (forall st entry, BibleAccess.getMarker entry <> [] ->
            exists st', BibleAccess.verseTextEntry fullTextFlag st entry = Ok st') as Hstep.
  { intros st [marker clean original]. cbn [BibleAccess.getMarker]. intros Hne.
    unfold BibleAccess.verseTextEntry, item. cbn [BibleAccess.getMarker].
    destruct marker as [|c marker]; [done|].
    cbn [lookup list_lookup mbind result_bind Py.bind].
    repeat (match goal with |- context [if ?b then _ else _] => destruct b end;
            [by eexists|]).
    by eexists. }
  induction verseData as [|entry verseData IH]; intros st.
  - split; [intros _; by eexists _, _|]. intros H. by apply Exists_nil in H.
  - cbn [InternalBible.for_each]. split.
    + intros [Hne Hrest]%Forall_cons.
      destruct (Hstep st entry Hne) as [st' ->]. cbn [mbind result_bind Py.bind].
      by apply IH.
    + intros H. destruct (decide (BibleAccess.getMarker entry = [])) as [He|Hne].
      * unfold BibleAccess.verseTextEntry, item. by rewrite He.
      * apply Exists_cons in H as [H|H]; [done|].
        destruct (Hstep st entry Hne) as [st' ->]. cbn [mbind result_bind Py.bind].
        by apply IH.
Qed.

Lemma getVerseText_empty_marker_witness :
  BibleAccess.getVerseText
    (fun _ : unit =>
       Ok (Some ([BibleAccess.Entry (py "v") (py "1") (py "1");
                  BibleAccess.Entry [] (py "In") (py "In")], tt)))
    tt false
  = Raise IndexError.
Proof.
  refine (proj2 (getVerseText_empty_marker tt tt false
                   [BibleAccess.Entry (py "v") (py "1") (py "1");
                    BibleAccess.Entry [] (py "In") (py "In")]) _).
  right. left. reflexivity.
Defined.
(** ** InternalBible: iteration and the common books *)

Section Iteration.

Import InternalBible BibleAccess.

Context {B : Type}.
Variable debugFlag : bool.
Variable loadedAllBooks : bool.
Implicit Types self : InternalBible.t B.

Lemma od_mem_keys {V} (k : str) (d : list (str * V)) :
  OD.mem k d = true <-> k ∈ OD.keys d.
Proof.
  unfold OD.keys. induction d as [|[k' v'] d IH]; [by rewrite elem_of_nil|].
  rewrite od_mem_cons. cbn [map fst]. rewrite elem_of_cons.
  destruct (decide (k' = k)) as [->|Hne]; [by split; [left|]|].
  rewrite IH. split; [by right|]. by intros [?|?].
Qed.

Lemma str_in_elem (x : str) (l : list str) : str_in x l = true <-> x ∈ l.
Proof.
  unfold str_in. induction l as [|y l IH]; cbn; [by rewrite elem_of_nil|].
  rewrite orb_true_iff, IH, elem_of_cons.
  split; (intros [H|H]; [left|by right]).
  - by apply str_eqb_eq.
  - subst. apply str_eqb_refl.
Qed.

(** The loop of [__iter__] over the keys that are left. *)
Lemma iter_from (books before after : list (str * B)) (yielded : list B) :
  OD.wf books -> books = before ++ after ->
  for_each (fun (yielded : list B) (BBB : str) =>
              match OD.get BBB books with
              | Some book => Ok (yielded ++ [book])
              | None => Raise KeyError
              end) (OD.keys after) yielded
  = Ok (yielded ++ (snd <$> after)).
Proof.
  intros Hwf. revert before yielded.
  induction after as [|[BBB book] after IH]; intros before yielded Hb.
  - cbn. by rewrite app_nil_r.
  - cbn [OD.keys map fst for_each].
    assert (OD.get BBB books = Some book) as ->.
    { rewrite (od_get_at books (length before) BBB Hwf).
      - subst books. by rewrite list_lookup_middle.
      - rewrite od_keys_lookup. subst books. by rewrite list_lookup_middle. }
    cbn [mbind result_bind Py.bind].
    change (map fst after) with (OD.keys after).
    rewrite (IH (before ++ [(BBB, book)])) by (by rewrite <- app_assoc).
    cbn [fmap list_fmap snd]. by rewrite <- app_assoc.
Qed.

Lemma containsAny_spec self (bookList : list str) :
  debugFlag = false \/ Forall (fun BBB => len BBB = 3) bookList ->
  containsAny debugFlag self bookList
  = Ok (existsb (fun BBB => OD.mem BBB (books self)) bookList).
Proof.
  intros H. induction bookList as [|BBB bookList IH]; [done|].
  cbn [containsAny existsb]. unfold __contains__.
  assert ((if debugFlag then assert (len BBB =? 3) else Ok tt) = Ok tt) as ->.
  { destruct H as [->|H]; [done|]. apply Forall_cons in H as [-> _].
    by destruct debugFlag. }
  cbn [mbind result_bind Py.bind].
  destruct (OD.mem BBB (books self)); [done|]. cbn [orb]. apply IH.
  destruct H as [->|H]; [by left|]. right. by apply Forall_cons in H as [_ H].
Qed.

Lemma existsb_swap {V} (d : list (str * V)) (l : list str) :
  existsb (fun k => OD.mem k d) l = existsb (fun k => str_in k l) (OD.keys d).
Proof.
  apply eq_true_iff_eq. rewrite !existsb_exists. split.
  - intros (k & Hin & Hm). exists k. split.
    + apply list_elem_of_In. by apply od_mem_keys.
    + apply str_in_elem. by apply list_elem_of_In.
  - intros (k & Hin & Hm). exists k. split.
    + apply list_elem_of_In. by apply str_in_elem.
    + apply od_mem_keys. by apply list_elem_of_In.
Qed.

End Iteration.

(** X21: for a Bible whose book codes are distinct, iterating over it yields
    the books in the order of [getBookList], as many as [len( self )], and
    the book yielded at position [i] is [self[i]]. *)
Theorem iteration_agrees_with_indexing {B : Type} (debugFlag loadedAllBooks : bool)
    (self : InternalBible.t B) :
  OD.wf (InternalBible.books self) ->
  exists yielded,
    fst (BibleAccess.__iter__ debugFlag loadedAllBooks self) = Ok yielded /\
    len yielded = fst (BibleAccess.__len__ debugFlag loadedAllBooks self) /\
    (forall (i : nat) (BBB : str),
       fst (BibleAccess.getBookList debugFlag loadedAllBooks self) !! i = Some BBB ->
       OD.get BBB (InternalBible.books self) = yielded !! i) /\
    (forall (i : nat) (book : B),
       yielded !! i = Some book ->
       BibleAccess.__getitem__ self (BibleAccess.Index (Z.of_nat i)) = Ok (Some book)).
Proof.
  intros Hwf. exists (snd <$> InternalBible.books self).
  unfold BibleAccess.__iter__, BibleAccess.__len__, BibleAccess.getBookList. cbn [fst].
  split; [|split; [|split]].
  - by rewrite (iter_from (InternalBible.books self) [] (InternalBible.books self) []).
  - unfold len. by rewrite length_fmap.
  - intros i BBB Hi. rewrite list_lookup_fmap. by apply od_get_at.
  - intros i book Hi. unfold BibleAccess.__getitem__. rewrite index_nat.
    rewrite list_lookup_fmap in Hi.
    destruct (InternalBible.books self !! i) as [[BBB book']|]; [|done].
    cbn in Hi. injection Hi as ->. done.
Qed.

Lemma iteration_agrees_with_indexing_witness :
  exists yielded,
    fst (BibleAccess.__iter__ false true two_books) = Ok yielded /\
    len yielded = 2.
Proof.
  assert (OD.wf (InternalBible.books two_books)) as Hwf
    by (apply (bool_decide_unpack _); vm_compute; reflexivity).
  destruct (iteration_agrees_with_indexing false true two_books Hwf)
    as (yielded & H1 & H2 & _).
  exists yielded. split; [exact H1|exact H2].
Defined.

(** X22: [containsAnyOT39Books] and [containsAnyNT27Books] never raise, and
    each returns [True] exactly when one of the codes of [getBookList] is one
    of the 39, or of the 27, common books. *)
Theorem containsAny_common_books {B : Type} (debugFlag loadedAllBooks : bool)
    (self : InternalBible.t B) :
  fst (BibleAccess.containsAnyOT39Books debugFlag loadedAllBooks self)
  = Ok (existsb (fun BBB => str_in BBB BibleAccess.OT39BookList)
          (fst (BibleAccess.getBookList debugFlag loadedAllBooks self))) /\
  fst (BibleAccess.containsAnyNT27Books debugFlag loadedAllBooks self)
  = Ok (existsb (fun BBB => str_in BBB BibleAccess.NT27BookList)
          (fst (BibleAccess.getBookList debugFlag loadedAllBooks self))).
Proof.
  unfold BibleAccess.containsAnyOT39Books, BibleAccess.containsAnyNT27Books,
    BibleAccess.getBookList. cbn [fst].
  split; rewrite containsAny_spec, ?existsb_swap; try done;
    right; repeat constructor.
Qed.
(** ** InternalBible: the counts of [getErrors] *)

Section Counts.

Import InternalBible.

Context {B : Type}.
Variable debugFlag : bool.
Variable bookGetErrors : B -> list (str * value).
Variable givenBookList : option (list str).
(** a key of the first level, a key of counts below it, and what is counted *)
Variables k1 k2 s : str.
Hypothesis k1_plain : list_key k1 = false.
Hypothesis k2_plain : list_key k2 = false.
Hypothesis k2_Counts : endswith (py "Counts") k2 = true.

Local Abbreviation countAt := (countAt k1 k2 s).
Local Abbreviation sub_count := (sub_count k2 s).
Local Abbreviation prepare_book := (prepare_book bookGetErrors givenBookList).
Local Abbreviation combine_book := (@combine_book B debugFlag givenBookList).
Local Abbreviation counts_of := (counts_of bookGetErrors givenBookList k1 k2 s).

Lemma countAt_set_other key v total :
  key <> k1 -> countAt (OD.set key v total) = countAt total.
Proof. intros Hne. unfold countAt. by rewrite od_get_set_ne. Qed.

Lemma countAt_set_dict below total :
  countAt (OD.set k1 (Dict below) total) = sub_count below.
Proof. unfold countAt. by rewrite od_get_set_eq. Qed.

Lemma below_countAt total d : below k1 total = Ok d -> countAt total = sub_count d.
Proof.
  unfold below, countAt. destruct (OD.get k1 total) as [[l|d']|]; [done| |];
    by intros [= <-].
Qed.

Lemma sub_count_set_other key v d :
  key <> k2 -> sub_count (OD.set key v d) = sub_count d.
Proof. intros Hne. unfold sub_count. by rewrite od_get_set_ne. Qed.

Lemma list_key_other key : list_key key = true -> key <> k1 /\ key <> k2.
Proof. intros H. split; intros ->; congruence. Qed.

Lemma reset_sub_counts thisKey anotherKey total total' :
  reset_sub thisKey anotherKey total = Ok total' -> anotherKey <> k2 ->
  countAt total' = countAt total.
Proof.
  unfold reset_sub. destruct (below thisKey total) as [d|] eqn:Eb; [|done].
  cbn [mbind result_bind Py.bind]. intros [= <-] Hne.
  destruct (decide (thisKey = k1)) as [->|Hk]; [|by apply countAt_set_other].
  rewrite countAt_set_dict, sub_count_set_other by done. symmetry.
  by apply below_countAt.
Qed.

Lemma extend_sub_counts firstKey secondKey new total total' :
  extend_sub firstKey secondKey new total = Ok total' -> secondKey <> k2 ->
  countAt total' = countAt total.
Proof.
  unfold extend_sub. destruct (below firstKey total) as [d|] eqn:Eb; [|done].
  cbn [mbind result_bind Py.bind]. intros H Hne.
  assert (forall v, countAt (OD.set firstKey (Dict (OD.set secondKey v d)) total)
                    = countAt total) as Hset.
  { intros v. destruct (decide (firstKey = k1)) as [->|Hk]; [|by apply countAt_set_other].
    rewrite countAt_set_dict, sub_count_set_other by done. symmetry.
    by apply below_countAt. }
  destruct (OD.get secondKey d) as [[l|c]|]; try done; injection H as <-; apply Hset.
Qed.

Lemma extend_list_counts key new total total' :
  extend_list key new total = Ok total' -> key <> k1 -> countAt total' = countAt total.
Proof.
  unfold extend_list. destruct (OD.get key total) as [[l|d]|]; try done.
  intros [= <-] Hne. by apply countAt_set_other.
Qed.

Lemma merge_one_at counts item :
  OD.get s (merge_one counts item)
  = if decide (fst item = s) then merged (OD.get s counts) (Some (snd item))
    else OD.get s counts.
Proof.
  unfold merge_one. destruct (decide (fst item = s)) as [Hs|Hne].
  - rewrite Hs. destruct (OD.get s counts); by rewrite od_get_set_eq.
  - destruct (OD.get (fst item) counts); by rewrite od_get_set_ne.
Qed.

Lemma merge_all_at new counts :
  OD.wf new ->
  OD.get s (fold_left merge_one new counts) = merged (OD.get s counts) (OD.get s new).
Proof.
  unfold OD.wf. revert counts. induction new as [|[s0 n] new IH]; intros counts Hwf; [done|].
  cbn in Hwf. apply NoDup_cons in Hwf as [Hn Hwf].
  cbn [fold_left]. rewrite IH by done. rewrite merge_one_at. cbn [fst snd OD.get].
  destruct (decide (s0 = s)) as [->|Hne].
  - by rewrite str_eqb_refl, (od_get_notin _ _ Hn).
  - rewrite str_eqb_neq by congruence. done.
Qed.

Lemma merge_counts_at firstKey secondKey new total total' :
  OD.wf new -> merge_counts firstKey secondKey new total = Ok total' ->
  countAt total'
  = if decide (firstKey = k1)
    then if decide (secondKey = k2) then merged (countAt total) (OD.get s new)
         else countAt total
    else countAt total.
Proof.
  intros Hwf. unfold merge_counts.
  destruct (below firstKey total) as [d|] eqn:Eb; [|done].
  cbn [mbind result_bind Py.bind]. intros H.
  destruct (decide (firstKey = k1)) as [->|Hk].
  - rewrite (below_countAt _ _ Eb).
    destruct (decide (secondKey = k2)) as [->|Hs].
    + unfold sub_count.
      destruct (OD.get k2 d) as [[l|c]|] eqn:Eg.
      * destruct new; [|done]. injection H as <-. rewrite countAt_set_dict.
        unfold sub_count. by rewrite Eg.
      * injection H as <-. rewrite countAt_set_dict. unfold sub_count.
        rewrite od_get_set_eq. by apply merge_all_at.
      * injection H as <-. rewrite countAt_set_dict. unfold sub_count.
        rewrite od_get_set_eq. by rewrite merge_all_at.
    + destruct (OD.get secondKey d) as [[l|c]|].
      * destruct new; [|done]. injection H as <-. by rewrite countAt_set_dict.
      * injection H as <-. by rewrite countAt_set_dict, sub_count_set_other.
      * injection H as <-. by rewrite countAt_set_dict, sub_count_set_other.
  - destruct (OD.get secondKey d) as [[l|c]|]; [destruct new; [|done]| |];
      injection H as <-; by apply countAt_set_other.
Qed.

(** One round of the second level. *)
Lemma combine_sub_counts thisKey e item e' :
  distinct_sub item -> combine_sub debugFlag thisKey e item = Ok e' ->
  countAt (allBooks e')
  = (if decide (thisKey = k1)
     then if decide (fst item = k2)
          then merged (countAt (allBooks e))
                 (match snd item with
                  | SubCounts counts => OD.get s counts
                  | SubList _ => None
                  end)
          else countAt (allBooks e)
     else countAt (allBooks e)) /\
  countAt (byCategory e') = countAt (byCategory e) /\ byBook e' = byBook e.
Proof.
  destruct item as [anotherKey v]. unfold distinct_sub, combine_sub. cbn [fst snd].
  intros Hwf. destruct (list_key anotherKey) eqn:El.
  - destruct (list_key_other _ El) as [_ Hne].
    destruct (if debugFlag then _ else _) as [[]|]; [|done].
    cbn [mbind result_bind Py.bind].
    destruct (extend_sub thisKey anotherKey (iterate_sub v) (allBooks e)) as [all|] eqn:Ea;
      [|done].
    cbn [mbind result_bind Py.bind].
    destruct (extend_sub thisKey anotherKey (iterate_sub v) (byCategory e)) as [cat|] eqn:Ec;
      [|done].
    cbn [mbind result_bind Py.bind]. intros [= <-]. cbn [allBooks byCategory byBook].
    rewrite (extend_sub_counts _ _ _ _ _ Ea Hne), (extend_sub_counts _ _ _ _ _ Ec Hne).
    destruct (decide (thisKey = k1)); [|done]. by destruct (decide (anotherKey = k2)).
  - destruct (endswith (py "Counts") anotherKey) eqn:Ec.
    2: { intros [= <-]. destruct (decide (thisKey = k1)); [|done].
         destruct (decide (anotherKey = k2)) as [->|]; [congruence|done]. }
    destruct (if debugFlag then _ else _) as [[]|]; [|done].
    cbn [mbind result_bind Py.bind].
    destruct v as [[|x l]|c]; [|done|].
    + destruct (below thisKey (allBooks e)) as [d|] eqn:Eb; [|done].
      cbn [mbind result_bind Py.bind]. intros [= <-]. cbn [allBooks byCategory byBook].
      split; [|done].
      destruct (decide (thisKey = k1)) as [->|Hk]; [|by apply countAt_set_other].
      rewrite countAt_set_dict, (below_countAt _ _ Eb).
      destruct (decide (anotherKey = k2)) as [->|Hs].
      * unfold sub_count, OD.mem. destruct (OD.get k2 d) eqn:Eg; [by rewrite Eg|].
        by rewrite od_get_set_eq.
      * destruct (OD.mem anotherKey d); [done|]. by apply sub_count_set_other.
    + destruct (merge_counts thisKey anotherKey c (allBooks e)) as [all|] eqn:Ea; [|done].
      cbn [mbind result_bind Py.bind]. intros [= <-]. cbn [allBooks byCategory byBook].
      split; [|done]. by apply merge_counts_at.
Qed.

(** The rounds of the second level, for the dictionary below [thisKey]. *)
Lemma combine_subs_counts thisKey d e e' :
  OD.wf d -> Forall distinct_sub d ->
  for_each (combine_sub debugFlag thisKey) d e = Ok e' ->
  countAt (allBooks e')
  = (if decide (thisKey = k1) then merged (countAt (allBooks e)) (sub_count d)
     else countAt (allBooks e)) /\
  countAt (byCategory e') = countAt (byCategory e) /\ byBook e' = byBook e.
Proof.
  unfold OD.wf. revert e. induction d as [|[k0 v0] d IH]; intros e Hwf Hd; cbn [for_each].
  - intros [= <-]. by destruct (decide (thisKey = k1)).
  - cbn in Hwf. apply NoDup_cons in Hwf as [Hn Hwf]. apply Forall_cons in Hd as [Hd0 Hd].
    destruct (combine_sub debugFlag thisKey e (k0, v0)) as [e1|] eqn:E1; [|done].
    cbn [mbind result_bind Py.bind]. intros H.
    destruct (combine_sub_counts _ _ _ _ Hd0 E1) as (H1 & H1c & H1b). cbn [fst snd] in H1.
    destruct (IH _ Hwf Hd H) as (H2 & H2c & H2b).
    split; [|split; congruence]. rewrite H2, H1.
    destruct (decide (thisKey = k1)); [|done].
    unfold sub_count. cbn [OD.get]. destruct (decide (k0 = k2)) as [->|Hne].
    + rewrite str_eqb_refl, (od_get_notin _ _ Hn). by destruct v0.
    + rewrite str_eqb_neq by congruence. done.
Qed.

(** One round of the first level. *)
Lemma combine_key_counts e item e' :
  distinct_value item -> combine_key debugFlag e item = Ok e' ->
  countAt (allBooks e')
  = (if decide (fst item = k1)
     then merged (countAt (allBooks e))
            (match snd item with Dict d => sub_count d | List _ => None end)
     else countAt (allBooks e)) /\
  countAt (byCategory e') = countAt (byCategory e) /\ byBook e' = byBook e.
Proof.
  destruct item as [thisKey v]. unfold distinct_value, combine_key. cbn [fst snd].
  intros Hwf. destruct (list_key thisKey) eqn:El.
  - destruct (list_key_other _ El) as [Hne _].
    destruct (if debugFlag then _ else _) as [[]|]; [|done].
    cbn [mbind result_bind Py.bind]. cbv zeta.
    destruct (extend_list thisKey (iterate v)
                (if OD.mem thisKey (allBooks e) then allBooks e
                 else OD.set thisKey (List []) (allBooks e))) as [all|] eqn:Ea; [|done].
    cbn [mbind result_bind Py.bind].
    destruct (extend_list thisKey (iterate v) (byCategory e)) as [cat|] eqn:Ec; [|done].
    cbn [mbind result_bind Py.bind]. intros [= <-]. cbn [allBooks byCategory byBook].
    rewrite (extend_list_counts _ _ _ _ Ea Hne), (extend_list_counts _ _ _ _ Ec Hne).
    rewrite decide_False by done. split; [|done].
    destruct (OD.mem thisKey (allBooks e)); [done|]. by apply countAt_set_other.
  - destruct (endswith (py "Counts") thisKey); [done|].
    destruct v as [l|d]; intros H.
    + assert (e' = e) as ->.
      { eapply (for_each_keeps (fun s => s = e)); [|exact H|done].
        intros s0 a s0' _ Hbody ->. by apply (combine_entry_frame _ _ _ _ Hbody). }
      by destruct (decide (thisKey = k1)).
    + destruct Hwf as [Hwf Hd]. by apply combine_subs_counts.
Qed.

(** The second loop, for the dictionary of a book. *)
Lemma combine_keys_counts d e e' :
  distinct_keys d -> for_each (combine_key debugFlag) d e = Ok e' ->
  countAt (allBooks e') = merged (countAt (allBooks e)) (countAt d) /\
  countAt (byCategory e') = countAt (byCategory e) /\ byBook e' = byBook e.
Proof.
  unfold distinct_keys, OD.wf. intros [Hwf Hd]. revert e.
  induction d as [|[k0 v0] d IH]; intros e; cbn [for_each].
  - by intros [= <-].
  - cbn in Hwf. apply NoDup_cons in Hwf as [Hn Hwf]. apply Forall_cons in Hd as [Hd0 Hd].
    destruct (combine_key debugFlag e (k0, v0)) as [e1|] eqn:E1; [|done].
    cbn [mbind result_bind Py.bind]. intros H.
    destruct (combine_key_counts _ _ _ Hd0 E1) as (H1 & H1c & H1b). cbn [fst snd] in H1.
    destruct (IH Hwf Hd _ H) as (H2 & H2c & H2b).
    split; [|split; congruence]. rewrite H2, H1.
    unfold countAt at 3 5. cbn [OD.get]. destruct (decide (k0 = k1)) as [->|Hne].
    + rewrite str_eqb_refl, (od_get_notin _ _ Hn). by destruct v0.
    + rewrite str_eqb_neq by congruence. done.
Qed.

(** The total after the counts of more books. *)
Lemma merged_sum (total : option Z) (l : list Z) :
  fold_left (fun total n => merged total (Some n)) l total
  = match l with
    | [] => total
    | _ :: _ => Some (default 0 total + foldr Z.add 0 l)
    end.
Proof.
  revert total. induction l as [|n l IH]; intros total; [done|].
  cbn [fold_left]. rewrite IH. destruct l as [|n' l].
  - destruct total; cbn; f_equal; lia.
  - destruct total; cbn; f_equal; lia.
Qed.

(** The second loop. *)
Lemma combine_books_counts books e e' :
  (forall item, item ∈ books -> distinct_keys (bookGetErrors (snd item))) ->
  (forall item, item ∈ books -> given givenBookList (fst item) = true ->
                OD.get (fst item) (byBook e) = Some (bookGetErrors (snd item))) ->
  for_each combine_book books e = Ok e' ->
  countAt (allBooks e')
  = fold_left (fun total n => merged total (Some n)) (counts_of books)
              (countAt (allBooks e)) /\
  countAt (byCategory e') = countAt (byCategory e).
Proof.
  revert e. induction books as [|[BBB book] books IH]; intros e Hwf Hby; cbn [for_each].
  - by intros [= <-].
  - destruct (combine_book e (BBB, book)) as [e1|] eqn:E1; [|done].
    cbn [mbind result_bind Py.bind]. intros H.
    assert (countAt (allBooks e1)
            = merged (countAt (allBooks e))
                (if given givenBookList BBB then countAt (bookGetErrors book) else None) /\
            countAt (byCategory e1) = countAt (byCategory e) /\
            byBook e1 = byBook e) as (H1 & H1c & H1b).
    { unfold InternalBible.combine_book in E1.
      pose proof (Hby (BBB, book) ltac:(by left)) as Hg. cbn [fst snd] in Hg.
      destruct (given givenBookList BBB).
      - rewrite Hg in E1 by done.
        apply combine_keys_counts; [|done]. apply (Hwf (BBB, book)). by left.
      - by injection E1 as <-. }
    destruct (IH e1) as [H2 H2c]; [| |done|].
    { intros item Hin. apply Hwf. by right. }
    { rewrite H1b. intros item Hin. apply Hby. by right. }
    split; [|congruence]. rewrite H2, H1.
    unfold counts_of. cbn [omap list_omap fst snd].
    destruct (given givenBookList BBB); [|done].
    by destruct (countAt (bookGetErrors book)).
Qed.

(** The first loop holds no counts yet. *)
Lemma prepare_key_counts e item e' :
  prepare_key e item = Ok e' ->
  countAt (allBooks e') = countAt (allBooks e) /\
  countAt (byCategory e') = countAt (byCategory e).
Proof.
  destruct item as [thisKey v]. unfold prepare_key.
  destruct (endswith (py "Errors") thisKey) eqn:E.
  - assert (thisKey <> k1) as Hne.
    { apply list_key_other. unfold list_key. by rewrite E. }
    intros [= <-]. cbn [allBooks byCategory]. by rewrite !countAt_set_other.
  - destruct (negb _ && negb _); [|by intros [= <-]].
    intros H.
    eapply (for_each_keeps
              (fun s0 => countAt (allBooks s0) = countAt (allBooks e) /\
                         countAt (byCategory s0) = countAt (byCategory e)));
      [|exact H|done].
    clear H. intros s0 a s0' _ Hbody [I1 I2]. cbv beta in Hbody.
    destruct a as [anotherKey|]; [|done].
    cbn [entry_endswith mbind result_bind Py.bind] in Hbody.
    destruct (endswith (py "Errors") anotherKey) eqn:Ea; [|by injection Hbody as <-].
    assert (anotherKey <> k2) as Hne.
    { apply list_key_other. unfold list_key. by rewrite Ea. }
    destruct (reset_sub thisKey anotherKey (allBooks s0)) as [all|] eqn:E1; [|done].
    cbn [mbind result_bind Py.bind] in Hbody.
    destruct (reset_sub thisKey anotherKey (byCategory s0)) as [cat|] eqn:E2; [|done].
    cbn [mbind result_bind Py.bind] in Hbody. injection Hbody as <-.
    cbn [allBooks byCategory].
    by rewrite (reset_sub_counts _ _ _ _ E1 Hne), (reset_sub_counts _ _ _ _ E2 Hne).
Qed.

Lemma prepare_books_counts books e e' :
  for_each prepare_book books e = Ok e' ->
  countAt (allBooks e') = countAt (allBooks e) /\
  countAt (byCategory e') = countAt (byCategory e).
Proof.
  intros H.
  eapply (for_each_keeps
            (fun s0 => countAt (allBooks s0) = countAt (allBooks e) /\
                       countAt (byCategory s0) = countAt (byCategory e)));
    [|exact H|done].
  clear H. intros s0 [BBB book] s0' _ Hbody I. unfold InternalBible.prepare_book in Hbody.
  destruct (given givenBookList BBB); [|by injection Hbody as <-].
  eapply (for_each_keeps
            (fun s1 => countAt (allBooks s1) = countAt (allBooks e) /\
                       countAt (byCategory s1) = countAt (byCategory e)));
    [|exact Hbody|exact I].
  intros s1 a s1' _ Hb [I1 I2]. destruct (prepare_key_counts _ _ _ Hb) as [-> ->]. done.
Qed.

Lemma set_up_counts :
  countAt (allBooks set_up) = None /\ countAt (byCategory set_up) = None.
Proof.
  split; [done|].
  assert (forall key v total,
            (v = List [] \/ v = Dict []) -> countAt total = None ->
            countAt (OD.set key v total) = None) as Hset.
  { intros key v total Hv Ht. destruct (decide (key = k1)) as [->|Hne].
    - unfold countAt. rewrite od_get_set_eq. by destruct Hv as [-> | ->].
    - by rewrite countAt_set_other. }
  cbn [set_up byCategory fold_left].
  repeat (apply Hset; [first [by left|by right]|]). done.
Qed.

(** The counts at the end of the two loops. *)
Lemma combineErrors_counts (books : list (str * B)) e :
  OD.wf books ->
  Forall (fun item => distinct_keys (bookGetErrors (snd item))) books ->
  (e1 ← for_each prepare_book books set_up; for_each combine_book books e1) = Ok e ->
  countAt (allBooks e)
  = total_of (counts_of books) /\
  countAt (byCategory e) = None.
Proof.
  intros Hwf Hd.
  destruct (for_each prepare_book books set_up) as [e1|] eqn:E1; [|done].
  cbn [mbind result_bind Py.bind]. intros E2.
  destruct (prepare_books_counts _ _ _ E1) as [P1 P2].
  destruct set_up_counts as [S1 S2]. rewrite S1 in P1. rewrite S2 in P2.
  destruct (combine_books_counts books e1 e) as [C1 C2]; [| |done|].
  { intros item Hin. by apply (proj1 (Forall_forall _ _) Hd). }
  { intros [BBB book] Hin Hg.
    destruct (prepare_books_at bookGetErrors givenBookList (py "Errors") eq_refl _ _ _ E1)
      as [_ ->].
    by apply stored_get. }
  rewrite C2, P2. split; [|done]. rewrite C1, P1, merged_sum.
  unfold total_of. by destruct (counts_of books).
Qed.

End Counts.

(** X23: in [getErrors], when the loop that combines the book errors ends,
    the count of [something] in
    [errors['ByBook']['All Books'][firstKey][secondKey]], for a key
    [secondKey] of counts (it ends with 'Counts'), is the sum of the counts
    that the given books have there; it is absent when no given book has
    one.  [errors['ByCategory']] holds no such count.  The loops do end when
    the books have distinct codes and their error dictionaries have the
    documented structure. *)
Theorem getErrors_counts_are_summed {B : Type} (debugFlag : bool)
    (bookGetErrors : B -> list (str * InternalBible.value))
    (self : InternalBible.t B) (givenBookList : option (list str))
    (firstKey secondKey something : str) :
  InternalBible.list_key firstKey = false ->
  InternalBible.list_key secondKey = false ->
  endswith (py "Counts") secondKey = true ->
  OD.wf (InternalBible.books self) ->
  Forall (fun item => distinct_keys (bookGetErrors item.2)) (InternalBible.books self) ->
  (forall e,
     InternalBible.combineErrors debugFlag bookGetErrors self givenBookList = Ok e ->
     countAt firstKey secondKey something (InternalBible.allBooks e)
     = total_of (counts_of bookGetErrors givenBookList firstKey secondKey something
                   (InternalBible.books self)) /\
     countAt firstKey secondKey something (InternalBible.byCategory e) = None) /\
  (forallb (fun item => shaped (bookGetErrors item.2)) (InternalBible.books self) = true ->
   exists e, InternalBible.combineErrors debugFlag bookGetErrors self givenBookList = Ok e).
Proof.
  intros H1 H2 H3 Hwf Hd. split; [|by apply combineErrors_returns].
  intros e E. by apply (combineErrors_counts debugFlag bookGetErrors givenBookList
                          firstKey secondKey something H1 H2 H3 _ e Hwf Hd).
Qed.

Lemma getErrors_counts_are_summed_witness :
  exists e,
    InternalBible.combineErrors true id two_books_counts None = Ok e /\
    countAt (py "SFMs") (py "All Newline Marker Counts") (py "v") (InternalBible.allBooks e)
    = Some 53.
Proof.
  assert (OD.wf (InternalBible.books two_books_counts)) as Hwf
    by (apply (bool_decide_unpack _); vm_compute; reflexivity).
  assert (Forall (fun item => distinct_keys (id item.2))
            (InternalBible.books two_books_counts)) as Hd.
  { repeat first [ apply Forall_nil_2 | apply Forall_cons_2 | split
                 | exact I | (apply (bool_decide_unpack _); vm_compute; reflexivity) ]. }
  destruct (getErrors_counts_are_summed true id two_books_counts None (py "SFMs")
              (py "All Newline Marker Counts") (py "v") eq_refl eq_refl eq_refl Hwf Hd)
    as [Hsum Hreturns].
  destruct Hreturns as [e E]; [vm_compute; reflexivity|].
  exists e. split; [exact E|]. destruct (Hsum e E) as [-> _]. vm_compute. reflexivity.
Defined.
(** ** OSISXMLBible: a chapter that is opened and closed *)

Section ChapterRoundTrip.

Import OSISXMLBible.

Variable debugFlag : bool.
Variable getBBBFromOSIS : str -> option codes.
Variable getUSFMAbbreviation : str -> option str.
Variable getUSFMNumber : str -> option str.
Variable checkXMLNoText : element -> str -> str -> outcome (list (level * message)).
Variable checkXMLNoTail : element -> str -> str -> outcome (list (level * message)).
Variable getAssumedBookNames : BibleBook.t -> list str.
Variable lower : str -> str.
Variable upper : str -> str.
Variable isdigit : str -> bool.
Variable mainDivOsisID : option str.

Local Abbreviation validateChapterElement :=
  (validateChapterElement debugFlag getBBBFromOSIS getUSFMAbbreviation getUSFMNumber
     checkXMLNoText checkXMLNoTail getAssumedBookNames lower upper isdigit mainDivOsisID).

(** A chapter start milestone of the book in progress. *)
Lemma chapter_start_same_book e sID book chap chapterMilestone verseMilestone
    locationDescription st ms1 ms2 r b :
  let location := py "validateChapterElement: " ++ locationDescription in
  children e = [] ->
  attrib e = [(py "osisID", book ++ dot :: chap); (py "sID", sID)] ->
  Forall (fun c => c <> dot) book -> Forall (fun c => c <> dot) chap -> sID <> [] ->
  checkXMLNoText e (location ++ py " at " ++ verseMilestone) (py "s2a8") = Ok ms1 ->
  checkXMLNoTail e (location ++ py " at " ++ verseMilestone) (py "j9k7") = Ok ms2 ->
  getBBBFromOSIS book = Some (One (BBB st)) ->
  thisBook st = Some r -> objects st !! r = Some b ->
  exists st',
    validateChapterElement e chapterMilestone verseMilestone locationDescription st
      = Ok (sID, st') /\
    objects st' = <[r := BibleBook.addLine b (py "c") chap]> (objects st) /\
    bible st' = bible st /\ thisBook st' = thisBook st /\ BBB st' = BBB st.
Proof.
  intros location Hc Ha Hbook Hchap HsID H1 H2 Hget Ht Ho.
  unfold OSISXMLBible.validateChapterElement. fold location.
  rewrite H1. cbn [mbind result_bind Py.bind]. rewrite H2. cbn [mbind result_bind Py.bind].
  rewrite (attributes_start_chapter _ _ _ _ _ Ha), Hc.
  change (len (@nil element) =? 0) with true.
  cbn [c_sID c_eID OSISChapterID].
  assert (book ++ dot :: chap <> []) as Hosis by (by destruct book).
  rewrite (truthy_Some _ HsID), (truthy_Some _ Hosis).
  cbn [OSISClean.truthy andb negb orb].
  set (st1 := if nonempty verseMilestone && haveEIDs _ then _ else _).
  assert (same_books st st1) as (Eb & Eo & Eth & EB & EU & _).
  { eapply same_books_trans; [|apply same_books_if].
    eapply same_books_trans; apply same_books_reports. }
  unfold chapterCursor. cbn [c_sID c_eID OSISChapterID].
  rewrite (truthy_Some _ HsID), (truthy_Some _ Hosis).
  cbn [OSISClean.truthy andb negb orb mbind result_bind Py.bind default from_option id].
  rewrite (nonempty_true _ HsID).
  unfold OSISXMLBible.chapterOpened. cbn [OSISChapterID].
  rewrite (truthy_Some _ Hosis). cbn [negb default from_option id].
  rewrite (count_once _ _ _ Hbook Hchap). change (negb (1 =? 1)) with false. cbv iota.
  rewrite (split_at_sep _ _ _ Hbook), (split_no_sep _ _ Hchap).
  assert (debug_assert debugFlag (len [book; chap] =? 2) = Ok tt) as ->
    by (unfold debug_assert; by destruct debugFlag).
  cbn [mbind result_bind Py.bind item lookup list_lookup].
  unfold chapterBookCode. rewrite Hget, <- EB, str_eqb_refl, andb_false_r.
  cbn [mbind result_bind Py.bind]. rewrite Eth, Ht.
  rewrite (onThisBook_spec _ st1 r b) by (by rewrite ?Eth, ?Eo).
  cbn [mbind result_bind Py.bind]. eexists. split; [reflexivity|].
  cbn [objects bible thisBook BBB set_objects]. by rewrite Eo, Eb, Eth, EB.
Qed.

(** The end milestone that matches the chapter that is open. *)
Lemma chapter_end_match e eID verseMilestone locationDescription st ms1 ms2 :
  let location := py "validateChapterElement: " ++ locationDescription in
  children e = [] -> attrib e = [(py "eID", eID)] -> eID <> [] ->
  checkXMLNoText e (location ++ py " at " ++ verseMilestone) (py "s2a8") = Ok ms1 ->
  checkXMLNoTail e (location ++ py " at " ++ verseMilestone) (py "j9k7") = Ok ms2 ->
  exists st',
    validateChapterElement e eID verseMilestone locationDescription st = Ok ([], st') /\
    same_books st st'.
Proof.
  intros location Hc Ha He H1 H2.
  unfold OSISXMLBible.validateChapterElement. fold location.
  rewrite H1. cbn [mbind result_bind Py.bind]. rewrite H2. cbn [mbind result_bind Py.bind].
  rewrite (chapterAttributes_end _ _ _ _ Ha), Hc.
  change (len (@nil element) =? 0) with true.
  cbn [c_sID c_eID OSISChapterID].
  rewrite (truthy_Some _ He). cbn [OSISClean.truthy andb negb orb].
  set (st1 := if nonempty verseMilestone && haveEIDs _ then _ else _).
  assert (same_books st st1) as Hs.
  { eapply same_books_trans; [|apply same_books_if].
    eapply same_books_trans; apply same_books_reports. }
  unfold chapterCursor. cbn [c_sID c_eID OSISChapterID].
  rewrite (truthy_Some _ He). cbn [OSISClean.truthy andb negb orb default from_option id].
  rewrite (nonempty_true _ He), str_eqb_refl.
  cbn [andb mbind result_bind Py.bind nonempty]. by eexists.
Qed.

End ChapterRoundTrip.

(** X24: a chapter that is opened and closed in the book in progress.  The
    start milestone returns its sID and adds the line 'c' with the chapter
    number to the book in progress, and to no other book; the end milestone
    with that identifier then returns the empty string and changes neither
    the books nor the Bible. *)
Theorem chapter_opened_then_closed
    (debugFlag : bool) (getBBBFromOSIS : str -> option OSISXMLBible.codes)
    (getUSFMAbbreviation getUSFMNumber : str -> option str)
    (checkXMLNoText checkXMLNoTail :
       OSISXMLBible.element -> str -> str ->
       outcome (list (level * OSISXMLBible.message)))
    (getAssumedBookNames : BibleBook.t -> list str) (lower upper : str -> str)
    (isdigit : str -> bool) (mainDivOsisID : option str)
    (start finish : OSISXMLBible.element)
    (sID book chap chapterMilestone verseMilestone verseMilestone' locationDescription : str)
    (st : OSISXMLBible.state) (ms1 ms2 ms3 ms4 : list (level * OSISXMLBible.message))
    (r : nat) (b : BibleBook.t) :
  let location := py "validateChapterElement: " ++ locationDescription in
  OSISXMLBible.children start = [] ->
  OSISXMLBible.attrib start = [(py "osisID", book ++ dot :: chap); (py "sID", sID)] ->
  OSISXMLBible.children finish = [] ->
  OSISXMLBible.attrib finish = [(py "eID", sID)] ->
  Forall (fun c => c <> dot) book -> Forall (fun c => c <> dot) chap -> sID <> [] ->
  checkXMLNoText start (location ++ py " at " ++ verseMilestone) (py "s2a8") = Ok ms1 ->
  checkXMLNoTail start (location ++ py " at " ++ verseMilestone) (py "j9k7") = Ok ms2 ->
  checkXMLNoText finish (location ++ py " at " ++ verseMilestone') (py "s2a8") = Ok ms3 ->
  checkXMLNoTail finish (location ++ py " at " ++ verseMilestone') (py "j9k7") = Ok ms4 ->
  getBBBFromOSIS book = Some (OSISXMLBible.One (OSISXMLBible.BBB st)) ->
  OSISXMLBible.thisBook st = Some r -> OSISXMLBible.objects st !! r = Some b ->
  exists st1 st2,
    OSISXMLBible.validateChapterElement debugFlag getBBBFromOSIS getUSFMAbbreviation
      getUSFMNumber checkXMLNoText checkXMLNoTail getAssumedBookNames lower upper
      isdigit mainDivOsisID start chapterMilestone verseMilestone locationDescription st
    = Ok (sID, st1) /\
    OSISXMLBible.objects st1
      = <[r := BibleBook.addLine b (py "c") chap]> (OSISXMLBible.objects st) /\
    OSISXMLBible.bible st1 = OSISXMLBible.bible st /\
    OSISXMLBible.validateChapterElement debugFlag getBBBFromOSIS getUSFMAbbreviation
      getUSFMNumber checkXMLNoText checkXMLNoTail getAssumedBookNames lower upper
      isdigit mainDivOsisID finish sID verseMilestone' locationDescription st1
    = Ok ([], st2) /\
    OSISXMLBible.objects st2 = OSISXMLBible.objects st1 /\
    OSISXMLBible.bible st2 = OSISXMLBible.bible st1.
Proof.
  intros location Hc Ha Hc' Ha' Hbook Hchap HsID H1 H2 H3 H4 Hget Ht Ho.
  destruct (chapter_start_same_book debugFlag getBBBFromOSIS getUSFMAbbreviation
              getUSFMNumber checkXMLNoText checkXMLNoTail getAssumedBookNames lower upper
              isdigit mainDivOsisID start sID book chap chapterMilestone verseMilestone
              locationDescription st ms1 ms2 r b Hc Ha Hbook Hchap HsID H1 H2 Hget Ht Ho)
    as (st1 & E1 & Ho1 & Hb1 & _).
  destruct (chapter_end_match debugFlag getBBBFromOSIS getUSFMAbbreviation
              getUSFMNumber checkXMLNoText checkXMLNoTail getAssumedBookNames lower upper
              isdigit mainDivOsisID finish sID verseMilestone' locationDescription st1
              ms3 ms4 Hc' Ha' HsID H3 H4)
    as (st2 & E2 & Hb2 & Ho2 & _).
  by exists st1, st2.
Qed.

Lemma chapter_opened_then_closed_witness :
  exists st1 st2,
    OSISXMLBible.validateChapterElement false genesis_only (fun _ => None) (fun _ => None)
      (fun _ _ _ => Ok []) (fun _ _ _ => Ok []) (fun _ => []) USFMFile.ascii_lower
      USFMFile.ascii_lower (fun _ => false) None genesis_2_start (py "Gen.1") []
      (py "div") (genesis_in_progress six_lines)
    = Ok (py "Gen.2", st1) /\
    OSISXMLBible.objects st1
      = [BibleBook.Book (py "GEN") (six_lines ++ [(py "c", py "2")])] /\
    OSISXMLBible.validateChapterElement false genesis_only (fun _ => None) (fun _ => None)
      (fun _ _ _ => Ok []) (fun _ _ _ => Ok []) (fun _ => []) USFMFile.ascii_lower
      USFMFile.ascii_lower (fun _ => false) None genesis_2_end (py "Gen.2") []
      (py "div") st1
    = Ok ([], st2) /\
    OSISXMLBible.objects st2 = OSISXMLBible.objects st1.
Proof.
  destruct (chapter_opened_then_closed false genesis_only (fun _ => None) (fun _ => None)
              (fun _ _ _ => Ok []) (fun _ _ _ => Ok []) (fun _ => []) USFMFile.ascii_lower
              USFMFile.ascii_lower (fun _ => false) None genesis_2_start genesis_2_end
              (py "Gen.2") (py "Gen") (py "2") (py "Gen.1") [] [] (py "div")
              (genesis_in_progress six_lines) [] [] [] [] 0%nat
              (BibleBook.Book (py "GEN") six_lines))
    as (st1 & st2 & E1 & Ho1 & _ & E2 & Ho2 & _);
    try reflexivity.
  - repeat constructor; discriminate.
  - repeat constructor; discriminate.
  - discriminate.
  - exists st1, st2. split; [exact E1|]. split; [by rewrite Ho1|]. split; [exact E2|exact Ho2].
Defined.
(** ** InternalBible: the 'All Books' lists of [getErrors] *)

Section AllBooksLists.

Context {B : Type}.
Variable debugFlag : bool.
Variable bookGetErrors : B -> list (str * InternalBible.value).
Variable self : InternalBible.t B.
Variable givenBookList : option (list str).
Variable k : str.

Hypothesis Hwf : OD.wf (InternalBible.books self).
Hypothesis Hwfs : Forall (fun item => OD.wf (bookGetErrors item.2)) (InternalBible.books self).
Hypothesis Hk : endswith (py "Errors") k = true.

(** The concatenation of the lists that the given books have for [k]. *)
Lemma rollup_when_combined e :
  InternalBible.combineErrors debugFlag bookGetErrors self givenBookList = Ok e ->
  OD.get k (InternalBible.allBooks e)
    = if existsb (contributes bookGetErrors givenBookList k) (InternalBible.books self)
      then Some (InternalBible.List
                   (flat_map (contribution bookGetErrors givenBookList k)
                             (InternalBible.books self)))
      else None.
Proof.
  unfold InternalBible.combineErrors.
  destruct (InternalBible.for_each _ _ InternalBible.set_up) as [e1|] eqn:E1; [|done].
  cbn [mbind result_bind Py.bind]. intros E2.
  destruct (prepare_books_at bookGetErrors givenBookList k Hk _ _ _ E1) as [H1 H1'].
  cbn [InternalBible.set_up InternalBible.allBooks InternalBible.byBook OD.get] in H1, H1'.
  assert (forall item, item ∈ InternalBible.books self -> OD.wf (bookGetErrors item.2))
    as Hwfs' by (by apply Forall_forall).
  assert (forall item, item ∈ InternalBible.books self ->
            InternalBible.given givenBookList item.1 = true ->
            OD.get item.1 (InternalBible.byBook e1) = Some (bookGetErrors item.2)) as Hby.
  { intros [BBB book] Hin Hg. rewrite H1'. by apply stored_get. }
  rewrite (combine_books_at debugFlag bookGetErrors givenBookList k Hk _ _ _ Hwfs' Hby E2).
  unfold listAt. rewrite H1.
  by destruct (existsb (contributes bookGetErrors givenBookList k) (InternalBible.books self)).
Qed.

End AllBooksLists.



(** X25: in [getErrors], when the loop that combines the book errors into
    the totals ends, the entry of [errors['ByBook']['All Books']] for a
    category of error lists (a key that ends with 'Errors', such as
    'Load Errors') is the concatenation of the lists that the given books
    have for that category, in the order of [self.books]; the entry is there
    as soon as one given book has the category.  The two loops reach their
    end when the error dictionaries of the books have the documented
    structure.  This is the state in which the search for uncommon words
    and the removal of the empty categories start; it is not a statement
    about what [getErrors] returns. *)
Theorem all_books_lists_when_combined {B : Type} (debugFlag : bool)
    (bookGetErrors : B -> list (str * InternalBible.value))
    (self : InternalBible.t B) (givenBookList : option (list str)) (k : str) :
  OD.wf (InternalBible.books self) ->
  Forall (fun item => OD.wf (bookGetErrors item.2)) (InternalBible.books self) ->
  endswith (py "Errors") k = true ->
  (forallb (fun item => shaped (bookGetErrors item.2)) (InternalBible.books self) = true ->
   exists e, InternalBible.combineErrors debugFlag bookGetErrors self givenBookList = Ok e) /\
  (forall e,
     InternalBible.combineErrors debugFlag bookGetErrors self givenBookList = Ok e ->
     OD.get k (InternalBible.allBooks e)
       = if existsb (contributes bookGetErrors givenBookList k) (InternalBible.books self)
         then Some (InternalBible.List
                      (flat_map (contribution bookGetErrors givenBookList k)
                                (InternalBible.books self)))
         else None).
Proof.
  intros Hwf Hwfs Hk. split; [by apply combineErrors_returns|].
  intros e. by apply rollup_when_combined.
Qed.

Lemma all_books_lists_when_combined_witness :
  (exists e, InternalBible.combineErrors true id two_books None = Ok e) /\
  InternalBible.combineErrors true id two_books None = Ok two_books_errors /\
  OD.get (py "Load Errors") (InternalBible.allBooks two_books_errors)
    = Some (InternalBible.List [InternalBible.Message (py "GEN 1:1 Missing space");
                                InternalBible.Message (py "GEN 2:4 Empty line");
                                InternalBible.Message (py "EXO 3:2 Unknown marker")]).
Proof.
  assert (InternalBible.combineErrors true id two_books None = Ok two_books_errors) as E
    by (vm_compute; reflexivity).
  assert (OD.wf (InternalBible.books two_books)) as Hwf
    by (apply (bool_decide_unpack _); vm_compute; reflexivity).
  assert (Forall (fun item => OD.wf (id item.2)) (InternalBible.books two_books)) as Hwfs
    by (apply (bool_decide_unpack _); vm_compute; reflexivity).
  destruct (all_books_lists_when_combined true id two_books None (py "Load Errors")
              Hwf Hwfs eq_refl)
    as [Hreturns Hrollup].
  split; [apply Hreturns; vm_compute; reflexivity|].
  split; [exact E|]. exact (Hrollup two_books_errors E).
Defined.


